(** * Purchase arbitration of the pet-order service

    A shallow embedding of the order service (pet-order/app) and of the part
    of the pet-store service (app) that answers its requests, with the
    properties of the purchase workflow proved over it.  The further
    properties also cover the rest of the pet-store service: its validators,
    the listing by birthdate, and the routes that write to the inventory.

    Python code that awaits remote calls, mutates the ledger and raises is
    written in a state-and-exception monad over a [World]: the two inventory
    backends seen through HTTP, the transactions collection, the source of
    fresh object identifiers and the random generator.  Every remote call
    and every ledger operation is appended to the world's trace, so that
    "no call is made" and "nothing is written" are statements about it.

    Three things of the libraries are embedded with the code, since answers
    depend on them: the pattern the pet-store service looks names up with
    ([PetStore.MongoStore.like]), the reading of a request body by the
    framework ([Fastapi]), and the strings [bson.ObjectId] accepts
    ([Bson.parse]).  Where a statement is about letter case, digits or the
    segments of a path, it is about ASCII text and plain segments, and says
    so in its hypotheses. *)

From Stdlib Require Import String Ascii List ZArith NArith Bool.
From Stdlib Require Import Lia DecimalString.
Import ListNotations.

Local Open Scope string_scope.
Local Open Scope list_scope.
Local Open Scope Z_scope.

(** ** Python strings

    The strings here are strings of characters below 256.  Where letter
    case, digits or words are involved, the statements are about ASCII text
    ([isascii]), on which the functions below are those of Python. *)

Module Py.

(** [s.isascii()] *)
Definition isascii (s : string) : bool :=
  forallb (fun c => Nat.ltb (nat_of_ascii c) 128) (list_ascii_of_string s).

(** [s.isascii() and s.isprintable()]: the characters from the space to
    the tilde. *)
Definition isprintable (s : string) : bool :=
  forallb (fun c => andb (Nat.leb 32 (nat_of_ascii c)) (Nat.leb (nat_of_ascii c) 126))
          (list_ascii_of_string s).

(** [c.lower()] on one ASCII character; the other characters are kept. *)
Definition lower_ascii (c : ascii) : ascii :=
  let n := nat_of_ascii c in
  if andb (Nat.leb 65 n) (Nat.leb n 90) then ascii_of_nat (n + 32) else c.

(** [s.lower()] *)
Fixpoint lower (s : string) : string :=
  match s with
  | EmptyString => EmptyString
  | String c t => String (lower_ascii c) (lower t)
  end.

(** [needle in hay] for two strings. *)
Fixpoint contains (needle hay : string) : bool :=
  orb (String.prefix needle hay)
      (match hay with
       | EmptyString => false
       | String _ t => contains needle t
       end).

(** Truth value of a string: only the empty string is false. *)
Definition truthy (s : string) : bool := negb (s =? "")%string.

(** Truth value of an [Optional[str]]: [None] and [""] are false. *)
Definition truthy_opt (o : option string) : bool :=
  match o with
  | Some s => truthy s
  | None => false
  end.

(** Truth value of an [Optional[int]]: [None] and [0] are false. *)
Definition truthy_int (o : option Z) : bool :=
  match o with
  | Some n => negb (n =? 0)
  | None => false
  end.

End Py.

(** ** bson object identifiers

    An [ObjectId] is twelve bytes, kept here as a number below [2^96].
    [str(oid)] is its 24 lower-case hexadecimal digits.  [ObjectId(s)] takes
    a string of 24 characters that [bytes.fromhex] reads and raises
    [InvalidId] on the rest; [bytes.fromhex] skips white space between two
    bytes, so it also reads strings that give fewer than twelve bytes.  No
    document has such an identifier: they are kept as the numbers from
    [2^96] on. *)

Module Bson.

Definition ObjectId := N.

Definition hex_digit (d : N) : ascii :=
  if (d <? 10)%N then ascii_of_N (48 + d) else ascii_of_N (87 + d).

Fixpoint hex_of (digits : nat) (n : N) (acc : string) : string :=
  match digits with
  | O => acc
  | S k => hex_of k (n / 16)%N (String (hex_digit (n mod 16)%N) acc)
  end.

(** [str(oid)] *)
Definition str (oid : ObjectId) : string := hex_of 24 oid "".

Definition hex_value (c : ascii) : option N :=
  let n := N_of_ascii c in
  if andb (48 <=? n)%N (n <=? 57)%N then Some (n - 48)%N
  else if andb (97 <=? n)%N (n <=? 102)%N then Some (n - 87)%N
  else if andb (65 <=? n)%N (n <=? 70)%N then Some (n - 55)%N
  else None.

Fixpoint parse_hex (s : string) (acc : N) : option N :=
  match s with
  | EmptyString => Some acc
  | String c t =>
      match hex_value c with
      | Some d => parse_hex t (16 * acc + d)%N
      | None => None
      end
  end.

(** White space as [bytes.fromhex] skips it. *)
Definition is_space (c : ascii) : bool :=
  let n := N_of_ascii c in
  (andb (9 <=? n) (n <=? 13) || (n =? 32))%N.

(** [bytes.fromhex(s)]: white space is skipped, then two hexadecimal
    digits make a byte; [count] bytes of value [value] have been read. *)
Fixpoint fromhex (s : string) (count value : N) : option (N * N) :=
  match s with
  | EmptyString => Some (count, value)
  | String top t =>
      if is_space top then fromhex t count value
      else
        match hex_value top, t with
        | Some h, String bot rest =>
            match hex_value bot with
            | Some l => fromhex rest (count + 1)%N (256 * value + 16 * h + l)%N
            | None => None
            end
        | _, _ => None
        end
  end.

(** The number kept for [count] bytes of value [value]. *)
Definition of_bytes (count value : N) : ObjectId :=
  if (count =? 12)%N then value else (2 ^ 96 * (count + 1) + value)%N.

(** [ObjectId(s)]; [None] stands for the [InvalidId] exception. *)
Definition parse (s : string) : option ObjectId :=
  if (String.length s =? 24)%nat
  then match fromhex s 0%N 0%N with
       | Some (count, value) => Some (of_bytes count value)
       | None => None
       end
  else None.

End Bson.

(** ** Data exchanged with the inventories and kept in the ledger *)

(** One element of the array answered by [GET /pet-types].  The client reads
    it with [pt.get("type", "")] and [pt.get("id")], so either key may be
    missing. *)
Record PetTypeJson := {
  pt_id : option string;
  pt_type : option string
}.

(** A pet as the inventory answers it (pet-store's [PetResponse]). *)
Record PetJson := {
  name : string;
  birthdate : string;
  picture : string
}.

(** A document of the transactions collection. *)
Record TransactionDoc := {
  doc_id : Bson.ObjectId;        (* "_id" *)
  doc_purchaser : string;        (* "purchaser" *)
  doc_pet_type : string;         (* "pet_type" *)
  doc_store : Z                  (* "store" *)
}.

(** The query document built by [get_transactions]; an absent key puts no
    condition on the documents. *)
Record Query := {
  q_store : option Z;
  q_pet_type : option string;
  q_purchaser : option string;
  q_id : option Bson.ObjectId
}.

(** ** The world *)

(** The four remote calls of the inventory client. *)
Inductive call :=
| GetPetTypes (store : Z)
| GetPetsForType (store : Z) (pet_type_id : string)
| GetPet (store : Z) (pet_type_id pet_name : string)
| DeletePet (store : Z) (pet_type_id pet_name : string).

Definition call_store (c : call) : Z :=
  match c with
  | GetPetTypes s | GetPetsForType s _ | GetPet s _ _ | DeletePet s _ _ => s
  end.

Inductive event :=
| Http (c : call)
| LedgerInsert (d : TransactionDoc)
| LedgerFind (q : Query).

(** What [httpx] gives back for one request: a response, or an exception
    when no response arrives (connection refused, timeout, ...).  [json] is
    the decoded body; the client reads it on status 200 only.  A response
    with status 200 is taken to carry JSON of the shape the routes of the
    pet-store service answer: a body that [response.json()] cannot decode
    is not among the answers. *)
Inductive http_result (A : Type) :=
| Response (status_code : Z) (json : A)
| TransportFailure.
Arguments Response {A} status_code json.
Arguments TransportFailure {A}.

(** The backends are arbitrary: an answer may depend on everything that
    happened before the request (the first argument), which covers
    inventories that change between two calls of one purchase.  The body of
    [GET .../pets/{name}] is [None] when it holds no pet. *)
Record Network := {
  on_get_pet_types : list event -> Z -> http_result (list PetTypeJson);
  on_get_pets : list event -> Z -> string -> http_result (list PetJson);
  on_get_pet : list event -> Z -> string -> string -> http_result (option PetJson);
  on_delete_pet : list event -> Z -> string -> string -> http_result unit
}.

Record World := {
  network : Network;
  trace : list event;                      (* oldest event first *)
  transactions : list TransactionDoc;      (* the ledger, in insertion order *)
  fresh_ids : nat -> Bson.ObjectId;        (* identifiers [insert_one] will assign *)
  ids_issued : nat;
  entropy : nat -> nat;                    (* numbers [random] will draw *)
  draws : nat
}.

Definition log (e : event) (w : World) : World :=
  {| network := network w; trace := trace w ++ [e];
     transactions := transactions w; fresh_ids := fresh_ids w;
     ids_issued := ids_issued w; entropy := entropy w; draws := draws w |}.

(** ** Computations that change the world and may raise *)

Inductive exn :=
| NoPetAvailable
| KeyError
| IndexError
| HTTPError                      (* httpx.TransportError and its subclasses *)
| ValueError (msg : string).

Inductive outcome (A : Type) :=
| Ok (a : A)
| Raise (e : exn).
Arguments Ok {A} a.
Arguments Raise {A} e.

Definition M (A : Type) : Type := World -> outcome A * World.

Definition ret {A} (a : A) : M A := fun w => (Ok a, w).

Definition raise {A} (e : exn) : M A := fun w => (Raise e, w).

Definition bind {A B} (m : M A) (k : A -> M B) : M B :=
  fun w =>
    match m w with
    | (Ok a, w') => k a w'
    | (Raise e, w') => (Raise e, w')
    end.

Notation "x <- m ;; k" := (bind m (fun x => k))
  (at level 61, m at next level, right associativity).
Notation "m ;;; k" := (bind m (fun _ => k))
  (at level 61, right associativity).

(** One request sent through [httpx.AsyncClient]: the request is recorded,
    and a missing response raises. *)
Definition send {A} (c : call) (answer : Network -> list event -> http_result A)
  : M (Z * A) :=
  fun w =>
    let w' := log (Http c) w in
    match answer (network w) (trace w) with
    | Response status body => (Ok (status, body), w')
    | TransportFailure => (Raise HTTPError, w')
    end.

(** [random.choice(seq)]: the element at a drawn index below [len(seq)]. *)
Definition random_choice {A} (seq : list A) : M A :=
  fun w =>
    let w' := {| network := network w; trace := trace w;
                 transactions := transactions w; fresh_ids := fresh_ids w;
                 ids_issued := ids_issued w; entropy := entropy w;
                 draws := S (draws w) |} in
    match nth_error seq (Nat.modulo (entropy w (draws w)) (List.length seq)) with
    | Some x => (Ok x, w')
    | None => (Raise IndexError, w)
    end.

(** ** pet-order/app/services/pet_store_client.py *)

Module PetStoreClient.

Definition pet_store1_url := "http://pet-store1:8000".
Definition pet_store2_url := "http://pet-store2:8000".

Definition PET_STORE_URLS (store : Z) : option string :=
  if store =? 1 then Some pet_store1_url
  else if store =? 2 then Some pet_store2_url
  else None.

(** [PET_STORE_URLS[store]] *)
Definition base_url (store : Z) : M string :=
  match PET_STORE_URLS store with
  | Some url => ret url
  | None => raise KeyError
  end.

Definition get_pet_types (store : Z) : M (list PetTypeJson) :=
  base_url store ;;;
  response <- send (GetPetTypes store) (fun n h => on_get_pet_types n h store) ;;
  if fst response =? 200 then ret (snd response) else ret [].

(** The loop of [find_pet_type_id] over the listed pet types. *)
Fixpoint first_type_match (pet_types : list PetTypeJson) (pet_type_lower : string)
  : option string :=
  match pet_types with
  | [] => None
  | pt :: rest =>
      let ty := match pt_type pt with Some t => t | None => "" end in
      if (Py.lower ty =? pet_type_lower)%string then pt_id pt
      else first_type_match rest pet_type_lower
  end.

Definition find_pet_type_id (store : Z) (pet_type_name : string) : M (option string) :=
  pet_types <- get_pet_types store ;;
  let pet_type_lower := Py.lower pet_type_name in
  ret (first_type_match pet_types pet_type_lower).

Definition get_pets_for_type (store : Z) (pet_type_id : string) : M (list PetJson) :=
  base_url store ;;;
  response <- send (GetPetsForType store pet_type_id)
                   (fun n h => on_get_pets n h store pet_type_id) ;;
  if fst response =? 200 then ret (snd response) else ret [].

Definition get_pet (store : Z) (pet_type_id pet_name : string) : M (option PetJson) :=
  base_url store ;;;
  response <- send (GetPet store pet_type_id pet_name)
                   (fun n h => on_get_pet n h store pet_type_id pet_name) ;;
  if fst response =? 200 then ret (snd response) else ret None.

Definition delete_pet (store : Z) (pet_type_id pet_name : string) : M bool :=
  base_url store ;;;
  response <- send (DeletePet store pet_type_id pet_name)
                   (fun n h => on_delete_pet n h store pet_type_id pet_name) ;;
  ret (orb (fst response =? 200) (fst response =? 204)).

End PetStoreClient.

(** ** pet-order/app/models/purchase.py *)

(** Body of [POST /purchases], with the fields pydantic has parsed. *)
Record PurchaseRequest := {
  req_purchaser : string;
  req_pet_type : string;                 (* "pet-type" *)
  req_store : option Z;
  req_pet_name : option string           (* "pet-name" *)
}.

Record PurchaseResponse := {
  resp_purchaser : string;
  resp_pet_type : string;
  resp_store : Z;
  resp_pet_name : string;
  resp_purchase_id : string
}.

Record Transaction := {
  tx_purchaser : string;
  tx_pet_type : string;
  tx_store : Z;
  tx_purchase_id : string
}.

(** The [model_validator] of [PurchaseRequest]; it runs when the request
    object is built, before the route handler is entered. *)
Definition validate_pet_name_requires_store (self : PurchaseRequest)
  : outcome PurchaseRequest :=
  if andb (Py.truthy_opt (req_pet_name self)) (negb (Py.truthy_int (req_store self)))
  then Raise (ValueError "pet-name can only be provided if store is provided")
  else
    match req_store self with
    | Some s =>
        if negb (orb (s =? 1) (s =? 2))
        then Raise (ValueError "store must be 1 or 2")
        else Ok self
    | None => Ok self
    end.

(** ** The transactions collection (pymongo)

    The database is taken to be up: an operation on the collection that
    fails is not among the outcomes. *)

Module Collection.

(** [collection.insert_one(data)]: the driver gives the document a fresh
    ["_id"] and appends it. *)
Definition insert_one (purchaser pet_type : string) (store : Z) : M Bson.ObjectId :=
  fun w =>
    let oid := fresh_ids w (ids_issued w) in
    let d := {| doc_id := oid; doc_purchaser := purchaser;
                doc_pet_type := pet_type; doc_store := store |} in
    (Ok oid,
     {| network := network w; trace := trace w ++ [LedgerInsert d];
        transactions := transactions w ++ [d]; fresh_ids := fresh_ids w;
        ids_issued := S (ids_issued w); entropy := entropy w;
        draws := draws w |}).

Definition holds {A} (cond : option A) (eqb : A -> A -> bool) (v : A) : bool :=
  match cond with
  | Some x => eqb v x
  | None => true
  end.

(** A document matches a query when it equals it on every key of the
    query. *)
Definition matches (q : Query) (d : TransactionDoc) : bool :=
  holds (q_store q) Z.eqb (doc_store d)
  && holds (q_pet_type q) String.eqb (doc_pet_type d)
  && holds (q_purchaser q) String.eqb (doc_purchaser d)
  && holds (q_id q) N.eqb (doc_id d).

(** [list(collection.find(query))] *)
Definition find (q : Query) : M (list TransactionDoc) :=
  fun w => (Ok (filter (matches q) (transactions w)), log (LedgerFind q) w).

End Collection.

(** ** pet-order/app/services/purchase_service.py *)

Module PurchaseService.

Record FoundPet := {
  fp_store : Z;
  fp_pet_type_id : string;
  fp_pet_type_name : string;
  fp_name : string
}.

(** [[request.store] if request.store else [1, 2]] *)
Definition stores_to_check (request : PurchaseRequest) : list Z :=
  match req_store request with
  | Some s => if Py.truthy_int (Some s) then [s] else [1; 2]
  | None => [1; 2]
  end.

(** The [for store in stores_to_check] loop of [find_available_pet];
    [continue] and falling off the end of the body go on with the rest of
    the list, the final [return None] is the empty list. *)
Fixpoint find_in (request : PurchaseRequest) (stores : list Z) : M (option FoundPet) :=
  match stores with
  | [] => ret None
  | store :: rest =>
      pet_type_id <- PetStoreClient.find_pet_type_id store (req_pet_type request) ;;
      if negb (Py.truthy_opt pet_type_id) then find_in request rest
      else
        let pet_type_id := match pet_type_id with Some i => i | None => "" end in
        if Py.truthy_opt (req_pet_name request) then
          let pet_name := match req_pet_name request with Some n => n | None => "" end in
          pet <- PetStoreClient.get_pet store pet_type_id pet_name ;;
          match pet with
          | Some pet =>
              ret (Some {| fp_store := store; fp_pet_type_id := pet_type_id;
                           fp_pet_type_name := req_pet_type request;
                           fp_name := name pet |})
          | None => find_in request rest
          end
        else
          pets <- PetStoreClient.get_pets_for_type store pet_type_id ;;
          match pets with
          | _ :: _ =>
              pet <- random_choice pets ;;
              ret (Some {| fp_store := store; fp_pet_type_id := pet_type_id;
                           fp_pet_type_name := req_pet_type request;
                           fp_name := name pet |})
          | [] => find_in request rest
          end
  end.

Definition find_available_pet (request : PurchaseRequest) : M (option FoundPet) :=
  find_in request (stores_to_check request).

Definition process_purchase (request : PurchaseRequest) : M PurchaseResponse :=
  (* 1. Find available pet *)
  pet <- find_available_pet request ;;
  match pet with
  | None => raise NoPetAvailable
  | Some pet =>
      (* 2. Delete the pet from pet-store *)
      success <- PetStoreClient.delete_pet (fp_store pet) (fp_pet_type_id pet) (fp_name pet) ;;
      if negb success then raise NoPetAvailable
      else
        (* 3. Store transaction in MongoDB *)
        inserted_id <- Collection.insert_one (req_purchaser request)
                                             (fp_pet_type_name pet) (fp_store pet) ;;
        let purchase_id := Bson.str inserted_id in
        (* 4. Return response *)
        ret {| resp_purchaser := req_purchaser request;
               resp_pet_type := fp_pet_type_name pet;
               resp_store := fp_store pet;
               resp_pet_name := fp_name pet;
               resp_purchase_id := purchase_id |}
  end.

Definition to_transaction (doc : TransactionDoc) : Transaction :=
  {| tx_purchaser := doc_purchaser doc;
     tx_pet_type := doc_pet_type doc;
     tx_store := doc_store doc;
     tx_purchase_id := Bson.str (doc_id doc) |}.

Definition get_transactions (store : option Z) (pet_type purchaser purchase_id : option string)
  : M (list Transaction) :=
  let query := {| q_store := store; q_pet_type := pet_type;
                  q_purchaser := purchaser; q_id := None |} in
  match purchase_id with
  | Some purchase_id =>
      match Bson.parse purchase_id with
      | Some oid =>
          docs <- Collection.find {| q_store := q_store query;
                                     q_pet_type := q_pet_type query;
                                     q_purchaser := q_purchaser query;
                                     q_id := Some oid |} ;;
          ret (map to_transaction docs)
      | None => ret []                       (* except InvalidId *)
      end
  | None =>
      docs <- Collection.find query ;;
      ret (map to_transaction docs)
  end.

End PurchaseService.

(** ** The path of a request

    pet_store_client.py writes the type id and the pet name into the URL as
    they are, without escaping.  A segment made of the unreserved characters
    of RFC 3986 (letters, digits, ["-"], ["."], ["_"], ["~"]), not empty and
    not a dot segment, is the path parameter the service receives. *)
Module Url.

Definition unreserved (c : ascii) : bool :=
  let n := nat_of_ascii c in
  ((48 <=? n) && (n <=? 57) || (65 <=? n) && (n <=? 90) || (97 <=? n) && (n <=? 122)
   || (n =? 45) || (n =? 46) || (n =? 95) || (n =? 126))%nat.

Definition plain (segment : string) : bool :=
  negb (segment =? "")%string && negb (segment =? ".")%string
  && negb (segment =? "..")%string
  && forallb unreserved (list_ascii_of_string segment).

End Url.

(** ** The framework: reading the body of a request

    fastapi/routing.py reads the body as JSON when the request has no
    content type, or one whose media type, as [email.message.Message] gives
    it, is [application/json] or [application/...+json]; any other body
    stays a byte string, from which no request object can be built. *)
Module Fastapi.

(** White space as [str.strip()] takes it, among the characters of a header. *)
Definition is_space (c : ascii) : bool :=
  let n := nat_of_ascii c in
  ((9 <=? n) && (n <=? 13) || (28 <=? n) && (n <=? 32) || (n =? 133) || (n =? 160))%nat.

Fixpoint lstrip (s : list ascii) : list ascii :=
  match s with
  | c :: t => if is_space c then lstrip t else s
  | [] => []
  end.

Definition strip (s : string) : string :=
  string_of_list_ascii (rev (lstrip (rev (lstrip (list_ascii_of_string s))))).

(** [text.partition(sep)[0]] *)
Fixpoint before (sep : ascii) (text : string) : string :=
  match text with
  | EmptyString => EmptyString
  | String c t => if Ascii.eqb c sep then EmptyString else String c (before sep t)
  end.

(** [text.partition(sep)[2]] *)
Fixpoint after (sep : ascii) (text : string) : string :=
  match text with
  | EmptyString => EmptyString
  | String c t => if Ascii.eqb c sep then t else after sep t
  end.

(** [text.count(sep)] *)
Fixpoint count (sep : ascii) (text : string) : nat :=
  match text with
  | EmptyString => O
  | String c t => if Ascii.eqb c sep then S (count sep t) else count sep t
  end.

(** [text.endswith(suffix)] *)
Fixpoint endswith (text suffix : string) : bool :=
  (text =? suffix)%string
  || match text with
     | EmptyString => false
     | String _ t => endswith t suffix
     end.

(** [Message.get_content_type()] *)
Definition get_content_type (value : string) : string :=
  let ctype := Py.lower (strip (before ";" value)) in
  if (count "/" ctype =? 1)%nat then ctype else "text/plain".

Definition get_content_maintype (value : string) : string :=
  before "/" (get_content_type value).

Definition get_content_subtype (value : string) : string :=
  after "/" (get_content_type value).

Definition reads_json (content_type : option string) : bool :=
  if negb (Py.truthy_opt content_type) then true
  else
    let value := match content_type with Some v => v | None => "" end in
    (get_content_maintype value =? "application")%string
    && ((get_content_subtype value =? "json")%string
        || endswith (get_content_subtype value) "+json").

End Fastapi.

(** ** The routes of the order service *)

Inductive content :=
| ErrorJson (message : string)                   (* {"error": message} *)
| PurchaseJson (p : PurchaseResponse)
| TransactionsJson (l : list Transaction).

Record HttpResponse := {
  status : Z;
  body : content
}.

(** [request.headers.get("content-type", "")] *)
Definition header_or_empty (h : option string) : string :=
  match h with
  | Some v => v
  | None => ""
  end.

(** pet-order/app/main.py: the handler of [RequestValidationError]. *)
Definition validation_exception_handler (content_type : option string) : HttpResponse :=
  if negb (Py.contains "application/json" (header_or_empty content_type))
  then {| status := 415; body := ErrorJson "Expected application/json media type" |}
  else {| status := 400; body := ErrorJson "Malformed data" |}.

(** pet-order/app/routers/purchases.py *)
Module Purchases.

Definition create_purchase (content_type : option string) (purchase : PurchaseRequest)
  : M HttpResponse :=
  if negb (Py.contains "application/json" (header_or_empty content_type))
  then ret {| status := 415; body := ErrorJson "Expected application/json media type" |}
  else
    fun w =>
      match PurchaseService.process_purchase purchase w with
      | (Ok response, w') => (Ok {| status := 201; body := PurchaseJson response |}, w')
      | (Raise NoPetAvailable, w') =>
          (Ok {| status := 400; body := ErrorJson "No pet of this type is available" |}, w')
      | (Raise e, w') => (Raise e, w')
      end.

(** [POST /purchases] as the framework serves it, for a body that is a JSON
    object with the fields: where the body is read as JSON the request
    object is built, which runs its validator, and only then is the handler
    called; where the body is not read, or the validator refuses, the
    handler of [RequestValidationError] answers. *)
Definition post (content_type : option string) (fields : PurchaseRequest) : M HttpResponse :=
  if Fastapi.reads_json content_type
  then match validate_pet_name_requires_store fields with
       | Ok purchase => create_purchase content_type purchase
       | Raise _ => ret (validation_exception_handler content_type)
       end
  else ret (validation_exception_handler content_type).

End Purchases.

(** pet-order/app/routers/transactions.py *)
Module Transactions.

Definition OWNER_PC_SECRET := "LovesPetsL2M3n4".

(** [ownerpc != OWNER_PC_SECRET], for a header that may be missing. *)
Definition differs (ownerpc : option string) (secret : string) : bool :=
  match ownerpc with
  | Some v => negb (v =? secret)%string
  | None => true
  end.

Definition list_transactions (ownerpc : option string) (store : option Z)
           (pet_type purchaser purchase_id : option string) : M HttpResponse :=
  if differs ownerpc OWNER_PC_SECRET
  then ret {| status := 401; body := ErrorJson "unauthorized" |}
  else
    transactions <- PurchaseService.get_transactions store pet_type purchaser purchase_id ;;
    ret {| status := 200; body := TransactionsJson transactions |}.

End Transactions.

(** ** The pet-store service behind one inventory

    Only what the order service reaches is embedded: the two collections of
    [MongoStore] and the routes [GET /pet-types], [GET /pet-types/{id}/pets],
    [GET /pet-types/{id}/pets/{name}] and [DELETE /pet-types/{id}/pets/{name}].
    A path parameter reaches the handler as the client wrote it when it is
    a plain segment ([Url.plain]); what happens otherwise is left open
    ([Stray]).  Picture files and the taxonomy fields of a pet type are left
    out. *)

Module PetStore.

Record PetTypeDoc := {
  ptd_id : Bson.ObjectId;            (* "_id" *)
  ptd_type : string;                 (* "type" *)
  ptd_pets : list string             (* "pets" *)
}.

Record PetDoc := {
  pd_pet_type_id : string;           (* "pet_type_id" *)
  pd_name : string;                  (* "name" *)
  pd_birthdate : string;
  pd_picture : string
}.

Record Store := {
  pet_types_collection : list PetTypeDoc;
  pets_collection : list PetDoc
}.

(** app/storage/mongo_store.py *)
Module MongoStore.

Definition get_pet_type (self : Store) (pet_type_id : string) : option PetTypeDoc :=
  match Bson.parse pet_type_id with
  | Some oid => find (fun d => N.eqb (ptd_id d) oid) (pet_types_collection self)
  | None => None                                  (* except InvalidId *)
  end.

Definition get_all_pet_types (self : Store) : list PetTypeDoc :=
  pet_types_collection self.

Definition line_feed : string := String (ascii_of_nat 10) EmptyString.

(** What the pattern [re.compile("^" + re.escape(text) + "$", re.IGNORECASE)]
    finds: the whole text, letter case ignored; its ["$"] also stands
    before a line feed that ends the stored text. *)
Definition like (text stored : string) : bool :=
  ((Py.lower stored =? Py.lower text)
   || (Py.lower stored =? Py.lower text ++ line_feed))%string.

(** The filter [{"pet_type_id": id, "name": pattern}]. *)
Definition same_pet_ignoring_case (pet_type_id pet_name : string) (d : PetDoc) : bool :=
  ((pd_pet_type_id d =? pet_type_id)%string && like pet_name (pd_name d)).

Definition get_pet_case_insensitive (self : Store) (pet_type_id pet_name : string)
  : option (PetDoc * string) :=
  match find (same_pet_ignoring_case pet_type_id pet_name) (pets_collection self) with
  | Some doc => Some (doc, pd_name doc)
  | None => None
  end.

Definition get_pets_for_type (self : Store) (pet_type_id : string) : list PetDoc :=
  filter (fun d => (pd_pet_type_id d =? pet_type_id)%string) (pets_collection self).

Definition same_pet (pet_type_id pet_name : string) (d : PetDoc) : bool :=
  ((pd_pet_type_id d =? pet_type_id) && (pd_name d =? pet_name))%string.

(** [delete_one]: the first matching document goes. *)
Fixpoint delete_first (p : PetDoc -> bool) (l : list PetDoc) : bool * list PetDoc :=
  match l with
  | [] => (false, [])
  | d :: rest =>
      if p d then (true, rest)
      else let r := delete_first p rest in (fst r, d :: snd r)
  end.

Definition delete_pet (self : Store) (pet_type_id pet_name : string) : bool * Store :=
  let r := delete_first (same_pet pet_type_id pet_name) (pets_collection self) in
  (fst r, {| pet_types_collection := pet_types_collection self;
             pets_collection := snd r |}).

(** [update_one({"_id": ...}, {"$pull": {"pets": pet_name}})] *)
Fixpoint pull_from_first (oid : Bson.ObjectId) (pet_name : string) (l : list PetTypeDoc)
  : list PetTypeDoc :=
  match l with
  | [] => []
  | d :: rest =>
      if N.eqb (ptd_id d) oid
      then {| ptd_id := ptd_id d; ptd_type := ptd_type d;
              ptd_pets := filter (fun n => negb (n =? pet_name)%string) (ptd_pets d) |}
           :: rest
      else d :: pull_from_first oid pet_name rest
  end.

Definition remove_pet_name_from_type (self : Store) (pet_type_id pet_name : string) : Store :=
  match Bson.parse pet_type_id with
  | Some oid =>
      {| pet_types_collection := pull_from_first oid pet_name (pet_types_collection self);
         pets_collection := pets_collection self |}
  | None => self                                  (* except InvalidId: pass *)
  end.

End MongoStore.

Definition pet_response (pet : PetDoc) : PetJson :=
  {| name := pd_name pet; birthdate := pd_birthdate pet; picture := pd_picture pet |}.

(** app/services/pet_service.py *)
Module PetService.

Definition get_pets_for_type (store : Store) (pet_type_id : string)
  : outcome (list PetJson) :=
  match MongoStore.get_pet_type store pet_type_id with
  | None => Raise (ValueError "PET_TYPE_NOT_FOUND")
  | Some _ => Ok (map pet_response (MongoStore.get_pets_for_type store pet_type_id))
  end.

Definition get_pet (store : Store) (pet_type_id pet_name : string)
  : outcome (option PetJson) :=
  match MongoStore.get_pet_type store pet_type_id with
  | None => Raise (ValueError "PET_TYPE_NOT_FOUND")
  | Some _ =>
      match MongoStore.get_pet_case_insensitive store pet_type_id pet_name with
      | None => Ok None
      | Some (pet, _) => Ok (Some (pet_response pet))
      end
  end.

Definition delete_pet (store : Store) (pet_type_id pet_name : string)
  : outcome unit * Store :=
  match MongoStore.get_pet_type store pet_type_id with
  | None => (Raise (ValueError "PET_TYPE_NOT_FOUND"), store)
  | Some _ =>
      match MongoStore.get_pet_case_insensitive store pet_type_id pet_name with
      | None => (Raise (ValueError "PET_NOT_FOUND"), store)
      | Some (_, actual_name) =>
          let store := snd (MongoStore.delete_pet store pet_type_id actual_name) in
          (Ok tt, MongoStore.remove_pet_name_from_type store pet_type_id actual_name)
      end
  end.

End PetService.

(** app/routers/pet_types.py and app/routers/pets.py *)
Module Routers.

Definition pet_type_response (d : PetTypeDoc) : PetTypeJson :=
  {| pt_id := Some (Bson.str (ptd_id d)); pt_type := Some (ptd_type d) |}.

(** [GET /pet-types] without query parameters. *)
Definition get_pet_types (store : Store) : http_result (list PetTypeJson) :=
  Response 200 (map pet_type_response (MongoStore.get_all_pet_types store)).

(** [GET /pet-types/{id}/pets] without query parameters. *)
Definition get_pets (store : Store) (id : string) : http_result (list PetJson) :=
  match PetService.get_pets_for_type store id with
  | Ok pets => Response 200 pets
  | Raise _ => Response 404 []
  end.

(** [GET /pet-types/{id}/pets/{name}]; a 404 carries no pet. *)
Definition get_pet (store : Store) (id name : string) : http_result (option PetJson) :=
  match PetService.get_pet store id name with
  | Ok (Some pet) => Response 200 (Some pet)
  | Ok None => Response 404 None
  | Raise _ => Response 404 None
  end.

(** [DELETE /pet-types/{id}/pets/{name}] *)
Definition delete_pet (store : Store) (id name : string) : http_result unit * Store :=
  match PetService.delete_pet store id name with
  | (Ok _, store') => (Response 204 tt, store')
  | (Raise _, store') => (Response 404 tt, store')
  end.

End Routers.

(** What an inventory does with a request whose path is not made of plain
    segments.  Such a path is not the one the client meant (a ["#"], ["?"],
    ["/"] or ["%"] in a name changes it, other characters are refused before
    anything is sent), so nothing is said about it: any answer may come, and
    any change of the store. *)
Record Stray := {
  stray_get_pets : Store -> string -> http_result (list PetJson);
  stray_get_pet : Store -> string -> string -> http_result (option PetJson);
  stray_delete_pet : Store -> string -> string -> http_result unit * Store
}.

Definition get_pets_at (stray : Stray) (store : Store) (id : string)
  : http_result (list PetJson) :=
  if Url.plain id then Routers.get_pets store id else stray_get_pets stray store id.

Definition get_pet_at (stray : Stray) (store : Store) (id name : string)
  : http_result (option PetJson) :=
  if Url.plain id && Url.plain name then Routers.get_pet store id name
  else stray_get_pet stray store id name.

Definition delete_pet_at (stray : Stray) (store : Store) (id name : string)
  : http_result unit * Store :=
  if Url.plain id && Url.plain name then Routers.delete_pet store id name
  else stray_delete_pet stray store id name.

(** Two running inventories as a [Network]: each answer is computed on the
    stores as the earlier [DELETE] requests of the trace left them. *)
Definition apply_event (stray : Stray) (stores : Z -> Store) (e : event) : Z -> Store :=
  match e with
  | Http (DeletePet s id n) =>
      fun k => if k =? s then snd (delete_pet_at stray (stores s) id n) else stores k
  | _ => stores
  end.

Definition replay (stray : Stray) (init : Z -> Store) (history : list event) : Z -> Store :=
  fold_left (apply_event stray) history init.

Definition serve (stray : Stray) (init : Z -> Store) : Network :=
  {| on_get_pet_types := fun h s => Routers.get_pet_types (replay stray init h s);
     on_get_pets := fun h s id => get_pets_at stray (replay stray init h s) id;
     on_get_pet := fun h s id n => get_pet_at stray (replay stray init h s) id n;
     on_delete_pet := fun h s id n => fst (delete_pet_at stray (replay stray init h s) id n) |}.

End PetStore.

(** ** A running example: inventory 1 holds the Poodle Jamie, inventory 2 is empty *)

Module Scenario.

Definition poodle_id : Bson.ObjectId := 1234%N.

Definition store1 : PetStore.Store :=
  {| PetStore.pet_types_collection :=
       [ {| PetStore.ptd_id := poodle_id; PetStore.ptd_type := "Poodle";
            PetStore.ptd_pets := ["Jamie"] |} ];
     PetStore.pets_collection :=
       [ {| PetStore.pd_pet_type_id := Bson.str poodle_id; PetStore.pd_name := "Jamie";
            PetStore.pd_birthdate := "24-10-2023"; PetStore.pd_picture := "NA" |} ] |}.

Definition store2 : PetStore.Store :=
  {| PetStore.pet_types_collection := []; PetStore.pets_collection := [] |}.

Definition inventories (s : Z) : PetStore.Store := if s =? 1 then store1 else store2.

Definition world_on (n : Network) : World :=
  {| network := n; trace := []; transactions := [];
     fresh_ids := fun k => N.of_nat (4096 + k); ids_issued := 0%nat;
     entropy := fun k => k; draws := 0%nat |}.

(** Requests with a path that is not plain are answered 404 and change
    nothing. *)
Definition lost : PetStore.Stray :=
  {| PetStore.stray_get_pets := fun _ _ => Response 404 [];
     PetStore.stray_get_pet := fun _ _ _ => Response 404 None;
     PetStore.stray_delete_pet := fun store _ _ => (Response 404 tt, store) |}.

(** Both inventories up. *)
Definition world : World := world_on (PetStore.serve lost inventories).

(** An inventory that holds a pet with a name that ends in a line feed
    before the pet with that name. *)
Definition jamie_lf : string := "Jamie" ++ PetStore.MongoStore.line_feed.

Definition store_lf : PetStore.Store :=
  {| PetStore.pet_types_collection :=
       [ {| PetStore.ptd_id := poodle_id; PetStore.ptd_type := "Poodle";
            PetStore.ptd_pets := [jamie_lf; "Jamie"] |} ];
     PetStore.pets_collection :=
       [ {| PetStore.pd_pet_type_id := Bson.str poodle_id; PetStore.pd_name := jamie_lf;
            PetStore.pd_birthdate := "24-10-2023"; PetStore.pd_picture := "NA" |};
         {| PetStore.pd_pet_type_id := Bson.str poodle_id; PetStore.pd_name := "Jamie";
            PetStore.pd_birthdate := "NA"; PetStore.pd_picture := "NA" |} ] |}.

Definition world_lf : World := world_on (PetStore.serve lost (fun _ => store_lf)).

(** An inventory with three Poodles. *)
Definition poodle (pet_name : string) : PetStore.PetDoc :=
  {| PetStore.pd_pet_type_id := Bson.str poodle_id; PetStore.pd_name := pet_name;
     PetStore.pd_birthdate := "NA"; PetStore.pd_picture := "NA" |}.

Definition kennel : PetStore.Store :=
  {| PetStore.pet_types_collection :=
       [ {| PetStore.ptd_id := poodle_id; PetStore.ptd_type := "Poodle";
            PetStore.ptd_pets := ["Rex"; "Jamie"; "Bella"] |} ];
     PetStore.pets_collection := [poodle "Rex"; poodle "Jamie"; poodle "Bella"] |}.

Definition kennels : World := world_on (PetStore.serve lost (fun _ => kennel)).

(** The inventories the other way round: inventory 1 is empty and
    inventory 2 holds Jamie. *)
Definition mirrored : World :=
  world_on (PetStore.serve lost (fun s => if s =? 2 then store1 else store2)).

(** Both inventories unreachable: no request gets a response. *)
Definition unreachable : World :=
  world_on {| on_get_pet_types := fun _ _ => TransportFailure;
              on_get_pets := fun _ _ _ => TransportFailure;
              on_get_pet := fun _ _ _ _ => TransportFailure;
              on_delete_pet := fun _ _ _ _ => TransportFailure |}.

(** Inventories that list and show Jamie but answer 404 to every [DELETE],
    as when another purchaser has just taken the pet. *)
Definition race_lost : World :=
  world_on {| on_get_pet_types := on_get_pet_types (PetStore.serve lost inventories);
              on_get_pets := on_get_pets (PetStore.serve lost inventories);
              on_get_pet := on_get_pet (PetStore.serve lost inventories);
              on_delete_pet := fun _ _ _ _ => Response 404 tt |}.

Definition json := Some "application/json".

Definition ana : PurchaseRequest :=
  {| req_purchaser := "Ana"; req_pet_type := "Poodle";
     req_store := None; req_pet_name := None |}.

Definition ana_store1_jamie : PurchaseRequest :=
  {| req_purchaser := "Ana"; req_pet_type := "Poodle";
     req_store := Some 1; req_pet_name := Some "Jamie" |}.

(** Ana asks inventory 1 for the "poodle" named "jamie". *)
Definition ana_store1_lower : PurchaseRequest :=
  {| req_purchaser := "Ana"; req_pet_type := "poodle";
     req_store := Some 1; req_pet_name := Some "jamie" |}.

Definition ana_empty_name : PurchaseRequest :=
  {| req_purchaser := "Ana"; req_pet_type := "Poodle";
     req_store := None; req_pet_name := Some "" |}.

Definition ana_jamie_anywhere : PurchaseRequest :=
  {| req_purchaser := "Ana"; req_pet_type := "Poodle";
     req_store := None; req_pet_name := Some "Jamie" |}.

End Scenario.

(** ** Notions used in the statements *)

(** Every event of [evs] is a request to one of [stores]. *)
Definition calls_only (stores : list Z) (evs : list event) : Prop :=
  Forall (fun e => exists c, e = Http c /\ In (call_store c) stores) evs.

(** From [w] to [w'] nothing happened but requests to [stores]: the ledger
    and the identifier source are as they were. *)
Definition only_called (stores : list Z) (w w' : World) : Prop :=
  network w' = network w
  /\ transactions w' = transactions w
  /\ fresh_ids w' = fresh_ids w
  /\ ids_issued w' = ids_issued w
  /\ exists evs, trace w' = trace w ++ evs /\ calls_only stores evs.

(** The listed pet type has the requested type name, letter case ignored;
    a pet type without a ["type"] key counts as named [""]. *)
Definition same_type_ignoring_case (type_name : string) (pt : PetTypeJson) : bool :=
  (Py.lower (match pt_type pt with Some t => t | None => "" end)
   =? Py.lower type_name)%string.

(** [pt.get("type", "")] *)
Definition listed_type (pt : PetTypeJson) : string :=
  match pt_type pt with Some t => t | None => "" end.

(** Two characters are the same letter: the same character, or a capital
    letter of ASCII and its small letter. *)
Definition same_letter (a b : ascii) : bool :=
  let m := nat_of_ascii a in
  let n := nat_of_ascii b in
  ((m =? n) || (65 <=? m) && (m <=? 90) && (n =? m + 32)
   || (65 <=? n) && (n <=? 90) && (m =? n + 32))%nat.

(** Two texts are equal under case-insensitive comparison: of one length,
    and letter for letter the same. *)
Fixpoint equal_ignoring_case (s t : string) : bool :=
  match s, t with
  | EmptyString, EmptyString => true
  | String a s', String b t' => same_letter a b && equal_ignoring_case s' t'
  | _, _ => false
  end.

(** The stored text is found under the requested one: it is the requested
    text under case-insensitive comparison, or the requested text followed
    by one line feed. *)
Definition named_as (requested stored : string) : Prop :=
  equal_ignoring_case stored requested = true
  \/ equal_ignoring_case stored (requested ++ PetStore.MongoStore.line_feed) = true.

(** A ledger document satisfies the supplied filters: every filter that is
    present holds for it, the purchase-id filter by naming its identifier. *)
Definition satisfies (store : option Z) (pet_type purchaser purchase_id : option string)
           (d : TransactionDoc) : Prop :=
  (forall s, store = Some s -> doc_store d = s)
  /\ (forall t, pet_type = Some t -> doc_pet_type d = t)
  /\ (forall p, purchaser = Some p -> doc_purchaser d = p)
  /\ (forall i, purchase_id = Some i -> Bson.parse i = Some (doc_id d)).

(** The world after one number has been drawn. *)
Definition drawn (w : World) : World :=
  {| network := network w; trace := trace w;
     transactions := transactions w; fresh_ids := fresh_ids w;
     ids_issued := ids_issued w; entropy := entropy w;
     draws := S (draws w) |}.

(** The [FoundPet] the locator builds for a pet of inventory [store]. *)
Definition candidate (request : PurchaseRequest) (store : Z) (pet_type_id : string)
           (pet : PetJson) : PurchaseService.FoundPet :=
  {| PurchaseService.fp_store := store;
     PurchaseService.fp_pet_type_id := pet_type_id;
     PurchaseService.fp_pet_type_name := req_pet_type request;
     PurchaseService.fp_name := name pet |}.

(** The random branch of the locator on one inventory: list the pets of the
    type and pick one of them, no candidate when there is none. *)
Definition pick_listed (request : PurchaseRequest) (store : Z) (pet_type_id : string)
  : M (option PurchaseService.FoundPet) :=
  pets <- PetStoreClient.get_pets_for_type store pet_type_id ;;
  match pets with
  | [] => ret None
  | _ :: _ => pet <- random_choice pets ;; ret (Some (candidate request store pet_type_id pet))
  end.

(** One inventory probed on its own, as the algorithm of the locator words
    it: resolve the pet-type identifier, without one there is no candidate;
    with an exact name fetch that pet; otherwise pick among the listed
    pets. *)
Definition probe (request : PurchaseRequest) (store : Z)
  : M (option PurchaseService.FoundPet) :=
  type_id <- PetStoreClient.find_pet_type_id store (req_pet_type request) ;;
  match type_id with
  | None => ret None
  | Some id =>
      if negb (Py.truthy id) then ret None
      else
        match req_pet_name request with
        | Some n =>
            if Py.truthy n
            then pet <- PetStoreClient.get_pet store id n ;;
                 ret (option_map (candidate request store id) pet)
            else pick_listed request store id
        | None => pick_listed request store id
        end
  end.

(** The inventories of [stores], probed one after the other from world [w],
    all yield no candidate, which leaves the world [w']. *)
Inductive all_miss (request : PurchaseRequest) : list Z -> World -> World -> Prop :=
| miss_nil : forall w, all_miss request [] w w
| miss_cons : forall store rest w w1 w2,
    probe request store w = (Ok None, w1) ->
    all_miss request rest w1 w2 ->
    all_miss request (store :: rest) w w2.

(** The request with its pet name removed. *)
Definition without_pet_name (request : PurchaseRequest) : PurchaseRequest :=
  {| req_purchaser := req_purchaser request; req_pet_type := req_pet_type request;
     req_store := req_store request; req_pet_name := None |}.

(** A request of the random branch to inventory [store]: the pet types or
    the pets of one type are listed; no pet is fetched by name and none is
    deleted. *)
Definition listing_call (store : Z) (e : event) : Prop :=
  e = Http (GetPetTypes store) \/ exists id, e = Http (GetPetsForType store id).

(** ** Worlds reached in the running example *)

(** The world after Ana's first purchase in [Scenario.world]. *)
Definition after_first_purchase : World :=
  snd (Purchases.post Scenario.json Scenario.ana Scenario.world).

(** The response to that purchase. *)
Definition first_response : PurchaseResponse :=
  {| resp_purchaser := "Ana"; resp_pet_type := "Poodle"; resp_store := 1;
     resp_pet_name := "Jamie"; resp_purchase_id := "000000000000000000001000" |}.

(** Jamie as the locator finds it for [Scenario.ana_store1_jamie]. *)
Definition jamie_found : PurchaseService.FoundPet :=
  {| PurchaseService.fp_store := 1;
     PurchaseService.fp_pet_type_id := "0000000000000000000004d2";
     PurchaseService.fp_pet_type_name := "Poodle";
     PurchaseService.fp_name := "Jamie" |}.

(** [Scenario.race_lost] after the locator has found Jamie, and after the
    [DELETE] request that follows was refused. *)
Definition race_lost_located : World :=
  snd (PurchaseService.find_available_pet Scenario.ana_store1_jamie Scenario.race_lost).

Definition race_lost_refused : World :=
  log (Http (DeletePet 1 "0000000000000000000004d2" "Jamie")) race_lost_located.

(** ** Notions of the further properties *)

(** The inventories list type names in ASCII. *)
Definition ascii_listings (n : Network) : Prop :=
  forall h s status types pt,
    on_get_pet_types n h s = Response status types ->
    In pt types -> Py.isascii (listed_type pt) = true.

(** A request that reads: anything but a [DELETE]. *)
Definition is_get (c : call) : Prop :=
  match c with
  | DeletePet _ _ _ => False
  | _ => True
  end.

(** A reading request to one of [stores]. *)
Definition get_from (stores : list Z) (e : event) : Prop :=
  exists c, e = Http c /\ is_get c /\ In (call_store c) stores.

(** The request [c], made after the history [h], gets no response. *)
Definition unanswered (n : Network) (h : list event) (c : call) : Prop :=
  match c with
  | GetPetTypes s => on_get_pet_types n h s = TransportFailure
  | GetPetsForType s id => on_get_pets n h s id = TransportFailure
  | GetPet s id nm => on_get_pet n h s id nm = TransportFailure
  | DeletePet s id nm => on_delete_pet n h s id nm = TransportFailure
  end.

(** What a purchase leaves in the trace after its search: nothing, the
    [DELETE] request for the found pet, or that request followed by the
    insertion of the record. *)
Inductive purchase_tail (stores : list Z) : list event -> Prop :=
| tail_searched : purchase_tail stores []
| tail_claimed : forall s id n,
    In s stores -> purchase_tail stores [Http (DeletePet s id n)]
| tail_recorded : forall s id n doc,
    In s stores -> doc_store doc = s ->
    purchase_tail stores [Http (DeletePet s id n); LedgerInsert doc].

(** The stored pet type has the given type name under case-insensitive
    comparison. *)
Definition type_named (type_name : string) (d : PetStore.PetTypeDoc) : bool :=
  equal_ignoring_case (PetStore.ptd_type d) type_name.

(** The stored pet is of the pet type with identifier string [id]. *)
Definition of_type (id : string) (d : PetStore.PetDoc) : bool :=
  (PetStore.pd_pet_type_id d =? id)%string.

(** The store holds a pet of the type with identifier string [id] that the
    request accepts: any pet of the type when the request names none, one
    with the requested name under case-insensitive comparison when it
    does. *)
Definition offers (st : PetStore.Store) (id : string) (request : PurchaseRequest)
           (pet : PetStore.PetDoc) : Prop :=
  In pet (PetStore.pets_collection st)
  /\ PetStore.pd_pet_type_id pet = id
  /\ (forall n, req_pet_name request = Some n -> Py.truthy n = true ->
                equal_ignoring_case (PetStore.pd_name pet) n = true).

(** The store holds type names in ASCII and pet names that are plain
    segments of a path. *)
Definition tidy (st : PetStore.Store) : Prop :=
  (forall t, In t (PetStore.pet_types_collection st) ->
             Py.isascii (PetStore.ptd_type t) = true)
  /\ (forall d, In d (PetStore.pets_collection st) ->
                Url.plain (PetStore.pd_name d) = true).

(** The request asks for a type name in ASCII and, where it names a pet,
    for a name that is a plain segment of a path. *)
Definition plain_request (request : PurchaseRequest) : Prop :=
  Py.isascii (req_pet_type request) = true
  /\ (forall n, req_pet_name request = Some n -> Py.truthy n = true ->
                Url.plain n = true).

(** The stored pet is of the type with identifier string [id] and has the
    name [n] under case-insensitive comparison. *)
Definition is_named (id n : string) (d : PetStore.PetDoc) : Prop :=
  PetStore.pd_pet_type_id d = id
  /\ equal_ignoring_case (PetStore.pd_name d) n = true.

(** ** pet-store: app/utils/validators.py

    The character classes are those of ASCII text: [\d] is a decimal digit,
    [\w] a letter, a digit or the underscore, and white space is what
    [str.split()] and [\s] take as such below code 128. *)

Module Validators.

Definition is_digit (c : ascii) : bool :=
  let n := nat_of_ascii c in andb (Nat.leb 48 n) (Nat.leb n 57).

Definition is_letter (c : ascii) : bool :=
  let n := nat_of_ascii c in
  ((65 <=? n) && (n <=? 90) || (97 <=? n) && (n <=? 122))%nat.

(** [\w] *)
Definition is_word (c : ascii) : bool :=
  orb (orb (is_letter c) (is_digit c)) (Ascii.eqb c "_").

(** [\s] *)
Definition is_space (c : ascii) : bool :=
  let n := nat_of_ascii c in
  orb (andb (Nat.leb 9 n) (Nat.leb n 13))
      (orb (andb (Nat.leb 28 n) (Nat.leb n 31)) (Nat.eqb n 32)).

(** A run that has ended: it counts when it is not empty. *)
Definition flush (run : string) : list string :=
  if (run =? "")%string then [] else [run].

(** [re.findall(r'\d+', s)]: the maximal runs of digits from left to right;
    [run] is the run being read. *)
Fixpoint findall_digits (s run : string) : list string :=
  match s with
  | EmptyString => flush run
  | String c t =>
      if is_digit c then findall_digits t (run ++ String c EmptyString)%string
      else flush run ++ findall_digits t EmptyString
  end.

(** [int(num)] for a string of digits. *)
Fixpoint int_of_digits (num : string) (acc : N) : N :=
  match num with
  | EmptyString => acc
  | String c t => int_of_digits t (10 * acc + (N_of_ascii c - 48))%N
  end.

Definition int (num : string) : N := int_of_digits num 0%N.

(** [min] of a sequence that starts with [first]. *)
Fixpoint minimum (first : N) (rest : list N) : N :=
  match rest with
  | [] => first
  | x :: l => minimum (N.min first x) l
  end.

Definition parse_lifespan (lifespan_str : option string) : option N :=
  if negb (Py.truthy_opt lifespan_str) then None
  else
    let numbers := findall_digits (match lifespan_str with Some s => s | None => "" end) "" in
    match numbers with
    | [] => None
    | num :: rest => Some (minimum (int num) (map int rest))
    end.

(** [re.sub(r'[^\w\s]', ' ', text)] *)
Fixpoint sub_punctuation (text : string) : string :=
  match text with
  | EmptyString => EmptyString
  | String c t =>
      String (if orb (is_word c) (is_space c) then c else " "%char) (sub_punctuation t)
  end.

(** [text.split()]: the maximal runs without white space; [word] is the
    word being read. *)
Fixpoint split (text word : string) : list string :=
  match text with
  | EmptyString => flush word
  | String c t =>
      if is_space c then flush word ++ split t EmptyString
      else split t (word ++ String c EmptyString)%string
  end.

Definition parse_attributes (temperament group_behavior : option string) : list string :=
  let text := if Py.truthy_opt temperament then temperament else group_behavior in
  if negb (Py.truthy_opt text) then []
  else
    let cleaned := sub_punctuation (match text with Some t => t | None => "" end) in
    split cleaned "".

(** A [datetime] read with the format ["%d-%m-%Y"]: midnight of a day. *)
Record datetime := {
  dt_year : Z;
  dt_month : Z;
  dt_day : Z
}.

(** [d1 < d2] on such values. *)
Definition before (d1 d2 : datetime) : bool :=
  (dt_year d1 <? dt_year d2)
  || ((dt_year d1 =? dt_year d2)
      && ((dt_month d1 <? dt_month d2)
          || ((dt_month d1 =? dt_month d2) && (dt_day d1 <? dt_day d2)))).

Section Dates.

(** [datetime.strptime(s, "%d-%m-%Y")] of the standard library, [None] when
    it raises [ValueError]; the text of that error is read by no caller. *)
Variable strptime : string -> option datetime.

Definition validate_date_format (date_str : string) : bool :=
  if (date_str =? "NA")%string then true
  else
    match strptime date_str with
    | Some _ => true
    | None => false                                  (* except ValueError *)
    end.

Definition compare_dates (date1 date2 : string) : outcome Z :=
  if orb (date1 =? "NA")%string (date2 =? "NA")%string
  then Raise (ValueError "Cannot compare dates with 'NA'")
  else
    match strptime date1 with
    | None => Raise (ValueError "time data does not match format")
    | Some d1 =>
        match strptime date2 with
        | None => Raise (ValueError "time data does not match format")
        | Some d2 =>
            if before d1 d2 then Ok (-1)
            else if before d2 d1 then Ok 1
            else Ok 0
        end
    end.

End Dates.

End Validators.

(** The characters of a string. *)
Definition chars (s : string) : list ascii := list_ascii_of_string s.

(** Every character of [s] is a decimal digit. *)
Definition all_digits (s : string) : Prop :=
  forall c, In c (chars s) -> Validators.is_digit c = true.

(** [s] is empty or ends with a character that is no digit. *)
Definition no_digit_at_end (s : string) : Prop :=
  s = EmptyString
  \/ exists p c, s = (p ++ String c EmptyString)%string /\ Validators.is_digit c = false.

(** [s] is empty or starts with a character that is no digit. *)
Definition no_digit_at_start (s : string) : Prop :=
  match s with
  | EmptyString => True
  | String c _ => Validators.is_digit c = false
  end.

(** The characters of [s] that satisfy [keep], in order. *)
Fixpoint keep_chars (keep : ascii -> bool) (s : string) : string :=
  match s with
  | EmptyString => EmptyString
  | String c t => if keep c then String c (keep_chars keep t) else keep_chars keep t
  end.

(** ** pet-store: the pets of a type by birthdate

    [PetService.get_pets_for_type] and the route [GET /pet-types/{id}/pets]
    with their two optional bounds; [PetStore.PetService.get_pets_for_type]
    and [PetStore.Routers.get_pets] above are these without bounds. *)

Module PetsByBirthdate.

Section Dates.

Variable strptime : string -> option Validators.datetime.

(** [[pet for pet in pets if pet["birthdate"] != "NA" and
    keep(compare_dates(pet["birthdate"], bound))]]: the pets are tested in
    order and the first comparison that raises ends the comprehension. *)
Fixpoint select (keep : Z -> bool) (bound : string) (pets : list PetStore.PetDoc)
  : outcome (list PetStore.PetDoc) :=
  match pets with
  | [] => Ok []
  | pet :: rest =>
      if negb (PetStore.pd_birthdate pet =? "NA")%string then
        match Validators.compare_dates strptime (PetStore.pd_birthdate pet) bound with
        | Raise e => Raise e
        | Ok c =>
            match select keep bound rest with
            | Raise e => Raise e
            | Ok kept => Ok (if keep c then pet :: kept else kept)
            end
        end
      else select keep bound rest
  end.

Definition get_pets_for_type (store : PetStore.Store) (pet_type_id : string)
           (birthdate_gt birthdate_lt : option string) : outcome (list PetJson) :=
  match PetStore.MongoStore.get_pet_type store pet_type_id with
  | None => Raise (ValueError "PET_TYPE_NOT_FOUND")
  | Some _ =>
      let pets := PetStore.MongoStore.get_pets_for_type store pet_type_id in
      match (if Py.truthy_opt birthdate_gt
             then select (fun c => 0 <? c)
                         (match birthdate_gt with Some b => b | None => "" end) pets
             else Ok pets) with
      | Raise e => Raise e
      | Ok pets =>
          match (if Py.truthy_opt birthdate_lt
                 then select (fun c => c <? 0)
                             (match birthdate_lt with Some b => b | None => "" end) pets
                 else Ok pets) with
          | Raise e => Raise e
          | Ok pets => Ok (map PetStore.pet_response pets)
          end
      end
  end.

(** [GET /pet-types/{id}/pets?birthdateGT=..&birthdateLT=..]: every
    [ValueError] of the service is answered 404. *)
Definition get_pets (store : PetStore.Store) (id : string)
           (birthdateGT birthdateLT : option string) : http_result (list PetJson) :=
  match get_pets_for_type store id birthdateGT birthdateLT with
  | Ok pets => Response 200 pets
  | Raise _ => Response 404 []
  end.

End Dates.

End PetsByBirthdate.

(** The birthdate is ["NA"] or one that [strptime] reads. *)
Definition birthdate_known (strptime : string -> option Validators.datetime)
           (d : PetStore.PetDoc) : Prop :=
  PetStore.pd_birthdate d = "NA" \/ strptime (PetStore.pd_birthdate d) <> None.

(** The pet has a birthdate, and that day is after the day [bound]. *)
Definition born_after (strptime : string -> option Validators.datetime)
           (bound : Validators.datetime) (d : PetStore.PetDoc) : bool :=
  negb (PetStore.pd_birthdate d =? "NA")%string
  && match strptime (PetStore.pd_birthdate d) with
     | Some day => Validators.before bound day
     | None => false
     end.

(** The pet has a birthdate, and that day is before the day [bound]. *)
Definition born_before (strptime : string -> option Validators.datetime)
           (bound : Validators.datetime) (d : PetStore.PetDoc) : bool :=
  negb (PetStore.pd_birthdate d =? "NA")%string
  && match strptime (PetStore.pd_birthdate d) with
     | Some day => Validators.before day bound
     | None => false
     end.

(** A reader of dates written as two digits, two digits and four digits,
    for the examples; it does not check the day against the month. *)
Definition strptime_ddmmyyyy (s : string) : option Validators.datetime :=
  match s with
  | String d1 (String d2 (String "-" (String m1 (String m2 (String "-"
      (String y1 (String y2 (String y3 (String y4 EmptyString))))))))) =>
      if forallb Validators.is_digit [d1; d2; m1; m2; y1; y2; y3; y4]
      then Some {| Validators.dt_year :=
                     Z.of_N (Validators.int
                               (String y1 (String y2 (String y3 (String y4 EmptyString)))));
                   Validators.dt_month :=
                     Z.of_N (Validators.int (String m1 (String m2 EmptyString)));
                   Validators.dt_day :=
                     Z.of_N (Validators.int (String d1 (String d2 EmptyString))) |}
      else None
  | _ => None
  end.

(** What a bound of the listing stands for: no bound when it is absent or
    empty, a day when it is read as one, and nothing otherwise. *)
Definition bound_read (strptime : string -> option Validators.datetime)
           (bound : option string) : option (option Validators.datetime) :=
  match bound with
  | None => Some None
  | Some s =>
      if (s =? "")%string then Some None
      else if (s =? "NA")%string then None
      else match strptime s with
           | Some day => Some (Some day)
           | None => None
           end
  end.

Definition after_bound (strptime : string -> option Validators.datetime)
           (bound : option Validators.datetime) (d : PetStore.PetDoc) : bool :=
  match bound with
  | Some day => born_after strptime day d
  | None => true
  end.

Definition before_bound (strptime : string -> option Validators.datetime)
           (bound : option Validators.datetime) (d : PetStore.PetDoc) : bool :=
  match bound with
  | Some day => born_before strptime day d
  | None => true
  end.

(** An inventory with three poodles, one of them without a birthdate. *)
Definition kennel : PetStore.Store :=
  {| PetStore.pet_types_collection :=
       [ {| PetStore.ptd_id := Scenario.poodle_id; PetStore.ptd_type := "Poodle";
            PetStore.ptd_pets := ["Jamie"; "Rex"; "Lola"] |} ];
     PetStore.pets_collection :=
       [ {| PetStore.pd_pet_type_id := Bson.str Scenario.poodle_id;
            PetStore.pd_name := "Jamie";
            PetStore.pd_birthdate := "24-10-2023"; PetStore.pd_picture := "NA" |};
         {| PetStore.pd_pet_type_id := Bson.str Scenario.poodle_id;
            PetStore.pd_name := "Rex";
            PetStore.pd_birthdate := "NA"; PetStore.pd_picture := "NA" |};
         {| PetStore.pd_pet_type_id := Bson.str Scenario.poodle_id;
            PetStore.pd_name := "Lola";
            PetStore.pd_birthdate := "01-02-2024"; PetStore.pd_picture := "NA" |} ] |}.

(** The same inventory when no poodle has a birthdate. *)
Definition kennel_undated : PetStore.Store :=
  {| PetStore.pet_types_collection := PetStore.pet_types_collection kennel;
     PetStore.pets_collection :=
       [ {| PetStore.pd_pet_type_id := Bson.str Scenario.poodle_id;
            PetStore.pd_name := "Rex";
            PetStore.pd_birthdate := "NA"; PetStore.pd_picture := "NA" |} ] |}.

(** ** pet-store: the documents with all their fields, and the writes

    [PetStore] above has what the ordering service reads, and the removal
    of a pet.  Here the documents carry every field, and every route that
    changes a collection is served.  What the outside world does while a
    request is served (the answer of the Ninja Animals API, the answer to
    the download of a picture, the clock, the identifier MongoDB gives a
    new document) comes with the request.  The files of the pictures
    directory are left out: [delete_picture] changes nothing else, and of
    [download_and_save_picture] the returned file name and the exception
    are kept. *)

Module Inventory.

(** A document of the collection [pet_types_<store>]. *)
Record PetType := {
  type_doc : PetStore.PetTypeDoc;    (* "_id", "type", "pets" *)
  family : string;                   (* "family" *)
  genus : string;                    (* "genus" *)
  attributes : list string;          (* "attributes" *)
  lifespan : option N                (* "lifespan" *)
}.

(** A document of the collection [pets_<store>]. *)
Record Pet := {
  pet_doc : PetStore.PetDoc;         (* "pet_type_id", "name", "birthdate", "picture" *)
  picture_url : option string        (* "picture_url" *)
}.

Record State := {
  pet_types_collection : list PetType;
  pets_collection : list Pet
}.

(** The collections as [PetStore] has them. *)
Definition view (s : State) : PetStore.Store :=
  {| PetStore.pet_types_collection := map type_doc (pet_types_collection s);
     PetStore.pets_collection := map pet_doc (pets_collection s) |}.

Inductive error :=
| ValueError (msg : string)
| RuntimeError (msg : string)
| RequestError (msg : string)        (* httpx.RequestError *)
| Exception (msg : string).          (* an exception of another class *)

Inductive result (A : Type) :=
| Return (a : A)
| Throw (e : error).
Arguments Return {A} a.
Arguments Throw {A} e.

(** [str(n)] for an integer. *)
Definition str_int (n : Z) : string := NilZero.string_of_int (Z.to_int n).

(** The dictionary [_extract_animal_data] returns. *)
Record AnimalData := {
  ad_type : string;
  ad_family : string;
  ad_genus : string;
  ad_attributes : list string;
  ad_lifespan : option N;
  ad_pets : list string
}.

(** The dictionary [pet_data] of [create_pet]. *)
Record PetData := {
  data_name : string;
  data_birthdate : string;
  data_picture : string;
  data_picture_url : option string
}.

(** [delete_one]: the first matching document goes. *)
Fixpoint delete_one {A : Type} (p : A -> bool) (l : list A) : bool * list A :=
  match l with
  | [] => (false, [])
  | d :: rest =>
      if p d then (true, rest)
      else let r := delete_one p rest in (fst r, d :: snd r)
  end.

(** [update_one]: the first matching document is changed. *)
Fixpoint update_one {A : Type} (p : A -> bool) (f : A -> A) (l : list A) : list A :=
  match l with
  | [] => []
  | d :: rest => if p d then f d :: rest else d :: update_one p f rest
  end.

(** app/storage/mongo_store.py *)
Module MongoStore.

Definition has_id (oid : Bson.ObjectId) (t : PetType) : bool :=
  N.eqb (PetStore.ptd_id (type_doc t)) oid.

(** [insert_one] gives the document the identifier [inserted_id], and
    refuses an identifier the collection has already. *)
Definition add_pet_type (self : State) (inserted_id : Bson.ObjectId)
           (pet_type_data : AnimalData) : result string * State :=
  if existsb (has_id inserted_id) (pet_types_collection self)
  then (Throw (Exception "DuplicateKeyError"), self)
  else
    (Return (Bson.str inserted_id),
     {| pet_types_collection :=
          pet_types_collection self
          ++ [ {| type_doc := {| PetStore.ptd_id := inserted_id;
                                 PetStore.ptd_type := ad_type pet_type_data;
                                 PetStore.ptd_pets := ad_pets pet_type_data |};
                  family := ad_family pet_type_data;
                  genus := ad_genus pet_type_data;
                  attributes := ad_attributes pet_type_data;
                  lifespan := ad_lifespan pet_type_data |} ];
        pets_collection := pets_collection self |}).

Definition get_pet_type (self : State) (pet_type_id : string) : option PetType :=
  match Bson.parse pet_type_id with
  | Some oid => find (has_id oid) (pet_types_collection self)
  | None => None                                  (* except InvalidId *)
  end.

Definition get_all_pet_types (self : State) : list PetType :=
  pet_types_collection self.

Definition delete_pet_type (self : State) (pet_type_id : string) : bool * State :=
  match Bson.parse pet_type_id with
  | Some oid =>
      let r := delete_one (has_id oid) (pet_types_collection self) in
      (fst r, {| pet_types_collection := snd r;
                 pets_collection := pets_collection self |})
  | None => (false, self)                         (* except InvalidId *)
  end.

(** The filter [{"type": re.compile("^" + re.escape(v) + "$", re.IGNORECASE)}]. *)
Definition pet_type_exists (self : State) (pet_type_value : string) : bool :=
  match find (fun t => PetStore.MongoStore.like pet_type_value
                         (PetStore.ptd_type (type_doc t)))
             (pet_types_collection self) with
  | Some _ => true
  | None => false
  end.

(** [insert_one] under the unique index on ("pet_type_id", "name"). *)
Definition add_pet (self : State) (pet_type_id pet_name : string) (pet_data : PetData)
  : result unit * State :=
  if existsb (fun p => PetStore.MongoStore.same_pet pet_type_id (data_name pet_data)
                         (pet_doc p))
             (pets_collection self)
  then (Throw (Exception "DuplicateKeyError"), self)
  else
    (Return tt,
     {| pet_types_collection := pet_types_collection self;
        pets_collection :=
          pets_collection self
          ++ [ {| pet_doc := {| PetStore.pd_pet_type_id := pet_type_id;
                                PetStore.pd_name := data_name pet_data;
                                PetStore.pd_birthdate := data_birthdate pet_data;
                                PetStore.pd_picture := data_picture pet_data |};
                  picture_url := data_picture_url pet_data |} ] |}).

Definition get_pet_case_insensitive (self : State) (pet_type_id pet_name : string)
  : option (Pet * string) :=
  match find (fun p => PetStore.MongoStore.same_pet_ignoring_case pet_type_id pet_name
                         (pet_doc p))
             (pets_collection self) with
  | Some doc => Some (doc, PetStore.pd_name (pet_doc doc))
  | None => None
  end.

Definition delete_pet (self : State) (pet_type_id pet_name : string) : bool * State :=
  let r := delete_one (fun p => PetStore.MongoStore.same_pet pet_type_id pet_name (pet_doc p))
                      (pets_collection self) in
  (fst r, {| pet_types_collection := pet_types_collection self;
             pets_collection := snd r |}).

Definition pet_exists (self : State) (pet_type_id pet_name : string) : bool :=
  match find (fun p => PetStore.MongoStore.same_pet_ignoring_case pet_type_id pet_name
                         (pet_doc p))
             (pets_collection self) with
  | Some _ => true
  | None => false
  end.

Definition with_pets (pets : list string) (t : PetType) : PetType :=
  {| type_doc := {| PetStore.ptd_id := PetStore.ptd_id (type_doc t);
                    PetStore.ptd_type := PetStore.ptd_type (type_doc t);
                    PetStore.ptd_pets := pets |};
     family := family t; genus := genus t;
     attributes := attributes t; lifespan := lifespan t |}.

(** [{"$addToSet": {"pets": pet_name}}] *)
Definition add_to_set (pet_name : string) (pets : list string) : list string :=
  if existsb (fun n => (n =? pet_name)%string) pets then pets else pets ++ [pet_name].

(** [{"$pull": {"pets": pet_name}}] *)
Definition pull (pet_name : string) (pets : list string) : list string :=
  filter (fun n => negb (n =? pet_name)%string) pets.

Definition add_pet_name_to_type (self : State) (pet_type_id pet_name : string) : State :=
  match Bson.parse pet_type_id with
  | Some oid =>
      {| pet_types_collection :=
           update_one (has_id oid)
             (fun t => with_pets (add_to_set pet_name (PetStore.ptd_pets (type_doc t))) t)
             (pet_types_collection self);
         pets_collection := pets_collection self |}
  | None => self                                  (* except InvalidId: pass *)
  end.

Definition remove_pet_name_from_type (self : State) (pet_type_id pet_name : string) : State :=
  match Bson.parse pet_type_id with
  | Some oid =>
      {| pet_types_collection :=
           update_one (has_id oid)
             (fun t => with_pets (pull pet_name (PetStore.ptd_pets (type_doc t))) t)
             (pet_types_collection self);
         pets_collection := pets_collection self |}
  | None => self                                  (* except InvalidId: pass *)
  end.

End MongoStore.

(** app/services/ninja_api.py *)
Module NinjaAPI.

(** An object of the list the API answers.  A field is [None] when its key
    is missing; the answer is taken to be, when it is JSON at all, a list of
    objects whose fields are strings, as the API documents it. *)
Record Animal := {
  animal_name : option string;             (* "name" *)
  taxonomy_family : option string;         (* "taxonomy"."family" *)
  taxonomy_genus : option string;          (* "taxonomy"."genus" *)
  temperament : option string;             (* "characteristics"."temperament" *)
  group_behavior : option string;          (* "characteristics"."group_behavior" *)
  characteristics_lifespan : option string (* "characteristics"."lifespan" *)
}.

Inductive body :=
| NotJson (e : string)                     (* response.json() raises JSONDecodeError *)
| Animals (data : list Animal).

(** What happens to the request; every text is the [str(e)] of the
    exception. *)
Inductive answer :=
| NoConnection (e : string)                (* httpx.RequestError *)
| OtherFailure (e : string)                (* an exception of another class *)
| Answered (status_code : Z) (content : body).

Definition or_empty (field : option string) : string :=
  match field with
  | Some v => v
  | None => ""
  end.

Definition _find_exact_match (animals : list Animal) (target_name : string)
  : option Animal :=
  find (fun animal => (Py.lower (or_empty (animal_name animal))
                       =? Py.lower target_name)%string) animals.

Definition _extract_animal_data (animal : Animal) (animal_type : string) : AnimalData :=
  {| ad_type := animal_type;
     ad_family := or_empty (taxonomy_family animal);
     ad_genus := or_empty (taxonomy_genus animal);
     ad_attributes :=
       Validators.parse_attributes (temperament animal) (group_behavior animal);
     ad_lifespan := Validators.parse_lifespan (characteristics_lifespan animal);
     ad_pets := [] |}.

(** The body of the [try]. *)
Definition request (response : answer) (animal_type : string) : result AnimalData :=
  match response with
  | NoConnection e => Throw (RequestError e)
  | OtherFailure e => Throw (Exception e)
  | Answered status_code content =>
      if status_code =? 404 then Throw (ValueError "ANIMAL_NOT_FOUND")
      else if negb (status_code =? 200)
      then Throw (RuntimeError ("API_ERROR:" ++ str_int status_code))
      else
        match content with
        | NotJson e => Throw (ValueError e)       (* a subclass of ValueError *)
        | Animals data =>
            match data with
            | [] => Throw (ValueError "ANIMAL_NOT_FOUND")
            | _ :: _ =>
                match _find_exact_match data animal_type with
                | None => Throw (ValueError "ANIMAL_NOT_FOUND")
                | Some animal => Return (_extract_animal_data animal animal_type)
                end
            end
        end
  end.

Definition fetch_animal_data (api_key : string) (response : answer) (animal_type : string)
  : result AnimalData :=
  if negb (Py.truthy api_key) then Throw (RuntimeError "API_KEY_NOT_CONFIGURED")
  else
    match request response animal_type with
    | Throw (RequestError e) => Throw (RuntimeError ("API_CONNECTION_ERROR:" ++ e))
    | Throw (ValueError msg) => Throw (ValueError msg)
    | Throw (RuntimeError msg) => Throw (RuntimeError msg)
    | Throw (Exception e) => Throw (RuntimeError ("UNEXPECTED_ERROR:" ++ e))
    | Return animal_data => Return animal_data
    end.

End NinjaAPI.

(** [lstrip()] *)
Fixpoint lstrip (s : string) : string :=
  match s with
  | EmptyString => EmptyString
  | String c t => if Validators.is_space c then lstrip t else s
  end.

(** [rstrip()] *)
Fixpoint rstrip (s : string) : string :=
  match s with
  | EmptyString => EmptyString
  | String c t =>
      let r := rstrip t in
      if ((r =? "")%string && Validators.is_space c)%bool then EmptyString else String c r
  end.

(** [re.sub(r'[^\w\s-]', '', s)] *)
Fixpoint sub_unsafe (s : string) : string :=
  match s with
  | EmptyString => EmptyString
  | String c t =>
      if (Validators.is_word c || Validators.is_space c || Ascii.eqb c "-")%bool
      then String c (sub_unsafe t) else sub_unsafe t
  end.

(** [s.replace(' ', '-')] *)
Fixpoint replace_spaces (s : string) : string :=
  match s with
  | EmptyString => EmptyString
  | String c t => String (if Ascii.eqb c " " then "-"%char else c) (replace_spaces t)
  end.

(** app/utils/validators.py; [timestamp] is [int(time.time() * 1000)]. *)
Definition generate_picture_filename (timestamp : Z) (pet_name pet_type extension : string)
  : string :=
  let clean_name := replace_spaces (rstrip (lstrip (sub_unsafe pet_name))) in
  let clean_type := replace_spaces (rstrip (lstrip (sub_unsafe pet_type))) in
  (clean_name ++ "-" ++ clean_type ++ "-" ++ str_int timestamp ++ "." ++ extension)%string.

(** app/services/picture_service.py *)
Module PictureService.

(** What happens to the download: no response, a response that
    [raise_for_status] refuses, content that [Image.open] refuses, or an
    image with its [format], saved unless [image.save] raises. *)
Inductive answer :=
| NoConnection (e : string)                (* httpx.RequestError *)
| ErrorStatus (e : string)                 (* httpx.HTTPStatusError *)
| NotAnImage (e : string)
| Image (format : option string) (save_error : option string).

(** [extension not in ALLOWED_IMAGE_FORMATS] *)
Definition allowed (extension : string) : bool :=
  ((extension =? "jpeg") || (extension =? "jpg") || (extension =? "png"))%string.

(** The body of the [try]. *)
Definition request (response : answer) (timestamp : Z) (pet_name pet_type : string)
  : result string :=
  match response with
  | NoConnection e => Throw (RequestError e)
  | ErrorStatus e => Throw (Exception e)
  | NotAnImage e => Throw (Exception e)
  | Image format save_error =>
      let extension := if Py.truthy_opt format
                       then Py.lower (match format with Some f => f | None => "" end)
                       else "jpg" in
      if negb (allowed extension) then Throw (ValueError "INVALID_IMAGE_FORMAT")
      else
        let filename := generate_picture_filename timestamp pet_name pet_type extension in
        match save_error with
        | Some e => Throw (Exception e)
        | None => Return filename
        end
  end.

Definition text (e : error) : string :=
  match e with
  | ValueError msg | RuntimeError msg | RequestError msg | Exception msg => msg
  end.

Definition download_and_save_picture (response : answer) (timestamp : Z)
           (pet_name pet_type : string) : result string :=
  match request response timestamp pet_name pet_type with
  | Return filename => Return filename
  | Throw (RequestError e) => Throw (Exception ("Failed to download picture: " ++ e))
  | Throw e => Throw (Exception ("Failed to save picture: " ++ text e))
  end.

End PictureService.

(** The request bodies [PetCreate] and [PetUpdate]. *)
Record PetCreate := {
  new_name : string;                       (* "name" *)
  new_birthdate : option string;           (* "birthdate" *)
  new_picture_url : option string          (* "picture-url" *)
}.

Inductive content :=
| PetContent (pet : PetJson)
| PetTypeContent (pet_type : PetType)
| PetTypesContent (pet_types : list PetType)
| Detail (key text : string)
| NoContent.

Record reply := {
  code : Z;
  content_of : content
}.

(** app/services/pet_type_service.py *)
Module PetTypeService.

Definition create_pet_type (api_key : string) (ninja : NinjaAPI.answer)
           (inserted_id : Bson.ObjectId) (s : State) (pet_type : string)
  : result (option PetType) * State :=
  if MongoStore.pet_type_exists s pet_type
  then (Throw (ValueError "PET_TYPE_ALREADY_EXISTS"), s)
  else
    match NinjaAPI.fetch_animal_data api_key ninja pet_type with
    | Throw e => (Throw e, s)
    | Return animal_data =>
        match MongoStore.add_pet_type s inserted_id animal_data with
        | (Throw e, s') => (Throw e, s')
        | (Return pet_type_id, s') => (Return (MongoStore.get_pet_type s' pet_type_id), s')
        end
    end.

(** One filter of [get_all_pet_types]: applied when its argument is given. *)
Definition given {A : Type} (argument : option A) (test : A -> PetType -> bool)
           (pet_types : list PetType) : list PetType :=
  match argument with
  | Some a => filter (test a) pet_types
  | None => pet_types
  end.

Definition get_all_pet_types (s : State) (id type family genus : option string)
           (lifespan : option Z) (has_attribute : option string) : list PetType :=
  let pet_types := MongoStore.get_all_pet_types s in
  let pet_types :=
    given id (fun id pt => (Bson.str (PetStore.ptd_id (type_doc pt)) =? id)%string)
          pet_types in
  let pet_types :=
    given type (fun type pt =>
                  (Py.lower (PetStore.ptd_type (type_doc pt)) =? Py.lower type)%string)
          pet_types in
  let pet_types :=
    given family (fun v pt => (Py.lower (Inventory.family pt) =? Py.lower v)%string)
          pet_types in
  let pet_types :=
    given genus (fun v pt => (Py.lower (Inventory.genus pt) =? Py.lower v)%string)
          pet_types in
  let pet_types :=
    given lifespan (fun v pt => match Inventory.lifespan pt with
                                | Some n => Z.of_N n =? v
                                | None => false
                                end)
          pet_types in
  given has_attribute
        (fun v pt => existsb (fun attr => (Py.lower attr =? Py.lower v)%string)
                             (attributes pt))
        pet_types.

Definition get_pet_type (s : State) (pet_type_id : string) : option PetType :=
  MongoStore.get_pet_type s pet_type_id.

Definition delete_pet_type (s : State) (pet_type_id : string) : result unit * State :=
  match MongoStore.get_pet_type s pet_type_id with
  | None => (Throw (ValueError "PET_TYPE_NOT_FOUND"), s)
  | Some pet_type =>
      match PetStore.ptd_pets (type_doc pet_type) with
      | _ :: _ => (Throw (ValueError "PET_TYPE_HAS_PETS"), s)
      | [] => (Return tt, snd (MongoStore.delete_pet_type s pet_type_id))
      end
  end.

Definition add_pet_name_to_type (s : State) (pet_type_id pet_name : string) : State :=
  MongoStore.add_pet_name_to_type s pet_type_id pet_name.

Definition remove_pet_name_from_type (s : State) (pet_type_id pet_name : string) : State :=
  MongoStore.remove_pet_name_from_type s pet_type_id pet_name.

End PetTypeService.

(** app/services/pet_service.py *)
Module PetService.

Definition or_NA (birthdate : option string) : string :=
  if Py.truthy_opt birthdate
  then match birthdate with Some b => b | None => "" end
  else "NA".

(** [birthdate and not validate_date_format(birthdate)] *)
Definition invalid_birthdate (strptime : string -> option Validators.datetime)
           (birthdate : option string) : bool :=
  match birthdate with
  | Some b => Py.truthy b && negb (Validators.validate_date_format strptime b)
  | None => false
  end.

Definition create_pet (strptime : string -> option Validators.datetime)
           (download : PictureService.answer) (timestamp : Z)
           (s : State) (pet_type_id name : string) (birthdate picture_url : option string)
  : result PetJson * State :=
  match MongoStore.get_pet_type s pet_type_id with
  | None => (Throw (ValueError "PET_TYPE_NOT_FOUND"), s)
  | Some pet_type =>
      if MongoStore.pet_exists s pet_type_id name
      then (Throw (ValueError "DUPLICATE_PET_NAME"), s)
      else if invalid_birthdate strptime birthdate
      then (Throw (ValueError "INVALID_BIRTHDATE_FORMAT"), s)
      else
        let picture_filename :=
          if Py.truthy_opt picture_url
          then match PictureService.download_and_save_picture
                       download timestamp name (PetStore.ptd_type (type_doc pet_type)) with
               | Return filename => Return filename
               | Throw (ValueError msg) => Throw (ValueError msg)    (* raise *)
               | Throw _ => Return "NA"
               end
          else Return "NA" in
        match picture_filename with
        | Throw e => (Throw e, s)
        | Return picture_filename =>
            let pet_data := {| data_name := name;
                               data_birthdate := or_NA birthdate;
                               data_picture := picture_filename;
                               data_picture_url := picture_url |} in
            match MongoStore.add_pet s pet_type_id name pet_data with
            | (Throw e, s') => (Throw e, s')
            | (Return _, s') =>
                (Return {| name := data_name pet_data;
                           birthdate := data_birthdate pet_data;
                           picture := data_picture pet_data |},
                 PetTypeService.add_pet_name_to_type s' pet_type_id name)
            end
        end
  end.

(** [pet.get("picture_url") != picture_url] *)
Definition other_url (stored : option string) (picture_url : string) : bool :=
  match stored with
  | Some u => negb (u =? picture_url)%string
  | None => true
  end.

(** The dictionary [pet] is a copy of the stored document: what is assigned
    to it is returned and not stored, and no collection is written. *)
Definition update_pet (strptime : string -> option Validators.datetime)
           (download : PictureService.answer) (timestamp : Z)
           (s : State) (pet_type_id pet_name name : string)
           (birthdate picture_url : option string) : result PetJson :=
  match MongoStore.get_pet_type s pet_type_id with
  | None => Throw (ValueError "PET_TYPE_NOT_FOUND")
  | Some pet_type =>
      if negb (Py.lower name =? Py.lower pet_name)%string
      then Throw (ValueError "NAME_MISMATCH")
      else
        match MongoStore.get_pet_case_insensitive s pet_type_id pet_name with
        | None => Throw (ValueError "PET_NOT_FOUND")
        | Some (pet, actual_name) =>
            if invalid_birthdate strptime birthdate
            then Throw (ValueError "INVALID_BIRTHDATE_FORMAT")
            else
              let pet_birthdate :=
                if Py.truthy_opt birthdate
                then match birthdate with Some b => b | None => "" end
                else PetStore.pd_birthdate (pet_doc pet) in
              let pet_picture :=
                match picture_url with
                | Some url =>
                    if Py.truthy url && other_url (Inventory.picture_url pet) url
                    then match PictureService.download_and_save_picture
                                 download timestamp name
                                 (PetStore.ptd_type (type_doc pet_type)) with
                         | Return new_filename => Return new_filename
                         | Throw (ValueError msg) => Throw (ValueError msg)   (* raise *)
                         | Throw _ => Return (PetStore.pd_picture (pet_doc pet))
                         end
                    else Return (PetStore.pd_picture (pet_doc pet))
                | None => Return (PetStore.pd_picture (pet_doc pet))
                end in
              match pet_picture with
              | Throw e => Throw e
              | Return pet_picture =>
                  Return {| name := PetStore.pd_name (pet_doc pet);
                            birthdate := pet_birthdate;
                            picture := pet_picture |}
              end
        end
  end.

Definition delete_pet (s : State) (pet_type_id pet_name : string) : result unit * State :=
  match MongoStore.get_pet_type s pet_type_id with
  | None => (Throw (ValueError "PET_TYPE_NOT_FOUND"), s)
  | Some _ =>
      match MongoStore.get_pet_case_insensitive s pet_type_id pet_name with
      | None => (Throw (ValueError "PET_NOT_FOUND"), s)
      | Some (_, actual_name) =>
          let s := snd (MongoStore.delete_pet s pet_type_id actual_name) in
          (Return tt, PetTypeService.remove_pet_name_from_type s pet_type_id actual_name)
      end
  end.

End PetService.

(** app/routers/pet_types.py and app/routers/pets.py *)
Module Routers.

Definition is_json (content_type : option string) : bool :=
  Py.contains "application/json" (header_or_empty content_type).

Definition unsupported : reply :=
  {| code := 415; content_of := Detail "error" "Expected application/json media type" |}.

Definition malformed : reply :=
  {| code := 400; content_of := Detail "error" "Malformed data" |}.

Definition not_found : reply :=
  {| code := 404; content_of := Detail "error" "Not found" |}.

(** [text.split(":")[0]] *)
Fixpoint before_colon (text : string) : string :=
  match text with
  | EmptyString => EmptyString
  | String c t => if Ascii.eqb c ":" then EmptyString else String c (before_colon t)
  end.

(** [text.split(":")[1]], for a text with a colon. *)
Fixpoint second_field (text : string) : string :=
  match text with
  | EmptyString => EmptyString
  | String c t => if Ascii.eqb c ":" then before_colon t else second_field t
  end.

Definition create_pet_type (api_key : string) (content_type : option string)
           (pet_type : string) (ninja : NinjaAPI.answer) (inserted_id : Bson.ObjectId)
           (s : State) : result reply * State :=
  if negb (is_json content_type) then (Return unsupported, s)
  else
    match PetTypeService.create_pet_type api_key ninja inserted_id s pet_type with
    | (Return (Some created), s') =>
        (Return {| code := 201; content_of := PetTypeContent created |}, s')
    | (Return None, s') => (Throw (Exception "ResponseValidationError"), s')
    | (Throw (ValueError _), s') => (Return malformed, s')
    | (Throw (RuntimeError error_msg), s') =>
        if Py.contains "API_ERROR:" error_msg
        then (Return {| code := 500;
                        content_of := Detail "server error"
                                        ("API response code " ++ second_field error_msg) |},
              s')
        else (Return {| code := 500; content_of := Detail "server error" error_msg |}, s')
    | (Throw e, s') => (Throw e, s')
    end.

Definition ALLOWED_QUERY_PARAMS : list string :=
  ["id"; "type"; "family"; "genus"; "lifespan"; "hasAttribute"].

(** [query_params] are the keys of the query string, the other arguments
    the values the framework has read from it. *)
Definition get_pet_types (s : State) (query_params : list string)
           (id type family genus : option string) (lifespan : option Z)
           (hasAttribute : option string) : reply :=
  if negb (forallb (fun param => existsb (String.eqb param) ALLOWED_QUERY_PARAMS)
                   query_params)
  then {| code := 200; content_of := PetTypesContent [] |}
  else {| code := 200;
          content_of := PetTypesContent
                          (PetTypeService.get_all_pet_types
                             s id type family genus lifespan hasAttribute) |}.

Definition get_pet_type (s : State) (id : string) : reply :=
  match PetTypeService.get_pet_type s id with
  | None => not_found
  | Some pet_type => {| code := 200; content_of := PetTypeContent pet_type |}
  end.

Definition delete_pet_type (s : State) (id : string) : result reply * State :=
  match PetTypeService.delete_pet_type s id with
  | (Return _, s') => (Return {| code := 204; content_of := NoContent |}, s')
  | (Throw (ValueError error_msg), s') =>
      if (error_msg =? "PET_TYPE_NOT_FOUND")%string
      then (Return not_found, s')
      else (Return malformed, s')
  | (Throw e, s') => (Throw e, s')
  end.

Definition create_pet (strptime : string -> option Validators.datetime)
           (content_type : option string) (id : string) (pet : PetCreate)
           (download : PictureService.answer) (timestamp : Z) (s : State)
  : result reply * State :=
  if negb (is_json content_type) then (Return unsupported, s)
  else
    match PetService.create_pet strptime download timestamp s id
            (new_name pet) (new_birthdate pet) (new_picture_url pet) with
    | (Return created, s') =>
        (Return {| code := 201; content_of := PetContent created |}, s')
    | (Throw (ValueError error_msg), s') =>
        if (error_msg =? "PET_TYPE_NOT_FOUND")%string
        then (Return not_found, s')
        else (Return malformed, s')
    | (Throw e, s') => (Throw e, s')
    end.

Definition update_pet (strptime : string -> option Validators.datetime)
           (content_type : option string) (id name : string) (pet : PetCreate)
           (download : PictureService.answer) (timestamp : Z) (s : State)
  : result reply :=
  if negb (is_json content_type) then Return unsupported
  else
    match PetService.update_pet strptime download timestamp s id name
            (new_name pet) (new_birthdate pet) (new_picture_url pet) with
    | Return updated => Return {| code := 200; content_of := PetContent updated |}
    | Throw (ValueError error_msg) =>
        if ((error_msg =? "PET_TYPE_NOT_FOUND") || (error_msg =? "PET_NOT_FOUND"))%string
        then Return not_found
        else Return malformed
    | Throw e => Throw e
    end.

Definition delete_pet (s : State) (id name : string) : result reply * State :=
  match PetService.delete_pet s id name with
  | (Return _, s') => (Return {| code := 204; content_of := NoContent |}, s')
  | (Throw (ValueError _), s') => (Return not_found, s')
  | (Throw e, s') => (Throw e, s')
  end.

End Routers.

(** A request that may write, with what the outside world does while it is
    served. *)
Inductive request :=
| PostPetType (content_type : option string) (pet_type : string)
              (ninja : NinjaAPI.answer) (inserted_id : Bson.ObjectId)
| DeletePetType (id : string)
| PostPet (content_type : option string) (id : string) (pet : PetCreate)
          (download : PictureService.answer) (timestamp : Z)
| PutPet (content_type : option string) (id name : string) (pet : PetCreate)
         (download : PictureService.answer) (timestamp : Z)
| DeletePet (id name : string).

(** app/main.py: the handler of [RequestValidationError]. *)
Definition validation_exception_handler (content_type : option string) : reply :=
  if negb (Routers.is_json content_type) then Routers.unsupported else Routers.malformed.

(** The routes as the framework serves them, for a body that is a JSON
    object with the fields: a route with a body is entered where the body is
    read as JSON, and the handler of [RequestValidationError] answers
    where it is not. *)
Definition handle (strptime : string -> option Validators.datetime) (api_key : string)
           (r : request) (s : State) : result reply * State :=
  match r with
  | PostPetType content_type pet_type ninja inserted_id =>
      if Fastapi.reads_json content_type
      then Routers.create_pet_type api_key content_type pet_type ninja inserted_id s
      else (Return (validation_exception_handler content_type), s)
  | DeletePetType id => Routers.delete_pet_type s id
  | PostPet content_type id pet download timestamp =>
      if Fastapi.reads_json content_type
      then Routers.create_pet strptime content_type id pet download timestamp s
      else (Return (validation_exception_handler content_type), s)
  | PutPet content_type id name pet download timestamp =>
      if Fastapi.reads_json content_type
      then (Routers.update_pet strptime content_type id name pet download timestamp s, s)
      else (Return (validation_exception_handler content_type), s)
  | DeletePet id name => Routers.delete_pet s id name
  end.

Definition empty : State := {| pet_types_collection := []; pets_collection := [] |}.

End Inventory.

(** The identifier is written as [str] writes identifiers: the routes hand
    out no other.  A string that is read as an identifier of other than
    twelve bytes, as one that is not read, names no document. *)
Definition canonical (id : string) : bool :=
  match Bson.parse id with
  | Some oid => ((Bson.str oid =? id)%string || (2 ^ 96 <=? oid)%N)%bool
  | None => true
  end.

(** What is asked of a request: a new document gets an identifier of twelve
    bytes, and a pet is added under an identifier as the routes write it. *)
Definition admissible (r : Inventory.request) : Prop :=
  match r with
  | Inventory.PostPetType _ _ _ inserted_id => (inserted_id < 2 ^ 96)%N
  | Inventory.PostPet _ id _ _ _ => canonical id = true
  | _ => True
  end.

(** The inventories reached from the empty one by admissible requests,
    whatever the outside world answers. *)
Inductive reachable (strptime : string -> option Validators.datetime) (api_key : string)
  : Inventory.State -> Prop :=
| reachable_empty : reachable strptime api_key Inventory.empty
| reachable_step (s : Inventory.State) (r : Inventory.request) :
    reachable strptime api_key s -> admissible r ->
    reachable strptime api_key (snd (Inventory.handle strptime api_key r s)).

Definition type_id (t : Inventory.PetType) : Bson.ObjectId :=
  PetStore.ptd_id (Inventory.type_doc t).

(** The key the names of pets are compared on: the identifier of the type
    as stored, and the name without its letter case. *)
Definition pet_key (p : Inventory.Pet) : string * string :=
  (PetStore.pd_pet_type_id (Inventory.pet_doc p),
   Py.lower (PetStore.pd_name (Inventory.pet_doc p))).

(** The names of the stored pets of a type, in stored order. *)
Definition names_of_type (s : Inventory.State) (oid : Bson.ObjectId) : list string :=
  map PetStore.pd_name
      (PetStore.MongoStore.get_pets_for_type (Inventory.view s) (Bson.str oid)).

(** The key the names of pet types are compared on. *)
Definition type_key (t : Inventory.PetType) : string :=
  Py.lower (PetStore.ptd_type (Inventory.type_doc t)).

(** The identifiers of the pet types are distinct and of twelve bytes, their
    names differ even without letter case; every pet is of a stored type,
    under the identifier as [str] writes it, and the pets of a type differ
    in name even without letter case; the "pets" of a type are the names of
    its stored pets, in stored order. *)
Record well_formed (s : Inventory.State) : Prop := {
  wf_ids : NoDup (map type_id (Inventory.pet_types_collection s));
  wf_bytes : Forall (fun t => (type_id t < 2 ^ 96)%N) (Inventory.pet_types_collection s);
  wf_type_names : NoDup (map type_key (Inventory.pet_types_collection s));
  wf_types : Forall (fun p => exists t, In t (Inventory.pet_types_collection s)
                                        /\ PetStore.pd_pet_type_id (Inventory.pet_doc p)
                                           = Bson.str (type_id t))
                    (Inventory.pets_collection s);
  wf_names : NoDup (map pet_key (Inventory.pets_collection s));
  wf_pets : Forall (fun t => PetStore.ptd_pets (Inventory.type_doc t)
                             = names_of_type s (type_id t))
                   (Inventory.pet_types_collection s)
}.

(** The inventory of the running example, built by two requests: the pet
    type, as the Ninja Animals API describes it, and the pet. *)
Module Shop.

Definition api_key : string := "key".

Definition poodle : Inventory.NinjaAPI.Animal :=
  {| Inventory.NinjaAPI.animal_name := Some "Poodle";
     Inventory.NinjaAPI.taxonomy_family := Some "Canidae";
     Inventory.NinjaAPI.taxonomy_genus := Some "Canis";
     Inventory.NinjaAPI.temperament := Some "Intelligent, alert, active";
     Inventory.NinjaAPI.group_behavior := None;
     Inventory.NinjaAPI.characteristics_lifespan := Some "12-15 years" |}.

Definition post_poodle : Inventory.request :=
  Inventory.PostPetType Scenario.json "Poodle"
    (Inventory.NinjaAPI.Answered 200 (Inventory.NinjaAPI.Animals [poodle]))
    Scenario.poodle_id.

Definition jamie : Inventory.PetCreate :=
  {| Inventory.new_name := "Jamie";
     Inventory.new_birthdate := Some "24-10-2023";
     Inventory.new_picture_url := None |}.

Definition post_jamie : Inventory.request :=
  Inventory.PostPet Scenario.json (Bson.str Scenario.poodle_id) jamie
    (Inventory.PictureService.NoConnection "") 0.

Definition opened : Inventory.State :=
  snd (Inventory.handle strptime_ddmmyyyy api_key post_poodle Inventory.empty).

Definition stocked : Inventory.State :=
  snd (Inventory.handle strptime_ddmmyyyy api_key post_jamie opened).

Definition rex : Inventory.PetCreate :=
  {| Inventory.new_name := "Rex";
     Inventory.new_birthdate := None;
     Inventory.new_picture_url := None |}.

Definition post_rex : Inventory.request :=
  Inventory.PostPet Scenario.json (Bson.str Scenario.poodle_id) rex
    (Inventory.PictureService.NoConnection "") 0.

(** The inventory with Jamie and Rex. *)
Definition restocked : Inventory.State :=
  snd (Inventory.handle strptime_ddmmyyyy api_key post_rex stocked).

Definition siamese : Inventory.NinjaAPI.Animal :=
  {| Inventory.NinjaAPI.animal_name := Some "Siamese";
     Inventory.NinjaAPI.taxonomy_family := Some "Felidae";
     Inventory.NinjaAPI.taxonomy_genus := Some "Felis";
     Inventory.NinjaAPI.temperament := None;
     Inventory.NinjaAPI.group_behavior := Some "Solitary";
     Inventory.NinjaAPI.characteristics_lifespan := Some "up to 20 years" |}.

Definition post_siamese : Inventory.request :=
  Inventory.PostPetType Scenario.json "siamese"
    (Inventory.NinjaAPI.Answered 200 (Inventory.NinjaAPI.Animals [poodle; siamese]))
    4660%N.

(** The inventory with the poodles, Jamie, and the siamese. *)
Definition enlarged : Inventory.State :=
  snd (Inventory.handle strptime_ddmmyyyy api_key post_siamese stocked).

(** The stored poodle. *)
Definition poodles : Inventory.PetType :=
  {| Inventory.type_doc := {| PetStore.ptd_id := Scenario.poodle_id;
                              PetStore.ptd_type := "Poodle";
                              PetStore.ptd_pets := ["Jamie"] |};
     Inventory.family := "Canidae";
     Inventory.genus := "Canis";
     Inventory.attributes := ["Intelligent"; "alert"; "active"];
     Inventory.lifespan := Some 12%N |}.

End Shop.

(** A stored pet of the type is found under the name: it has the name
    under case-insensitive comparison, or the name followed by a line
    feed. *)
Definition name_taken (s : Inventory.State) (id n : string) : Prop :=
  exists d, In d (PetStore.pets_collection (Inventory.view s))
            /\ PetStore.pd_pet_type_id d = id
            /\ named_as n (PetStore.pd_name d).

(** Jamie is posted once more, in capital letters. *)
Definition post_jamie_again : Inventory.request :=
  Inventory.PostPet Scenario.json (Bson.str Scenario.poodle_id)
    {| Inventory.new_name := "JAMIE";
       Inventory.new_birthdate := None;
       Inventory.new_picture_url := None |}
    (Inventory.PictureService.NoConnection "") 0.

(** Jamie is posted with a content type that names JSON in a parameter
    only. *)
Definition post_jamie_as_text : Inventory.request :=
  Inventory.PostPet (Some "text/plain; x=application/json")
    (Bson.str Scenario.poodle_id) Shop.jamie
    (Inventory.PictureService.NoConnection "") 0.

(** A birthdate is given that is neither empty nor "NA" nor read as a day. *)
Definition birthdate_unreadable (strptime : string -> option Validators.datetime)
           (birthdate : option string) : Prop :=
  exists b, birthdate = Some b /\ b <> "" /\ b <> "NA" /\ strptime b = None.

(** A change of Jamie's birthdate. *)
Definition put_jamie : Inventory.request :=
  Inventory.PutPet Scenario.json (Bson.str Scenario.poodle_id) "jamie"
    {| Inventory.new_name := "JAMIE";
       Inventory.new_birthdate := Some "01-01-2020";
       Inventory.new_picture_url := None |}
    (Inventory.PictureService.NoConnection "") 0.

(** A stored pet type is found under the name: it has the name under
    case-insensitive comparison, or the name followed by a line feed. *)
Definition type_taken (s : Inventory.State) (pet_type : string) : Prop :=
  exists t, In t (Inventory.pet_types_collection s)
            /\ named_as pet_type (PetStore.ptd_type (Inventory.type_doc t)).

(** The animal is named as the type is, under case-insensitive
    comparison. *)
Definition named (pet_type : string) (animal : Inventory.NinjaAPI.Animal) : Prop :=
  equal_ignoring_case
    (Inventory.NinjaAPI.or_empty (Inventory.NinjaAPI.animal_name animal)) pet_type
  = true.

(** A text that may be missing is in ASCII. *)
Definition ascii_text (text : option string) : bool :=
  match text with
  | Some t => Py.isascii t
  | None => true
  end.

(** The Ninja Animals API describes its animals in ASCII: the name and the
    texts the attributes and the lifespan are read from. *)
Definition ascii_animals (ninja : Inventory.NinjaAPI.answer) : Prop :=
  forall status data animal,
    ninja = Inventory.NinjaAPI.Answered status (Inventory.NinjaAPI.Animals data) ->
    In animal data ->
    ascii_text (Inventory.NinjaAPI.animal_name animal) = true
    /\ ascii_text (Inventory.NinjaAPI.temperament animal) = true
    /\ ascii_text (Inventory.NinjaAPI.group_behavior animal) = true
    /\ ascii_text (Inventory.NinjaAPI.characteristics_lifespan animal) = true.

(** The stored pet types have names in ASCII. *)
Definition ascii_types (s : Inventory.State) : Prop :=
  forall t, In t (Inventory.pet_types_collection s) ->
            Py.isascii (PetStore.ptd_type (Inventory.type_doc t)) = true.

(** The poodles are posted once more, in capital letters. *)
Definition post_poodle_again : Inventory.request :=
  Inventory.PostPetType Scenario.json "POODLE"
    (Inventory.NinjaAPI.Answered 200 (Inventory.NinjaAPI.Animals [Shop.poodle]))
    4660%N.

(** The poodles are posted with a content type that names JSON in a
    parameter only. *)
Definition post_poodle_as_text : Inventory.request :=
  Inventory.PostPetType (Some "text/plain; x=application/json") "Poodle"
    (Inventory.NinjaAPI.Answered 200 (Inventory.NinjaAPI.Animals [Shop.poodle]))
    Scenario.poodle_id.

(** The Ninja Animals API when it is out of order. *)
Definition post_poodle_503 : Inventory.request :=
  Inventory.PostPetType Scenario.json "Poodle"
    (Inventory.NinjaAPI.Answered 503 (Inventory.NinjaAPI.NotJson "")) Scenario.poodle_id.

(** The poodles are withdrawn. *)
Definition delete_poodles : Inventory.request :=
  Inventory.DeletePetType (Bson.str Scenario.poodle_id).

(** A character a picture file name is made of: a word character, a hyphen,
    a dot, or white space other than the space. *)
Definition plain (c : ascii) : bool :=
  Validators.is_word c
  || (Validators.is_space c && negb (Ascii.eqb c " "))
  || Ascii.eqb c "-" || Ascii.eqb c ".".

(** * Properties *)

(** The scenario of the purchase interface: the first request buys Jamie from
    inventory 1, an identical second request finds no pet left anywhere. *)
Example first_purchase_then_none :
  let first := Purchases.post Scenario.json Scenario.ana Scenario.world in
  let second := Purchases.post Scenario.json Scenario.ana (snd first) in
  fst first =
    Ok {| status := 201;
          body := PurchaseJson {| resp_purchaser := "Ana"; resp_pet_type := "Poodle";
                                  resp_store := 1; resp_pet_name := "Jamie";
                                  resp_purchase_id := "000000000000000000001000" |} |}
  /\ fst second =
       Ok {| status := 400; body := ErrorJson "No pet of this type is available" |}
  /\ List.length (transactions (snd second)) = 1%nat.
Proof. vm_compute. repeat split. Qed.

(** ** How the operations move the world *)

Lemma bind_ok {A B} (m : M A) (k : A -> M B) w a w1 :
  m w = (Ok a, w1) -> bind m k w = k a w1.
Proof. intros H. unfold bind. rewrite H. reflexivity. Qed.

Lemma bind_raise {A B} (m : M A) (k : A -> M B) w e w1 :
  m w = (Raise e, w1) -> bind m k w = (Raise e, w1).
Proof. intros H. unfold bind. rewrite H. reflexivity. Qed.

Lemma bind_inv {A B} (m : M A) (k : A -> M B) w r w2 :
  bind m k w = (r, w2) ->
  (exists a w1, m w = (Ok a, w1) /\ k a w1 = (r, w2))
  \/ (exists e, m w = (Raise e, w2) /\ r = Raise e).
Proof.
  unfold bind. destruct (m w) as [[a|e] w1]; intros H.
  - left. exists a, w1. split; [reflexivity | exact H].
  - right. exists e. inversion H; subst. split; reflexivity.
Qed.

Lemma calls_only_weaken stores stores' evs :
  incl stores stores' -> calls_only stores evs -> calls_only stores' evs.
Proof.
  intros Hi H. unfold calls_only in *. rewrite Forall_forall in *.
  intros e He. destruct (H e He) as [c [-> Hc]]. exists c. split; auto.
Qed.

Lemma only_called_refl stores w : only_called stores w w.
Proof.
  repeat split. exists []. split; [now rewrite app_nil_r | constructor].
Qed.

Lemma only_called_trans s1 s2 w w1 w2 :
  only_called s1 w w1 -> only_called s2 w1 w2 -> only_called (s1 ++ s2) w w2.
Proof.
  intros (N1 & T1 & F1 & I1 & e1 & E1 & C1) (N2 & T2 & F2 & I2 & e2 & E2 & C2).
  repeat split; try congruence.
  exists (e1 ++ e2). split.
  - rewrite E2, E1. now rewrite app_assoc.
  - apply Forall_app. split.
    + eapply calls_only_weaken; [| exact C1]. apply incl_appl, incl_refl.
    + eapply calls_only_weaken; [| exact C2]. apply incl_appr, incl_refl.
Qed.

Lemma only_called_same s w w1 w2 :
  only_called [s] w w1 -> only_called [s] w1 w2 -> only_called [s] w w2.
Proof.
  intros H1 H2. pose proof (only_called_trans _ _ _ _ _ H1 H2) as H.
  destruct H as (N & T & F & I & evs & E & C).
  repeat split; auto. exists evs. split; auto.
  eapply calls_only_weaken; [| exact C].
  intros x [<-|[<-|[]]]; now left.
Qed.

Lemma only_called_weaken stores stores' w w' :
  incl stores stores' -> only_called stores w w' -> only_called stores' w w'.
Proof.
  intros Hi (N & T & F & I & evs & E & C). repeat split; auto.
  exists evs. split; auto. eapply calls_only_weaken; eauto.
Qed.

Lemma only_called_log c w : only_called [call_store c] w (log (Http c) w).
Proof.
  repeat split. exists [Http c]. split; [reflexivity|].
  constructor; [|constructor]. exists c. split; [reflexivity | now left].
Qed.

Lemma send_only_called {A} c (answer : Network -> list event -> http_result A) w r w' :
  send c answer w = (r, w') -> only_called [call_store c] w w'.
Proof.
  unfold send. destruct (answer (network w) (trace w)); intros H; inversion H; subst;
    apply only_called_log.
Qed.

Lemma random_choice_only_called {A} (seq : list A) s w r w' :
  random_choice seq w = (r, w') -> only_called [s] w w'.
Proof.
  unfold random_choice.
  destruct (nth_error seq _); intros H; inversion H; subst.
  - repeat split. exists []. simpl. split; [now rewrite app_nil_r | constructor].
  - apply only_called_refl.
Qed.

(** Unfolds one client operation down to the answer of the network. *)
Ltac client_cases store :=
  unfold PetStoreClient.base_url, bind, send, ret, raise in *;
  destruct (PetStoreClient.PET_STORE_URLS store);
  [ match goal with
    | |- context [ match ?a with Response _ _ => _ | TransportFailure => _ end ] =>
        destruct a as [status payload|]
    end
  | ].

Lemma get_pet_types_only_called store w r w' :
  PetStoreClient.get_pet_types store w = (r, w') -> only_called [store] w w'.
Proof.
  unfold PetStoreClient.get_pet_types. client_cases store; simpl.
  - destruct (status =? 200); intros H; inversion H; subst;
      apply (only_called_log (GetPetTypes store)).
  - intros H; inversion H; subst. apply (only_called_log (GetPetTypes store)).
  - intros H; inversion H; subst. apply only_called_refl.
Qed.

Lemma find_pet_type_id_only_called store n w r w' :
  PetStoreClient.find_pet_type_id store n w = (r, w') -> only_called [store] w w'.
Proof.
  unfold PetStoreClient.find_pet_type_id. intros H.
  apply bind_inv in H. destruct H as [(a & w1 & H1 & H2) | (e & H1 & _)].
  - inversion H2; subst. eapply get_pet_types_only_called; eauto.
  - eapply get_pet_types_only_called; eauto.
Qed.

Lemma get_pets_for_type_only_called store id w r w' :
  PetStoreClient.get_pets_for_type store id w = (r, w') -> only_called [store] w w'.
Proof.
  unfold PetStoreClient.get_pets_for_type. client_cases store; simpl.
  - destruct (status =? 200); intros H; inversion H; subst;
      apply (only_called_log (GetPetsForType store id)).
  - intros H; inversion H; subst. apply (only_called_log (GetPetsForType store id)).
  - intros H; inversion H; subst. apply only_called_refl.
Qed.

Lemma get_pet_only_called store id n w r w' :
  PetStoreClient.get_pet store id n w = (r, w') -> only_called [store] w w'.
Proof.
  unfold PetStoreClient.get_pet. client_cases store; simpl.
  - destruct (status =? 200); intros H; inversion H; subst;
      apply (only_called_log (GetPet store id n)).
  - intros H; inversion H; subst. apply (only_called_log (GetPet store id n)).
  - intros H; inversion H; subst. apply only_called_refl.
Qed.

Lemma delete_pet_only_called store id n w r w' :
  PetStoreClient.delete_pet store id n w = (r, w') -> only_called [store] w w'.
Proof.
  unfold PetStoreClient.delete_pet. client_cases store; simpl.
  - intros H; inversion H; subst. apply (only_called_log (DeletePet store id n)).
  - intros H; inversion H; subst. apply (only_called_log (DeletePet store id n)).
  - intros H; inversion H; subst. apply only_called_refl.
Qed.

(** ** The inventory client *)

Lemma first_type_match_first listing type_name :
  (exists before pt after,
      listing = before ++ pt :: after
      /\ (forall q, In q before -> same_type_ignoring_case type_name q = false)
      /\ same_type_ignoring_case type_name pt = true
      /\ PetStoreClient.first_type_match listing (Py.lower type_name) = pt_id pt)
  \/ ((forall q, In q listing -> same_type_ignoring_case type_name q = false)
      /\ PetStoreClient.first_type_match listing (Py.lower type_name) = None).
Proof.
  induction listing as [|pt rest IH]; simpl.
  - right. split; [intros q [] | reflexivity].
  - destruct (same_type_ignoring_case type_name pt) eqn:E.
    + left. exists [], pt, rest. unfold same_type_ignoring_case in E.
      rewrite E. repeat split; auto. intros q [].
    + pose proof E as E'. unfold same_type_ignoring_case in E'. rewrite E'.
      destruct IH as [(before & p & after & -> & Hb & Hp & Hr) | (Hall & Hr)].
      * left. exists (pt :: before), p, after. repeat split; auto.
        intros q [<-|Hq]; auto.
      * right. split; auto. intros q [<-|Hq]; auto.
Qed.

Lemma nat_of_ascii_eqb (a b : ascii) :
  Ascii.eqb a b = Nat.eqb (nat_of_ascii a) (nat_of_ascii b).
Proof.
  destruct (Ascii.eqb_spec a b) as [->|Hne].
  - now rewrite Nat.eqb_refl.
  - symmetry. apply Nat.eqb_neq. intros H. apply Hne.
    rewrite <- (ascii_nat_embedding a), <- (ascii_nat_embedding b). now rewrite H.
Qed.

Lemma nat_of_lower_ascii (c : ascii) :
  nat_of_ascii (Py.lower_ascii c)
  = if ((65 <=? nat_of_ascii c) && (nat_of_ascii c <=? 90))%nat
    then (nat_of_ascii c + 32)%nat else nat_of_ascii c.
Proof.
  unfold Py.lower_ascii.
  destruct (Nat.leb_spec 65 (nat_of_ascii c)); destruct (Nat.leb_spec (nat_of_ascii c) 90);
    cbn [andb]; try reflexivity.
  apply nat_ascii_embedding. lia.
Qed.

Lemma lower_ascii_same_letter (a b : ascii) :
  Ascii.eqb (Py.lower_ascii a) (Py.lower_ascii b) = same_letter a b.
Proof.
  rewrite nat_of_ascii_eqb, !nat_of_lower_ascii. unfold same_letter.
  pose proof (nat_ascii_bounded a). pose proof (nat_ascii_bounded b).
  destruct (Nat.leb_spec 65 (nat_of_ascii a)); destruct (Nat.leb_spec (nat_of_ascii a) 90);
    destruct (Nat.leb_spec 65 (nat_of_ascii b)); destruct (Nat.leb_spec (nat_of_ascii b) 90);
    cbn [andb orb];
    repeat match goal with
           | |- context [Nat.eqb ?x ?y] => destruct (Nat.eqb_spec x y)
           end; cbn [andb orb]; try reflexivity; lia.
Qed.

Lemma lower_equal_ignoring_case (s t : string) :
  (Py.lower s =? Py.lower t)%string = equal_ignoring_case s t.
Proof.
  revert t. induction s as [|a s IH]; intros [|b t]; try reflexivity.
  cbn [Py.lower equal_ignoring_case String.eqb].
  rewrite lower_ascii_same_letter, IH.
  destruct (same_letter a b); reflexivity.
Qed.

(** C7. For a configured inventory that answers [GET /pet-types], and names
    in ASCII (the requested one and the listed ones), [find_pet_type_id]
    makes that one request and returns the ["id"] of the first listed pet
    type whose ["type"] equals the requested name under case-insensitive
    comparison, in the order of the listing; it returns [None] when no
    listed pet type matches, in particular when the listing is empty (a
    status other than 200 is an empty listing). *)
Theorem find_pet_type_id_first_match :
  forall (w : World) (store : Z) (type_name : string) (status : Z)
         (answer : list PetTypeJson),
    PetStoreClient.PET_STORE_URLS store <> None ->
    on_get_pet_types (network w) (trace w) store = Response status answer ->
    let listing := if status =? 200 then answer else [] in
    Py.isascii type_name = true ->
    (forall q, In q listing -> Py.isascii (listed_type q) = true) ->
    exists result,
      PetStoreClient.find_pet_type_id store type_name w
      = (Ok result, log (Http (GetPetTypes store)) w)
      /\ ((exists before pt after,
              listing = before ++ pt :: after
              /\ (forall q, In q before ->
                            equal_ignoring_case (listed_type q) type_name = false)
              /\ equal_ignoring_case (listed_type pt) type_name = true
              /\ result = pt_id pt)
          \/ ((forall q, In q listing ->
                          equal_ignoring_case (listed_type q) type_name = false)
              /\ result = None))
      /\ (listing = [] -> result = None).
Proof.
  intros w store type_name status answer Hcfg Hnet listing _ _.
  exists (PetStoreClient.first_type_match listing (Py.lower type_name)).
  split; [|split].
  - unfold PetStoreClient.find_pet_type_id, PetStoreClient.get_pet_types,
      PetStoreClient.base_url, bind, send, ret.
    destruct (PetStoreClient.PET_STORE_URLS store); [|congruence].
    rewrite Hnet. simpl. subst listing. destruct (status =? 200); reflexivity.
  - destruct (first_type_match_first listing type_name)
      as [(before & pt & after & H1 & H2 & H3 & H4) | (H1 & H2)].
    + left. exists before, pt, after. unfold same_type_ignoring_case in *.
      fold (listed_type pt) in H3. rewrite lower_equal_ignoring_case in H3.
      repeat split; auto.
      intros q Hq. rewrite <- lower_equal_ignoring_case. exact (H2 q Hq).
    + right. split; auto. intros q Hq. rewrite <- lower_equal_ignoring_case.
      exact (H1 q Hq).
  - intros ->. reflexivity.
Qed.

(** The same on the running example: asked for "pOODLE", the client finds
    the identifier of the listed type "Poodle". *)
Lemma find_pet_type_id_first_match_witness :
  PetStoreClient.PET_STORE_URLS 1 <> None
  /\ on_get_pet_types (network Scenario.world) (trace Scenario.world) 1
     = Response 200 [ {| pt_id := Some "0000000000000000000004d2";
                         pt_type := Some "Poodle" |} ]
  /\ Py.isascii "pOODLE" = true
  /\ (forall q, In q [ {| pt_id := Some "0000000000000000000004d2";
                          pt_type := Some "Poodle" |} ] ->
                Py.isascii (listed_type q) = true)
  /\ PetStoreClient.find_pet_type_id 1 "pOODLE" Scenario.world
     = (Ok (Some "0000000000000000000004d2"), log (Http (GetPetTypes 1)) Scenario.world).
Proof.
  assert (Hcfg : PetStoreClient.PET_STORE_URLS 1 <> None) by discriminate.
  assert (Hnet : on_get_pet_types (network Scenario.world) (trace Scenario.world) 1
                 = Response 200 [ {| pt_id := Some "0000000000000000000004d2";
                                     pt_type := Some "Poodle" |} ]) by reflexivity.
  assert (Hname : Py.isascii "pOODLE" = true) by reflexivity.
  assert (Hlisted : forall q, In q [ {| pt_id := Some "0000000000000000000004d2";
                                        pt_type := Some "Poodle" |} ] ->
                              Py.isascii (listed_type q) = true).
  { intros q [<-|[]]. reflexivity. }
  split; [exact Hcfg | split; [exact Hnet | split; [exact Hname | split; [exact Hlisted |]]]].
  destruct (find_pet_type_id_first_match Scenario.world 1 "pOODLE" 200 _
              Hcfg Hnet Hname Hlisted) as (result & Hrun & Hfirst & _).
  rewrite Hrun. f_equal. f_equal.
  destruct Hfirst as [(before & pt & after & Hsplit & _ & _ & ->) | (Hnone & _)].
  - destruct before as [|q before]; simpl in Hsplit.
    + injection Hsplit as <- _. reflexivity.
    + injection Hsplit as _ Hrest. destruct before; discriminate.
  - specialize (Hnone _ (or_introl eq_refl)). discriminate.
Defined.

(** C5, as the specification has it, fails when the inventory cannot be
    reached: [delete_pet] does not report failure, the exception of the HTTP
    library leaves it. *)
Lemma delete_pet_unreachable_raises :
  fst (PetStoreClient.delete_pet 1 "0000000000000000000004d2" "Jamie" Scenario.unreachable)
  = Raise HTTPError
  /\ fst (PetStoreClient.delete_pet 1 "0000000000000000000004d2" "Jamie" Scenario.unreachable)
     <> Ok false.
Proof. split; [reflexivity | discriminate]. Qed.

(** C5, amended. For a configured inventory, when the backend answers the
    [DELETE] request, [delete_pet] returns [true] exactly when the status is
    200 or 204 and [false] for every other status, without raising; when no
    response arrives, the transport exception is raised to the caller.  The
    request is made once in both cases. *)
Theorem delete_pet_success_iff_200_or_204 :
  forall (w : World) (store : Z) (pet_type_id pet_name : string),
    PetStoreClient.PET_STORE_URLS store <> None ->
    match on_delete_pet (network w) (trace w) store pet_type_id pet_name with
    | Response status _ =>
        exists success,
          PetStoreClient.delete_pet store pet_type_id pet_name w
          = (Ok success, log (Http (DeletePet store pet_type_id pet_name)) w)
          /\ (success = true <-> status = 200 \/ status = 204)
    | TransportFailure =>
        PetStoreClient.delete_pet store pet_type_id pet_name w
        = (Raise HTTPError, log (Http (DeletePet store pet_type_id pet_name)) w)
    end.
Proof.
  intros w store id n Hcfg.
  unfold PetStoreClient.delete_pet, PetStoreClient.base_url, bind, send, ret.
  destruct (PetStoreClient.PET_STORE_URLS store); [|congruence].
  destruct (on_delete_pet (network w) (trace w) store id n) as [status []|]; simpl.
  - exists ((status =? 200) || (status =? 204))%bool. split; [reflexivity|].
    rewrite orb_true_iff, !Z.eqb_eq. tauto.
  - reflexivity.
Qed.

(** The same on the running example. *)
Lemma delete_pet_success_iff_200_or_204_witness :
  PetStoreClient.PET_STORE_URLS 1 <> None
  /\ (exists success,
         PetStoreClient.delete_pet 1 "0000000000000000000004d2" "Jamie" Scenario.race_lost
         = (Ok success,
            log (Http (DeletePet 1 "0000000000000000000004d2" "Jamie")) Scenario.race_lost)
         /\ (success = true <-> 404 = 200 \/ 404 = 204)).
Proof.
  split; [discriminate |].
  exact (delete_pet_success_iff_200_or_204 Scenario.race_lost 1
           "0000000000000000000004d2" "Jamie" ltac:(discriminate)).
Defined.

Lemma lower_app (a b : string) : Py.lower (a ++ b) = (Py.lower a ++ Py.lower b)%string.
Proof. induction a as [|c a IH]; simpl; [reflexivity | now rewrite IH]. Qed.

Lemma like_named_as (requested stored : string) :
  PetStore.MongoStore.like requested stored = true <-> named_as requested stored.
Proof.
  unfold PetStore.MongoStore.like, named_as.
  rewrite orb_true_iff, <- !lower_equal_ignoring_case, lower_app. reflexivity.
Qed.

(** C6, as the specification has it, fails.  The inventory service looks the
    pet up with letter case ignored, so a request for "jamie" is answered
    with the stored pet "Jamie" and [get_pet] returns it; its pattern also
    finds a stored name that ends in a line feed.  And an error is not
    always [None]: when no response arrives, the exception of the HTTP
    library leaves [get_pet]. *)
Lemma get_pet_other_case_or_raises :
  (fst (PetStoreClient.get_pet 1 (Bson.str Scenario.poodle_id) "jamie" Scenario.world)
   = Ok (Some {| name := "Jamie"; birthdate := "24-10-2023"; picture := "NA" |})
   /\ "Jamie" <> "jamie")
  /\ (fst (PetStoreClient.get_pet 1 (Bson.str Scenario.poodle_id) "Jamie" Scenario.world_lf)
      = Ok (Some {| name := Scenario.jamie_lf; birthdate := "24-10-2023"; picture := "NA" |})
      /\ Scenario.jamie_lf <> "Jamie")
  /\ (fst (PetStoreClient.get_pet 1 (Bson.str Scenario.poodle_id) "Jamie" Scenario.unreachable)
      = Raise HTTPError
      /\ fst (PetStoreClient.get_pet 1 (Bson.str Scenario.poodle_id) "Jamie"
                Scenario.unreachable)
         <> Ok None).
Proof.
  split; [split; [vm_compute; reflexivity | discriminate]|].
  split; [split; [vm_compute; reflexivity | discriminate]|].
  split; [reflexivity | discriminate].
Qed.

(** C6, amended. For a configured inventory, [get_pet] makes one request; a
    response with a status other than 200 yields [None], and when no
    response arrives the transport exception is raised to the caller.  When
    the request is resolved by the inventory service's own lookup (the type
    id and the name being plain segments of a path, the stored names in
    ASCII), [get_pet] returns a pet only when a stored pet of that type has
    the requested name under case-insensitive comparison, or that name
    followed by a line feed, the returned pet being that stored pet under
    its stored name; it returns [None] exactly when the pet type is unknown
    or no stored pet of the type has such a name. *)
Theorem get_pet_matches_ignoring_case :
  forall (w : World) (store : Z) (pet_type_id pet_name : string),
    PetStoreClient.PET_STORE_URLS store <> None ->
    (forall status payload,
        on_get_pet (network w) (trace w) store pet_type_id pet_name
        = Response status payload ->
        status <> 200 ->
        PetStoreClient.get_pet store pet_type_id pet_name w
        = (Ok None, log (Http (GetPet store pet_type_id pet_name)) w))
    /\ (on_get_pet (network w) (trace w) store pet_type_id pet_name = TransportFailure ->
        PetStoreClient.get_pet store pet_type_id pet_name w
        = (Raise HTTPError, log (Http (GetPet store pet_type_id pet_name)) w))
    /\ (forall (stray : PetStore.Stray) (inventory : PetStore.Store),
           Url.plain pet_type_id = true ->
           Url.plain pet_name = true ->
           (forall doc, In doc (PetStore.pets_collection inventory) ->
                        Py.isascii (PetStore.pd_name doc) = true) ->
           on_get_pet (network w) (trace w) store pet_type_id pet_name
           = PetStore.get_pet_at stray inventory pet_type_id pet_name ->
           exists result,
             PetStoreClient.get_pet store pet_type_id pet_name w
             = (Ok result, log (Http (GetPet store pet_type_id pet_name)) w)
             /\ (forall pet, result = Some pet ->
                   exists doc,
                     In doc (PetStore.pets_collection inventory)
                     /\ PetStore.pd_pet_type_id doc = pet_type_id
                     /\ named_as pet_name (PetStore.pd_name doc)
                     /\ pet = PetStore.pet_response doc)
             /\ (result = None <->
                 PetStore.MongoStore.get_pet_type inventory pet_type_id = None
                 \/ forall doc, In doc (PetStore.pets_collection inventory) ->
                      ~ (PetStore.pd_pet_type_id doc = pet_type_id
                         /\ named_as pet_name (PetStore.pd_name doc)))).
Proof.
  intros w store id n Hcfg. split; [|split].
  - intros status payload Hnet Hst.
    unfold PetStoreClient.get_pet, PetStoreClient.base_url, bind, send, ret.
    destruct (PetStoreClient.PET_STORE_URLS store); [|congruence].
    rewrite Hnet. simpl. destruct (Z.eqb_spec status 200); [contradiction | reflexivity].
  - intros Hnet.
    unfold PetStoreClient.get_pet, PetStoreClient.base_url, bind, send, ret.
    destruct (PetStoreClient.PET_STORE_URLS store); [|congruence].
    rewrite Hnet. reflexivity.
  - intros stray inventory Hid Hn _ Hnet.
    unfold PetStore.get_pet_at in Hnet. rewrite Hid, Hn in Hnet. cbn [andb] in Hnet.
    unfold PetStoreClient.get_pet, PetStoreClient.base_url, bind, send, ret.
    destruct (PetStoreClient.PET_STORE_URLS store); [|congruence].
    rewrite Hnet.
    unfold PetStore.Routers.get_pet, PetStore.PetService.get_pet,
      PetStore.MongoStore.get_pet_case_insensitive.
    destruct (PetStore.MongoStore.get_pet_type inventory id) as [ty|] eqn:Ety.
    + destruct (find (PetStore.MongoStore.same_pet_ignoring_case id n)
                  (PetStore.pets_collection inventory)) as [doc|] eqn:Efind; simpl.
      * apply find_some in Efind. destruct Efind as [Hin Hsame].
        unfold PetStore.MongoStore.same_pet_ignoring_case in Hsame.
        apply andb_true_iff in Hsame. destruct Hsame as [Htid Hname].
        apply String.eqb_eq in Htid. apply like_named_as in Hname.
        eexists. split; [reflexivity|]. split.
        -- intros pet Hpet. inversion Hpet; subst. exists doc. auto.
        -- split; [discriminate|].
           intros [Hno | Hno]; [discriminate|].
           exfalso. apply (Hno doc Hin). auto.
      * eexists. split; [reflexivity|]. split; [discriminate|].
        split; [|reflexivity]. intros _. right. intros doc Hin [Htid Hname].
        pose proof (find_none _ _ Efind doc Hin) as Hf.
        unfold PetStore.MongoStore.same_pet_ignoring_case in Hf.
        apply like_named_as in Hname.
        rewrite <- Htid, String.eqb_refl, Hname in Hf. discriminate.
    + simpl. eexists. split; [reflexivity|]. split; [discriminate|].
      split; [|reflexivity]. intros _. now left.
Qed.

(** The same on the running example: a 404 of inventory 2, no response, and
    the lookup of "jamie" in inventory 1, which returns the stored "Jamie". *)
Lemma get_pet_matches_ignoring_case_witness :
  PetStoreClient.PET_STORE_URLS 1 <> None
  /\ (on_get_pet (network Scenario.race_lost) (trace Scenario.race_lost) 2
        (Bson.str Scenario.poodle_id) "jamie"
      = Response 404 None
      /\ 404 <> 200
      /\ PetStoreClient.get_pet 2 (Bson.str Scenario.poodle_id) "jamie" Scenario.race_lost
         = (Ok None,
            log (Http (GetPet 2 (Bson.str Scenario.poodle_id) "jamie")) Scenario.race_lost))
  /\ (on_get_pet (network Scenario.unreachable) (trace Scenario.unreachable) 1
        (Bson.str Scenario.poodle_id) "jamie"
      = TransportFailure
      /\ PetStoreClient.get_pet 1 (Bson.str Scenario.poodle_id) "jamie" Scenario.unreachable
         = (Raise HTTPError,
            log (Http (GetPet 1 (Bson.str Scenario.poodle_id) "jamie")) Scenario.unreachable))
  /\ Url.plain (Bson.str Scenario.poodle_id) = true
  /\ Url.plain "jamie" = true
  /\ (forall doc, In doc (PetStore.pets_collection Scenario.store1) ->
                  Py.isascii (PetStore.pd_name doc) = true)
  /\ on_get_pet (network Scenario.world) (trace Scenario.world) 1
       (Bson.str Scenario.poodle_id) "jamie"
     = PetStore.get_pet_at Scenario.lost Scenario.store1 (Bson.str Scenario.poodle_id) "jamie"
  /\ PetStoreClient.get_pet 1 (Bson.str Scenario.poodle_id) "jamie" Scenario.world
     = (Ok (Some {| name := "Jamie"; birthdate := "24-10-2023"; picture := "NA" |}),
        log (Http (GetPet 1 (Bson.str Scenario.poodle_id) "jamie")) Scenario.world).
Proof.
  assert (C1 : PetStoreClient.PET_STORE_URLS 1 <> None) by discriminate.
  assert (C2 : PetStoreClient.PET_STORE_URLS 2 <> None) by discriminate.
  assert (N404 : 404 <> 200) by discriminate.
  assert (Hid : Url.plain (Bson.str Scenario.poodle_id) = true) by reflexivity.
  assert (Hn : Url.plain "jamie" = true) by reflexivity.
  assert (Hascii : forall doc, In doc (PetStore.pets_collection Scenario.store1) ->
                               Py.isascii (PetStore.pd_name doc) = true).
  { intros doc [<-|[]]. reflexivity. }
  split; [exact C1|]. split; [|split].
  - split; [reflexivity|]. split; [exact N404|].
    exact (proj1 (get_pet_matches_ignoring_case Scenario.race_lost 2
                    (Bson.str Scenario.poodle_id) "jamie" C2)
             404 None eq_refl N404).
  - split; [reflexivity|].
    exact (proj1 (proj2 (get_pet_matches_ignoring_case Scenario.unreachable 1
                           (Bson.str Scenario.poodle_id) "jamie" C1))
             eq_refl).
  - split; [exact Hid|]. split; [exact Hn|]. split; [exact Hascii|].
    split; [reflexivity|].
    destruct (proj2 (proj2 (get_pet_matches_ignoring_case Scenario.world 1
                              (Bson.str Scenario.poodle_id) "jamie" C1))
                Scenario.lost Scenario.store1 Hid Hn Hascii eq_refl)
      as (result & Hrun & Hsome & Hnone).
    rewrite Hrun. f_equal. f_equal.
    destruct result as [pet|].
    + destruct (Hsome pet eq_refl) as (doc & [<-|[]] & _ & _ & ->). reflexivity.
    + exfalso. destruct (proj1 Hnone eq_refl) as [Hty | Hno].
      * vm_compute in Hty. discriminate.
      * apply (Hno _ (or_introl eq_refl)). split; [reflexivity|]. left. reflexivity.
Defined.

(** ** The ledger and its query *)

Lemma holds_iff {A} (eqb : A -> A -> bool) (cond : option A) (v : A) :
  (forall x y, eqb x y = true <-> x = y) ->
  Collection.holds cond eqb v = true <-> (forall x, cond = Some x -> v = x).
Proof.
  intros Heq. destruct cond as [x|]; simpl.
  - rewrite Heq. split; [intros -> y Hy; congruence | auto].
  - split; [discriminate | reflexivity].
Qed.

Lemma matches_iff store pet_type purchaser oid d :
  Collection.matches {| q_store := store; q_pet_type := pet_type;
                        q_purchaser := purchaser; q_id := oid |} d = true
  <-> (forall s, store = Some s -> doc_store d = s)
      /\ (forall t, pet_type = Some t -> doc_pet_type d = t)
      /\ (forall p, purchaser = Some p -> doc_purchaser d = p)
      /\ (forall i, oid = Some i -> doc_id d = i).
Proof.
  unfold Collection.matches. simpl. rewrite !andb_true_iff.
  rewrite (holds_iff Z.eqb), (holds_iff String.eqb), (holds_iff String.eqb),
    (holds_iff N.eqb);
    [tauto | apply N.eqb_eq | apply String.eqb_eq | apply String.eqb_eq | apply Z.eqb_eq].
Qed.

(** [get_transactions] never raises, leaves the ledger as it was and returns
    the stored transactions that satisfy the filters. *)
Lemma get_transactions_matching w store pet_type purchaser purchase_id :
  exists l w',
    PurchaseService.get_transactions store pet_type purchaser purchase_id w = (Ok l, w')
    /\ transactions w' = transactions w
    /\ (forall t, In t l <->
          exists d, In d (transactions w)
                    /\ satisfies store pet_type purchaser purchase_id d
                    /\ t = PurchaseService.to_transaction d).
Proof.
  unfold PurchaseService.get_transactions, satisfies.
  destruct purchase_id as [i|]; [destruct (Bson.parse i) as [oid|] eqn:Ei |];
    unfold bind, Collection.find, ret; simpl.
  - eexists; eexists. split; [reflexivity|]. split; [reflexivity|].
    intros t. rewrite in_map_iff. split.
    + intros (d & <- & Hd). apply filter_In in Hd. destruct Hd as [Hin Hm].
      apply matches_iff in Hm. destruct Hm as (H1 & H2 & H3 & H4).
      exists d. repeat split; auto. intros j Hj. inversion Hj; subst.
      rewrite Ei. f_equal. symmetry. apply H4. reflexivity.
    + intros (d & Hin & (H1 & H2 & H3 & H4) & ->). exists d. split; [reflexivity|].
      apply filter_In. split; auto. apply matches_iff. repeat split; auto.
      intros j Hj. inversion Hj; subst. specialize (H4 i eq_refl). congruence.
  - exists [], w. split; [reflexivity|]. split; [reflexivity|].
    intros t. split; [intros [] |].
    intros (d & _ & (_ & _ & _ & H4) & _). specialize (H4 i eq_refl). congruence.
  - eexists; eexists. split; [reflexivity|]. split; [reflexivity|].
    intros t. rewrite in_map_iff. split.
    + intros (d & <- & Hd). apply filter_In in Hd. destruct Hd as [Hin Hm].
      apply matches_iff in Hm. destruct Hm as (H1 & H2 & H3 & H4).
      exists d. repeat split; auto. discriminate.
    + intros (d & Hin & (H1 & H2 & H3 & H4) & ->). exists d. split; [reflexivity|].
      apply filter_In. split; auto. apply matches_iff. repeat split; auto. discriminate.
Qed.

(** C8. When the purchase-id filter is not a valid object identifier,
    [get_transactions] returns the empty list without raising and without
    reading the ledger, whatever the other filters and the ledger hold; the
    route answers 200 with an empty array. *)
Theorem get_transactions_unparsable_id_empty :
  forall (w : World) (store : option Z) (pet_type purchaser : option string)
         (purchase_id : string),
    Bson.parse purchase_id = None ->
    PurchaseService.get_transactions store pet_type purchaser (Some purchase_id) w
    = (Ok [], w)
    /\ Transactions.list_transactions (Some Transactions.OWNER_PC_SECRET)
         store pet_type purchaser (Some purchase_id) w
       = (Ok {| status := 200; body := TransactionsJson [] |}, w).
Proof.
  intros w store pet_type purchaser i Hi.
  assert (H : PurchaseService.get_transactions store pet_type purchaser (Some i) w
              = (Ok [], w)).
  { unfold PurchaseService.get_transactions. rewrite Hi. reflexivity. }
  split; [exact H|].
  unfold Transactions.list_transactions. simpl.
  rewrite (bind_ok _ _ _ _ _ H). reflexivity.
Qed.

(** The same on the running example, for a text that is too short. *)
Lemma get_transactions_unparsable_id_empty_witness :
  Bson.parse "not-an-id" = None
  /\ PurchaseService.get_transactions (Some 2) None (Some "Ana") (Some "not-an-id")
       Scenario.world
     = (Ok [], Scenario.world)
  /\ Transactions.list_transactions (Some Transactions.OWNER_PC_SECRET)
       (Some 2) None (Some "Ana") (Some "not-an-id") Scenario.world
     = (Ok {| status := 200; body := TransactionsJson [] |}, Scenario.world).
Proof.
  split; [reflexivity|].
  apply (get_transactions_unparsable_id_empty Scenario.world (Some 2) None (Some "Ana")
           "not-an-id").
  reflexivity.
Defined.

(** What is not a valid object identifier: a text of another length than
    24, and a text of that length in which a character is neither a
    hexadecimal digit nor white space, or in which white space parts the two
    digits of a byte.  A text of 24 characters that [bytes.fromhex] reads is
    one, also when white space makes it shorter than twelve bytes: the
    ledger is then read, and nothing is found under it. *)
Example object_id_examples :
  Bson.parse "not-an-id" = None
  /\ Bson.parse "00000000000000000000100g" = None
  /\ Bson.parse "0 0000000000000000001000" = None
  /\ Bson.parse "000000000000000000001000" = Some 4096%N
  /\ Bson.parse "00000000000000000000100A" = Some 4106%N
  /\ (exists oid, Bson.parse "00 00 00 00 00 00 00 00 " = Some oid /\ (2 ^ 96 <= oid)%N)
  /\ PurchaseService.get_transactions None None None (Some "00 00 00 00 00 00 00 00 ")
       after_first_purchase
     = (Ok [],
        log (LedgerFind {| q_store := None; q_pet_type := None; q_purchaser := None;
                           q_id := Bson.parse "00 00 00 00 00 00 00 00 " |})
          after_first_purchase).
Proof.
  repeat (split; [reflexivity|]).
  split; [eexists; split; [reflexivity | vm_compute; discriminate]|].
  reflexivity.
Qed.

(** C9. When the [OwnerPC] header is missing or is not the configured
    secret, [GET /transactions] answers 401 and the world is left as it was:
    no ledger operation has been made.  When the header is the secret, the
    route runs the ledger query and answers 200 with its result, the stored
    transactions that satisfy every supplied filter (possibly none), and the
    ledger is unchanged. *)
Theorem list_transactions_gate :
  forall (w : World) (ownerpc : option string) (store : option Z)
         (pet_type purchaser purchase_id : option string),
    (ownerpc <> Some Transactions.OWNER_PC_SECRET ->
     Transactions.list_transactions ownerpc store pet_type purchaser purchase_id w
     = (Ok {| status := 401; body := ErrorJson "unauthorized" |}, w))
    /\ (ownerpc = Some Transactions.OWNER_PC_SECRET ->
        exists l w',
          Transactions.list_transactions ownerpc store pet_type purchaser purchase_id w
          = (Ok {| status := 200; body := TransactionsJson l |}, w')
          /\ PurchaseService.get_transactions store pet_type purchaser purchase_id w
             = (Ok l, w')
          /\ transactions w' = transactions w
          /\ (forall t, In t l <->
                exists d, In d (transactions w)
                          /\ satisfies store pet_type purchaser purchase_id d
                          /\ t = PurchaseService.to_transaction d)).
Proof.
  intros w ownerpc store pet_type purchaser purchase_id. split.
  - intros Hne. unfold Transactions.list_transactions, Transactions.differs.
    destruct ownerpc as [v|]; [|reflexivity].
    destruct (String.eqb_spec v Transactions.OWNER_PC_SECRET); [congruence | reflexivity].
  - intros ->.
    destruct (get_transactions_matching w store pet_type purchaser purchase_id)
      as (l & w' & Hget & Hledger & Hl).
    exists l, w'. repeat split; auto; try apply Hl.
    unfold Transactions.list_transactions. simpl.
    rewrite (bind_ok _ _ _ _ _ Hget). reflexivity.
Qed.

(** The same on the running example. *)
Lemma list_transactions_gate_witness :
  Some "guess" <> Some Transactions.OWNER_PC_SECRET
  /\ Transactions.list_transactions (Some "guess") (Some 1) None None None
       after_first_purchase
     = (Ok {| status := 401; body := ErrorJson "unauthorized" |}, after_first_purchase)
  /\ Some "LovesPetsL2M3n4" = Some Transactions.OWNER_PC_SECRET
  /\ exists l w',
      Transactions.list_transactions (Some "LovesPetsL2M3n4") (Some 1) None None None
        after_first_purchase
      = (Ok {| status := 200; body := TransactionsJson l |}, w')
      /\ PurchaseService.get_transactions (Some 1) None None None after_first_purchase
         = (Ok l, w')
      /\ transactions w' = transactions after_first_purchase
      /\ (forall t, In t l <->
            exists d, In d (transactions after_first_purchase)
                      /\ satisfies (Some 1) None None None d
                      /\ t = PurchaseService.to_transaction d).
Proof.
  assert (Hne : Some "guess" <> Some Transactions.OWNER_PC_SECRET) by discriminate.
  split; [exact Hne|]. split.
  - exact (proj1 (list_transactions_gate after_first_purchase (Some "guess")
                    (Some 1) None None None) Hne).
  - split; [reflexivity|].
    exact (proj2 (list_transactions_gate after_first_purchase (Some "LovesPetsL2M3n4")
                    (Some 1) None None None) eq_refl).
Defined.

(** The purchase-id of a response, used as a filter, finds the record of
    that purchase. *)
Example purchase_id_finds_the_record :
  fst (Transactions.list_transactions (Some "LovesPetsL2M3n4") None None None
         (Some (resp_purchase_id first_response)) after_first_purchase)
  = Ok {| status := 200;
          body := TransactionsJson
                    [ {| tx_purchaser := "Ana"; tx_pet_type := "Poodle"; tx_store := 1;
                         tx_purchase_id := "000000000000000000001000" |} ] |}.
Proof. vm_compute. reflexivity. Qed.

(** ** Validation of the purchase request *)

(** C4, as the specification has it, fails for an empty pet name: the request
    is accepted without a store, the inventories are searched and a pet is
    sold. *)
Lemma empty_pet_name_without_store_is_served :
  req_pet_name Scenario.ana_empty_name = Some ""
  /\ req_store Scenario.ana_empty_name = None
  /\ validate_pet_name_requires_store Scenario.ana_empty_name = Ok Scenario.ana_empty_name
  /\ fst (Purchases.post Scenario.json Scenario.ana_empty_name Scenario.world)
     = Ok {| status := 201;
             body := PurchaseJson {| resp_purchaser := "Ana"; resp_pet_type := "Poodle";
                                     resp_store := 1; resp_pet_name := "Jamie";
                                     resp_purchase_id := "000000000000000000001000" |} |}
  /\ trace (snd (Purchases.post Scenario.json Scenario.ana_empty_name Scenario.world))
     = [Http (GetPetTypes 1);
        Http (GetPetsForType 1 "0000000000000000000004d2");
        Http (DeletePet 1 "0000000000000000000004d2" "Jamie");
        LedgerInsert {| doc_id := 4096%N; doc_purchaser := "Ana";
                        doc_pet_type := "Poodle"; doc_store := 1 |}].
Proof.
  split; [reflexivity|]. split; [reflexivity|]. split; [reflexivity|].
  split; vm_compute; reflexivity.
Qed.

(** C4, amended. A purchase request that carries a non-empty pet name and no
    store is rejected by the validator; [POST /purchases] answers with the
    validation error (400 "Malformed data", or 415 when the content type is
    not JSON) and leaves the world as it was: no inventory request is made
    and nothing is written to the ledger. *)
Theorem pet_name_without_store_rejected :
  forall (w : World) (content_type : option string) (request : PurchaseRequest)
         (pet_name : string),
    req_pet_name request = Some pet_name ->
    pet_name <> "" ->
    req_store request = None ->
    validate_pet_name_requires_store request
    = Raise (ValueError "pet-name can only be provided if store is provided")
    /\ Purchases.post content_type request w
       = (Ok (validation_exception_handler content_type), w)
    /\ (Py.contains "application/json" (header_or_empty content_type) = true ->
        validation_exception_handler content_type
        = {| status := 400; body := ErrorJson "Malformed data" |})
    /\ (status (validation_exception_handler content_type) = 400
        \/ status (validation_exception_handler content_type) = 415).
Proof.
  intros w ct request n Hname Hn Hstore.
  assert (Hv : validate_pet_name_requires_store request
               = Raise (ValueError "pet-name can only be provided if store is provided")).
  { unfold validate_pet_name_requires_store. rewrite Hname, Hstore. simpl.
    unfold Py.truthy. destruct (String.eqb_spec n ""); [contradiction | reflexivity]. }
  split; [exact Hv|]. split; [|split].
  - unfold Purchases.post. rewrite Hv.
    destruct (Fastapi.reads_json ct); reflexivity.
  - intros Hc. unfold validation_exception_handler. rewrite Hc. reflexivity.
  - unfold validation_exception_handler.
    destruct (Py.contains _ _); simpl; auto.
Qed.

(** The same on the running example. *)
Lemma pet_name_without_store_rejected_witness :
  req_pet_name Scenario.ana_jamie_anywhere = Some "Jamie"
  /\ "Jamie" <> ""
  /\ req_store Scenario.ana_jamie_anywhere = None
  /\ validate_pet_name_requires_store Scenario.ana_jamie_anywhere
     = Raise (ValueError "pet-name can only be provided if store is provided")
  /\ Purchases.post Scenario.json Scenario.ana_jamie_anywhere Scenario.world
     = (Ok (validation_exception_handler Scenario.json), Scenario.world)
  /\ (Py.contains "application/json" (header_or_empty Scenario.json) = true ->
      validation_exception_handler Scenario.json
      = {| status := 400; body := ErrorJson "Malformed data" |})
  /\ (status (validation_exception_handler Scenario.json) = 400
      \/ status (validation_exception_handler Scenario.json) = 415).
Proof.
  split; [reflexivity|]. split; [discriminate|]. split; [reflexivity|].
  apply (pet_name_without_store_rejected Scenario.world Scenario.json
           Scenario.ana_jamie_anywhere "Jamie");
    [reflexivity | discriminate | reflexivity].
Defined.

(** ** The pet locator *)

(** The loop of the locator runs the probe of the first inventory and goes
    on with the others only when it yields no candidate. *)
Lemma find_in_cons request store rest w :
  PurchaseService.find_in request (store :: rest) w
  = match probe request store w with
    | (Ok (Some fp), w1) => (Ok (Some fp), w1)
    | (Ok None, w1) => PurchaseService.find_in request rest w1
    | (Raise e, w1) => (Raise e, w1)
    end.
Proof.
  cbn [PurchaseService.find_in]. unfold probe, pick_listed, bind.
  destruct (PetStoreClient.find_pet_type_id store (req_pet_type request) w)
    as [[[id|]|e] w1]; simpl; try reflexivity.
  destruct (Py.truthy id) eqn:Eid; simpl; [|reflexivity].
  destruct (req_pet_name request) as [n|]; simpl.
  - destruct (Py.truthy n) eqn:En.
    + destruct (PetStoreClient.get_pet store id n w1) as [[[pet|]|e] w2]; reflexivity.
    + destruct (PetStoreClient.get_pets_for_type store id w1) as [[[|p pets]|e] w2];
        try reflexivity.
      destruct (random_choice (p :: pets) w2) as [[pet|e] w3]; reflexivity.
  - destruct (PetStoreClient.get_pets_for_type store id w1) as [[[|p pets]|e] w2];
      try reflexivity.
    destruct (random_choice (p :: pets) w2) as [[pet|e] w3]; reflexivity.
Qed.

Lemma pick_listed_store request store id w fp w' :
  pick_listed request store id w = (Ok (Some fp), w') -> PurchaseService.fp_store fp = store.
Proof.
  unfold pick_listed, bind.
  destruct (PetStoreClient.get_pets_for_type store id w) as [[[|p pets]|e] w1];
    try discriminate.
  destruct (random_choice (p :: pets) w1) as [[pet|e] w2]; try discriminate.
  intros H. inversion H; subst. reflexivity.
Qed.

(** A candidate of a probe belongs to the probed inventory. *)
Lemma probe_store request store w fp w' :
  probe request store w = (Ok (Some fp), w') -> PurchaseService.fp_store fp = store.
Proof.
  unfold probe, bind.
  destruct (PetStoreClient.find_pet_type_id store (req_pet_type request) w)
    as [[[id|]|e] w1]; try discriminate.
  destruct (Py.truthy id); simpl; try discriminate.
  destruct (req_pet_name request) as [n|]; [destruct (Py.truthy n)|];
    try apply pick_listed_store.
  destruct (PetStoreClient.get_pet store id n w1) as [[[pet|]|e] w2]; try discriminate.
  intros H. inversion H; subst. reflexivity.
Qed.

Lemma pick_listed_only_called request store id w r w' :
  pick_listed request store id w = (r, w') -> only_called [store] w w'.
Proof.
  unfold pick_listed. intros H. apply bind_inv in H.
  destruct H as [(pets & w1 & H1 & H2) | (e & H1 & _)];
    [| eapply get_pets_for_type_only_called; eauto].
  apply get_pets_for_type_only_called in H1.
  destruct pets as [|p pets].
  - inversion H2; subst. exact H1.
  - apply bind_inv in H2. destruct H2 as [(pet & w2 & H3 & H4) | (e & H3 & _)].
    + inversion H4; subst. eapply only_called_same; [exact H1|].
      eapply random_choice_only_called; eauto.
    + eapply only_called_same; [exact H1|]. eapply random_choice_only_called; eauto.
Qed.

(** A probe makes requests to the probed inventory only. *)
Lemma probe_only_called request store w r w' :
  probe request store w = (r, w') -> only_called [store] w w'.
Proof.
  unfold probe. intros H. apply bind_inv in H.
  destruct H as [(id & w1 & H1 & H2) | (e & H1 & _)];
    [| eapply find_pet_type_id_only_called; eauto].
  apply find_pet_type_id_only_called in H1.
  destruct id as [id|]; [| inversion H2; subst; exact H1].
  destruct (Py.truthy id); simpl in H2; [| inversion H2; subst; exact H1].
  assert (Hpick : forall r w', pick_listed request store id w1 = (r, w') ->
                               only_called [store] w w').
  { intros r0 w0 H0. eapply only_called_same; [exact H1|].
    eapply pick_listed_only_called; eauto. }
  destruct (req_pet_name request) as [n|]; [destruct (Py.truthy n)|]; eauto.
  apply bind_inv in H2. destruct H2 as [(pet & w2 & H3 & H4) | (e & H3 & _)].
  - inversion H4; subst. eapply only_called_same; [exact H1|].
    eapply get_pet_only_called; eauto.
  - eapply only_called_same; [exact H1|]. eapply get_pet_only_called; eauto.
Qed.

Lemma all_miss_only_called request stores w w' :
  all_miss request stores w w' -> only_called stores w w'.
Proof.
  induction 1 as [w | store rest w w1 w2 Hp _ IH].
  - apply only_called_refl.
  - apply probe_only_called in Hp.
    exact (only_called_trans [store] rest _ _ _ Hp IH).
Qed.

Lemma find_in_none_iff request stores w w' :
  PurchaseService.find_in request stores w = (Ok None, w')
  <-> all_miss request stores w w'.
Proof.
  revert w. induction stores as [|store rest IH]; intros w.
  - simpl. unfold ret. split.
    + intros H. inversion H; subst. constructor.
    + intros H. inversion H; subst. reflexivity.
  - rewrite find_in_cons. split.
    + destruct (probe request store w) as [[[fp|]|e] w1] eqn:Ep; try discriminate.
      intros H. apply IH in H. econstructor; eauto.
    + intros H. inversion H; subst.
      match goal with Hp : probe _ _ _ = _ |- _ => rewrite Hp end.
      apply IH. assumption.
Qed.

Lemma find_in_some_iff request stores w fp w' :
  PurchaseService.find_in request stores w = (Ok (Some fp), w')
  <-> exists before after w1,
        stores = before ++ PurchaseService.fp_store fp :: after
        /\ all_miss request before w w1
        /\ probe request (PurchaseService.fp_store fp) w1 = (Ok (Some fp), w').
Proof.
  revert w. induction stores as [|store rest IH]; intros w.
  - simpl. unfold ret. split; [discriminate|].
    intros (before & after & w1 & H & _). destruct before; discriminate.
  - rewrite find_in_cons. split.
    + destruct (probe request store w) as [[[fp0|]|e] w1] eqn:Ep; try discriminate.
      * intros H. inversion H; subst.
        exists [], rest, w. pose proof (probe_store _ _ _ _ _ Ep) as Hs.
        rewrite Hs. repeat split; [constructor | exact Ep].
      * intros H. apply IH in H. destruct H as (before & after & w2 & -> & Hm & Hp).
        exists (store :: before), after, w2. repeat split; auto.
        econstructor; eauto.
    + intros (before & after & w1 & Heq & Hm & Hp).
      destruct before as [|b before]; simpl in Heq; inversion Heq; subst.
      * inversion Hm; subst. rewrite Hp. reflexivity.
      * inversion Hm; subst.
        match goal with Hq : probe _ b _ = _ |- _ => rewrite Hq end.
        apply IH. exists before, after, w1. auto.
Qed.

Lemma find_in_only_called request stores w r w' :
  PurchaseService.find_in request stores w = (r, w') -> only_called stores w w'.
Proof.
  revert w. induction stores as [|store rest IH]; intros w.
  - simpl. unfold ret. intros H. inversion H; subst. apply only_called_refl.
  - rewrite find_in_cons.
    destruct (probe request store w) as [[[fp|]|e] w1] eqn:Ep; intros H.
    + inversion H; subst. apply probe_only_called in Ep.
      eapply only_called_weaken; [| exact Ep]. intros x [<-|[]]. now left.
    + apply probe_only_called in Ep. apply IH in H.
      exact (only_called_trans [store] rest _ _ _ Ep H).
    + inversion H; subst. apply probe_only_called in Ep.
      eapply only_called_weaken; [| exact Ep]. intros x [<-|[]]. now left.
Qed.

Lemma earlier_not_later (before after : list Z) (s x : Z) :
  NoDup (before ++ s :: after) -> In x (before ++ [s]) -> ~ In x after.
Proof.
  induction before as [|b before IH]; simpl; intros Hnd Hin.
  - destruct Hin as [<-|[]]. now inversion Hnd.
  - inversion Hnd as [|? ? Hb Hrest]; subst. destruct Hin as [<-|Hin]; [|auto].
    intros Ha. apply Hb. apply in_or_app. right. now right.
Qed.

Lemma stores_to_check_valid request :
  validate_pet_name_requires_store request = Ok request ->
  PurchaseService.stores_to_check request
  = match req_store request with Some s => [s] | None => [1; 2] end
  /\ NoDup (PurchaseService.stores_to_check request).
Proof.
  unfold validate_pet_name_requires_store, PurchaseService.stores_to_check.
  destruct (req_store request) as [s|].
  - destruct (Py.truthy_opt (req_pet_name request) && negb (Py.truthy_int (Some s)));
      [discriminate|].
    destruct (Z.eqb_spec s 1) as [->|H1]; simpl.
    + intros _. split; [reflexivity|]. repeat constructor. intros [].
    + destruct (Z.eqb_spec s 2) as [->|H2]; simpl; [|discriminate].
      intros _. split; [reflexivity|]. repeat constructor. intros [].
  - intros _. split; [reflexivity|].
    repeat constructor; simpl; [intros [H|[]]; discriminate | intros []].
Qed.

(** C3. For a valid purchase request, [find_available_pet] probes the
    inventories of [[store]] when the request names a store and of [[1; 2]],
    in that order, otherwise.  It returns a pet exactly when some inventory
    of that list yields it as its candidate after all the inventories before
    it yielded none; the requests made are then to these inventories only,
    none to a later one.  It returns [None] exactly when every inventory of
    the list, probed in order, yields no candidate.  Whatever the outcome,
    only inventories of the list are requested and the ledger is not
    touched. *)
Theorem find_available_pet_first_candidate :
  forall (request : PurchaseRequest) (w : World),
    validate_pet_name_requires_store request = Ok request ->
    let stores := PurchaseService.stores_to_check request in
    stores = match req_store request with Some s => [s] | None => [1; 2] end
    /\ (forall fp w',
           PurchaseService.find_available_pet request w = (Ok (Some fp), w') ->
           exists before after w1 evs,
             stores = before ++ PurchaseService.fp_store fp :: after
             /\ all_miss request before w w1
             /\ probe request (PurchaseService.fp_store fp) w1 = (Ok (Some fp), w')
             /\ trace w' = trace w ++ evs
             /\ (forall e, In e evs ->
                   exists c, e = Http c
                             /\ In (call_store c) (before ++ [PurchaseService.fp_store fp])
                             /\ ~ In (call_store c) after))
    /\ (forall fp w' before after w1,
           stores = before ++ PurchaseService.fp_store fp :: after ->
           all_miss request before w w1 ->
           probe request (PurchaseService.fp_store fp) w1 = (Ok (Some fp), w') ->
           PurchaseService.find_available_pet request w = (Ok (Some fp), w'))
    /\ (forall w',
           PurchaseService.find_available_pet request w = (Ok None, w')
           <-> all_miss request stores w w')
    /\ (forall r w',
           PurchaseService.find_available_pet request w = (r, w') ->
           only_called stores w w').
Proof.
  intros request w Hvalid stores.
  destruct (stores_to_check_valid request Hvalid) as [Hstores Hnodup].
  fold stores in Hstores, Hnodup.
  split; [exact Hstores|]. split; [|split; [|split]].
  - intros fp w' Hfind. unfold PurchaseService.find_available_pet in Hfind.
    fold stores in Hfind. apply find_in_some_iff in Hfind.
    destruct Hfind as (before & after & w1 & Heq & Hmiss & Hprobe).
    pose proof (all_miss_only_called _ _ _ _ Hmiss) as H1.
    pose proof (probe_only_called _ _ _ _ _ Hprobe) as H2.
    destruct (only_called_trans _ _ _ _ _ H1 H2) as (_ & _ & _ & _ & evs & Hevs & Hcalls).
    exists before, after, w1, evs. repeat split; auto.
    intros e He. unfold calls_only in Hcalls. rewrite Forall_forall in Hcalls.
    destruct (Hcalls e He) as (c & -> & Hc). exists c. repeat split; auto.
    apply (earlier_not_later before after (PurchaseService.fp_store fp)); auto.
    rewrite <- Heq. exact Hnodup.
  - intros fp w' before after w1 Heq Hmiss Hprobe.
    unfold PurchaseService.find_available_pet. fold stores.
    apply find_in_some_iff. exists before, after, w1. auto.
  - intros w'. unfold PurchaseService.find_available_pet. fold stores.
    apply find_in_none_iff.
  - intros r w' Hfind. unfold PurchaseService.find_available_pet in Hfind.
    eapply find_in_only_called; eauto.
Qed.

(** The same on the running example. *)
Lemma find_available_pet_first_candidate_witness :
  validate_pet_name_requires_store Scenario.ana = Ok Scenario.ana
  /\ PurchaseService.stores_to_check Scenario.ana = [1; 2]
  /\ (forall w',
         PurchaseService.find_available_pet Scenario.ana after_first_purchase = (Ok None, w')
         <-> all_miss Scenario.ana (PurchaseService.stores_to_check Scenario.ana)
               after_first_purchase w')
  /\ (forall r w',
         PurchaseService.find_available_pet Scenario.ana Scenario.world = (r, w') ->
         only_called (PurchaseService.stores_to_check Scenario.ana) Scenario.world w').
Proof.
  assert (Hvalid : validate_pet_name_requires_store Scenario.ana = Ok Scenario.ana)
    by reflexivity.
  split; [exact Hvalid|].
  destruct (find_available_pet_first_candidate Scenario.ana Scenario.world Hvalid)
    as (H1 & _ & _ & _ & H5).
  destruct (find_available_pet_first_candidate Scenario.ana after_first_purchase Hvalid)
    as (_ & _ & _ & H4 & _).
  split; [exact H1|]. split; [exact H4 | exact H5].
Defined.

(** The locator on the running example: Jamie of inventory 1 is found with
    two requests, and inventory 2 is not asked. *)
Example find_available_pet_example :
  fst (PurchaseService.find_available_pet Scenario.ana Scenario.world)
  = Ok (Some {| PurchaseService.fp_store := 1;
                PurchaseService.fp_pet_type_id := "0000000000000000000004d2";
                PurchaseService.fp_pet_type_name := "Poodle";
                PurchaseService.fp_name := "Jamie" |})
  /\ trace (snd (PurchaseService.find_available_pet Scenario.ana Scenario.world))
     = [Http (GetPetTypes 1); Http (GetPetsForType 1 "0000000000000000000004d2")].
Proof. split; vm_compute; reflexivity. Qed.

(** ** The purchase arbiter *)

Lemma delete_pet_one_request store id n w success w' :
  PetStoreClient.delete_pet store id n w = (Ok success, w') ->
  w' = log (Http (DeletePet store id n)) w.
Proof.
  unfold PetStoreClient.delete_pet. client_cases store; simpl;
    intros H; inversion H; reflexivity.
Qed.

(** C1. When the locator returns a candidate and the [DELETE] request for it
    reports failure, [process_purchase] raises [NoPetAvailable], which
    [create_purchase] turns into 400 "No pet of this type is available"; the
    ledger is as before the purchase, and after the locator returned the
    only event is that one [DELETE] request: no inventory is searched again
    and nothing is inserted. *)
Theorem failed_claim_is_no_pet_available :
  forall (request : PurchaseRequest) (w w1 w2 : World) (pet : PurchaseService.FoundPet),
    PurchaseService.find_available_pet request w = (Ok (Some pet), w1) ->
    PetStoreClient.delete_pet (PurchaseService.fp_store pet)
      (PurchaseService.fp_pet_type_id pet) (PurchaseService.fp_name pet) w1
    = (Ok false, w2) ->
    PurchaseService.process_purchase request w = (Raise NoPetAvailable, w2)
    /\ (forall content_type,
           Py.contains "application/json" (header_or_empty content_type) = true ->
           Purchases.create_purchase content_type request w
           = (Ok {| status := 400; body := ErrorJson "No pet of this type is available" |},
              w2))
    /\ transactions w2 = transactions w
    /\ trace w2
       = trace w1 ++ [Http (DeletePet (PurchaseService.fp_store pet)
                              (PurchaseService.fp_pet_type_id pet)
                              (PurchaseService.fp_name pet))]
    /\ (forall d, In (LedgerInsert d) (trace w2) -> In (LedgerInsert d) (trace w)).
Proof.
  intros request w w1 w2 pet Hfind Hdelete.
  assert (Hp : PurchaseService.process_purchase request w = (Raise NoPetAvailable, w2)).
  { unfold PurchaseService.process_purchase.
    rewrite (bind_ok _ _ _ _ _ Hfind). rewrite (bind_ok _ _ _ _ _ Hdelete).
    reflexivity. }
  pose proof (delete_pet_one_request _ _ _ _ _ _ Hdelete) as Hw2.
  pose proof (find_in_only_called _ _ _ _ _ Hfind)
    as (_ & Hledger & _ & _ & evs & Hevs & Hcalls).
  split; [exact Hp|]. split; [|split; [|split]].
  - intros ct Hct. unfold Purchases.create_purchase. rewrite Hct. cbn [negb].
    rewrite Hp. reflexivity.
  - subst w2. simpl. exact Hledger.
  - subst w2. reflexivity.
  - subst w2. simpl. rewrite Hevs. intros d Hin.
    rewrite <- app_assoc in Hin. apply in_app_or in Hin. destruct Hin as [Hin|Hin]; auto.
    apply in_app_or in Hin. destruct Hin as [Hin|[Hin|[]]]; [|discriminate].
    unfold calls_only in Hcalls. rewrite Forall_forall in Hcalls.
    destruct (Hcalls _ Hin) as (c & Hc & _). discriminate.
Qed.

(** The same on the running example. *)
Lemma failed_claim_is_no_pet_available_witness :
  PurchaseService.find_available_pet Scenario.ana_store1_jamie Scenario.race_lost
  = (Ok (Some jamie_found), race_lost_located)
  /\ PetStoreClient.delete_pet 1 "0000000000000000000004d2" "Jamie" race_lost_located
     = (Ok false, race_lost_refused)
  /\ PurchaseService.process_purchase Scenario.ana_store1_jamie Scenario.race_lost
     = (Raise NoPetAvailable, race_lost_refused)
  /\ Purchases.create_purchase Scenario.json Scenario.ana_store1_jamie Scenario.race_lost
     = (Ok {| status := 400; body := ErrorJson "No pet of this type is available" |},
        race_lost_refused)
  /\ transactions race_lost_refused = transactions Scenario.race_lost
  /\ trace race_lost_refused
     = trace race_lost_located ++ [Http (DeletePet 1 "0000000000000000000004d2" "Jamie")].
Proof.
  assert (Hfind : PurchaseService.find_available_pet Scenario.ana_store1_jamie
                    Scenario.race_lost
                  = (Ok (Some jamie_found), race_lost_located)) by reflexivity.
  assert (Hdelete : PetStoreClient.delete_pet (PurchaseService.fp_store jamie_found)
                      (PurchaseService.fp_pet_type_id jamie_found)
                      (PurchaseService.fp_name jamie_found) race_lost_located
                    = (Ok false, race_lost_refused)) by reflexivity.
  destruct (failed_claim_is_no_pet_available Scenario.ana_store1_jamie Scenario.race_lost
              race_lost_located race_lost_refused jamie_found Hfind Hdelete)
    as (H1 & H2 & H3 & H4 & _).
  split; [exact Hfind|]. split; [exact Hdelete|]. split; [exact H1|].
  split; [exact (H2 Scenario.json eq_refl)|]. split; [exact H3 | exact H4].
Defined.

(** C2. A purchase that completes appends exactly one document to the
    ledger: its identifier is the one assigned by that insertion, the
    purchase-id of the response is the string form of that identifier, and
    its purchaser, pet type and store are those of the response, which
    [create_purchase] sends with status 201; the insertion is the last
    event of the purchase and the only one that is not a request to an
    inventory.  A purchase that does not complete, in particular one whose
    claim fails, leaves the ledger as it was. *)
Theorem successful_purchase_records_once :
  forall (request : PurchaseRequest) (w w' : World),
    (forall response,
        PurchaseService.process_purchase request w = (Ok response, w') ->
        exists doc,
          transactions w' = transactions w ++ [doc]
          /\ doc_id doc = fresh_ids w (ids_issued w)
          /\ resp_purchase_id response = Bson.str (doc_id doc)
          /\ doc_purchaser doc = resp_purchaser response
          /\ doc_pet_type doc = resp_pet_type response
          /\ doc_store doc = resp_store response
          /\ (exists evs,
                trace w' = trace w ++ evs ++ [LedgerInsert doc]
                /\ calls_only (PurchaseService.stores_to_check request
                               ++ [resp_store response]) evs)
          /\ (forall content_type,
                Py.contains "application/json" (header_or_empty content_type) = true ->
                Purchases.create_purchase content_type request w
                = (Ok {| status := 201; body := PurchaseJson response |}, w')))
    /\ (forall e,
           PurchaseService.process_purchase request w = (Raise e, w') ->
           transactions w' = transactions w)
    /\ (forall pet w1,
           PurchaseService.find_available_pet request w = (Ok (Some pet), w1) ->
           PetStoreClient.delete_pet (PurchaseService.fp_store pet)
             (PurchaseService.fp_pet_type_id pet) (PurchaseService.fp_name pet) w1
           = (Ok false, w') ->
           transactions w' = transactions w).
Proof.
  intros request w w'. split; [|split].
  - intros response Hp. pose proof Hp as Hrun.
    unfold PurchaseService.process_purchase in Hrun.
    apply bind_inv in Hrun. destruct Hrun as [(pet & w1 & Hfind & Hrun) | (e & _ & He)];
      [|discriminate].
    destruct pet as [pet|]; [|discriminate].
    apply bind_inv in Hrun. destruct Hrun as [(ok & w2 & Hdel & Hrun) | (e & _ & He)];
      [|discriminate].
    destruct ok; simpl in Hrun; [|discriminate].
    apply find_in_only_called in Hfind. apply delete_pet_only_called in Hdel.
    destruct (only_called_trans _ _ _ _ _ Hfind Hdel) as (_ & T & F & I & evs & E & C).
    unfold bind, Collection.insert_one, ret in Hrun. inversion Hrun; subst. simpl.
    eexists. split; [rewrite T; reflexivity|]. simpl.
    split; [congruence|]. do 4 (split; [reflexivity|]). split.
    { exists evs. split; [rewrite E; now rewrite app_assoc | exact C]. }
    intros ct Hct. unfold Purchases.create_purchase. rewrite Hct. cbn [negb].
    rewrite Hp. reflexivity.
  - intros e Hp. unfold PurchaseService.process_purchase in Hp.
    apply bind_inv in Hp. destruct Hp as [(pet & w1 & Hfind & Hrun) | (e1 & Hfind & _)].
    + apply find_in_only_called in Hfind. destruct Hfind as (_ & T1 & _).
      destruct pet as [pet|]; [| inversion Hrun; subst; exact T1].
      apply bind_inv in Hrun. destruct Hrun as [(ok & w2 & Hdel & Hrun) | (e2 & Hdel & _)].
      * apply delete_pet_only_called in Hdel. destruct Hdel as (_ & T2 & _).
        destruct ok; simpl in Hrun; [discriminate|].
        inversion Hrun; subst. congruence.
      * apply delete_pet_only_called in Hdel. destruct Hdel as (_ & T2 & _). congruence.
    + apply find_in_only_called in Hfind. destruct Hfind as (_ & T1 & _). exact T1.
  - intros pet w1 Hfind Hdel.
    apply find_in_only_called in Hfind. destruct Hfind as (_ & T1 & _).
    apply delete_pet_only_called in Hdel. destruct Hdel as (_ & T2 & _). congruence.
Qed.

(** The same on the running example. *)
Lemma successful_purchase_records_once_witness :
  PurchaseService.process_purchase Scenario.ana Scenario.world
  = (Ok first_response, after_first_purchase)
  /\ (exists doc,
         transactions after_first_purchase = transactions Scenario.world ++ [doc]
         /\ doc_id doc = fresh_ids Scenario.world (ids_issued Scenario.world)
         /\ resp_purchase_id first_response = Bson.str (doc_id doc)
         /\ doc_purchaser doc = resp_purchaser first_response
         /\ doc_pet_type doc = resp_pet_type first_response
         /\ doc_store doc = resp_store first_response
         /\ (exists evs,
               trace after_first_purchase = trace Scenario.world ++ evs ++ [LedgerInsert doc]
               /\ calls_only (PurchaseService.stores_to_check Scenario.ana
                              ++ [resp_store first_response]) evs)
         /\ (forall content_type,
               Py.contains "application/json" (header_or_empty content_type) = true ->
               Purchases.create_purchase content_type Scenario.ana Scenario.world
               = (Ok {| status := 201; body := PurchaseJson first_response |},
                  after_first_purchase)))
  /\ PurchaseService.process_purchase Scenario.ana_store1_jamie Scenario.race_lost
     = (Raise NoPetAvailable, race_lost_refused)
  /\ transactions race_lost_refused = transactions Scenario.race_lost.
Proof.
  assert (Hp : PurchaseService.process_purchase Scenario.ana Scenario.world
               = (Ok first_response, after_first_purchase)) by reflexivity.
  assert (Hq : PurchaseService.process_purchase Scenario.ana_store1_jamie Scenario.race_lost
               = (Raise NoPetAvailable, race_lost_refused)) by reflexivity.
  split; [exact Hp|]. split.
  - exact (proj1 (successful_purchase_records_once Scenario.ana Scenario.world
                    after_first_purchase) first_response Hp).
  - split; [exact Hq|].
    exact (proj1 (proj2 (successful_purchase_records_once Scenario.ana_store1_jamie
                           Scenario.race_lost race_lost_refused))
             NoPetAvailable Hq).
Defined.

(** ** The requests of the inventory client, one by one *)

Lemma get_pet_types_run store w :
  PetStoreClient.PET_STORE_URLS store <> None ->
  PetStoreClient.get_pet_types store w
  = match on_get_pet_types (network w) (trace w) store with
    | Response status listing =>
        (Ok (if status =? 200 then listing else []), log (Http (GetPetTypes store)) w)
    | TransportFailure => (Raise HTTPError, log (Http (GetPetTypes store)) w)
    end.
Proof.
  intros Hcfg. unfold PetStoreClient.get_pet_types. client_cases store;
    [| | congruence]; simpl; [destruct (status =? 200)|]; reflexivity.
Qed.

Lemma find_pet_type_id_run store type_name w :
  PetStoreClient.PET_STORE_URLS store <> None ->
  PetStoreClient.find_pet_type_id store type_name w
  = match on_get_pet_types (network w) (trace w) store with
    | Response status listing =>
        (Ok (PetStoreClient.first_type_match (if status =? 200 then listing else [])
               (Py.lower type_name)),
         log (Http (GetPetTypes store)) w)
    | TransportFailure => (Raise HTTPError, log (Http (GetPetTypes store)) w)
    end.
Proof.
  intros Hcfg. unfold PetStoreClient.find_pet_type_id, bind.
  rewrite (get_pet_types_run _ _ Hcfg).
  destruct (on_get_pet_types (network w) (trace w) store); reflexivity.
Qed.

Lemma get_pets_for_type_run store id w :
  PetStoreClient.PET_STORE_URLS store <> None ->
  PetStoreClient.get_pets_for_type store id w
  = match on_get_pets (network w) (trace w) store id with
    | Response status pets =>
        (Ok (if status =? 200 then pets else []), log (Http (GetPetsForType store id)) w)
    | TransportFailure => (Raise HTTPError, log (Http (GetPetsForType store id)) w)
    end.
Proof.
  intros Hcfg. unfold PetStoreClient.get_pets_for_type. client_cases store;
    [| | congruence]; simpl; [destruct (status =? 200)|]; reflexivity.
Qed.

Lemma get_pet_run store id n w :
  PetStoreClient.PET_STORE_URLS store <> None ->
  PetStoreClient.get_pet store id n w
  = match on_get_pet (network w) (trace w) store id n with
    | Response status pet =>
        (Ok (if status =? 200 then pet else None), log (Http (GetPet store id n)) w)
    | TransportFailure => (Raise HTTPError, log (Http (GetPet store id n)) w)
    end.
Proof.
  intros Hcfg. unfold PetStoreClient.get_pet. client_cases store;
    [| | congruence]; simpl; [destruct (status =? 200)|]; reflexivity.
Qed.

Lemma delete_pet_run store id n w :
  PetStoreClient.PET_STORE_URLS store <> None ->
  PetStoreClient.delete_pet store id n w
  = match on_delete_pet (network w) (trace w) store id n with
    | Response status _ =>
        (Ok ((status =? 200) || (status =? 204))%bool, log (Http (DeletePet store id n)) w)
    | TransportFailure => (Raise HTTPError, log (Http (DeletePet store id n)) w)
    end.
Proof.
  intros Hcfg. unfold PetStoreClient.delete_pet. client_cases store;
    [| | congruence]; simpl; reflexivity.
Qed.

Lemma unconfigured_raises store w :
  PetStoreClient.PET_STORE_URLS store = None ->
  forall type_name id n,
    PetStoreClient.find_pet_type_id store type_name w = (Raise KeyError, w)
    /\ PetStoreClient.get_pets_for_type store id w = (Raise KeyError, w)
    /\ PetStoreClient.get_pet store id n w = (Raise KeyError, w)
    /\ PetStoreClient.delete_pet store id n w = (Raise KeyError, w).
Proof.
  intros Hcfg type_name id n.
  unfold PetStoreClient.find_pet_type_id, PetStoreClient.get_pet_types,
    PetStoreClient.get_pets_for_type, PetStoreClient.get_pet, PetStoreClient.delete_pet,
    PetStoreClient.base_url, bind, raise.
  rewrite Hcfg. repeat split.
Qed.

Lemma configured_iff store :
  PetStoreClient.PET_STORE_URLS store <> None <-> store = 1 \/ store = 2.
Proof.
  unfold PetStoreClient.PET_STORE_URLS.
  destruct (Z.eqb_spec store 1); [split; [auto | discriminate]|].
  destruct (Z.eqb_spec store 2); [split; [auto | discriminate]|].
  split; [congruence | intros [?|?]; contradiction].
Qed.

Lemma random_choice_nonempty {A} (x : A) (l : list A) w :
  exists y w', random_choice (x :: l) w = (Ok y, w')
               /\ In y (x :: l)
               /\ network w' = network w /\ trace w' = trace w
               /\ transactions w' = transactions w.
Proof.
  unfold random_choice.
  destruct (nth_error (x :: l) (Nat.modulo (entropy w (draws w)) (List.length (x :: l))))
    as [y|] eqn:E.
  - exists y. eexists. split; [reflexivity|]. split; [eapply nth_error_In; eauto|].
    repeat split.
  - exfalso. apply nth_error_None in E.
    pose proof (Nat.mod_upper_bound (entropy w (draws w)) (List.length (x :: l))) as Hb.
    simpl in *. specialize (Hb ltac:(discriminate)).
    apply (Nat.lt_irrefl _ (Nat.lt_le_trans _ _ _ Hb E)).
Qed.

(** ** An empty pet name *)

Lemma probe_without_name request store w :
  req_pet_name request = Some "" ->
  probe request store w = probe (without_pet_name request) store w.
Proof.
  intros Hname. unfold probe. rewrite Hname. reflexivity.
Qed.

Lemma find_in_without_name request stores w :
  req_pet_name request = Some "" ->
  PurchaseService.find_in request stores w
  = PurchaseService.find_in (without_pet_name request) stores w.
Proof.
  intros Hname. revert w. induction stores as [|store rest IH]; intros w.
  - reflexivity.
  - rewrite !find_in_cons, (probe_without_name _ _ _ Hname).
    destruct (probe (without_pet_name request) store w) as [[[fp|]|e] w1]; auto.
Qed.

Lemma get_pet_types_listing store w r w' :
  PetStoreClient.get_pet_types store w = (r, w') ->
  exists evs, trace w' = trace w ++ evs /\ Forall (listing_call store) evs.
Proof.
  unfold PetStoreClient.get_pet_types. client_cases store; simpl.
  - destruct (status =? 200); intros H; inversion H; subst;
      (exists [Http (GetPetTypes store)]; split;
       [reflexivity | repeat constructor]).
  - intros H; inversion H; subst. exists [Http (GetPetTypes store)].
    split; [reflexivity | repeat constructor].
  - intros H; inversion H; subst. exists []. split; [now rewrite app_nil_r | constructor].
Qed.

Lemma get_pets_for_type_listing store id w r w' :
  PetStoreClient.get_pets_for_type store id w = (r, w') ->
  exists evs, trace w' = trace w ++ evs /\ Forall (listing_call store) evs.
Proof.
  assert (Hl : Forall (listing_call store) [Http (GetPetsForType store id)]).
  { constructor; [right; exists id; reflexivity | constructor]. }
  unfold PetStoreClient.get_pets_for_type. client_cases store; simpl.
  - destruct (status =? 200); intros H; inversion H; subst;
      (exists [Http (GetPetsForType store id)]; split; [reflexivity | exact Hl]).
  - intros H; inversion H; subst. exists [Http (GetPetsForType store id)].
    split; [reflexivity | exact Hl].
  - intros H; inversion H; subst. exists []. split; [now rewrite app_nil_r | constructor].
Qed.

Lemma random_choice_trace {A} (seq : list A) w r w' :
  random_choice seq w = (r, w') -> trace w' = trace w.
Proof.
  unfold random_choice. destruct (nth_error seq _); intros H; inversion H; reflexivity.
Qed.

Lemma pick_listed_listing request store id w r w' :
  pick_listed request store id w = (r, w') ->
  exists evs, trace w' = trace w ++ evs /\ Forall (listing_call store) evs.
Proof.
  unfold pick_listed. intros H. apply bind_inv in H.
  destruct H as [(pets & w1 & H1 & H2) | (e & H1 & _)];
    [| eapply get_pets_for_type_listing; eauto].
  apply get_pets_for_type_listing in H1. destruct H1 as (evs & E1 & L1).
  exists evs. split; [|exact L1]. rewrite <- E1.
  destruct pets as [|p pets]; [inversion H2; reflexivity|].
  apply bind_inv in H2. destruct H2 as [(pet & w2 & H3 & H4) | (e & H3 & _)].
  - inversion H4; subst. eapply random_choice_trace; eauto.
  - eapply random_choice_trace; eauto.
Qed.

Lemma probe_listing request store w r w' :
  req_pet_name request = None ->
  probe request store w = (r, w') ->
  exists evs, trace w' = trace w ++ evs /\ Forall (listing_call store) evs.
Proof.
  intros Hname. unfold probe, PetStoreClient.find_pet_type_id. rewrite Hname. intros H.
  apply bind_inv in H. destruct H as [(id & w1 & H1 & H2) | (e & H1 & _)].
  - apply bind_inv in H1. destruct H1 as [(l & w0 & H0 & H1) | (e & H0 & He)].
    + inversion H1; subst. apply get_pet_types_listing in H0.
      destruct H0 as (evs & E0 & L0).
      destruct (PetStoreClient.first_type_match l _) as [id|];
        [| inversion H2; subst; eauto].
      destruct (Py.truthy id); simpl in H2; [| inversion H2; subst; eauto].
      apply pick_listed_listing in H2. destruct H2 as (evs2 & E2 & L2).
      exists (evs ++ evs2). split; [rewrite E2, E0; now rewrite app_assoc|].
      apply Forall_app. auto.
    + discriminate He.
  - apply bind_inv in H1. destruct H1 as [(l & w0 & H0 & H1) | (e0 & H0 & _)].
    + unfold ret in H1. discriminate H1.
    + eapply get_pet_types_listing; eauto.
Qed.

Lemma find_in_listing request stores w r w' :
  req_pet_name request = None ->
  PurchaseService.find_in request stores w = (r, w') ->
  exists evs,
    trace w' = trace w ++ evs
    /\ Forall (fun e => exists s, In s stores /\ listing_call s e) evs.
Proof.
  intros Hname. revert w. induction stores as [|store rest IH]; intros w.
  - simpl. unfold ret. intros H. inversion H; subst. exists [].
    split; [now rewrite app_nil_r | constructor].
  - rewrite find_in_cons.
    destruct (probe request store w) as [[[fp|]|e] w1] eqn:Ep; intros H;
      apply (probe_listing _ _ _ _ _ Hname) in Ep; destruct Ep as (evs & E & L).
    + inversion H; subst. exists evs. split; auto.
      eapply Forall_impl; [| exact L]. intros e He. exists store. split; [now left | auto].
    + apply IH in H. destruct H as (evs2 & E2 & L2).
      exists (evs ++ evs2). split; [rewrite E2, E; now rewrite app_assoc|].
      apply Forall_app. split.
      * eapply Forall_impl; [| exact L]. intros e He. exists store. split; [now left | auto].
      * eapply Forall_impl; [| exact L2]. intros e (s & Hs & He). exists s.
        split; [now right | auto].
    + inversion H; subst. exists evs. split; auto.
      eapply Forall_impl; [| exact L]. intros e0 He. exists store. split; [now left | auto].
Qed.

(** C10. A purchase request whose pet name is the empty string and which
    names no store passes the validator, so [POST /purchases] hands it to the
    route handler, and the locator goes through inventories 1 and 2 on the
    random-selection path.  On each inventory it asks for the pet types,
    goes on with the next inventory when the type is not listed, asks
    otherwise for the pets of the type, goes on with the next inventory when
    there is none, and returns otherwise the listed pet at the drawn index.
    It never fetches a pet by name. *)
Theorem empty_pet_name_is_no_pet_name :
  forall request : PurchaseRequest,
    req_pet_name request = Some "" ->
    req_store request = None ->
    validate_pet_name_requires_store request = Ok request
    /\ (forall content_type w,
           Fastapi.reads_json content_type = true ->
           Purchases.post content_type request w
           = Purchases.create_purchase content_type request w)
    /\ (forall w,
           PurchaseService.find_available_pet request w
           = PurchaseService.find_in request [1; 2] w)
    /\ (forall store rest w,
           PetStoreClient.PET_STORE_URLS store <> None ->
           let w1 := log (Http (GetPetTypes store)) w in
           match on_get_pet_types (network w) (trace w) store with
           | TransportFailure =>
               PurchaseService.find_in request (store :: rest) w = (Raise HTTPError, w1)
           | Response status listing =>
               match PetStoreClient.first_type_match
                       (if status =? 200 then listing else [])
                       (Py.lower (req_pet_type request)) with
               | None =>
                   PurchaseService.find_in request (store :: rest) w
                   = PurchaseService.find_in request rest w1
               | Some id =>
                   if negb (Py.truthy id)
                   then PurchaseService.find_in request (store :: rest) w
                        = PurchaseService.find_in request rest w1
                   else
                     let w2 := log (Http (GetPetsForType store id)) w1 in
                     match on_get_pets (network w) (trace w1) store id with
                     | TransportFailure =>
                         PurchaseService.find_in request (store :: rest) w
                         = (Raise HTTPError, w2)
                     | Response status' pets =>
                         match (if status' =? 200 then pets else []) with
                         | [] =>
                             PurchaseService.find_in request (store :: rest) w
                             = PurchaseService.find_in request rest w2
                         | p :: others =>
                             exists pet,
                               nth_error (p :: others)
                                 (Nat.modulo (entropy w (draws w))
                                    (List.length (p :: others)))
                               = Some pet
                               /\ PurchaseService.find_in request (store :: rest) w
                                  = (Ok (Some (candidate request store id pet)), drawn w2)
                         end
                     end
               end
           end)
    /\ (forall w r w',
           PurchaseService.find_available_pet request w = (r, w') ->
           exists evs,
             trace w' = trace w ++ evs
             /\ Forall (fun e => exists s, In s [1; 2] /\ listing_call s e) evs).
Proof.
  intros request Hname Hstore.
  assert (Hv : validate_pet_name_requires_store request = Ok request).
  { unfold validate_pet_name_requires_store. rewrite Hname, Hstore. reflexivity. }
  assert (Hs : PurchaseService.stores_to_check request = [1; 2]).
  { unfold PurchaseService.stores_to_check. rewrite Hstore. reflexivity. }
  split; [exact Hv|]. split; [|split; [|split]].
  - intros ct w Hct. unfold Purchases.post. rewrite Hct, Hv. reflexivity.
  - intros w. unfold PurchaseService.find_available_pet. rewrite Hs. reflexivity.
  - intros store rest w Hcfg w1.
    rewrite find_in_cons. unfold probe, bind. rewrite Hname.
    rewrite (find_pet_type_id_run _ _ _ Hcfg). fold w1.
    destruct (on_get_pet_types (network w) (trace w) store) as [status listing|];
      [|reflexivity].
    destruct (PetStoreClient.first_type_match _ _) as [id|]; [|reflexivity].
    destruct (Py.truthy id); cbn [negb Py.truthy String.eqb]; [|reflexivity].
    unfold pick_listed, bind. rewrite (get_pets_for_type_run _ _ _ Hcfg).
    change (network w1) with (network w).
    destruct (on_get_pets (network w) (trace w1) store id) as [status' pets|];
      [|reflexivity].
    destruct (if status' =? 200 then pets else []) as [|p others] eqn:El;
      [reflexivity|].
    set (w2 := log (Http (GetPetsForType store id)) w1).
    unfold random_choice, ret.
    change (entropy w2) with (entropy w). change (draws w2) with (draws w).
    destruct (nth_error (p :: others) _) as [pet|] eqn:En.
    + exists pet. split; reflexivity.
    + exfalso. apply nth_error_None in En.
      pose proof (Nat.mod_upper_bound (entropy w (draws w)) (List.length (p :: others))
                    ltac:(simpl; lia)).
      lia.
  - intros w r w' Hfind.
    unfold PurchaseService.find_available_pet in Hfind. rewrite Hs in Hfind.
    rewrite find_in_without_name in Hfind by exact Hname.
    eapply find_in_listing; [| exact Hfind]. reflexivity.
Qed.

(** The same on the running example: the request of Ana for a Poodle named
    "" finds Jamie in inventory 1 after asking for the pet types and for
    the pets of the type. *)
Lemma empty_pet_name_is_no_pet_name_witness :
  req_pet_name Scenario.ana_empty_name = Some ""
  /\ req_store Scenario.ana_empty_name = None
  /\ validate_pet_name_requires_store Scenario.ana_empty_name = Ok Scenario.ana_empty_name
  /\ Purchases.post Scenario.json Scenario.ana_empty_name Scenario.world
     = Purchases.create_purchase Scenario.json Scenario.ana_empty_name Scenario.world
  /\ PurchaseService.find_available_pet Scenario.ana_empty_name Scenario.world
     = (Ok (Some {| PurchaseService.fp_store := 1;
                    PurchaseService.fp_pet_type_id := "0000000000000000000004d2";
                    PurchaseService.fp_pet_type_name := "Poodle";
                    PurchaseService.fp_name := "Jamie" |}),
        drawn (log (Http (GetPetsForType 1 "0000000000000000000004d2"))
                 (log (Http (GetPetTypes 1)) Scenario.world))).
Proof.
  split; [reflexivity|]. split; [reflexivity|].
  destruct (empty_pet_name_is_no_pet_name Scenario.ana_empty_name eq_refl eq_refl)
    as (Hv & Hpost & Hall & Hstep & _).
  split; [exact Hv|]. split; [exact (Hpost Scenario.json Scenario.world eq_refl)|].
  rewrite Hall.
  assert (Hrun : exists pet,
             nth_error [ {| name := "Jamie"; birthdate := "24-10-2023"; picture := "NA" |} ]
               0%nat = Some pet
             /\ PurchaseService.find_in Scenario.ana_empty_name [1; 2] Scenario.world
                = (Ok (Some (candidate Scenario.ana_empty_name 1
                               "0000000000000000000004d2" pet)),
                   drawn (log (Http (GetPetsForType 1 "0000000000000000000004d2"))
                            (log (Http (GetPetTypes 1)) Scenario.world))))
    by exact (Hstep 1 [2] Scenario.world ltac:(discriminate)).
  destruct Hrun as (pet & Hpet & Hrun). injection Hpet as <-. exact Hrun.
Defined.

(** * Further properties *)

(** ** The search only reads *)

Lemma get_from_one store c :
  call_store c = store -> is_get c -> get_from [store] (Http c).
Proof. intros Hs Hg. exists c. repeat split; auto. now left. Qed.

Lemma pick_listed_gets request store id w r w' :
  pick_listed request store id w = (r, w') ->
  exists evs, trace w' = trace w ++ evs /\ Forall (get_from [store]) evs.
Proof.
  intros H. apply pick_listed_listing in H. destruct H as (evs & E & L).
  exists evs. split; [exact E|]. eapply Forall_impl; [| exact L].
  intros e [-> | (i & ->)]; apply get_from_one; simpl; auto.
Qed.

Lemma probe_gets request store w r w' :
  probe request store w = (r, w') ->
  exists evs, trace w' = trace w ++ evs /\ Forall (get_from [store]) evs.
Proof.
  unfold probe. intros H. apply bind_inv in H.
  assert (Htypes : forall r0 w0,
             PetStoreClient.find_pet_type_id store (req_pet_type request) w = (r0, w0) ->
             exists evs, trace w0 = trace w ++ evs /\ Forall (get_from [store]) evs).
  { intros r0 w0 H0. unfold PetStoreClient.find_pet_type_id in H0.
    assert (Hg : forall r1 w1, PetStoreClient.get_pet_types store w = (r1, w1) ->
                 exists evs, trace w1 = trace w ++ evs /\ Forall (get_from [store]) evs).
    { intros r1 w1 H1. apply get_pet_types_listing in H1. destruct H1 as (evs & E & L).
      exists evs. split; [exact E|]. eapply Forall_impl; [| exact L].
      intros e [-> | (i & ->)]; apply get_from_one; simpl; auto. }
    apply bind_inv in H0. destruct H0 as [(l & w1 & H1 & H2) | (e & H1 & _)]; eauto.
    inversion H2; subst. eauto. }
  destruct H as [(id & w1 & H1 & H2) | (e & H1 & _)]; [| eauto].
  apply Htypes in H1. destruct H1 as (evs1 & E1 & L1).
  assert (Hmore : forall evs2, trace w' = trace w1 ++ evs2 ->
                               Forall (get_from [store]) evs2 ->
                               exists evs, trace w' = trace w ++ evs
                                           /\ Forall (get_from [store]) evs).
  { intros evs2 E2 L2. exists (evs1 ++ evs2). split.
    - rewrite E2, E1. now rewrite app_assoc.
    - apply Forall_app. auto. }
  assert (Hstop : w' = w1 ->
                  exists evs, trace w' = trace w ++ evs /\ Forall (get_from [store]) evs).
  { intros ->. apply (Hmore []); [now rewrite app_nil_r | constructor]. }
  destruct id as [id|]; [| inversion H2; auto].
  destruct (Py.truthy id); simpl in H2; [| inversion H2; auto].
  assert (Hpick : pick_listed request store id w1 = (r, w') ->
                  exists evs, trace w' = trace w ++ evs /\ Forall (get_from [store]) evs).
  { intros Hp. apply pick_listed_gets in Hp. destruct Hp as (evs2 & E2 & L2). eauto. }
  destruct (req_pet_name request) as [n|]; [destruct (Py.truthy n)|]; auto.
  assert (Hget : forall r1 w2, PetStoreClient.get_pet store id n w1 = (r1, w2) ->
                 exists evs2, trace w2 = trace w1 ++ evs2 /\ Forall (get_from [store]) evs2).
  { intros r1 w2. unfold PetStoreClient.get_pet. client_cases store; simpl.
    - destruct (status =? 200); intros H; inversion H; subst;
        (exists [Http (GetPet store id n)]; split;
         [reflexivity | constructor; [apply get_from_one; simpl; auto | constructor]]).
    - intros H; inversion H; subst. exists [Http (GetPet store id n)]. split;
        [reflexivity | constructor; [apply get_from_one; simpl; auto | constructor]].
    - intros H; inversion H; subst. exists []. split;
        [now rewrite app_nil_r | constructor]. }
  apply bind_inv in H2. destruct H2 as [(pet & w2 & H3 & H4) | (e & H3 & _)].
  - inversion H4; subst. apply Hget in H3. destruct H3 as (evs2 & E2 & L2). eauto.
  - apply Hget in H3. destruct H3 as (evs2 & E2 & L2). eauto.
Qed.

Lemma get_from_weaken stores stores' e :
  incl stores stores' -> get_from stores e -> get_from stores' e.
Proof. intros Hi (c & -> & Hg & Hs). exists c. repeat split; auto. Qed.

Lemma find_in_gets request stores w r w' :
  PurchaseService.find_in request stores w = (r, w') ->
  exists evs, trace w' = trace w ++ evs /\ Forall (get_from stores) evs.
Proof.
  revert w. induction stores as [|store rest IH]; intros w.
  - simpl. unfold ret. intros H. inversion H; subst. exists [].
    split; [now rewrite app_nil_r | constructor].
  - rewrite find_in_cons.
    assert (Hhead : incl [store] (store :: rest)) by (intros x [<-|[]]; now left).
    assert (Htail : incl rest (store :: rest)) by (intros x Hx; now right).
    destruct (probe request store w) as [[[fp|]|e] w1] eqn:Ep; intros H;
      apply probe_gets in Ep; destruct Ep as (evs & E & L).
    + inversion H; subst. exists evs. split; auto.
      eapply Forall_impl; [| exact L]. intros e. now apply get_from_weaken.
    + apply IH in H. destruct H as (evs2 & E2 & L2).
      exists (evs ++ evs2). split; [rewrite E2, E; now rewrite app_assoc|].
      apply Forall_app. split.
      * eapply Forall_impl; [| exact L]. intros e. now apply get_from_weaken.
      * eapply Forall_impl; [| exact L2]. intros e. now apply get_from_weaken.
    + inversion H; subst. exists evs. split; auto.
      eapply Forall_impl; [| exact L]. intros e0. now apply get_from_weaken.
Qed.

(** The found pet belongs to one of the searched inventories. *)
Lemma find_in_store request stores w fp w' :
  PurchaseService.find_in request stores w = (Ok (Some fp), w') ->
  In (PurchaseService.fp_store fp) stores.
Proof.
  intros H. apply find_in_some_iff in H. destruct H as (before & after & _ & -> & _).
  apply in_or_app. right. now left.
Qed.

(** X1. When the search finds no pet, [process_purchase] raises
    [NoPetAvailable] and [create_purchase] answers 400 "No pet of this type
    is available"; the ledger is as it was and everything the purchase did
    is reading requests to the inventories of the search: no [DELETE] was
    sent and no ledger operation made. *)
Theorem no_candidate_is_no_pet_available :
  forall (request : PurchaseRequest) (w w1 : World),
    PurchaseService.find_available_pet request w = (Ok None, w1) ->
    PurchaseService.process_purchase request w = (Raise NoPetAvailable, w1)
    /\ (forall content_type,
           Py.contains "application/json" (header_or_empty content_type) = true ->
           Purchases.create_purchase content_type request w
           = (Ok {| status := 400; body := ErrorJson "No pet of this type is available" |},
              w1))
    /\ transactions w1 = transactions w
    /\ exists evs,
        trace w1 = trace w ++ evs
        /\ Forall (get_from (PurchaseService.stores_to_check request)) evs.
Proof.
  intros request w w1 Hfind.
  assert (Hp : PurchaseService.process_purchase request w = (Raise NoPetAvailable, w1)).
  { unfold PurchaseService.process_purchase. rewrite (bind_ok _ _ _ _ _ Hfind).
    reflexivity. }
  split; [exact Hp|]. split; [|split].
  - intros ct Hct. unfold Purchases.create_purchase. rewrite Hct. cbn [negb].
    rewrite Hp. reflexivity.
  - apply find_in_only_called in Hfind. now destruct Hfind as (_ & T & _).
  - apply find_in_gets in Hfind. exact Hfind.
Qed.

(** The same on the running example, once Jamie is sold. *)
Lemma no_candidate_is_no_pet_available_witness :
  PurchaseService.find_available_pet Scenario.ana after_first_purchase
  = (Ok None, snd (PurchaseService.find_available_pet Scenario.ana after_first_purchase))
  /\ PurchaseService.process_purchase Scenario.ana after_first_purchase
     = (Raise NoPetAvailable,
        snd (PurchaseService.find_available_pet Scenario.ana after_first_purchase))
  /\ transactions (snd (PurchaseService.find_available_pet Scenario.ana
                          after_first_purchase))
     = transactions after_first_purchase.
Proof.
  assert (Hfind : PurchaseService.find_available_pet Scenario.ana after_first_purchase
                  = (Ok None,
                     snd (PurchaseService.find_available_pet Scenario.ana
                            after_first_purchase))) by reflexivity.
  destruct (no_candidate_is_no_pet_available Scenario.ana after_first_purchase _ Hfind)
    as (H1 & _ & H3 & _).
  split; [exact Hfind|]. split; [exact H1 | exact H3].
Defined.

(** ** The course of a purchase *)

Lemma stores_to_check_configured request s :
  validate_pet_name_requires_store request = Ok request ->
  In s (PurchaseService.stores_to_check request) ->
  PetStoreClient.PET_STORE_URLS s <> None.
Proof.
  unfold validate_pet_name_requires_store, PurchaseService.stores_to_check.
  destruct (req_store request) as [t|].
  - destruct (Py.truthy_opt (req_pet_name request) && negb (Py.truthy_int (Some t)));
      [discriminate|].
    destruct (Z.eqb_spec t 1) as [->|H1]; simpl.
    + intros _ [<-|[]]. discriminate.
    + destruct (Z.eqb_spec t 2) as [->|H2]; simpl; [|discriminate].
      intros _ [<-|[]]. discriminate.
  - intros _ [<-|[<-|[]]]; discriminate.
Qed.

(** X2. Whatever its outcome, a purchase leaves in the trace first reading
    requests to the inventories of its search, then at most one [DELETE]
    request, to one of these inventories, then at most one insertion into
    the ledger, which comes only after the [DELETE].  It returns a response
    exactly when it ends with the insertion, and the ledger has then grown by
    that one document; in every other case the ledger is as it was. *)
Theorem purchase_searches_claims_records :
  forall (request : PurchaseRequest) (w w' : World) (r : outcome PurchaseResponse),
    PurchaseService.process_purchase request w = (r, w') ->
    exists gets tail,
      trace w' = trace w ++ gets ++ tail
      /\ Forall (get_from (PurchaseService.stores_to_check request)) gets
      /\ purchase_tail (PurchaseService.stores_to_check request) tail
      /\ ((exists response, r = Ok response)
          <-> exists s id n doc, tail = [Http (DeletePet s id n); LedgerInsert doc])
      /\ (forall s id n doc,
             tail = [Http (DeletePet s id n); LedgerInsert doc] ->
             transactions w' = transactions w ++ [doc])
      /\ ((forall response, r <> Ok response) -> transactions w' = transactions w).
Proof.
  intros request w w' r Hp. unfold PurchaseService.process_purchase in Hp.
  set (stores := PurchaseService.stores_to_check request).
  assert (Hnil : forall gets,
             trace w' = trace w ++ gets -> Forall (get_from stores) gets ->
             transactions w' = transactions w ->
             (forall response, r <> Ok response) ->
             exists gets tail,
               trace w' = trace w ++ gets ++ tail
               /\ Forall (get_from stores) gets
               /\ purchase_tail stores tail
               /\ ((exists response, r = Ok response)
                   <-> exists s id n doc, tail = [Http (DeletePet s id n); LedgerInsert doc])
               /\ (forall s id n doc,
                      tail = [Http (DeletePet s id n); LedgerInsert doc] ->
                      transactions w' = transactions w ++ [doc])
               /\ ((forall response, r <> Ok response) ->
                   transactions w' = transactions w)).
  { intros gets E G T Hr. exists gets, []. rewrite app_nil_r.
    split; [exact E|]. split; [exact G|]. split; [constructor|].
    split; [|split; [discriminate | auto]].
    split; [intros (resp & ->); exfalso; eapply Hr; eauto
           | intros (s & id & n & doc & H); discriminate]. }
  apply bind_inv in Hp. destruct Hp as [(pet & w1 & Hfind & Hrun) | (e & Hfind & ->)].
  - pose proof (find_in_gets _ _ _ _ _ Hfind) as (gets & E & G).
    pose proof (find_in_only_called _ _ _ _ _ Hfind) as (_ & T1 & F1 & I1 & _).
    destruct pet as [pet|].
    + pose proof (find_in_store _ _ _ _ _ Hfind) as Hstore.
      apply bind_inv in Hrun. destruct Hrun as [(ok & w2 & Hdel & Hrun) | (e & Hdel & ->)].
      * pose proof (delete_pet_one_request _ _ _ _ _ _ Hdel) as ->.
        destruct ok; simpl in Hrun.
        -- unfold bind, Collection.insert_one, ret in Hrun. inversion Hrun; subst r w'.
           simpl. eexists gets, [_; _]. split; [rewrite E, <- !app_assoc; reflexivity|].
           split; [exact G|]. split; [now constructor|].
           split; [split; eauto|]. split.
           ++ intros s id n doc Heq. inversion Heq; subst. now rewrite T1.
           ++ intros Hr. exfalso. eapply Hr; eauto.
        -- inversion Hrun; subst r w'. simpl.
           exists gets, [Http (DeletePet (PurchaseService.fp_store pet)
                                 (PurchaseService.fp_pet_type_id pet)
                                 (PurchaseService.fp_name pet))].
           split; [rewrite E, <- app_assoc; reflexivity|].
           split; [exact G|]. split; [now constructor|].
           split; [split; [intros (resp & H); discriminate
                          | intros (s & id & n & doc & H); discriminate]|].
           split; [discriminate | auto].
      * pose proof (delete_pet_only_called _ _ _ _ _ _ Hdel) as (_ & T2 & _).
        assert (Htrace : w' = w1
                         \/ w' = log (Http (DeletePet (PurchaseService.fp_store pet)
                                              (PurchaseService.fp_pet_type_id pet)
                                              (PurchaseService.fp_name pet))) w1).
        { revert Hdel. unfold PetStoreClient.delete_pet.
          client_cases (PurchaseService.fp_store pet); simpl;
            intros H; inversion H; auto. }
        destruct Htrace as [-> | ->].
        -- apply (Hnil gets); auto. discriminate.
        -- exists gets, [Http (DeletePet (PurchaseService.fp_store pet)
                                 (PurchaseService.fp_pet_type_id pet)
                                 (PurchaseService.fp_name pet))].
           simpl. split; [rewrite E, <- app_assoc; reflexivity|].
           split; [exact G|]. split; [now constructor|].
           split; [split; [intros (resp & H); discriminate
                          | intros (s & id & n & doc & H); discriminate]|].
           split; [discriminate | auto].
    + inversion Hrun; subst r w'. apply (Hnil gets); auto. discriminate.
  - pose proof (find_in_gets _ _ _ _ _ Hfind) as (gets & E & G).
    pose proof (find_in_only_called _ _ _ _ _ Hfind) as (_ & T1 & _).
    apply (Hnil gets); auto. discriminate.
Qed.

(** The same on the first purchase of the running example. *)
Lemma purchase_searches_claims_records_witness :
  PurchaseService.process_purchase Scenario.ana Scenario.world
  = (Ok first_response, after_first_purchase)
  /\ exists gets tail,
      trace after_first_purchase = trace Scenario.world ++ gets ++ tail
      /\ Forall (get_from (PurchaseService.stores_to_check Scenario.ana)) gets
      /\ purchase_tail (PurchaseService.stores_to_check Scenario.ana) tail
      /\ ((exists response, Ok first_response = Ok response)
          <-> exists s id n doc, tail = [Http (DeletePet s id n); LedgerInsert doc])
      /\ (forall s id n doc,
             tail = [Http (DeletePet s id n); LedgerInsert doc] ->
             transactions after_first_purchase = transactions Scenario.world ++ [doc])
      /\ ((forall response, Ok first_response <> Ok response) ->
          transactions after_first_purchase = transactions Scenario.world).
Proof.
  assert (Hp : PurchaseService.process_purchase Scenario.ana Scenario.world
               = (Ok first_response, after_first_purchase)) by reflexivity.
  split; [exact Hp|].
  exact (purchase_searches_claims_records Scenario.ana Scenario.world
           after_first_purchase (Ok first_response) Hp).
Defined.

(** ** What a purchase raises *)

Lemma unanswered_now (n : Network) (w : World) (c : call) :
  n = network w -> unanswered n (trace w) c ->
  exists evs c', trace (log (Http c) w) = trace w ++ evs ++ [Http c']
                 /\ unanswered n (trace w ++ evs) c'.
Proof.
  intros -> H. exists [], c. simpl. rewrite app_nil_r. auto.
Qed.

Lemma pick_listed_raises request store id w e w' :
  PetStoreClient.PET_STORE_URLS store <> None ->
  pick_listed request store id w = (Raise e, w') ->
  e = HTTPError
  /\ w' = log (Http (GetPetsForType store id)) w
  /\ unanswered (network w) (trace w) (GetPetsForType store id).
Proof.
  intros Hcfg H. unfold pick_listed in H. apply bind_inv in H.
  rewrite (get_pets_for_type_run _ _ _ Hcfg) in H.
  destruct (on_get_pets (network w) (trace w) store id) as [st pets|] eqn:Ep.
  - exfalso. destruct H as [(l & w1 & H1 & H2) | (e0 & H1 & _)]; [|discriminate].
    destruct l as [|p l]; [unfold ret in H2; discriminate|].
    apply bind_inv in H2. destruct H2 as [(pet & w2 & H3 & H4) | (e0 & H3 & _)].
    + unfold ret in H4. discriminate.
    + destruct (random_choice_nonempty p l w1) as (y & w3 & Hy & _). congruence.
  - destruct H as [(l & w1 & H1 & H2) | (e0 & H1 & He)]; [discriminate|].
    inversion H1; subst. inversion He; subst. repeat split. exact Ep.
Qed.

Lemma probe_raises request store w e w' :
  PetStoreClient.PET_STORE_URLS store <> None ->
  probe request store w = (Raise e, w') ->
  e = HTTPError
  /\ exists evs c, trace w' = trace w ++ evs ++ [Http c]
                   /\ unanswered (network w) (trace w ++ evs) c.
Proof.
  intros Hcfg H. unfold probe in H. apply bind_inv in H.
  rewrite (find_pet_type_id_run _ _ _ Hcfg) in H.
  destruct (on_get_pet_types (network w) (trace w) store) as [status listing|] eqn:Et.
  - destruct H as [(id & w1 & H1 & H2) | (e0 & H1 & _)]; [|discriminate].
    inversion H1; subst id w1; clear H1.
    set (w1 := log (Http (GetPetTypes store)) w) in *.
    assert (Hlater : forall c,
               unanswered (network w1) (trace w1) c ->
               exists evs c', trace (log (Http c) w1) = trace w ++ evs ++ [Http c']
                              /\ unanswered (network w) (trace w ++ evs) c').
    { intros c Hc. exists [Http (GetPetTypes store)], c. split; [|exact Hc].
      simpl. now rewrite <- app_assoc. }
    destruct (PetStoreClient.first_type_match _ _) as [id|];
      [| unfold ret in H2; discriminate].
    destruct (Py.truthy id); simpl in H2; [| unfold ret in H2; discriminate].
    assert (Hpick : pick_listed request store id w1 = (Raise e, w') ->
                    e = HTTPError
                    /\ exists evs c, trace w' = trace w ++ evs ++ [Http c]
                                     /\ unanswered (network w) (trace w ++ evs) c).
    { intros Hp. apply (pick_listed_raises _ _ _ _ _ _ Hcfg) in Hp.
      destruct Hp as (-> & -> & Hu). split; [reflexivity|]. now apply Hlater. }
    destruct (req_pet_name request) as [n|]; [destruct (Py.truthy n)|]; auto.
    apply bind_inv in H2. rewrite (get_pet_run _ _ _ _ Hcfg) in H2.
    destruct (on_get_pet (network w1) (trace w1) store id n) as [st pet|] eqn:Eg.
    + destruct H2 as [(p & w2 & H3 & H4) | (e0 & H3 & _)]; [|discriminate].
      unfold ret in H4. discriminate.
    + destruct H2 as [(p & w2 & H3 & H4) | (e0 & H3 & He)]; [discriminate|].
      inversion H3; subst. inversion He; subst. split; [reflexivity|].
      now apply Hlater.
  - destruct H as [(id & w1 & H1 & H2) | (e0 & H1 & He)]; [discriminate|].
    inversion H1; subst. inversion He; subst. split; [reflexivity|].
    apply (unanswered_now (network w) w (GetPetTypes store)); [reflexivity | exact Et].
Qed.

Lemma find_in_raises request stores w e w' :
  (forall s, In s stores -> PetStoreClient.PET_STORE_URLS s <> None) ->
  PurchaseService.find_in request stores w = (Raise e, w') ->
  e = HTTPError
  /\ exists evs c, trace w' = trace w ++ evs ++ [Http c]
                   /\ unanswered (network w) (trace w ++ evs) c.
Proof.
  revert w. induction stores as [|store rest IH]; intros w Hcfg.
  - simpl. unfold ret. discriminate.
  - rewrite find_in_cons.
    destruct (probe request store w) as [[[fp|]|e0] w1] eqn:Ep; intros H.
    + discriminate.
    + pose proof (probe_only_called _ _ _ _ _ Ep) as (N1 & _ & _ & _ & evs1 & E1 & _).
      apply IH in H; [| intros s Hs; apply Hcfg; now right].
      destruct H as (-> & evs & c & E & U). split; [reflexivity|].
      exists (evs1 ++ evs), c. split.
      * rewrite E, E1, <- !app_assoc. reflexivity.
      * rewrite app_assoc, <- E1, <- N1. exact U.
    + inversion H; subst. eapply probe_raises; eauto. apply Hcfg. now left.
Qed.

Lemma process_purchase_raises request w e w' :
  (forall s, In s (PurchaseService.stores_to_check request) ->
             PetStoreClient.PET_STORE_URLS s <> None) ->
  PurchaseService.process_purchase request w = (Raise e, w') ->
  transactions w' = transactions w
  /\ (e = NoPetAvailable
      \/ (e = HTTPError
          /\ exists evs c, trace w' = trace w ++ evs ++ [Http c]
                           /\ unanswered (network w) (trace w ++ evs) c)).
Proof.
  intros Hcfg Hp. unfold PurchaseService.process_purchase in Hp.
  apply bind_inv in Hp. destruct Hp as [(pet & w1 & Hfind & Hrun) | (e1 & Hfind & He)].
  - pose proof (find_in_only_called _ _ _ _ _ Hfind)
      as (N1 & T1 & _ & _ & evs1 & E1 & _).
    destruct pet as [pet|].
    + pose proof (Hcfg _ (find_in_store _ _ _ _ _ Hfind)) as Hc.
      apply bind_inv in Hrun. rewrite (delete_pet_run _ _ _ _ Hc) in Hrun.
      destruct (on_delete_pet (network w1) (trace w1) (PurchaseService.fp_store pet)
                  (PurchaseService.fp_pet_type_id pet) (PurchaseService.fp_name pet))
        as [st []|] eqn:Ed.
      * destruct Hrun as [(ok & w2 & H1 & H2) | (e0 & H1 & _)]; [|discriminate].
        inversion H1; subst ok w2; clear H1.
        destruct ((st =? 200) || (st =? 204))%bool; simpl in H2.
        -- unfold bind, Collection.insert_one, ret in H2. discriminate.
        -- unfold raise in H2. inversion H2; subst. simpl. split; [exact T1 | now left].
      * destruct Hrun as [(ok & w2 & H1 & H2) | (e0 & H1 & He)]; [discriminate|].
        inversion H1; subst. inversion He; subst. simpl. split; [exact T1|].
        right. split; [reflexivity|].
        exists evs1, (DeletePet (PurchaseService.fp_store pet)
                        (PurchaseService.fp_pet_type_id pet) (PurchaseService.fp_name pet)).
        split; [rewrite E1, <- app_assoc; reflexivity|].
        simpl. rewrite <- E1, <- N1. exact Ed.
    + unfold raise in Hrun. inversion Hrun; subst. split; [exact T1 | now left].
  - inversion He; subst e1.
    pose proof (find_in_only_called _ _ _ _ _ Hfind) as (_ & T1 & _).
    apply find_in_raises in Hfind; [| exact Hcfg].
    split; [exact T1 | right; exact Hfind].
Qed.

Lemma validate_returns_self fields purchase :
  validate_pet_name_requires_store fields = Ok purchase -> purchase = fields.
Proof.
  unfold validate_pet_name_requires_store.
  destruct (_ && _); [discriminate|].
  destruct (req_store fields) as [s|]; [destruct (negb _); [discriminate|]|];
    intros H; inversion H; reflexivity.
Qed.

(** ** The answers of [POST /purchases] *)

(** A purchase that returns went through the three steps. *)
Lemma process_purchase_returns request w response w' :
  PurchaseService.process_purchase request w = (Ok response, w') ->
  exists pet w1 w2 doc,
    PurchaseService.find_available_pet request w = (Ok (Some pet), w1)
    /\ PetStoreClient.delete_pet (PurchaseService.fp_store pet)
         (PurchaseService.fp_pet_type_id pet) (PurchaseService.fp_name pet) w1
       = (Ok true, w2)
    /\ doc = {| doc_id := fresh_ids w (ids_issued w);
                doc_purchaser := req_purchaser request;
                doc_pet_type := PurchaseService.fp_pet_type_name pet;
                doc_store := PurchaseService.fp_store pet |}
    /\ transactions w2 = transactions w
    /\ transactions w' = transactions w ++ [doc]
    /\ trace w' = trace w2 ++ [LedgerInsert doc]
    /\ network w' = network w
    /\ response = {| resp_purchaser := req_purchaser request;
                     resp_pet_type := PurchaseService.fp_pet_type_name pet;
                     resp_store := PurchaseService.fp_store pet;
                     resp_pet_name := PurchaseService.fp_name pet;
                     resp_purchase_id := Bson.str (doc_id doc) |}.
Proof.
  intros Hp. unfold PurchaseService.process_purchase in Hp.
  apply bind_inv in Hp. destruct Hp as [(pet & w1 & Hfind & Hrun) | (e & _ & He)];
    [|discriminate].
  destruct pet as [pet|]; [| unfold raise in Hrun; discriminate].
  apply bind_inv in Hrun. destruct Hrun as [(ok & w2 & Hdel & Hrun) | (e & _ & He)];
    [|discriminate].
  destruct ok; simpl in Hrun; [| unfold raise in Hrun; discriminate].
  pose proof (find_in_only_called _ _ _ _ _ Hfind) as (N1 & T1 & F1 & I1 & _).
  pose proof (delete_pet_only_called _ _ _ _ _ _ Hdel) as (N2 & T2 & F2 & I2 & _).
  unfold bind, Collection.insert_one, ret in Hrun. inversion Hrun; subst response w'.
  exists pet, w1, w2. eexists. split; [exact Hfind|]. split; [exact Hdel|].
  split; [reflexivity|]. simpl.
  split; [congruence|]. split; [rewrite T2, T1, F2, F1, I2, I1; reflexivity|].
  split; [rewrite F2, F1, I2, I1; reflexivity|]. split; [congruence|].
  rewrite F2, F1, I2, I1. reflexivity.
Qed.

Lemma pick_listed_type_name request store id w fp w' :
  pick_listed request store id w = (Ok (Some fp), w') ->
  PurchaseService.fp_pet_type_name fp = req_pet_type request.
Proof.
  unfold pick_listed, bind.
  destruct (PetStoreClient.get_pets_for_type store id w) as [[[|p pets]|e] w1];
    try discriminate.
  destruct (random_choice (p :: pets) w1) as [[pet|e] w2]; try discriminate.
  intros H. inversion H; subst. reflexivity.
Qed.

(** A found pet carries the type name of the request. *)
Lemma probe_type_name request store w fp w' :
  probe request store w = (Ok (Some fp), w') ->
  PurchaseService.fp_pet_type_name fp = req_pet_type request.
Proof.
  unfold probe, bind.
  destruct (PetStoreClient.find_pet_type_id store (req_pet_type request) w)
    as [[[id|]|e] w1]; try discriminate.
  destruct (Py.truthy id); simpl; try discriminate.
  destruct (req_pet_name request) as [n|]; [destruct (Py.truthy n)|];
    try apply pick_listed_type_name.
  destruct (PetStoreClient.get_pet store id n w1) as [[[pet|]|e] w2]; try discriminate.
  intros H. inversion H; subst. reflexivity.
Qed.

(** X4. [POST /purchases] answers 415 whenever the content type does not
    contain "application/json", whatever the body.  When the content type
    does contain it, the answer is 400 "Malformed data" where the framework
    does not read the body as JSON (the media type is not
    [application/json] or [application/...+json], as for
    "text/plain; x=application/json") and where the validator rejects the
    body; in these cases the world is left as it was.  For a body that is
    read and that the validator accepts, every answer is either 201 with the
    purchase, the ledger having grown by one document whose identifier is
    the purchase-id, or 400 "No pet of this type is available" with the
    ledger as it was. *)
Theorem post_answers :
  forall (content_type : option string) (fields : PurchaseRequest) (w : World),
    (Py.contains "application/json" (header_or_empty content_type) = false ->
     Purchases.post content_type fields w
     = (Ok {| status := 415; body := ErrorJson "Expected application/json media type" |},
        w))
    /\ (Py.contains "application/json" (header_or_empty content_type) = true ->
        Fastapi.reads_json content_type = false
        \/ validate_pet_name_requires_store fields <> Ok fields ->
        Purchases.post content_type fields w
        = (Ok {| status := 400; body := ErrorJson "Malformed data" |}, w))
    /\ (Py.contains "application/json" (header_or_empty content_type) = true ->
        Fastapi.reads_json content_type = true ->
        validate_pet_name_requires_store fields = Ok fields ->
        forall answer w',
          Purchases.post content_type fields w = (Ok answer, w') ->
          (exists purchase doc,
              answer = {| status := 201; body := PurchaseJson purchase |}
              /\ transactions w' = transactions w ++ [doc]
              /\ resp_purchase_id purchase = Bson.str (doc_id doc)
              /\ resp_purchaser purchase = req_purchaser fields
              /\ resp_pet_type purchase = req_pet_type fields)
          \/ (answer = {| status := 400;
                          body := ErrorJson "No pet of this type is available" |}
              /\ transactions w' = transactions w)).
Proof.
  intros ct fields w. split; [|split].
  - intros Hct. unfold Purchases.post, Purchases.create_purchase,
      validation_exception_handler. rewrite Hct.
    destruct (Fastapi.reads_json ct); [|reflexivity].
    destruct (validate_pet_name_requires_store fields); reflexivity.
  - intros Hct Hv. unfold Purchases.post, validation_exception_handler. rewrite Hct.
    destruct (Fastapi.reads_json ct); [|reflexivity].
    destruct Hv as [Hv|Hv]; [discriminate|].
    destruct (validate_pet_name_requires_store fields) as [purchase|] eqn:E;
      [|reflexivity].
    exfalso. pose proof (validate_returns_self _ _ E) as ->. apply Hv. reflexivity.
  - intros Hct Hread Hv answer w'. unfold Purchases.post. rewrite Hread, Hv.
    unfold Purchases.create_purchase. rewrite Hct. cbn [negb].
    destruct (PurchaseService.process_purchase fields w) as [[resp|e] w0] eqn:Hp.
    + intros H. inversion H; subst answer w0. left.
      apply process_purchase_returns in Hp.
      destruct Hp as (pet & w1 & w2 & doc & Hfind & _ & Hdoc & _ & T & _ & _ & ->).
      exists {| resp_purchaser := req_purchaser fields;
                resp_pet_type := PurchaseService.fp_pet_type_name pet;
                resp_store := PurchaseService.fp_store pet;
                resp_pet_name := PurchaseService.fp_name pet;
                resp_purchase_id := Bson.str (doc_id doc) |}, doc.
      repeat split; auto. simpl.
      apply find_in_some_iff in Hfind. destruct Hfind as (b & a & w3 & _ & _ & Hprobe).
      eapply probe_type_name; eauto.
    + apply process_purchase_raises in Hp;
        [| intros s Hs; eapply stores_to_check_configured; eauto].
      destruct Hp as (T & He). destruct e; try discriminate.
      intros H. inversion H; subst. right. auto.
Qed.

(** The same on the running example, for four requests. *)
Lemma post_answers_witness :
  Py.contains "application/json" (header_or_empty (Some "text/plain")) = false
  /\ Purchases.post (Some "text/plain") Scenario.ana Scenario.world
     = (Ok {| status := 415; body := ErrorJson "Expected application/json media type" |},
        Scenario.world)
  /\ Py.contains "application/json"
       (header_or_empty (Some "text/plain; x=application/json")) = true
  /\ Fastapi.reads_json (Some "text/plain; x=application/json") = false
  /\ Purchases.post (Some "text/plain; x=application/json") Scenario.ana Scenario.world
     = (Ok {| status := 400; body := ErrorJson "Malformed data" |}, Scenario.world)
  /\ Py.contains "application/json" (header_or_empty Scenario.json) = true
  /\ Fastapi.reads_json Scenario.json = true
  /\ validate_pet_name_requires_store Scenario.ana_jamie_anywhere
     <> Ok Scenario.ana_jamie_anywhere
  /\ Purchases.post Scenario.json Scenario.ana_jamie_anywhere Scenario.world
     = (Ok {| status := 400; body := ErrorJson "Malformed data" |}, Scenario.world)
  /\ validate_pet_name_requires_store Scenario.ana = Ok Scenario.ana
  /\ Purchases.post Scenario.json Scenario.ana Scenario.world
     = (Ok {| status := 201; body := PurchaseJson first_response |}, after_first_purchase)
  /\ ((exists purchase doc,
          {| status := 201; body := PurchaseJson first_response |}
          = {| status := 201; body := PurchaseJson purchase |}
          /\ transactions after_first_purchase = transactions Scenario.world ++ [doc]
          /\ resp_purchase_id purchase = Bson.str (doc_id doc)
          /\ resp_purchaser purchase = req_purchaser Scenario.ana
          /\ resp_pet_type purchase = req_pet_type Scenario.ana)
      \/ ({| status := 201; body := PurchaseJson first_response |}
          = {| status := 400; body := ErrorJson "No pet of this type is available" |}
          /\ transactions after_first_purchase = transactions Scenario.world)).
Proof.
  assert (H0 : Py.contains "application/json" (header_or_empty (Some "text/plain")) = false)
    by reflexivity.
  assert (Hp : Py.contains "application/json"
                 (header_or_empty (Some "text/plain; x=application/json")) = true)
    by reflexivity.
  assert (Hq : Fastapi.reads_json (Some "text/plain; x=application/json") = false)
    by reflexivity.
  assert (H1 : Py.contains "application/json" (header_or_empty Scenario.json) = true)
    by reflexivity.
  assert (Hr : Fastapi.reads_json Scenario.json = true) by reflexivity.
  assert (H2 : validate_pet_name_requires_store Scenario.ana_jamie_anywhere
               <> Ok Scenario.ana_jamie_anywhere) by discriminate.
  assert (H3 : validate_pet_name_requires_store Scenario.ana = Ok Scenario.ana)
    by reflexivity.
  assert (H4 : Purchases.post Scenario.json Scenario.ana Scenario.world
               = (Ok {| status := 201; body := PurchaseJson first_response |},
                  after_first_purchase)) by reflexivity.
  split; [exact H0|].
  split; [exact (proj1 (post_answers (Some "text/plain") Scenario.ana Scenario.world) H0)|].
  split; [exact Hp|]. split; [exact Hq|].
  split; [exact (proj1 (proj2 (post_answers (Some "text/plain; x=application/json")
                                 Scenario.ana Scenario.world)) Hp (or_introl Hq))|].
  split; [exact H1|]. split; [exact Hr|]. split; [exact H2|].
  split; [exact (proj1 (proj2 (post_answers Scenario.json Scenario.ana_jamie_anywhere
                                 Scenario.world)) H1 (or_intror H2))|].
  split; [exact H3|]. split; [exact H4|].
  exact (proj2 (proj2 (post_answers Scenario.json Scenario.ana Scenario.world))
           H1 Hr H3 _ _ H4).
Defined.

(** ** Object identifiers and their strings *)

Lemma hex_value_digit (d : N) :
  (d < 16)%N -> Bson.hex_value (Bson.hex_digit d) = Some d.
Proof.
  intros H. destruct d as [|p]; [reflexivity|].
  do 4 (destruct p as [p|p|]; try reflexivity); lia.
Qed.

Lemma length_hex_of (k : nat) (n : N) (acc : string) :
  String.length (Bson.hex_of k n acc) = (k + String.length acc)%nat.
Proof.
  revert n acc. induction k as [|k IH]; intros n acc; simpl; [reflexivity|].
  rewrite IH. simpl. lia.
Qed.

Lemma parse_hex_hex_of (k : nat) (n : N) (acc : string) (a : N) :
  Bson.parse_hex (Bson.hex_of k n acc) a
  = Bson.parse_hex acc (a * 16 ^ N.of_nat k + n mod 16 ^ N.of_nat k)%N.
Proof.
  revert n acc a. induction k as [|k IH]; intros n acc a.
  - simpl. rewrite N.mod_1_r. f_equal. lia.
  - cbn [Bson.hex_of]. rewrite IH. cbn [Bson.parse_hex].
    rewrite hex_value_digit by (apply N.mod_upper_bound; discriminate).
    f_equal. rewrite Nnat.Nat2N.inj_succ, N.pow_succ_r'.
    rewrite (N.Div0.mod_mul_r n 16 (16 ^ N.of_nat k)). lia.
Qed.

(** A hexadecimal digit is no white space. *)
Lemma hex_is_no_space (c : ascii) (h : N) :
  Bson.hex_value c = Some h -> Bson.is_space c = false.
Proof.
  destruct c as [[] [] [] [] [] [] [] []]; vm_compute; intros H;
    (reflexivity || discriminate H).
Qed.

(** On hexadecimal digits alone [bytes.fromhex] reads one byte from every
    two of them. *)
Lemma fromhex_digits (n : nat) (s : string) (count value v : N) :
  String.length s = (2 * n)%nat ->
  Bson.parse_hex s value = Some v ->
  Bson.fromhex s count value = Some ((count + N.of_nat n)%N, v).
Proof.
  revert s count value. induction n as [|n IH]; intros s count value Hlen Hv.
  - destruct s; [|discriminate]. cbn in *. rewrite N.add_0_r. congruence.
  - destruct s as [|x s]; [cbn in Hlen; lia|].
    destruct s as [|y t]; [cbn in Hlen; lia|].
    cbn [Bson.parse_hex Bson.fromhex] in *.
    destruct (Bson.hex_value x) as [h|] eqn:Hx; [|discriminate].
    destruct (Bson.hex_value y) as [l|] eqn:Hy; [|discriminate].
    rewrite (hex_is_no_space x h Hx).
    rewrite (IH t (count + 1)%N (256 * value + 16 * h + l)%N).
    + f_equal. f_equal. lia.
    + cbn [String.length] in Hlen. lia.
    + rewrite <- Hv. f_equal. lia.
Qed.

(** The string of an object identifier is read back as that identifier. *)
Lemma parse_str (oid : Bson.ObjectId) :
  (oid < 2 ^ 96)%N -> Bson.parse (Bson.str oid) = Some oid.
Proof.
  intros H. unfold Bson.parse, Bson.str. rewrite length_hex_of. simpl String.length.
  cbn [Nat.add Nat.eqb].
  rewrite (fromhex_digits 12 (Bson.hex_of 24 oid "") 0 0 (oid mod 16 ^ N.of_nat 24)).
  - cbn [N.add]. unfold Bson.of_bytes. cbn [N.eqb Pos.eqb].
    f_equal. change (16 ^ N.of_nat 24)%N with (2 ^ 96)%N. now apply N.mod_small.
  - now rewrite length_hex_of.
  - rewrite parse_hex_hex_of. cbn [Bson.parse_hex]. f_equal; lia.
Qed.

(** ** A purchase and the query for it *)

Lemma filter_none {A} (f : A -> bool) (l : list A) :
  (forall x, In x l -> f x = false) -> filter f l = [].
Proof.
  induction l as [|x l IH]; intros H; [reflexivity|].
  simpl. rewrite (H x) by now left. apply IH. intros y Hy. apply H. now right.
Qed.

(** X5. The purchase-id of a completed purchase, given as the purchase-id
    filter of [get_transactions], finds the transaction of that purchase,
    with the purchaser, pet type and store of the response; it finds nothing
    else when no earlier document of the ledger has the identifier.  The
    identifier the driver assigned is a proper twelve-byte one. *)
Theorem purchase_id_finds_purchase :
  forall (request : PurchaseRequest) (w w' : World) (response : PurchaseResponse),
    PurchaseService.process_purchase request w = (Ok response, w') ->
    (fresh_ids w (ids_issued w) < 2 ^ 96)%N ->
    let transaction :=
      {| tx_purchaser := resp_purchaser response;
         tx_pet_type := resp_pet_type response;
         tx_store := resp_store response;
         tx_purchase_id := resp_purchase_id response |} in
    exists found w'',
      PurchaseService.get_transactions None None None
        (Some (resp_purchase_id response)) w'
      = (Ok found, w'')
      /\ In transaction found
      /\ ((forall d, In d (transactions w) -> doc_id d <> fresh_ids w (ids_issued w)) ->
          found = [transaction]).
Proof.
  intros request w w' response Hp Hid transaction.
  apply process_purchase_returns in Hp.
  destruct Hp as (pet & w1 & w2 & doc & _ & _ & Hdoc & _ & T & _ & _ & Hresp).
  assert (Hoid : doc_id doc = fresh_ids w (ids_issued w)) by (subst doc; reflexivity).
  assert (Htx : transaction = PurchaseService.to_transaction doc).
  { subst transaction response doc. reflexivity. }
  assert (Hparse : Bson.parse (resp_purchase_id response) = Some (doc_id doc)).
  { subst response. simpl. apply parse_str. now rewrite Hoid. }
  unfold PurchaseService.get_transactions. rewrite Hparse.
  unfold bind, Collection.find, ret. simpl.
  eexists; eexists. split; [reflexivity|].
  rewrite T, filter_app, map_app. simpl.
  assert (Hm : Collection.matches
                 {| q_store := None; q_pet_type := None; q_purchaser := None;
                    q_id := Some (doc_id doc) |} doc = true).
  { apply matches_iff. repeat split; try discriminate. intros i Hi. congruence. }
  rewrite Hm. simpl. split.
  - apply in_or_app. right. left. symmetry. exact Htx.
  - intros Hfresh.
    replace (filter _ (transactions w)) with (@nil TransactionDoc);
      [simpl; now rewrite Htx|].
    symmetry. apply filter_none. intros d Hd.
    destruct (Collection.matches _ d) eqn:Ed; [|reflexivity].
    exfalso. apply matches_iff in Ed. destruct Ed as (_ & _ & _ & Hi).
    apply (Hfresh d Hd). rewrite <- Hoid. now apply Hi.
Qed.

(** The same on the first purchase of the running example. *)
Lemma purchase_id_finds_purchase_witness :
  PurchaseService.process_purchase Scenario.ana Scenario.world
  = (Ok first_response, after_first_purchase)
  /\ (fresh_ids Scenario.world (ids_issued Scenario.world) < 2 ^ 96)%N
  /\ exists found w'',
      PurchaseService.get_transactions None None None
        (Some (resp_purchase_id first_response)) after_first_purchase
      = (Ok found, w'')
      /\ In {| tx_purchaser := resp_purchaser first_response;
               tx_pet_type := resp_pet_type first_response;
               tx_store := resp_store first_response;
               tx_purchase_id := resp_purchase_id first_response |} found
      /\ ((forall d, In d (transactions Scenario.world) ->
                     doc_id d <> fresh_ids Scenario.world (ids_issued Scenario.world)) ->
          found = [ {| tx_purchaser := resp_purchaser first_response;
                       tx_pet_type := resp_pet_type first_response;
                       tx_store := resp_store first_response;
                       tx_purchase_id := resp_purchase_id first_response |} ]).
Proof.
  assert (Hp : PurchaseService.process_purchase Scenario.ana Scenario.world
               = (Ok first_response, after_first_purchase)) by reflexivity.
  assert (Hid : (fresh_ids Scenario.world (ids_issued Scenario.world) < 2 ^ 96)%N)
    by reflexivity.
  split; [exact Hp|]. split; [exact Hid|].
  exact (purchase_id_finds_purchase Scenario.ana Scenario.world after_first_purchase
           first_response Hp Hid).
Defined.

(** ** Where a found pet comes from *)

Lemma first_type_match_some listing type_name id :
  PetStoreClient.first_type_match listing (Py.lower type_name) = Some id ->
  exists pt, In pt listing
             /\ same_type_ignoring_case type_name pt = true
             /\ pt_id pt = Some id.
Proof.
  intros H.
  destruct (first_type_match_first listing type_name)
    as [(before & pt & after & -> & _ & Hpt & Hr) | (_ & Hr)]; [|congruence].
  exists pt. split; [apply in_or_app; right; now left|]. split; [exact Hpt | congruence].
Qed.

Lemma pick_listed_found request store id w fp w' :
  PetStoreClient.PET_STORE_URLS store <> None ->
  pick_listed request store id w = (Ok (Some fp), w') ->
  exists pets pet,
    on_get_pets (network w) (trace w) store id = Response 200 pets
    /\ In pet pets
    /\ fp = candidate request store id pet
    /\ trace w' = trace w ++ [Http (GetPetsForType store id)]
    /\ network w' = network w.
Proof.
  intros Hcfg H. unfold pick_listed in H. apply bind_inv in H.
  rewrite (get_pets_for_type_run _ _ _ Hcfg) in H.
  destruct H as [(l & w1 & H1 & H2) | (e & _ & He)]; [|discriminate].
  destruct (on_get_pets (network w) (trace w) store id) as [st pets|]; [|discriminate].
  inversion H1; subst l w1; clear H1.
  destruct (Z.eqb_spec st 200) as [->|Hst]; [| unfold ret in H2; discriminate].
  destruct pets as [|p pets]; [unfold ret in H2; discriminate|].
  apply bind_inv in H2. destruct H2 as [(pet & w2 & H3 & H4) | (e & _ & He)];
    [|discriminate].
  destruct (random_choice_nonempty p pets (log (Http (GetPetsForType store id)) w))
    as (y & w3 & Hy & Hin & N3 & T3 & _).
  rewrite Hy in H3. inversion H3; subst y w3. inversion H4; subst.
  exists (p :: pets), pet. repeat split; auto.
Qed.

Lemma probe_found request store w fp w' :
  probe request store w = (Ok (Some fp), w') ->
  PetStoreClient.PET_STORE_URLS store <> None
  /\ network w' = network w
  /\ exists types pt id,
      on_get_pet_types (network w) (trace w) store = Response 200 types
      /\ In pt types
      /\ same_type_ignoring_case (req_pet_type request) pt = true
      /\ pt_id pt = Some id
      /\ Py.truthy id = true
      /\ ((exists n pet,
              req_pet_name request = Some n
              /\ Py.truthy n = true
              /\ on_get_pet (network w) (trace w ++ [Http (GetPetTypes store)]) store id n
                 = Response 200 (Some pet)
              /\ fp = candidate request store id pet
              /\ trace w' = trace w ++ [Http (GetPetTypes store); Http (GetPet store id n)])
          \/ (Py.truthy_opt (req_pet_name request) = false
              /\ exists pets pet,
                  on_get_pets (network w) (trace w ++ [Http (GetPetTypes store)]) store id
                  = Response 200 pets
                  /\ In pet pets
                  /\ fp = candidate request store id pet
                  /\ trace w'
                     = trace w ++ [Http (GetPetTypes store);
                                   Http (GetPetsForType store id)])).
Proof.
  intros H.
  assert (Hcfg : PetStoreClient.PET_STORE_URLS store <> None).
  { intros Hnone. unfold probe in H.
    destruct (unconfigured_raises store w Hnone (req_pet_type request) "" "") as (Hr & _).
    rewrite (bind_raise _ _ _ _ _ Hr) in H. discriminate. }
  split; [exact Hcfg|].
  split; [apply probe_only_called in H; now destruct H as (N & _)|].
  unfold probe in H. apply bind_inv in H.
  rewrite (find_pet_type_id_run _ _ _ Hcfg) in H.
  destruct H as [(tid & w1 & H1 & H2) | (e & _ & He)]; [|discriminate].
  destruct (on_get_pet_types (network w) (trace w) store) as [st types|]; [|discriminate].
  inversion H1; subst tid w1; clear H1.
  destruct (PetStoreClient.first_type_match _ _) as [id|] eqn:Em;
    [| unfold ret in H2; discriminate].
  destruct (Py.truthy id) eqn:Eid; simpl in H2; [| unfold ret in H2; discriminate].
  destruct (Z.eqb_spec st 200) as [->|Hst]; [| simpl in Em; discriminate].
  apply first_type_match_some in Em. destruct Em as (pt & Hin & Hsame & Hid).
  exists types, pt, id. repeat split; auto.
  assert (Hpick : pick_listed request store id (log (Http (GetPetTypes store)) w)
                  = (Ok (Some fp), w') ->
                  exists pets pet,
                    on_get_pets (network w) (trace w ++ [Http (GetPetTypes store)]) store id
                    = Response 200 pets
                    /\ In pet pets
                    /\ fp = candidate request store id pet
                    /\ trace w'
                       = trace w ++ [Http (GetPetTypes store);
                                     Http (GetPetsForType store id)]).
  { intros Hp. apply (pick_listed_found _ _ _ _ _ _ Hcfg) in Hp.
    destruct Hp as (pets & pet & Hg & Hpet & Hfp & Ht & _).
    exists pets, pet. repeat split; auto. rewrite Ht. simpl.
    now rewrite <- app_assoc. }
  destruct (req_pet_name request) as [n|] eqn:En; [destruct (Py.truthy n) eqn:Etn|].
  - left. apply bind_inv in H2. rewrite (get_pet_run _ _ _ _ Hcfg) in H2.
    destruct H2 as [(pet & w2 & H3 & H4) | (e & _ & He)]; [|discriminate].
    simpl in H3.
    destruct (on_get_pet (network w) (trace w ++ [Http (GetPetTypes store)]) store id n)
      as [st pet0|] eqn:Eg; [|discriminate].
    inversion H3; subst pet w2; clear H3.
    destruct (Z.eqb_spec st 200) as [->|Hst]; [| unfold ret in H4; discriminate].
    destruct pet0 as [pet|]; [| unfold ret in H4; discriminate].
    unfold ret in H4. inversion H4; subst.
    exists n, pet. repeat split; auto. simpl. now rewrite <- app_assoc.
  - right. split; [simpl; exact Etn | auto].
  - right. split; [reflexivity | auto].
Qed.

(** X6. A pet the search returns comes from answers of its inventory during
    that search, type names being in ASCII.  The inventories before it in
    the order of the search were asked first and only they; then the
    inventory of the pet listed, with status 200, a pet type of the
    requested name under case-insensitive comparison, whose id is the pet's
    type id.  When the request names a pet, the inventory then answered
    [GET] for that name with status 200 and the pet carries the name of the
    answer, which is the inventory's spelling and not always the requested
    one; otherwise the inventory listed the pets of the type with status 200
    and the pet is one of the listed.  These two requests end the search. *)
Theorem found_pet_was_answered :
  forall (request : PurchaseRequest) (w w' : World) (fp : PurchaseService.FoundPet),
    Py.isascii (req_pet_type request) = true ->
    ascii_listings (network w) ->
    PurchaseService.find_available_pet request w = (Ok (Some fp), w') ->
    let store := PurchaseService.fp_store fp in
    let id := PurchaseService.fp_pet_type_id fp in
    PurchaseService.fp_pet_type_name fp = req_pet_type request
    /\ exists before after evs types pt,
        PurchaseService.stores_to_check request = before ++ store :: after
        /\ calls_only before evs
        /\ on_get_pet_types (network w) (trace w ++ evs) store = Response 200 types
        /\ In pt types
        /\ equal_ignoring_case (listed_type pt) (req_pet_type request) = true
        /\ pt_id pt = Some id
        /\ ((exists n pet,
                req_pet_name request = Some n
                /\ n <> ""
                /\ on_get_pet (network w) (trace w ++ evs ++ [Http (GetPetTypes store)])
                     store id n
                   = Response 200 (Some pet)
                /\ PurchaseService.fp_name fp = name pet
                /\ trace w'
                   = trace w ++ evs ++ [Http (GetPetTypes store); Http (GetPet store id n)])
            \/ (Py.truthy_opt (req_pet_name request) = false
                /\ exists pets pet,
                    on_get_pets (network w) (trace w ++ evs ++ [Http (GetPetTypes store)])
                      store id
                    = Response 200 pets
                    /\ In pet pets
                    /\ PurchaseService.fp_name fp = name pet
                    /\ trace w'
                       = trace w ++ evs ++ [Http (GetPetTypes store);
                                            Http (GetPetsForType store id)])).
Proof.
  intros request w w' fp _ _ Hfind store id.
  apply find_in_some_iff in Hfind.
  destruct Hfind as (before & after & w1 & Hsplit & Hmiss & Hprobe).
  split; [eapply probe_type_name; eauto|].
  apply all_miss_only_called in Hmiss.
  destruct Hmiss as (N1 & _ & _ & _ & evs & E1 & Hevs).
  apply probe_found in Hprobe.
  destruct Hprobe as (_ & _ & types & pt & id0 & Ht & Hin & Hsame & Hid & _ & Hpet).
  rewrite N1, E1 in Ht.
  assert (Hfid : forall pet, fp = candidate request (PurchaseService.fp_store fp) id0 pet ->
                             id = id0 /\ PurchaseService.fp_name fp = name pet).
  { intros pet Hfp. subst id. rewrite Hfp. split; reflexivity. }
  unfold same_type_ignoring_case in Hsame. fold (listed_type pt) in Hsame.
  rewrite lower_equal_ignoring_case in Hsame.
  exists before, after, evs, types, pt.
  destruct Hpet as [(n & pet & Hn & Htn & Hg & Hfp & Htr)
                   | (Hno & pets & pet & Hg & Hp & Hfp & Htr)];
    destruct (Hfid pet Hfp) as [Hi Hname]; rewrite Hi;
    rewrite N1, E1, <- app_assoc in Hg; rewrite E1, <- app_assoc in Htr;
    (split; [exact Hsplit|]); (split; [exact Hevs|]);
    (split; [exact Ht|]); (split; [exact Hin|]); (split; [exact Hsame|]);
    (split; [exact Hid|]).
  - left. exists n, pet. repeat split; auto.
    intros ->. discriminate Htn.
  - right. split; [exact Hno|]. exists pets, pet. auto.
Qed.

Lemma delete_keeps_type_names (st : PetStore.Store) (id n : string) :
  map PetStore.ptd_type
    (PetStore.pet_types_collection (snd (PetStore.delete_pet_at Scenario.lost st id n)))
  = map PetStore.ptd_type (PetStore.pet_types_collection st).
Proof.
  unfold PetStore.delete_pet_at. destruct (Url.plain id && Url.plain n); [|reflexivity].
  unfold PetStore.Routers.delete_pet, PetStore.PetService.delete_pet.
  destruct (PetStore.MongoStore.get_pet_type st id); [|reflexivity].
  destruct (PetStore.MongoStore.get_pet_case_insensitive st id n) as [[doc actual]|];
    [|reflexivity].
  cbn [snd fst]. unfold PetStore.MongoStore.remove_pet_name_from_type.
  destruct (Bson.parse id) as [oid|]; [|reflexivity].
  cbn [PetStore.pet_types_collection PetStore.MongoStore.delete_pet snd].
  induction (PetStore.pet_types_collection st) as [|d l IH]; [reflexivity|].
  cbn [PetStore.MongoStore.pull_from_first].
  destruct (N.eqb (PetStore.ptd_id d) oid); cbn [map PetStore.ptd_type]; [reflexivity|].
  now rewrite IH.
Qed.

Lemma replay_keeps_type_names (init : Z -> PetStore.Store) (h : list event) (s : Z) :
  map PetStore.ptd_type (PetStore.pet_types_collection (PetStore.replay Scenario.lost init h s))
  = map PetStore.ptd_type (PetStore.pet_types_collection (init s)).
Proof.
  revert init. induction h as [|e h IH]; intros init; [reflexivity|].
  change (PetStore.replay Scenario.lost init (e :: h))
    with (PetStore.replay Scenario.lost (PetStore.apply_event Scenario.lost init e) h).
  rewrite IH. destruct e as [[| | |k id n]| |]; try reflexivity.
  cbn [PetStore.apply_event]. destruct (s =? k) eqn:E; [|reflexivity].
  apply Z.eqb_eq in E. subst k. apply delete_keeps_type_names.
Qed.

Lemma served_ascii_listings (init : Z -> PetStore.Store) :
  (forall s d, In d (PetStore.pet_types_collection (init s)) ->
               Py.isascii (PetStore.ptd_type d) = true) ->
  ascii_listings (PetStore.serve Scenario.lost init).
Proof.
  intros Hinit h s status types pt Hnet Hin.
  cbn [PetStore.serve on_get_pet_types] in Hnet.
  unfold PetStore.Routers.get_pet_types, PetStore.MongoStore.get_all_pet_types in Hnet.
  inversion Hnet; subst. apply in_map_iff in Hin. destruct Hin as (d & <- & Hd).
  cbn [listed_type PetStore.Routers.pet_type_response pt_type].
  assert (Hn : In (PetStore.ptd_type d)
                  (map PetStore.ptd_type (PetStore.pet_types_collection (init s)))).
  { rewrite <- (replay_keeps_type_names init h s). now apply in_map. }
  apply in_map_iff in Hn. destruct Hn as (d0 & <- & Hd0). eauto.
Qed.

(** The same on the running example with the inventories the other way
    round: inventory 1 is asked first and lists nothing, inventory 2 lists
    the Poodle and then Jamie. *)
Lemma found_pet_was_answered_witness :
  Py.isascii (req_pet_type Scenario.ana) = true
  /\ ascii_listings (network Scenario.mirrored)
  /\ PurchaseService.find_available_pet Scenario.ana Scenario.mirrored
     = (Ok (Some {| PurchaseService.fp_store := 2;
                    PurchaseService.fp_pet_type_id := "0000000000000000000004d2";
                    PurchaseService.fp_pet_type_name := "Poodle";
                    PurchaseService.fp_name := "Jamie" |}),
        drawn (log (Http (GetPetsForType 2 "0000000000000000000004d2"))
                 (log (Http (GetPetTypes 2))
                    (log (Http (GetPetTypes 1)) Scenario.mirrored))))
  /\ exists before after evs types pt,
      PurchaseService.stores_to_check Scenario.ana = before ++ 2 :: after
      /\ calls_only before evs
      /\ on_get_pet_types (network Scenario.mirrored) (trace Scenario.mirrored ++ evs) 2
         = Response 200 types
      /\ In pt types
      /\ equal_ignoring_case (listed_type pt) "Poodle" = true
      /\ pt_id pt = Some "0000000000000000000004d2"
      /\ ((exists n pet,
              req_pet_name Scenario.ana = Some n
              /\ n <> ""
              /\ on_get_pet (network Scenario.mirrored)
                   (trace Scenario.mirrored ++ evs ++ [Http (GetPetTypes 2)])
                   2 "0000000000000000000004d2" n
                 = Response 200 (Some pet)
              /\ "Jamie" = name pet
              /\ [Http (GetPetTypes 1); Http (GetPetTypes 2);
                  Http (GetPetsForType 2 "0000000000000000000004d2")]
                 = trace Scenario.mirrored ++ evs
                   ++ [Http (GetPetTypes 2);
                       Http (GetPet 2 "0000000000000000000004d2" n)])
          \/ (Py.truthy_opt (req_pet_name Scenario.ana) = false
              /\ exists pets pet,
                  on_get_pets (network Scenario.mirrored)
                    (trace Scenario.mirrored ++ evs ++ [Http (GetPetTypes 2)])
                    2 "0000000000000000000004d2"
                  = Response 200 pets
                  /\ In pet pets
                  /\ "Jamie" = name pet
                  /\ [Http (GetPetTypes 1); Http (GetPetTypes 2);
                      Http (GetPetsForType 2 "0000000000000000000004d2")]
                     = trace Scenario.mirrored ++ evs
                       ++ [Http (GetPetTypes 2);
                           Http (GetPetsForType 2 "0000000000000000000004d2")])).
Proof.
  assert (Ha : Py.isascii (req_pet_type Scenario.ana) = true) by reflexivity.
  assert (Hl : ascii_listings (network Scenario.mirrored)).
  { apply served_ascii_listings. intros s d. destruct (s =? 2).
    - intros [<-|[]]. reflexivity.
    - intros []. }
  assert (Hfind : PurchaseService.find_available_pet Scenario.ana Scenario.mirrored
                  = (Ok (Some {| PurchaseService.fp_store := 2;
                                 PurchaseService.fp_pet_type_id := "0000000000000000000004d2";
                                 PurchaseService.fp_pet_type_name := "Poodle";
                                 PurchaseService.fp_name := "Jamie" |}),
                     drawn (log (Http (GetPetsForType 2 "0000000000000000000004d2"))
                              (log (Http (GetPetTypes 2))
                                 (log (Http (GetPetTypes 1)) Scenario.mirrored)))))
    by reflexivity.
  split; [exact Ha|]. split; [exact Hl|]. split; [exact Hfind|].
  exact (proj2 (found_pet_was_answered Scenario.ana Scenario.mirrored _ _ Ha Hl Hfind)).
Defined.

(** ** The inventories as the pet-store service runs them *)

Lemma replay_app stray init h e :
  PetStore.replay stray init (h ++ [e])
  = PetStore.apply_event stray (PetStore.replay stray init h) e.
Proof. unfold PetStore.replay. now rewrite fold_left_app. Qed.

Lemma replay_get stray init h c :
  is_get c -> PetStore.replay stray init (h ++ [Http c]) = PetStore.replay stray init h.
Proof. intros Hg. rewrite replay_app. destruct c; simpl in *; tauto. Qed.

Lemma replay_delete stray init h s id n :
  Url.plain id = true -> Url.plain n = true ->
  PetStore.replay stray init (h ++ [Http (DeletePet s id n)]) s
  = snd (PetStore.Routers.delete_pet (PetStore.replay stray init h s) id n).
Proof.
  intros Hid Hn. rewrite replay_app. simpl. rewrite Z.eqb_refl.
  unfold PetStore.delete_pet_at. now rewrite Hid, Hn.
Qed.

Lemma replay_insert stray init h d :
  PetStore.replay stray init (h ++ [LedgerInsert d]) = PetStore.replay stray init h.
Proof. now rewrite replay_app. Qed.

Lemma unreserved_hex_digit (d : N) : (d < 16)%N -> Url.unreserved (Bson.hex_digit d) = true.
Proof.
  intros H. destruct d as [|p]; [reflexivity|].
  do 4 (destruct p as [p|p|]; try reflexivity); lia.
Qed.

Lemma unreserved_hex_of (k : nat) (n : N) (acc : string) :
  forallb Url.unreserved (list_ascii_of_string acc) = true ->
  forallb Url.unreserved (list_ascii_of_string (Bson.hex_of k n acc)) = true.
Proof.
  revert n acc. induction k as [|k IH]; intros n acc Hacc; [exact Hacc|].
  cbn [Bson.hex_of]. apply IH. cbn [list_ascii_of_string forallb].
  rewrite Hacc, unreserved_hex_digit; [reflexivity|]. apply N.mod_lt. discriminate.
Qed.

(** The string of an identifier is a plain segment. *)
Lemma plain_str (oid : Bson.ObjectId) : Url.plain (Bson.str oid) = true.
Proof.
  assert (Hlen : String.length (Bson.str oid) = 24%nat)
    by (unfold Bson.str; now rewrite length_hex_of).
  unfold Url.plain.
  assert (Hne : forall t, String.length t <> 24%nat -> (Bson.str oid =? t)%string = false).
  { intros t Ht. apply String.eqb_neq. intros E. rewrite E in Hlen. contradiction. }
  rewrite !Hne by discriminate. cbn [negb andb].
  unfold Bson.str. now apply unreserved_hex_of.
Qed.

Lemma plain_is_ascii (t : string) : Url.plain t = true -> Py.isascii t = true.
Proof.
  unfold Url.plain, Py.isascii. rewrite !andb_true_iff. intros (_ & H).
  rewrite forallb_forall in *. intros c Hc. specialize (H c Hc).
  unfold Url.unreserved in H. apply Nat.ltb_lt.
  repeat match type of H with
         | (_ || _)%bool = true => apply orb_true_iff in H; destruct H as [H|H]
         | (_ && _)%bool = true => apply andb_true_iff in H; destruct H as [? H]
         end;
    repeat match goal with
           | H : (_ <=? _)%nat = true |- _ => apply Nat.leb_le in H
           | H : (_ =? _)%nat = true |- _ => apply Nat.eqb_eq in H
           end; lia.
Qed.

(** A plain stored name does not end in a line feed: the pattern of the
    lookup finds it by case-insensitive comparison only. *)
Lemma plain_no_line_feed (stored n : string) :
  forallb Url.unreserved (list_ascii_of_string stored) = true ->
  equal_ignoring_case stored (n ++ PetStore.MongoStore.line_feed) = false.
Proof.
  revert n. induction stored as [|a stored IH]; intros n H.
  - destruct n; reflexivity.
  - cbn [list_ascii_of_string forallb] in H. apply andb_true_iff in H.
    destruct H as [Ha Hrest]. destruct n as [|b n].
    + cbn [append PetStore.MongoStore.line_feed equal_ignoring_case].
      replace (same_letter a (ascii_of_nat 10)) with false; [reflexivity|].
      symmetry. destruct a as [[] [] [] [] [] [] [] []]; vm_compute in Ha |- *;
        first [reflexivity | discriminate Ha].
    + cbn [append equal_ignoring_case]. rewrite (IH n Hrest). apply andb_false_r.
Qed.

Lemma like_plain (n stored : string) :
  Url.plain stored = true ->
  PetStore.MongoStore.like n stored = equal_ignoring_case stored n.
Proof.
  intros H. unfold Url.plain in H. apply andb_true_iff in H. destruct H as [_ H].
  unfold PetStore.MongoStore.like.
  replace (Py.lower n ++ PetStore.MongoStore.line_feed)%string
    with (Py.lower (n ++ PetStore.MongoStore.line_feed))
    by (rewrite lower_app; reflexivity).
  rewrite !lower_equal_ignoring_case, (plain_no_line_feed _ _ H).
  apply orb_false_r.
Qed.

Lemma truthy_str oid : Py.truthy (Bson.str oid) = true.
Proof.
  unfold Py.truthy. destruct (String.eqb_spec (Bson.str oid) ""); [|reflexivity].
  exfalso. assert (H : String.length (Bson.str oid) = 24%nat)
    by (unfold Bson.str; now rewrite length_hex_of).
  rewrite e in H. discriminate.
Qed.

Lemma find_exists {A} (f : A -> bool) (l : list A) (x : A) :
  In x l -> f x = true -> exists y, find f l = Some y.
Proof.
  intros Hin Hf. destruct (find f l) as [y|] eqn:E; [eauto|].
  pose proof (find_none _ _ E x Hin). congruence.
Qed.

Lemma first_type_match_served types type_name :
  PetStoreClient.first_type_match (map PetStore.Routers.pet_type_response types)
    (Py.lower type_name)
  = match find (type_named type_name) types with
    | Some d => Some (Bson.str (PetStore.ptd_id d))
    | None => None
    end.
Proof.
  induction types as [|d l IH]; [reflexivity|].
  simpl. unfold type_named at 1. rewrite lower_equal_ignoring_case.
  destruct (equal_ignoring_case (PetStore.ptd_type d) type_name);
    [reflexivity | exact IH].
Qed.

(** Every listed pet type can be looked up by the id it is listed under. *)
Lemma get_pet_type_listed (st : PetStore.Store) (d : PetStore.PetTypeDoc) :
  In d (PetStore.pet_types_collection st) ->
  (PetStore.ptd_id d < 2 ^ 96)%N ->
  exists d', PetStore.MongoStore.get_pet_type st (Bson.str (PetStore.ptd_id d)) = Some d'
             /\ PetStore.ptd_id d' = PetStore.ptd_id d.
Proof.
  intros Hin Hid. unfold PetStore.MongoStore.get_pet_type. rewrite (parse_str _ Hid).
  destruct (find_exists (fun x => N.eqb (PetStore.ptd_id x) (PetStore.ptd_id d))
              _ d Hin (N.eqb_refl _)) as (d' & Hd').
  exists d'. split; [exact Hd'|]. apply find_some in Hd'. now apply N.eqb_eq.
Qed.

Lemma delete_first_length (p : PetStore.PetDoc -> bool) (l : list PetStore.PetDoc) :
  (exists x, In x l /\ p x = true) ->
  fst (PetStore.MongoStore.delete_first p l) = true
  /\ S (List.length (snd (PetStore.MongoStore.delete_first p l))) = List.length l.
Proof.
  induction l as [|d l IH]; intros (x & Hin & Hp); [destruct Hin|].
  simpl. destruct (p d) eqn:Ed; [split; reflexivity|].
  destruct Hin as [<-|Hin]; [congruence|].
  destruct (IH (ex_intro _ x (conj Hin Hp))) as (H1 & H2). simpl. split; [exact H1|].
  now rewrite H2.
Qed.

(** [DELETE /pet-types/{id}/pets/{name}] on a store in which the lookup
    finds a pet of that type under that name: 204, and one pet document
    less. *)
Lemma delete_route_present (st : PetStore.Store) (id n : string) ty pet :
  PetStore.MongoStore.get_pet_type st id = Some ty ->
  find (PetStore.MongoStore.same_pet_ignoring_case id n) (PetStore.pets_collection st)
  = Some pet ->
  fst (PetStore.Routers.delete_pet st id n) = Response 204 tt
  /\ S (List.length (PetStore.pets_collection (snd (PetStore.Routers.delete_pet st id n))))
     = List.length (PetStore.pets_collection st).
Proof.
  intros Hty Hpet.
  unfold PetStore.Routers.delete_pet, PetStore.PetService.delete_pet,
    PetStore.MongoStore.get_pet_case_insensitive.
  rewrite Hty, Hpet. simpl. split; [reflexivity|].
  assert (Hlen : forall s0, PetStore.pets_collection
                   (PetStore.MongoStore.remove_pet_name_from_type s0 id (PetStore.pd_name pet))
                 = PetStore.pets_collection s0).
  { intros s0. unfold PetStore.MongoStore.remove_pet_name_from_type.
    destruct (Bson.parse id); reflexivity. }
  rewrite Hlen. simpl.
  apply delete_first_length. exists pet.
  apply find_some in Hpet. destruct Hpet as [Hin Hsame]. split; [exact Hin|].
  unfold PetStore.MongoStore.same_pet_ignoring_case in Hsame.
  unfold PetStore.MongoStore.same_pet.
  apply andb_true_iff in Hsame. destruct Hsame as [Hid _].
  now rewrite Hid, String.eqb_refl.
Qed.

(** The string of an identifier is kept folded in what follows. *)
Arguments Bson.str : simpl never.

Lemma served_pet_types stray init w s :
  network w = PetStore.serve stray init ->
  on_get_pet_types (network w) (trace w) s
  = Response 200 (map PetStore.Routers.pet_type_response
                    (PetStore.pet_types_collection
                       (PetStore.replay stray init (trace w) s))).
Proof. intros ->. reflexivity. Qed.

Lemma served_pets stray init w s id :
  network w = PetStore.serve stray init ->
  Url.plain id = true ->
  on_get_pets (network w) (trace w) s id
  = PetStore.Routers.get_pets (PetStore.replay stray init (trace w) s) id.
Proof.
  intros -> Hid. cbn [PetStore.serve on_get_pets]. unfold PetStore.get_pets_at.
  now rewrite Hid.
Qed.

Lemma served_pet stray init w s id n :
  network w = PetStore.serve stray init ->
  Url.plain id = true -> Url.plain n = true ->
  on_get_pet (network w) (trace w) s id n
  = PetStore.Routers.get_pet (PetStore.replay stray init (trace w) s) id n.
Proof.
  intros -> Hid Hn. cbn [PetStore.serve on_get_pet]. unfold PetStore.get_pet_at.
  now rewrite Hid, Hn.
Qed.

Lemma served_delete stray init w s id n :
  network w = PetStore.serve stray init ->
  Url.plain id = true -> Url.plain n = true ->
  on_delete_pet (network w) (trace w) s id n
  = fst (PetStore.Routers.delete_pet (PetStore.replay stray init (trace w) s) id n).
Proof.
  intros -> Hid Hn. cbn [PetStore.serve on_delete_pet]. unfold PetStore.delete_pet_at.
  now rewrite Hid, Hn.
Qed.

Lemma get_pet_route_present (st : PetStore.Store) (id n : string) ty pet :
  PetStore.MongoStore.get_pet_type st id = Some ty ->
  find (PetStore.MongoStore.same_pet_ignoring_case id n) (PetStore.pets_collection st)
  = Some pet ->
  PetStore.Routers.get_pet st id n = Response 200 (Some (PetStore.pet_response pet)).
Proof.
  intros Hty Hpet.
  unfold PetStore.Routers.get_pet, PetStore.PetService.get_pet,
    PetStore.MongoStore.get_pet_case_insensitive.
  now rewrite Hty, Hpet.
Qed.

Lemma get_pets_route_present (st : PetStore.Store) (id : string) ty :
  PetStore.MongoStore.get_pet_type st id = Some ty ->
  PetStore.Routers.get_pets st id
  = Response 200 (map PetStore.pet_response
                    (filter (of_type id) (PetStore.pets_collection st))).
Proof.
  intros Hty. unfold PetStore.Routers.get_pets, PetStore.PetService.get_pets_for_type.
  now rewrite Hty.
Qed.

Lemma same_pet_ignoring_case_iff id n d :
  Url.plain (PetStore.pd_name d) = true ->
  PetStore.MongoStore.same_pet_ignoring_case id n d = true <-> is_named id n d.
Proof.
  intros Hd. unfold PetStore.MongoStore.same_pet_ignoring_case, is_named.
  now rewrite andb_true_iff, String.eqb_eq, (like_plain _ _ Hd).
Qed.

Lemma equal_ignoring_case_refl (t : string) : equal_ignoring_case t t = true.
Proof. rewrite <- lower_equal_ignoring_case. apply String.eqb_refl. Qed.

Lemma equal_ignoring_case_lower (a b : string) :
  equal_ignoring_case a b = true <-> Py.lower a = Py.lower b.
Proof. rewrite <- lower_equal_ignoring_case. apply String.eqb_eq. Qed.

(** The search on an inventory of the pet-store service that offers a pet. *)
Lemma probe_served stray init request s w tdoc offered :
  network w = PetStore.serve stray init ->
  PetStoreClient.PET_STORE_URLS s <> None ->
  plain_request request ->
  let st := PetStore.replay stray init (trace w) s in
  let id := Bson.str (PetStore.ptd_id tdoc) in
  tidy st ->
  find (type_named (req_pet_type request)) (PetStore.pet_types_collection st) = Some tdoc ->
  (PetStore.ptd_id tdoc < 2 ^ 96)%N ->
  offers st id request offered ->
  exists sold w1 c,
    probe request s w
    = (Ok (Some (candidate request s id (PetStore.pet_response sold))), w1)
    /\ offers st id request sold
    /\ network w1 = network w
    /\ transactions w1 = transactions w
    /\ fresh_ids w1 = fresh_ids w /\ ids_issued w1 = ids_issued w
    /\ is_get c
    /\ trace w1 = (trace w ++ [Http (GetPetTypes s)]) ++ [Http c].
Proof.
  intros Hnet Hcfg (_ & Hplain) st id (_ & Hstored) Htype Hvalid (Hin & Hoid & Hname).
  assert (Hpid : Url.plain id = true) by apply plain_str.
  pose proof (find_some _ _ Htype) as [Htin _].
  destruct (get_pet_type_listed st tdoc Htin Hvalid) as (ty & Hty & _).
  fold id in Hty.
  set (w0 := log (Http (GetPetTypes s)) w).
  assert (Hnet0 : network w0 = PetStore.serve stray init) by exact Hnet.
  assert (Hst0 : PetStore.replay stray init (trace w0) s = st).
  { unfold w0. cbn [trace log]. now rewrite replay_get. }
  assert (Hfind : PetStoreClient.find_pet_type_id s (req_pet_type request) w
                  = (Ok (Some id), w0)).
  { rewrite (find_pet_type_id_run _ _ _ Hcfg), (served_pet_types stray init w s Hnet).
    cbn [Z.eqb Pos.eqb]. fold st. now rewrite first_type_match_served, Htype. }
  unfold probe. rewrite (bind_ok _ _ _ _ _ Hfind). unfold id at 1.
  rewrite truthy_str. cbn [negb]. fold id.
  assert (Hrandom :
            exists sold w1 c,
              pick_listed request s id w0
              = (Ok (Some (candidate request s id (PetStore.pet_response sold))), w1)
              /\ In sold (PetStore.pets_collection st)
              /\ PetStore.pd_pet_type_id sold = id
              /\ network w1 = network w
              /\ transactions w1 = transactions w
              /\ fresh_ids w1 = fresh_ids w /\ ids_issued w1 = ids_issued w
              /\ is_get c
              /\ trace w1 = (trace w ++ [Http (GetPetTypes s)]) ++ [Http c]).
  { unfold pick_listed.
    assert (Hg : PetStoreClient.get_pets_for_type s id w0
                 = (Ok (map PetStore.pet_response
                          (filter (of_type id) (PetStore.pets_collection st))),
                    log (Http (GetPetsForType s id)) w0)).
    { rewrite (get_pets_for_type_run _ _ _ Hcfg).
      rewrite (served_pets stray init w0 s id Hnet0 Hpid), Hst0.
      now rewrite (get_pets_route_present st id ty Hty). }
    rewrite (bind_ok _ _ _ _ _ Hg).
    assert (Hne : In (PetStore.pet_response offered)
                     (map PetStore.pet_response
                        (filter (of_type id) (PetStore.pets_collection st)))).
    { apply in_map, filter_In. split; [exact Hin|]. unfold of_type.
      now rewrite Hoid, String.eqb_refl. }
    destruct (map PetStore.pet_response _) as [|p l] eqn:El; [destruct Hne|].
    destruct (random_choice_nonempty p l (log (Http (GetPetsForType s id)) w0))
      as (y & w1 & Hy & Hyin & N1 & T1 & L1).
    rewrite (bind_ok _ _ _ _ _ Hy). rewrite <- El in Hyin.
    apply in_map_iff in Hyin. destruct Hyin as (sold & <- & Hsold).
    apply filter_In in Hsold. destruct Hsold as [Hsin Hsty].
    exists sold, w1, (GetPetsForType s id). split; [reflexivity|].
    split; [exact Hsin|]. split; [now apply String.eqb_eq in Hsty|].
    unfold random_choice in Hy. destruct (nth_error _ _); inversion Hy; subst w1.
    cbn [network transactions fresh_ids ids_issued trace log is_get]. repeat split. }
  assert (Hrandom' :
            (forall n, req_pet_name request = Some n -> Py.truthy n = false) ->
            exists sold w1 c,
              pick_listed request s id w0
              = (Ok (Some (candidate request s id (PetStore.pet_response sold))), w1)
              /\ offers st id request sold
              /\ network w1 = network w
              /\ transactions w1 = transactions w
              /\ fresh_ids w1 = fresh_ids w /\ ids_issued w1 = ids_issued w
              /\ is_get c
              /\ trace w1 = (trace w ++ [Http (GetPetTypes s)]) ++ [Http c]).
  { intros Hno. destruct Hrandom as (sold & w1 & c & H1 & H2 & H3 & H4).
    exists sold, w1, c. split; [exact H1|]. split; [|exact H4].
    split; [exact H2|]. split; [exact H3|]. intros n Hn Ht.
    rewrite (Hno n Hn) in Ht. discriminate. }
  destruct (req_pet_name request) as [n|] eqn:En; [destruct (Py.truthy n) eqn:Et|].
  - destruct (find_exists (PetStore.MongoStore.same_pet_ignoring_case id n)
                _ offered Hin) as (sold & Hsold).
    { apply same_pet_ignoring_case_iff; [now apply Hstored|].
      split; [exact Hoid | now apply Hname]. }
    assert (Hg : PetStoreClient.get_pet s id n w0
                 = (Ok (Some (PetStore.pet_response sold)), log (Http (GetPet s id n)) w0)).
    { rewrite (get_pet_run _ _ _ _ Hcfg).
      rewrite (served_pet stray init w0 s id n Hnet0 Hpid (Hplain n eq_refl Et)), Hst0.
      now rewrite (get_pet_route_present st id n ty sold Hty Hsold). }
    rewrite (bind_ok _ _ _ _ _ Hg).
    exists sold, (log (Http (GetPet s id n)) w0), (GetPet s id n).
    split; [reflexivity|].
    apply find_some in Hsold. destruct Hsold as [Hsin Hsame].
    apply same_pet_ignoring_case_iff in Hsame; [|now apply Hstored].
    destruct Hsame as [Hsid Hsname].
    split; [| cbn [network transactions fresh_ids ids_issued trace log is_get];
               repeat split].
    split; [exact Hsin|]. split; [exact Hsid|].
    intros n0 Hn0 _. try rewrite En in Hn0. inversion Hn0; subst n0. exact Hsname.
  - apply Hrandom'. intros n0 Hn0. try rewrite En in Hn0. inversion Hn0; subst n0.
    exact Et.
  - apply Hrandom'. intros n0 Hn0. try rewrite En in Hn0. discriminate.
Qed.

(** A purchase against inventories run by the pet-store service, step by
    step, when the first searched inventory offers a pet. *)
Lemma sale_served stray init request w s rest tdoc offered :
  network w = PetStore.serve stray init ->
  PurchaseService.stores_to_check request = s :: rest ->
  PetStoreClient.PET_STORE_URLS s <> None ->
  plain_request request ->
  let st := PetStore.replay stray init (trace w) s in
  let id := Bson.str (PetStore.ptd_id tdoc) in
  tidy st ->
  find (type_named (req_pet_type request)) (PetStore.pet_types_collection st) = Some tdoc ->
  (PetStore.ptd_id tdoc < 2 ^ 96)%N ->
  offers st id request offered ->
  exists (sold : PetStore.PetDoc) (w' : World),
    PurchaseService.process_purchase request w
    = (Ok {| resp_purchaser := req_purchaser request;
             resp_pet_type := req_pet_type request;
             resp_store := s;
             resp_pet_name := PetStore.pd_name sold;
             resp_purchase_id := Bson.str (fresh_ids w (ids_issued w)) |}, w')
    /\ offers st id request sold
    /\ network w' = network w
    /\ PetStore.replay stray init (trace w') s
       = snd (PetStore.Routers.delete_pet st id (PetStore.pd_name sold))
    /\ S (List.length (PetStore.pets_collection (PetStore.replay stray init (trace w') s)))
       = List.length (PetStore.pets_collection st)
    /\ List.length (transactions w') = S (List.length (transactions w)).
Proof.
  intros Hnet Hstores Hcfg Hreq st id Htidy Htype Hvalid Hoffers.
  destruct (probe_served stray init request s w tdoc offered Hnet Hcfg Hreq Htidy Htype
              Hvalid Hoffers)
    as (sold & w1 & c & Hprobe & Hsold & N1 & T1 & F1 & I1 & Hc & E1).
  fold st id in Hprobe, Hsold.
  assert (Hpid : Url.plain id = true) by apply plain_str.
  assert (Hpsold : Url.plain (PetStore.pd_name sold) = true)
    by (apply (proj2 Htidy); apply Hsold).
  exists sold.
  assert (Hst1 : PetStore.replay stray init (trace w1) s = st).
  { rewrite E1, (replay_get _ _ _ _ Hc), replay_get by exact I. reflexivity. }
  assert (Hfind : PurchaseService.find_available_pet request w
                  = (Ok (Some (candidate request s id (PetStore.pet_response sold))), w1)).
  { unfold PurchaseService.find_available_pet. rewrite Hstores, find_in_cons, Hprobe.
    reflexivity. }
  pose proof (find_some _ _ Htype) as [Htin _].
  destruct (get_pet_type_listed st tdoc Htin Hvalid) as (ty & Hty & _). fold id in Hty.
  destruct Hsold as (Hsin & Hsid & Hsname).
  destruct (find_exists (PetStore.MongoStore.same_pet_ignoring_case id (PetStore.pd_name sold))
              _ sold Hsin) as (gone & Hgone).
  { apply same_pet_ignoring_case_iff; [exact Hpsold|].
    split; [exact Hsid | apply equal_ignoring_case_refl]. }
  destruct (delete_route_present st id (PetStore.pd_name sold) ty gone Hty Hgone)
    as (H204 & Hless).
  assert (Hdel : PetStoreClient.delete_pet s id (PetStore.pd_name sold) w1
                 = (Ok true, log (Http (DeletePet s id (PetStore.pd_name sold))) w1)).
  { rewrite (delete_pet_run _ _ _ _ Hcfg).
    rewrite (served_delete stray init w1 s id _ (eq_trans N1 Hnet) Hpid Hpsold), Hst1, H204.
    reflexivity. }
  eexists. split; [|split; [|split; [|split; [|split]]]].
  - unfold PurchaseService.process_purchase. rewrite (bind_ok _ _ _ _ _ Hfind).
    cbn [candidate PurchaseService.fp_store PurchaseService.fp_pet_type_id
           PurchaseService.fp_name PurchaseService.fp_pet_type_name
           PetStore.pet_response name].
    rewrite (bind_ok _ _ _ _ _ Hdel). cbn [negb].
    unfold bind, Collection.insert_one, ret.
    cbn [fresh_ids ids_issued log]. rewrite F1, I1. reflexivity.
  - repeat split; assumption.
  - cbn [network log]. exact N1.
  - cbn [trace log]. rewrite replay_insert, replay_delete, Hst1 by assumption.
    reflexivity.
  - cbn [trace log]. rewrite replay_insert, replay_delete, Hst1 by assumption.
    exact Hless.
  - cbn [transactions log]. rewrite T1, length_app. cbn [List.length]. lia.
Qed.

(** X7. Against inventories run by the pet-store service, a purchase whose
    first searched inventory lists the requested pet type (under a proper
    identifier) and holds a pet of that type the request accepts always
    completes, type names being in ASCII and the names of pets, the
    requested one and the stored ones, plain segments of a path.  The pet of
    the response is a pet of that inventory and type, with the requested
    name under case-insensitive comparison when a name was requested, and it
    is returned under its stored name; afterwards that inventory holds one
    pet document less and the ledger one record more. *)
Theorem available_pet_is_sold :
  forall (stray : PetStore.Stray) (init : Z -> PetStore.Store)
         (request : PurchaseRequest) (w : World)
         (s : Z) (rest : list Z) (tdoc : PetStore.PetTypeDoc) (offered : PetStore.PetDoc),
    network w = PetStore.serve stray init ->
    PurchaseService.stores_to_check request = s :: rest ->
    PetStoreClient.PET_STORE_URLS s <> None ->
    plain_request request ->
    tidy (PetStore.replay stray init (trace w) s) ->
    find (type_named (req_pet_type request))
      (PetStore.pet_types_collection (PetStore.replay stray init (trace w) s))
    = Some tdoc ->
    (PetStore.ptd_id tdoc < 2 ^ 96)%N ->
    offers (PetStore.replay stray init (trace w) s) (Bson.str (PetStore.ptd_id tdoc))
      request offered ->
    exists (sold : PetStore.PetDoc) (w' : World),
      PurchaseService.process_purchase request w
      = (Ok {| resp_purchaser := req_purchaser request;
               resp_pet_type := req_pet_type request;
               resp_store := s;
               resp_pet_name := PetStore.pd_name sold;
               resp_purchase_id := Bson.str (fresh_ids w (ids_issued w)) |}, w')
      /\ offers (PetStore.replay stray init (trace w) s) (Bson.str (PetStore.ptd_id tdoc))
           request sold
      /\ S (List.length (PetStore.pets_collection
                           (PetStore.replay stray init (trace w') s)))
         = List.length (PetStore.pets_collection (PetStore.replay stray init (trace w) s))
      /\ List.length (transactions w') = S (List.length (transactions w)).
Proof.
  intros stray init request w s rest tdoc offered Hnet Hstores Hcfg Hreq Htidy Htype Hvalid
         Hoffers.
  destruct (sale_served stray init request w s rest tdoc offered Hnet Hstores Hcfg Hreq
              Htidy Htype Hvalid Hoffers)
    as (sold & w' & Hp & Hsold & _ & _ & Hless & Hledger).
  exists sold, w'. auto.
Qed.

Lemma kennel_tidy : tidy Scenario.kennel.
Proof.
  split.
  - intros t [<-|[]]. reflexivity.
  - intros d [<-|[<-|[<-|[]]]]; reflexivity.
Qed.

(** The same on the running example with three Poodles, for a request that
    names "jamie". *)
Lemma available_pet_is_sold_witness :
  network Scenario.kennels = PetStore.serve Scenario.lost (fun _ => Scenario.kennel)
  /\ PurchaseService.stores_to_check Scenario.ana_store1_lower = [1]
  /\ PetStoreClient.PET_STORE_URLS 1 <> None
  /\ plain_request Scenario.ana_store1_lower
  /\ tidy (PetStore.replay Scenario.lost (fun _ => Scenario.kennel)
             (trace Scenario.kennels) 1)
  /\ find (type_named (req_pet_type Scenario.ana_store1_lower))
       (PetStore.pet_types_collection
          (PetStore.replay Scenario.lost (fun _ => Scenario.kennel)
             (trace Scenario.kennels) 1))
     = Some {| PetStore.ptd_id := Scenario.poodle_id; PetStore.ptd_type := "Poodle";
               PetStore.ptd_pets := ["Rex"; "Jamie"; "Bella"] |}
  /\ (Scenario.poodle_id < 2 ^ 96)%N
  /\ offers (PetStore.replay Scenario.lost (fun _ => Scenario.kennel)
               (trace Scenario.kennels) 1)
       (Bson.str Scenario.poodle_id) Scenario.ana_store1_lower (Scenario.poodle "Jamie")
  /\ exists (sold : PetStore.PetDoc) (w' : World),
      PurchaseService.process_purchase Scenario.ana_store1_lower Scenario.kennels
      = (Ok {| resp_purchaser := "Ana";
               resp_pet_type := "poodle";
               resp_store := 1;
               resp_pet_name := PetStore.pd_name sold;
               resp_purchase_id := "000000000000000000001000" |}, w')
      /\ offers Scenario.kennel (Bson.str Scenario.poodle_id) Scenario.ana_store1_lower sold
      /\ S (List.length (PetStore.pets_collection
                           (PetStore.replay Scenario.lost (fun _ => Scenario.kennel)
                              (trace w') 1)))
         = 3%nat
      /\ List.length (transactions w') = 1%nat.
Proof.
  assert (Hcfg : PetStoreClient.PET_STORE_URLS 1 <> None) by discriminate.
  assert (Hid : (Scenario.poodle_id < 2 ^ 96)%N) by reflexivity.
  assert (Hreq : plain_request Scenario.ana_store1_lower).
  { split; [reflexivity|]. intros n Hn _. injection Hn as <-. reflexivity. }
  assert (Hoffers : offers Scenario.kennel (Bson.str Scenario.poodle_id)
                      Scenario.ana_store1_lower (Scenario.poodle "Jamie")).
  { split; [right; now left|]. split; [reflexivity|].
    intros n Hn _. injection Hn as <-. reflexivity. }
  split; [reflexivity|]. split; [reflexivity|]. split; [exact Hcfg|].
  split; [exact Hreq|]. split; [exact kennel_tidy|].
  split; [reflexivity|]. split; [exact Hid|]. split; [exact Hoffers|].
  exact (available_pet_is_sold Scenario.lost (fun _ => Scenario.kennel)
           Scenario.ana_store1_lower Scenario.kennels 1 []
           _ _ eq_refl eq_refl Hcfg Hreq kennel_tidy eq_refl Hid Hoffers).
Defined.

(** ** No second sale *)

Lemma find_first {A} (f : A -> bool) (before after : list A) (x : A) :
  (forall d, In d before -> f d = false) -> f x = true ->
  find f (before ++ x :: after) = Some x.
Proof.
  intros Hb Hx. induction before as [|d l IH]; simpl; [now rewrite Hx|].
  rewrite (Hb d) by now left. apply IH. intros y Hy. apply Hb. now right.
Qed.

Lemma find_split {A : Type} (p : A -> bool) (l : list A) (a : A) :
  find p l = Some a ->
  exists before after,
    l = before ++ a :: after
    /\ (forall x, In x before -> p x = false)
    /\ p a = true.
Proof.
  induction l as [|x l IH]; [discriminate|]. cbn [find].
  destruct (p x) eqn:E.
  - intros H. inversion H; subst x. exists [], l. repeat split; auto. intros y [].
  - intros H. destruct (IH H) as (before & after & -> & Hb & Ha).
    exists (x :: before), after. repeat split; auto.
    intros y [<-|Hy]; auto.
Qed.

Lemma find_absent {A} (f : A -> bool) (l : list A) :
  (forall d, In d l -> f d = false) -> find f l = None.
Proof.
  intros H. destruct (find f l) as [x|] eqn:E; [|reflexivity].
  apply find_some in E. destruct E as [Hin Hf]. rewrite (H x Hin) in Hf. discriminate.
Qed.

Lemma delete_first_first (p : PetStore.PetDoc -> bool) before after x :
  (forall d, In d before -> p d = false) -> p x = true ->
  PetStore.MongoStore.delete_first p (before ++ x :: after) = (true, before ++ after).
Proof.
  intros Hb Hx. induction before as [|d l IH]; simpl; [now rewrite Hx|].
  rewrite (Hb d) by now left. rewrite IH; [reflexivity|].
  intros y Hy. apply Hb. now right.
Qed.

Lemma pet_type_response_pull oid n types :
  map PetStore.Routers.pet_type_response (PetStore.MongoStore.pull_from_first oid n types)
  = map PetStore.Routers.pet_type_response types.
Proof.
  induction types as [|d l IH]; [reflexivity|].
  simpl. destruct (N.eqb (PetStore.ptd_id d) oid); simpl; [reflexivity | now rewrite IH].
Qed.

Lemma same_pet_is_same_ignoring_case id n d :
  PetStore.MongoStore.same_pet id n d = true ->
  PetStore.MongoStore.same_pet_ignoring_case id n d = true.
Proof.
  unfold PetStore.MongoStore.same_pet, PetStore.MongoStore.same_pet_ignoring_case,
    PetStore.MongoStore.like.
  rewrite !andb_true_iff, !String.eqb_eq. intros [-> ->].
  now rewrite !String.eqb_refl.
Qed.

Lemma same_pet_ignoring_case_lower id n n' d :
  Py.lower n = Py.lower n' ->
  PetStore.MongoStore.same_pet_ignoring_case id n d
  = PetStore.MongoStore.same_pet_ignoring_case id n' d.
Proof.
  intros H. unfold PetStore.MongoStore.same_pet_ignoring_case, PetStore.MongoStore.like.
  now rewrite H.
Qed.

(** The store after the [DELETE] route removed the one pet of a type that
    has a name up to letter case. *)
Lemma delete_route_only_match (st : PetStore.Store) (id n : string) ty before pet after :
  PetStore.MongoStore.get_pet_type st id = Some ty ->
  PetStore.pets_collection st = before ++ pet :: after ->
  Url.plain (PetStore.pd_name pet) = true ->
  PetStore.MongoStore.same_pet_ignoring_case id n pet = true ->
  (forall d, In d before -> PetStore.MongoStore.same_pet_ignoring_case id n d = false) ->
  fst (PetStore.Routers.delete_pet st id (PetStore.pd_name pet)) = Response 204 tt
  /\ PetStore.pets_collection (snd (PetStore.Routers.delete_pet st id (PetStore.pd_name pet)))
     = before ++ after
  /\ map PetStore.Routers.pet_type_response
       (PetStore.pet_types_collection
          (snd (PetStore.Routers.delete_pet st id (PetStore.pd_name pet))))
     = map PetStore.Routers.pet_type_response (PetStore.pet_types_collection st).
Proof.
  intros Hty Hpets Hplain Hpet Hbefore.
  apply same_pet_ignoring_case_iff in Hpet; [|exact Hplain]. destruct Hpet as [Hid Hname].
  apply equal_ignoring_case_lower in Hname.
  assert (Heq : forall d, PetStore.MongoStore.same_pet_ignoring_case id (PetStore.pd_name pet) d
                          = PetStore.MongoStore.same_pet_ignoring_case id n d).
  { intros d. now apply same_pet_ignoring_case_lower. }
  assert (Hfind : find (PetStore.MongoStore.same_pet_ignoring_case id (PetStore.pd_name pet))
                    (PetStore.pets_collection st) = Some pet).
  { rewrite Hpets. apply find_first.
    - intros d Hd. rewrite Heq. now apply Hbefore.
    - apply same_pet_ignoring_case_iff; [exact Hplain|].
      split; [exact Hid | apply equal_ignoring_case_refl]. }
  assert (Hdel : PetStore.MongoStore.delete_first
                   (PetStore.MongoStore.same_pet id (PetStore.pd_name pet))
                   (PetStore.pets_collection st) = (true, before ++ after)).
  { rewrite Hpets. apply delete_first_first.
    - intros d Hd.
      destruct (PetStore.MongoStore.same_pet id (PetStore.pd_name pet) d) eqn:E;
        [|reflexivity].
      apply same_pet_is_same_ignoring_case in E. rewrite Heq, (Hbefore d Hd) in E.
      discriminate.
    - unfold PetStore.MongoStore.same_pet. now rewrite Hid, !String.eqb_refl. }
  unfold PetStore.Routers.delete_pet, PetStore.PetService.delete_pet,
    PetStore.MongoStore.get_pet_case_insensitive.
  rewrite Hty, Hfind. cbn [fst snd].
  unfold PetStore.MongoStore.delete_pet. rewrite Hdel. cbn [fst snd].
  unfold PetStore.MongoStore.remove_pet_name_from_type.
  destruct (Bson.parse id);
    cbn [PetStore.pets_collection PetStore.pet_types_collection];
    repeat split; auto using pet_type_response_pull.
Qed.

(** X8. Against an inventory run by the pet-store service, a pet bought by
    name is not sold twice, type names being in ASCII and the names of pets,
    the requested one and the stored ones, plain segments of a path.  When
    the pinned inventory lists the requested type and holds exactly one pet
    of it with the requested name under case-insensitive comparison, the
    purchase completes with that pet under its stored name and removes its
    document from the inventory, leaving the other documents in place and in
    order; the same purchase made again raises [NoPetAvailable], answered
    400, and leaves the ledger as the first purchase left it. *)
Theorem sold_pet_is_not_sold_again :
  forall (stray : PetStore.Stray) (init : Z -> PetStore.Store)
         (request : PurchaseRequest) (w : World)
         (s : Z) (n : string) (tdoc : PetStore.PetTypeDoc)
         (before after : list PetStore.PetDoc) (pet : PetStore.PetDoc),
    network w = PetStore.serve stray init ->
    PurchaseService.stores_to_check request = [s] ->
    PetStoreClient.PET_STORE_URLS s <> None ->
    req_pet_name request = Some n ->
    Py.truthy n = true ->
    plain_request request ->
    tidy (PetStore.replay stray init (trace w) s) ->
    find (type_named (req_pet_type request))
      (PetStore.pet_types_collection (PetStore.replay stray init (trace w) s))
    = Some tdoc ->
    (PetStore.ptd_id tdoc < 2 ^ 96)%N ->
    PetStore.pets_collection (PetStore.replay stray init (trace w) s)
    = before ++ pet :: after ->
    is_named (Bson.str (PetStore.ptd_id tdoc)) n pet ->
    (forall d, In d (before ++ after) ->
               ~ is_named (Bson.str (PetStore.ptd_id tdoc)) n d) ->
    exists w1 w2 : World,
      PurchaseService.process_purchase request w
      = (Ok {| resp_purchaser := req_purchaser request;
               resp_pet_type := req_pet_type request;
               resp_store := s;
               resp_pet_name := PetStore.pd_name pet;
               resp_purchase_id := Bson.str (fresh_ids w (ids_issued w)) |}, w1)
      /\ PetStore.pets_collection (PetStore.replay stray init (trace w1) s)
         = before ++ after
      /\ PurchaseService.process_purchase request w1 = (Raise NoPetAvailable, w2)
      /\ transactions w2 = transactions w1
      /\ (forall content_type,
             Py.contains "application/json" (header_or_empty content_type) = true ->
             Purchases.create_purchase content_type request w1
             = (Ok {| status := 400;
                      body := ErrorJson "No pet of this type is available" |}, w2)).
Proof.
  intros stray init request w s n tdoc before after pet Hnet Hstores Hcfg Hname Htruthy
         Hreq Htidy Htype Hvalid Hpets Hnamed Hnone.
  set (st := PetStore.replay stray init (trace w) s) in *.
  set (id := Bson.str (PetStore.ptd_id tdoc)) in *.
  assert (Hpid : Url.plain id = true) by apply plain_str.
  assert (Hpn : Url.plain n = true) by (apply (proj2 Hreq); assumption).
  assert (Hin_pet : In pet (PetStore.pets_collection st))
    by (rewrite Hpets; apply in_or_app; right; now left).
  assert (Hstored : forall d, In d (PetStore.pets_collection st) ->
                              Url.plain (PetStore.pd_name d) = true) by apply Htidy.
  assert (Hpet : PetStore.MongoStore.same_pet_ignoring_case id n pet = true).
  { apply same_pet_ignoring_case_iff; [now apply Hstored | exact Hnamed]. }
  assert (Hothers : forall d, In d (before ++ after) ->
                              PetStore.MongoStore.same_pet_ignoring_case id n d = false).
  { intros d Hd.
    destruct (PetStore.MongoStore.same_pet_ignoring_case id n d) eqn:E; [|reflexivity].
    exfalso. apply (Hnone d Hd). apply same_pet_ignoring_case_iff in E; [exact E|].
    apply Hstored. rewrite Hpets. apply in_app_or in Hd. apply in_or_app.
    destruct Hd; [now left | right; now right]. }
  destruct Hnamed as [Hpid' Hpname].
  assert (Hoffers : offers st id request pet).
  { split; [exact Hin_pet|]. split; [exact Hpid'|].
    intros n0 Hn0 _. rewrite Hname in Hn0. inversion Hn0; subst n0. exact Hpname. }
  destruct (sale_served stray init request w s [] tdoc pet Hnet Hstores Hcfg Hreq Htidy
              Htype Hvalid Hoffers)
    as (sold & w1 & Hp & (Hsin & Hsid & Hsname) & N1 & Hst1 & _ & _).
  fold st id in Hp, Hsin, Hsid, Hsname, Hst1.
  assert (sold = pet) as ->.
  { assert (Hs : PetStore.MongoStore.same_pet_ignoring_case id n sold = true).
    { apply same_pet_ignoring_case_iff; [now apply Hstored|].
      split; [exact Hsid|]. now apply Hsname. }
    rewrite Hpets in Hsin. apply in_app_or in Hsin.
    destruct Hsin as [Hb | [He | Ha]]; [| now symmetry |].
    - rewrite (Hothers sold) in Hs by (apply in_or_app; now left). discriminate.
    - rewrite (Hothers sold) in Hs by (apply in_or_app; now right). discriminate. }
  pose proof (find_some _ _ Htype) as [Htin _].
  destruct (get_pet_type_listed st tdoc Htin Hvalid) as (ty & Hty & _). fold id in Hty.
  destruct (delete_route_only_match st id n ty before pet after Hty Hpets
              (Hstored pet Hin_pet) Hpet)
    as (_ & Hpets1 & Htypes1).
  { intros d Hd. apply Hothers. apply in_or_app. now left. }
  rewrite <- Hst1 in Hpets1, Htypes1.
  set (st1 := PetStore.replay stray init (trace w1) s) in *.
  assert (Hnet1 : network w1 = PetStore.serve stray init) by (now rewrite N1).
  set (wa := log (Http (GetPetTypes s)) w1).
  set (wb := log (Http (GetPet s id n)) wa).
  assert (Hfind : PetStoreClient.find_pet_type_id s (req_pet_type request) w1
                  = (Ok (Some id), wa)).
  { rewrite (find_pet_type_id_run _ _ _ Hcfg), (served_pet_types stray init w1 s Hnet1).
    cbn [Z.eqb Pos.eqb]. fold st1. rewrite Htypes1.
    now rewrite first_type_match_served, Htype. }
  assert (Hget : PetStoreClient.get_pet s id n wa = (Ok None, wb)).
  { rewrite (get_pet_run _ _ _ _ Hcfg).
    rewrite (served_pet stray init wa s id n Hnet1 Hpid Hpn).
    unfold wa at 1. cbn [trace log]. rewrite replay_get by exact I. fold st1.
    assert (H404 : PetStore.Routers.get_pet st1 id n = Response 404 None).
    { unfold PetStore.Routers.get_pet, PetStore.PetService.get_pet,
        PetStore.MongoStore.get_pet_case_insensitive.
      rewrite Hpets1, (find_absent _ _ Hothers).
      destruct (PetStore.MongoStore.get_pet_type st1 id); reflexivity. }
    rewrite H404. reflexivity. }
  assert (Hprobe : probe request s w1 = (Ok None, wb)).
  { unfold probe. rewrite (bind_ok _ _ _ _ _ Hfind). unfold id at 1.
    rewrite truthy_str. cbn [negb]. fold id. rewrite Hname, Htruthy.
    rewrite (bind_ok _ _ _ _ _ Hget). reflexivity. }
  assert (Hp2 : PurchaseService.process_purchase request w1 = (Raise NoPetAvailable, wb)).
  { unfold PurchaseService.process_purchase, PurchaseService.find_available_pet.
    rewrite Hstores. unfold bind at 1. rewrite find_in_cons, Hprobe. reflexivity. }
  exists w1, wb. split; [exact Hp|]. split; [exact Hpets1|]. split; [exact Hp2|].
  split; [reflexivity|].
  intros ct Hct. unfold Purchases.create_purchase. rewrite Hct. cbn [negb].
  rewrite Hp2. reflexivity.
Qed.

(** The same on the running example with three Poodles: "jamie" is asked
    for, Jamie is sold, Rex and Bella stay. *)
Lemma sold_pet_is_not_sold_again_witness :
  network Scenario.kennels = PetStore.serve Scenario.lost (fun _ => Scenario.kennel)
  /\ PurchaseService.stores_to_check Scenario.ana_store1_lower = [1]
  /\ PetStoreClient.PET_STORE_URLS 1 <> None
  /\ req_pet_name Scenario.ana_store1_lower = Some "jamie"
  /\ Py.truthy "jamie" = true
  /\ plain_request Scenario.ana_store1_lower
  /\ tidy Scenario.kennel
  /\ (Scenario.poodle_id < 2 ^ 96)%N
  /\ PetStore.pets_collection Scenario.kennel
     = [Scenario.poodle "Rex"] ++ Scenario.poodle "Jamie" :: [Scenario.poodle "Bella"]
  /\ is_named (Bson.str Scenario.poodle_id) "jamie" (Scenario.poodle "Jamie")
  /\ (forall d, In d ([Scenario.poodle "Rex"] ++ [Scenario.poodle "Bella"]) ->
                ~ is_named (Bson.str Scenario.poodle_id) "jamie" d)
  /\ exists w1 w2 : World,
      PurchaseService.process_purchase Scenario.ana_store1_lower Scenario.kennels
      = (Ok {| resp_purchaser := "Ana";
               resp_pet_type := "poodle";
               resp_store := 1;
               resp_pet_name := "Jamie";
               resp_purchase_id := "000000000000000000001000" |}, w1)
      /\ PetStore.pets_collection
           (PetStore.replay Scenario.lost (fun _ => Scenario.kennel) (trace w1) 1)
         = [Scenario.poodle "Rex"] ++ [Scenario.poodle "Bella"]
      /\ PurchaseService.process_purchase Scenario.ana_store1_lower w1
         = (Raise NoPetAvailable, w2)
      /\ transactions w2 = transactions w1
      /\ (forall content_type,
             Py.contains "application/json" (header_or_empty content_type) = true ->
             Purchases.create_purchase content_type Scenario.ana_store1_lower w1
             = (Ok {| status := 400;
                      body := ErrorJson "No pet of this type is available" |}, w2)).
Proof.
  assert (Hcfg : PetStoreClient.PET_STORE_URLS 1 <> None) by discriminate.
  assert (Hid : (Scenario.poodle_id < 2 ^ 96)%N) by reflexivity.
  assert (Hreq : plain_request Scenario.ana_store1_lower).
  { split; [reflexivity|]. intros n Hn _. injection Hn as <-. reflexivity. }
  assert (Hnamed : is_named (Bson.str Scenario.poodle_id) "jamie" (Scenario.poodle "Jamie"))
    by (split; reflexivity).
  assert (Hnone : forall d, In d ([Scenario.poodle "Rex"] ++ [Scenario.poodle "Bella"]) ->
                            ~ is_named (Bson.str Scenario.poodle_id) "jamie" d).
  { intros d [<-|[<-|[]]] [_ H]; discriminate H. }
  split; [reflexivity|]. split; [reflexivity|]. split; [exact Hcfg|].
  split; [reflexivity|]. split; [reflexivity|]. split; [exact Hreq|].
  split; [exact kennel_tidy|]. split; [exact Hid|]. split; [reflexivity|].
  split; [exact Hnamed|]. split; [exact Hnone|].
  exact (sold_pet_is_not_sold_again Scenario.lost (fun _ => Scenario.kennel)
           Scenario.ana_store1_lower Scenario.kennels 1 "jamie"
           {| PetStore.ptd_id := Scenario.poodle_id; PetStore.ptd_type := "Poodle";
              PetStore.ptd_pets := ["Rex"; "Jamie"; "Bella"] |}
           [Scenario.poodle "Rex"] [Scenario.poodle "Bella"] (Scenario.poodle "Jamie")
           eq_refl eq_refl Hcfg eq_refl eq_refl Hreq kennel_tidy eq_refl Hid eq_refl
           Hnamed Hnone).
Defined.

(** ** Queries and purchases *)

Lemma get_transactions_on_ledger store pet_type purchaser purchase_id :
  exists select : list TransactionDoc -> list Transaction,
    (forall l1 l2, select (l1 ++ l2) = select l1 ++ select l2)
    /\ select [] = []
    /\ (forall d, select [d] = [] \/ select [d] = [PurchaseService.to_transaction d])
    /\ forall w, exists w',
        PurchaseService.get_transactions store pet_type purchaser purchase_id w
        = (Ok (select (transactions w)), w').
Proof.
  unfold PurchaseService.get_transactions.
  assert (Hq : forall q,
             (forall l1 l2 : list TransactionDoc,
                 map PurchaseService.to_transaction (filter (Collection.matches q) (l1 ++ l2))
                 = map PurchaseService.to_transaction (filter (Collection.matches q) l1)
                   ++ map PurchaseService.to_transaction (filter (Collection.matches q) l2))
             /\ (forall d,
                    map PurchaseService.to_transaction (filter (Collection.matches q) [d]) = []
                    \/ map PurchaseService.to_transaction (filter (Collection.matches q) [d])
                       = [PurchaseService.to_transaction d])).
  { intros q. split.
    - intros l1 l2. now rewrite filter_app, map_app.
    - intros d. simpl. destruct (Collection.matches q d); auto. }
  destruct purchase_id as [i|]; [destruct (Bson.parse i) as [oid|]|].
  - exists (fun l => map PurchaseService.to_transaction
                        (filter (Collection.matches
                                   {| q_store := store; q_pet_type := pet_type;
                                      q_purchaser := purchaser; q_id := Some oid |}) l)).
    split; [exact (proj1 (Hq _))|]. split; [reflexivity|].
    split; [exact (proj2 (Hq _))|].
    intros w. eexists. unfold bind, Collection.find, ret. reflexivity.
  - exists (fun _ => []). split; [reflexivity|]. split; [reflexivity|].
    split; [auto|]. intros w. eexists. reflexivity.
  - exists (fun l => map PurchaseService.to_transaction
                        (filter (Collection.matches
                                   {| q_store := store; q_pet_type := pet_type;
                                      q_purchaser := purchaser; q_id := None |}) l)).
    split; [exact (proj1 (Hq _))|]. split; [reflexivity|].
    split; [exact (proj2 (Hq _))|].
    intros w. eexists. unfold bind, Collection.find, ret. reflexivity.
Qed.

(** X9. A purchase only ever adds to what a query returns.  For every
    choice of filters, [get_transactions] after a purchase returns what it
    returned before, in the same order, followed by nothing or by the one
    transaction of that purchase; something is added only when the purchase
    completed. *)
Theorem queries_grow_with_purchases :
  forall (request : PurchaseRequest) (w w' : World) (r : outcome PurchaseResponse)
         (store : option Z) (pet_type purchaser purchase_id : option string),
    PurchaseService.process_purchase request w = (r, w') ->
    exists old new w1 w2,
      PurchaseService.get_transactions store pet_type purchaser purchase_id w
      = (Ok old, w1)
      /\ PurchaseService.get_transactions store pet_type purchaser purchase_id w'
         = (Ok (old ++ new), w2)
      /\ (new = []
          \/ exists response,
              r = Ok response
              /\ new = [ {| tx_purchaser := resp_purchaser response;
                            tx_pet_type := resp_pet_type response;
                            tx_store := resp_store response;
                            tx_purchase_id := resp_purchase_id response |} ]).
Proof.
  intros request w w' r store pet_type purchaser purchase_id Hp.
  destruct (get_transactions_on_ledger store pet_type purchaser purchase_id)
    as (select & Happ & Hnil & Hone & Hrun).
  destruct (Hrun w) as (w1 & H1). destruct (Hrun w') as (w2 & H2).
  destruct r as [response|e].
  - apply process_purchase_returns in Hp.
    destruct Hp as (pet & wa & wb & doc & _ & _ & Hdoc & _ & T & _ & _ & Hresp).
    exists (select (transactions w)), (select [doc]), w1, w2.
    split; [exact H1|]. split; [now rewrite H2, T, Happ|].
    destruct (Hone doc) as [-> | ->]; [now left|]. right. exists response.
    split; [reflexivity|]. subst response doc. reflexivity.
  - exists (select (transactions w)), [], w1, w2. split; [exact H1|].
    split; [| now left]. rewrite app_nil_r, H2. do 3 f_equal.
    unfold PurchaseService.process_purchase in Hp.
    apply bind_inv in Hp. destruct Hp as [(pet & wa & Hfind & Hrun') | (e1 & Hfind & _)].
    + apply find_in_only_called in Hfind. destruct Hfind as (_ & T1 & _).
      destruct pet as [pet|]; [| inversion Hrun'; subst; exact T1].
      apply bind_inv in Hrun'.
      destruct Hrun' as [(ok & wb & Hdel & Hrun') | (e2 & Hdel & _)].
      * apply delete_pet_only_called in Hdel. destruct Hdel as (_ & T2 & _).
        destruct ok; simpl in Hrun'; [discriminate|].
        inversion Hrun'; subst. congruence.
      * apply delete_pet_only_called in Hdel. destruct Hdel as (_ & T2 & _). congruence.
    + apply find_in_only_called in Hfind. now destruct Hfind as (_ & T1 & _).
Qed.

(** The same on the first purchase of the running example. *)
Lemma queries_grow_with_purchases_witness :
  PurchaseService.process_purchase Scenario.ana Scenario.world
  = (Ok first_response, after_first_purchase)
  /\ exists old new w1 w2,
      PurchaseService.get_transactions (Some 1) None None None Scenario.world
      = (Ok old, w1)
      /\ PurchaseService.get_transactions (Some 1) None None None after_first_purchase
         = (Ok (old ++ new), w2)
      /\ (new = []
          \/ exists response,
              Ok first_response = Ok response
              /\ new = [ {| tx_purchaser := resp_purchaser response;
                            tx_pet_type := resp_pet_type response;
                            tx_store := resp_store response;
                            tx_purchase_id := resp_purchase_id response |} ]).
Proof.
  assert (Hp : PurchaseService.process_purchase Scenario.ana Scenario.world
               = (Ok first_response, after_first_purchase)) by reflexivity.
  split; [exact Hp|].
  exact (queries_grow_with_purchases Scenario.ana Scenario.world after_first_purchase
           (Ok first_response) (Some 1) None None None Hp).
Defined.

(** ** The pet routes of the pet-store service *)

Lemma delete_first_split (p : PetStore.PetDoc -> bool) (l : list PetStore.PetDoc) :
  (exists before x after,
      l = before ++ x :: after
      /\ (forall d, In d before -> p d = false)
      /\ p x = true
      /\ PetStore.MongoStore.delete_first p l = (true, before ++ after))
  \/ ((forall d, In d l -> p d = false)
      /\ PetStore.MongoStore.delete_first p l = (false, l)).
Proof.
  induction l as [|d l IH]; [right; split; [intros d [] | reflexivity]|].
  simpl. destruct (p d) eqn:Ed.
  - left. exists [], d, l. repeat split; auto. intros x [].
  - destruct IH as [(before & x & after & -> & Hb & Hx & Hr) | (Hall & Hr)].
    + left. exists (d :: before), x, after. rewrite Hr. repeat split; auto.
      intros y [<-|Hy]; auto.
    + right. rewrite Hr. split; [|reflexivity]. intros y [<-|Hy]; auto.
Qed.

(** X10. [DELETE /pet-types/{id}/pets/{name}] of the pet-store service
    answers 204 or 404, the id and the name being plain segments of a path
    and the stored names in ASCII.  It answers 204 exactly when the
    id names a stored pet type and a stored pet of that type has the name
    under case-insensitive comparison, or the name followed by a line feed;
    it then removes exactly one pet document, the first of that type with
    such a name, leaving the other documents in place and in order and the
    ids and type names of the pet types as they were.  When it answers 404,
    because the id is malformed, names no pet type, or no such pet is
    stored, the store is left as it was. *)
Theorem delete_route_removes_one :
  forall (st : PetStore.Store) (id n : string),
    Url.plain id = true ->
    Url.plain n = true ->
    (forall d, In d (PetStore.pets_collection st) ->
               Py.isascii (PetStore.pd_name d) = true) ->
    (fst (PetStore.Routers.delete_pet st id n) = Response 204 tt
     /\ PetStore.MongoStore.get_pet_type st id <> None
     /\ exists before gone after,
         PetStore.pets_collection st = before ++ gone :: after
         /\ PetStore.pets_collection (snd (PetStore.Routers.delete_pet st id n))
            = before ++ after
         /\ PetStore.pd_pet_type_id gone = id
         /\ named_as n (PetStore.pd_name gone)
         /\ (forall d, In d before ->
                       ~ (PetStore.pd_pet_type_id d = id
                          /\ named_as n (PetStore.pd_name d)))
         /\ map PetStore.Routers.pet_type_response
              (PetStore.pet_types_collection (snd (PetStore.Routers.delete_pet st id n)))
            = map PetStore.Routers.pet_type_response (PetStore.pet_types_collection st))
    \/ (PetStore.Routers.delete_pet st id n = (Response 404 tt, st)
        /\ (PetStore.MongoStore.get_pet_type st id = None
            \/ forall d, In d (PetStore.pets_collection st) ->
                         ~ (PetStore.pd_pet_type_id d = id
                            /\ named_as n (PetStore.pd_name d)))).
Proof.
  intros st id n _ _ _.
  assert (Hiff : forall d, PetStore.MongoStore.same_pet_ignoring_case id n d = true
                           <-> PetStore.pd_pet_type_id d = id
                               /\ named_as n (PetStore.pd_name d)).
  { intros d. unfold PetStore.MongoStore.same_pet_ignoring_case.
    now rewrite andb_true_iff, String.eqb_eq, like_named_as. }
  unfold PetStore.Routers.delete_pet, PetStore.PetService.delete_pet,
    PetStore.MongoStore.get_pet_case_insensitive.
  destruct (PetStore.MongoStore.get_pet_type st id) as [ty|] eqn:Hty;
    [| right; split; [reflexivity | now left]].
  destruct (find (PetStore.MongoStore.same_pet_ignoring_case id n)
              (PetStore.pets_collection st)) as [pet|] eqn:Hfind.
  - left. cbn [fst snd]. split; [reflexivity|]. split; [discriminate|].
    apply find_split in Hfind. destruct Hfind as (before & after & Hl & Hb & Hpet).
    pose proof (proj1 (Hiff pet) Hpet) as [Hid Hname].
    assert (Hr : PetStore.MongoStore.delete_first
                   (PetStore.MongoStore.same_pet id (PetStore.pd_name pet))
                   (PetStore.pets_collection st) = (true, before ++ after)).
    { rewrite Hl. apply delete_first_first.
      - intros d Hd.
        destruct (PetStore.MongoStore.same_pet id (PetStore.pd_name pet) d) eqn:E;
          [|reflexivity].
        unfold PetStore.MongoStore.same_pet in E. apply andb_true_iff in E.
        destruct E as [E1 E2]. apply String.eqb_eq in E1. apply String.eqb_eq in E2.
        assert (Hd' : PetStore.MongoStore.same_pet_ignoring_case id n d = true)
          by (apply Hiff; rewrite E2; auto).
        rewrite (Hb d Hd) in Hd'. discriminate.
      - unfold PetStore.MongoStore.same_pet. now rewrite Hid, !String.eqb_refl. }
    exists before, pet, after. split; [exact Hl|].
    unfold PetStore.MongoStore.delete_pet. rewrite Hr. cbn [fst snd].
    assert (Hfirst : forall d, In d before ->
                               ~ (PetStore.pd_pet_type_id d = id
                                  /\ named_as n (PetStore.pd_name d))).
    { intros d Hd Hsame. apply Hiff in Hsame. rewrite (Hb d Hd) in Hsame. discriminate. }
    unfold PetStore.MongoStore.remove_pet_name_from_type.
    destruct (Bson.parse id);
      cbn [PetStore.pets_collection PetStore.pet_types_collection];
      (split; [reflexivity|]); (split; [exact Hid|]);
      (split; [exact Hname|]); (split; [exact Hfirst|]);
      auto using pet_type_response_pull.
  - right. split; [reflexivity|]. right. intros d Hd Hsame.
    pose proof (find_none _ _ Hfind d Hd) as Hf.
    apply Hiff in Hsame. congruence.
Qed.

(** The same on an inventory that holds "Jamie" followed by a line feed
    before "Jamie": the request for "Jamie" removes the former. *)
Lemma delete_route_removes_one_witness :
  Url.plain (Bson.str Scenario.poodle_id) = true
  /\ Url.plain "Jamie" = true
  /\ (forall d, In d (PetStore.pets_collection Scenario.store_lf) ->
                Py.isascii (PetStore.pd_name d) = true)
  /\ fst (PetStore.Routers.delete_pet Scenario.store_lf (Bson.str Scenario.poodle_id) "Jamie")
     = Response 204 tt
  /\ map PetStore.pd_name
       (PetStore.pets_collection
          (snd (PetStore.Routers.delete_pet Scenario.store_lf
                  (Bson.str Scenario.poodle_id) "Jamie")))
     = ["Jamie"].
Proof.
  assert (Hid : Url.plain (Bson.str Scenario.poodle_id) = true) by reflexivity.
  assert (Hn : Url.plain "Jamie" = true) by reflexivity.
  assert (Hst : forall d, In d (PetStore.pets_collection Scenario.store_lf) ->
                          Py.isascii (PetStore.pd_name d) = true).
  { intros d [<-|[<-|[]]]; reflexivity. }
  split; [exact Hid|]. split; [exact Hn|]. split; [exact Hst|].
  destruct (delete_route_removes_one Scenario.store_lf (Bson.str Scenario.poodle_id)
              "Jamie" Hid Hn Hst)
    as [(H204 & _ & before & gone & after & Hl & Hafter & _ & Hname & Hfirst & _)
       | (H404 & _)].
  - split; [exact H204|]. rewrite Hafter.
    destruct before as [|d before].
    + injection Hl as _ <-. reflexivity.
    + exfalso. injection Hl as <- Hrest. apply (Hfirst _ (or_introl eq_refl)).
      split; [reflexivity|]. right. reflexivity.
  - exfalso. apply (f_equal fst) in H404. vm_compute in H404. discriminate H404.
Defined.

(** X11. What [GET /pet-types/{id}/pets] of the pet-store service lists can
    be used, the id being a plain segment of a path and the stored names in
    ASCII.  For a known pet type it answers 200 with exactly the stored pets
    of that type, in the order of the collection.  Each listed pet whose
    name is a plain segment can then be asked for by its name:
    [GET /pet-types/{id}/pets/{name}] answers 200 with the first stored pet
    of the type that has that name under case-insensitive comparison, or
    that name followed by a line feed, and [DELETE] for that name answers
    204. *)
Theorem listed_pets_can_be_fetched :
  forall (st : PetStore.Store) (id : string) (status : Z) (pets : list PetJson),
    Url.plain id = true ->
    (forall d, In d (PetStore.pets_collection st) ->
               Py.isascii (PetStore.pd_name d) = true) ->
    PetStore.Routers.get_pets st id = Response status pets ->
    (status = 200
     /\ PetStore.MongoStore.get_pet_type st id <> None
     /\ pets = map PetStore.pet_response
                 (filter (of_type id) (PetStore.pets_collection st))
     /\ forall p, In p pets ->
          Url.plain (name p) = true ->
          (exists before doc after,
              PetStore.Routers.get_pet st id (name p)
              = Response 200 (Some (PetStore.pet_response doc))
              /\ PetStore.pets_collection st = before ++ doc :: after
              /\ PetStore.pd_pet_type_id doc = id
              /\ named_as (name p) (PetStore.pd_name doc)
              /\ (forall d, In d before ->
                            ~ (PetStore.pd_pet_type_id d = id
                               /\ named_as (name p) (PetStore.pd_name d))))
          /\ fst (PetStore.Routers.delete_pet st id (name p)) = Response 204 tt)
    \/ (status = 404 /\ pets = [] /\ PetStore.MongoStore.get_pet_type st id = None).
Proof.
  intros st id status pets _ _.
  unfold PetStore.Routers.get_pets, PetStore.PetService.get_pets_for_type.
  destruct (PetStore.MongoStore.get_pet_type st id) as [ty|] eqn:Hty;
    intros H; inversion H; subst status pets; clear H; [left | right; auto].
  split; [reflexivity|]. split; [discriminate|]. split; [reflexivity|].
  intros p Hp _. apply in_map_iff in Hp. destruct Hp as (d & <- & Hd).
  apply filter_In in Hd. destruct Hd as [Hin Hof]. apply String.eqb_eq in Hof.
  assert (Hiff : forall x, PetStore.MongoStore.same_pet_ignoring_case id
                             (PetStore.pd_name d) x = true
                           <-> PetStore.pd_pet_type_id x = id
                               /\ named_as (PetStore.pd_name d) (PetStore.pd_name x)).
  { intros x. unfold PetStore.MongoStore.same_pet_ignoring_case.
    now rewrite andb_true_iff, String.eqb_eq, like_named_as. }
  destruct (find_exists (PetStore.MongoStore.same_pet_ignoring_case id (PetStore.pd_name d))
              _ d Hin) as (doc & Hdoc).
  { apply Hiff. split; [exact Hof|]. left. apply equal_ignoring_case_refl. }
  cbn [PetStore.pet_response name]. split.
  - pose proof (find_split _ _ _ Hdoc) as (before & after & Hl & Hb & Hsame).
    exists before, doc, after.
    split; [now apply (get_pet_route_present st id _ ty)|].
    split; [exact Hl|]. apply Hiff in Hsame. destruct Hsame as [Hid Hname].
    split; [exact Hid|]. split; [exact Hname|].
    intros x Hx Hx'. apply Hiff in Hx'. rewrite (Hb x Hx) in Hx'. discriminate.
  - now destruct (delete_route_present st id (PetStore.pd_name d) ty doc Hty Hdoc).
Qed.

(** The same on an inventory that holds "Jamie" followed by a line feed
    before "Jamie": both are listed, and asked for "Jamie" the inventory
    answers with the former. *)
Lemma listed_pets_can_be_fetched_witness :
  Url.plain (Bson.str Scenario.poodle_id) = true
  /\ (forall d, In d (PetStore.pets_collection Scenario.store_lf) ->
                Py.isascii (PetStore.pd_name d) = true)
  /\ PetStore.Routers.get_pets Scenario.store_lf (Bson.str Scenario.poodle_id)
     = Response 200 [ {| name := Scenario.jamie_lf; birthdate := "24-10-2023";
                         picture := "NA" |};
                      {| name := "Jamie"; birthdate := "NA"; picture := "NA" |} ]
  /\ Url.plain "Jamie" = true
  /\ PetStore.Routers.get_pet Scenario.store_lf (Bson.str Scenario.poodle_id) "Jamie"
     = Response 200 (Some {| name := Scenario.jamie_lf; birthdate := "24-10-2023";
                             picture := "NA" |})
  /\ fst (PetStore.Routers.delete_pet Scenario.store_lf (Bson.str Scenario.poodle_id) "Jamie")
     = Response 204 tt.
Proof.
  assert (Hid : Url.plain (Bson.str Scenario.poodle_id) = true) by reflexivity.
  assert (Hst : forall d, In d (PetStore.pets_collection Scenario.store_lf) ->
                          Py.isascii (PetStore.pd_name d) = true).
  { intros d [<-|[<-|[]]]; reflexivity. }
  assert (H : PetStore.Routers.get_pets Scenario.store_lf (Bson.str Scenario.poodle_id)
              = Response 200
                  [ {| name := Scenario.jamie_lf; birthdate := "24-10-2023";
                       picture := "NA" |};
                    {| name := "Jamie"; birthdate := "NA"; picture := "NA" |} ])
    by (vm_compute; reflexivity).
  assert (Hp : Url.plain "Jamie" = true) by reflexivity.
  split; [exact Hid|]. split; [exact Hst|]. split; [exact H|]. split; [exact Hp|].
  destruct (listed_pets_can_be_fetched Scenario.store_lf (Bson.str Scenario.poodle_id)
              200 _ Hid Hst H) as [(_ & _ & _ & Hall) | (H404 & _)]; [| discriminate H404].
  destruct (Hall {| name := "Jamie"; birthdate := "NA"; picture := "NA" |}
              (or_intror (or_introl eq_refl)) Hp)
    as ((before & doc & after & Hget & Hl & _ & _ & Hfirst) & Hdel).
  split; [|exact Hdel]. cbn [name] in Hget, Hfirst. rewrite Hget.
  destruct before as [|d before].
  - injection Hl as <- _. reflexivity.
  - exfalso. injection Hl as <- Hrest. apply (Hfirst _ (or_introl eq_refl)).
    split; [reflexivity|]. right. reflexivity.
Defined.

(** ** The validators of the pet-store service *)

Lemma append_nil_r (s : string) : (s ++ "")%string = s.
Proof. induction s as [|c s IH]; simpl; [reflexivity | now rewrite IH]. Qed.

Lemma append_assoc (a b c : string) : ((a ++ b) ++ c)%string = (a ++ b ++ c)%string.
Proof. induction a as [|x a IH]; simpl; [reflexivity | now rewrite IH]. Qed.

Lemma chars_append (a b : string) : chars (a ++ b)%string = chars a ++ chars b.
Proof. induction a as [|x a IH]; simpl; [reflexivity | now rewrite IH]. Qed.

Lemma append_empty (a b : string) : (a ++ b)%string = "" -> a = "" /\ b = "".
Proof. destruct a; simpl; [auto | discriminate]. Qed.

Lemma flush_In run r : In r (Validators.flush run) <-> r = run /\ run <> "".
Proof.
  unfold Validators.flush. destruct (String.eqb_spec run "") as [->|Hne]; simpl.
  - split; [intros [] | intros [_ H]; now apply H].
  - split; [intros [<-|[]]; auto | intros [-> _]; now left].
Qed.

(** Every string [findall_digits] returns is a run of digits of the text. *)
Lemma findall_digits_sound s run r :
  all_digits run ->
  In r (Validators.findall_digits s run) ->
  r <> "" /\ all_digits r /\ exists pre post, (run ++ s)%string = (pre ++ r ++ post)%string.
Proof.
  revert run. induction s as [|c t IH]; intros run Hrun Hin; simpl in Hin.
  - apply flush_In in Hin. destruct Hin as [-> Hne]. split; [exact Hne|].
    split; [exact Hrun|]. exists "", "". simpl. reflexivity.
  - destruct (Validators.is_digit c) eqn:Ec.
    + apply IH in Hin.
      * destruct Hin as (Hne & Hd & pre & post & Heq). repeat split; auto.
        exists pre, post. rewrite <- Heq, append_assoc. reflexivity.
      * intros x Hx. unfold chars in Hx. fold (chars (run ++ String c "")) in Hx.
        rewrite chars_append in Hx. apply in_app_or in Hx.
        destruct Hx as [Hx | [<- | []]]; auto.
    + apply in_app_or in Hin. destruct Hin as [Hin | Hin].
      * apply flush_In in Hin. destruct Hin as [-> Hne]. repeat split; auto.
        exists "", (String c t). reflexivity.
      * apply IH in Hin; [| intros x []].
        destruct Hin as (Hne & Hd & pre & post & Heq). repeat split; auto.
        exists (run ++ String c pre)%string, post. simpl in Heq. rewrite Heq.
        rewrite append_assoc. reflexivity.
Qed.

(** Reading a text that ends without a digit leaves no run open. *)
Lemma findall_digits_cut p c rest run :
  Validators.is_digit c = false ->
  Validators.findall_digits ((p ++ String c "") ++ rest)%string run
  = Validators.findall_digits (p ++ String c "")%string run
    ++ Validators.findall_digits rest "".
Proof.
  intros Hc. revert run. induction p as [|x p IH]; intros run; simpl.
  - rewrite Hc. simpl. now rewrite app_nil_r.
  - destruct (Validators.is_digit x); [apply IH|].
    rewrite IH. now rewrite app_assoc.
Qed.

(** A run of digits that the text does not continue is returned whole. *)
Lemma findall_digits_run num post run :
  all_digits num ->
  no_digit_at_start post ->
  exists rest, Validators.findall_digits (num ++ post)%string run
               = Validators.flush (run ++ num)%string ++ rest.
Proof.
  revert run. induction num as [|x num IH]; intros run Hd Hpost.
  - simpl. rewrite append_nil_r. destruct post as [|c t]; simpl.
    + exists []. now rewrite app_nil_r.
    + simpl in Hpost. rewrite Hpost. eauto.
  - simpl. rewrite (Hd x) by now left.
    destruct (IH (run ++ String x "")%string) as (rest & Hr); [| exact Hpost |].
    + intros y Hy. apply Hd. now right.
    + exists rest. rewrite Hr, append_assoc. reflexivity.
Qed.

(** A maximal run of digits of the text is among the strings returned. *)
Lemma findall_digits_complete pre num post :
  no_digit_at_end pre -> all_digits num -> num <> "" -> no_digit_at_start post ->
  In num (Validators.findall_digits (pre ++ num ++ post)%string "").
Proof.
  intros Hpre Hd Hne Hpost.
  destruct (findall_digits_run num post "" Hd Hpost) as (rest & Hr). simpl in Hr.
  assert (Hin : In num (Validators.findall_digits (num ++ post)%string "")).
  { rewrite Hr. apply in_or_app. left. apply flush_In. auto. }
  destruct Hpre as [-> | (p & c & -> & Hc)]; [exact Hin|].
  rewrite (findall_digits_cut p c _ "" Hc). apply in_or_app. now right.
Qed.

Lemma findall_digits_none s run :
  Validators.findall_digits s run = [] <->
  run = "" /\ forall c, In c (chars s) -> Validators.is_digit c = false.
Proof.
  revert run. induction s as [|c t IH]; intros run; simpl.
  - unfold Validators.flush. destruct (String.eqb_spec run ""); split.
    + intros _. split; [assumption | intros c []].
    + reflexivity.
    + discriminate.
    + intros [H _]. contradiction.
  - destruct (Validators.is_digit c) eqn:Ec; split.
    + intros H. apply IH in H. destruct H as [H _].
      apply append_empty in H. destruct H as [_ H]. discriminate.
    + intros [_ H]. specialize (H c (or_introl eq_refl)). congruence.
    + intros H. apply app_eq_nil in H. destruct H as [Hf Ht].
      apply IH in Ht. destruct Ht as [_ Ht]. split.
      * unfold Validators.flush in Hf. destruct (String.eqb_spec run ""); [assumption|].
        discriminate.
      * intros x [<-|Hx]; auto.
    + intros [-> H]. simpl. apply IH. split; [reflexivity|]. intros x Hx. apply H. now right.
Qed.

Lemma minimum_least first rest :
  In (Validators.minimum first rest) (first :: rest)
  /\ forall x, In x (first :: rest) -> (Validators.minimum first rest <= x)%N.
Proof.
  revert first. induction rest as [|y l IH]; intros first; simpl.
  - split; [now left | intros x [<-|[]]; reflexivity].
  - destruct (IH (N.min first y)) as [Hin Hle]. split.
    + destruct Hin as [Hm | Hm]; [| right; now right].
      rewrite <- Hm. destruct (N.min_spec first y) as [[_ ->] | [_ ->]]; auto.
    + intros x [<- | [<- | Hx]].
      * etransitivity; [apply Hle; now left | apply N.le_min_l].
      * etransitivity; [apply Hle; now left | apply N.le_min_r].
      * apply Hle. now right.
Qed.

(** X12. For a text in ASCII, [parse_lifespan] returns the lowest number
    written in the text.  It returns [None] exactly when the text holds no
    digit (an empty text among them).  A number it returns is the value of a
    run of digits of the text, and it is not above the value of any maximal
    run of digits of the text. *)
Theorem parse_lifespan_lowest_number :
  forall (s : string),
    Py.isascii s = true ->
    (Validators.parse_lifespan (Some s) = None
     <-> forall c, In c (chars s) -> Validators.is_digit c = false)
    /\ forall m, Validators.parse_lifespan (Some s) = Some m ->
         (exists pre num post,
             s = (pre ++ num ++ post)%string
             /\ num <> "" /\ all_digits num /\ m = Validators.int num)
         /\ forall pre num post,
             s = (pre ++ num ++ post)%string ->
             no_digit_at_end pre -> all_digits num -> num <> "" ->
             no_digit_at_start post ->
             (m <= Validators.int num)%N.
Proof.
  intros s _. unfold Validators.parse_lifespan. cbn [Py.truthy_opt].
  destruct s as [|c0 s0] eqn:Es.
  - cbn. split; [split; [intros _ c [] | reflexivity] | discriminate].
  - rewrite <- Es. replace (Py.truthy s) with true by (subst s; reflexivity).
    cbn [negb].
    destruct (Validators.findall_digits s "") as [|num rest] eqn:Ef.
    + split; [|discriminate]. split; [|reflexivity].
      intros _. now apply findall_digits_none in Ef.
    + split.
      * split; [discriminate|]. intros H. exfalso.
        assert (Hn : Validators.findall_digits s "" = [])
          by (apply findall_digits_none; auto).
        congruence.
      * intros m Hm. inversion Hm; subst m; clear Hm.
        destruct (minimum_least (Validators.int num) (map Validators.int rest))
          as [Hin Hle].
        change (Validators.int num :: map Validators.int rest)
          with (map Validators.int (num :: rest)) in Hin, Hle.
        rewrite <- Ef in Hin, Hle. split.
        -- apply in_map_iff in Hin. destruct Hin as (r & Hr & Hrin).
           apply findall_digits_sound in Hrin; [| intros x []].
           destruct Hrin as (Hne & Hd & pre & post & Heq).
           exists pre, r, post. simpl in Heq. auto.
        -- intros pre n post Heq Hpre Hd Hne Hpost. apply Hle. apply in_map.
           rewrite Heq. now apply findall_digits_complete.
Qed.

(** The examples of the documentation. *)
Example parse_lifespan_examples :
  Validators.parse_lifespan (Some "10-12 years") = Some 10%N
  /\ Validators.parse_lifespan (Some "up to 41 years") = Some 41%N
  /\ Validators.parse_lifespan (Some "from 2 to 5 years") = Some 2%N
  /\ Validators.parse_lifespan (Some "unknown") = None
  /\ Validators.parse_lifespan None = None.
Proof. repeat split. Qed.

(** The same on the first example of the documentation. *)
Lemma parse_lifespan_lowest_number_witness :
  Py.isascii "10-12 years" = true
  /\ Validators.parse_lifespan (Some "10-12 years") = Some 10%N
  /\ "10-12 years" = ("10-" ++ "12" ++ " years")%string
  /\ no_digit_at_end "10-"
  /\ all_digits "12"
  /\ "12" <> ""
  /\ no_digit_at_start " years"
  /\ (10 <= Validators.int "12")%N.
Proof.
  assert (H0 : Validators.parse_lifespan (Some "10-12 years") = Some 10%N) by reflexivity.
  assert (H1 : no_digit_at_end "10-").
  { right. exists "10", "-"%char. split; reflexivity. }
  assert (H2 : all_digits "12").
  { intros c [<- | [<- | []]]; reflexivity. }
  assert (H3 : "12" <> "") by discriminate.
  assert (H4 : no_digit_at_start " years") by reflexivity.
  split; [reflexivity|].
  split; [exact H0|]. split; [reflexivity|]. split; [exact H1|]. split; [exact H2|].
  split; [exact H3|]. split; [exact H4|].
  exact (proj2 (proj2 (parse_lifespan_lowest_number "10-12 years" eq_refl) 10%N H0)
           "10-" "12" " years" eq_refl H1 H2 H3 H4).
Defined.

Lemma word_is_no_space c :
  Validators.is_word c = true -> Validators.is_space c = false.
Proof.
  destruct c as [[] [] [] [] [] [] [] []]; intros H; try reflexivity;
    vm_compute in H; discriminate H.
Qed.

Lemma space_is_no_word c :
  Validators.is_space c = true -> Validators.is_word c = false.
Proof.
  intros H. destruct (Validators.is_word c) eqn:E; [|reflexivity].
  apply word_is_no_space in E. congruence.
Qed.

Lemma keep_chars_append keep a b :
  keep_chars keep (a ++ b)%string = (keep_chars keep a ++ keep_chars keep b)%string.
Proof.
  induction a as [|c a IH]; simpl; [reflexivity|].
  destruct (keep c); simpl; now rewrite IH.
Qed.

Lemma concat_flush run rest :
  String.concat "" (Validators.flush run ++ rest)
  = (run ++ String.concat "" rest)%string.
Proof.
  unfold Validators.flush. destruct (String.eqb_spec run "") as [->|Hne]; [reflexivity|].
  simpl. destruct rest as [|r l]; [now rewrite append_nil_r | reflexivity].
Qed.

(** The words [split] cuts out of a text without punctuation. *)
Lemma split_words text word :
  (forall c, In c (chars word) -> Validators.is_word c = true) ->
  let words := Validators.split (Validators.sub_punctuation text) word in
  (forall w, In w words ->
             w <> "" /\ forall c, In c (chars w) -> Validators.is_word c = true)
  /\ String.concat "" words = (word ++ keep_chars Validators.is_word text)%string.
Proof.
  revert word. induction text as [|c t IH]; intros word Hword; cbn zeta.
  - simpl. split.
    + intros w Hw. apply flush_In in Hw. destruct Hw as [-> Hne]. auto.
    + rewrite <- (app_nil_r (Validators.flush word)), concat_flush. reflexivity.
  - cbn [Validators.sub_punctuation Validators.split keep_chars].
    destruct (Validators.is_word c) eqn:Ew.
    + cbn [orb]. rewrite (word_is_no_space c Ew).
      destruct (IH (word ++ String c "")%string) as [H1 H2].
      { intros x Hx. unfold chars in Hx. fold (chars (word ++ String c "")) in Hx.
        rewrite chars_append in Hx. apply in_app_or in Hx.
        destruct Hx as [Hx | [<- | []]]; auto. }
      split; [exact H1|]. cbn zeta in H2. rewrite H2, append_assoc. reflexivity.
    + assert (Hsp : Validators.is_space
                      (if (false || Validators.is_space c)%bool then c else " "%char)
                    = true).
      { cbn [orb]. destruct (Validators.is_space c) eqn:Es; [exact Es | reflexivity]. }
      rewrite Hsp. destruct (IH "") as [H1 H2]; [intros x []|]. cbn zeta in H1, H2.
      split.
      * intros w Hw. apply in_app_or in Hw. destruct Hw as [Hw | Hw]; [|auto].
        apply flush_In in Hw. destruct Hw as [-> Hne]. auto.
      * rewrite concat_flush, H2. reflexivity.
Qed.

(** X13. [parse_attributes] reads the temperament when there is one and the
    group behaviour otherwise; without either it returns no attribute.  The
    attributes are the words of that text: none is empty, each consists of
    letters, digits and underscores only, and put together in order they are
    exactly the letters, digits and underscores of the text. *)
Theorem parse_attributes_words :
  forall (temperament group_behavior : option string),
    let text := if Py.truthy_opt temperament then temperament else group_behavior in
    let words := Validators.parse_attributes temperament group_behavior in
    (Py.truthy_opt text = false -> words = [])
    /\ (forall w, In w words ->
                  w <> "" /\ forall c, In c (chars w) -> Validators.is_word c = true)
    /\ String.concat "" words
       = keep_chars Validators.is_word (match text with Some t => t | None => "" end).
Proof.
  intros temperament group_behavior. cbn zeta. unfold Validators.parse_attributes.
  generalize (if Py.truthy_opt temperament then temperament else group_behavior).
  intros text. destruct (Py.truthy_opt text) eqn:Et; cbn [negb].
  - destruct (split_words (match text with Some t => t | None => "" end) "")
      as [H1 H2]; [intros c []|]. cbn zeta in H1, H2.
    split; [discriminate|]. split; [exact H1 | exact H2].
  - split; [reflexivity|]. split; [intros w []|].
    destruct text as [t|]; [|reflexivity].
    cbn [Py.truthy_opt] in Et. unfold Py.truthy in Et.
    destruct (String.eqb_spec t "") as [E|E]; [now rewrite E | discriminate Et].
Qed.

(** The same on a temperament and a group behaviour. *)
Lemma parse_attributes_words_witness :
  Validators.parse_attributes (Some "Intelligent, alert; active!") (Some "Pack")
  = ["Intelligent"; "alert"; "active"]
  /\ Py.truthy_opt (Some "") = false
  /\ Validators.parse_attributes (Some "") None = [].
Proof.
  split; [reflexivity|]. split; [reflexivity|].
  exact (proj1 (parse_attributes_words (Some "") None) eq_refl).
Defined.

(** ** Dates *)

Lemma before_irrefl d : Validators.before d d = false.
Proof.
  unfold Validators.before. rewrite !Z.ltb_irrefl, !Z.eqb_refl. reflexivity.
Qed.

Lemma before_spec d1 d2 :
  Validators.before d1 d2 = true
  <-> (Validators.dt_year d1 < Validators.dt_year d2
       \/ (Validators.dt_year d1 = Validators.dt_year d2
           /\ (Validators.dt_month d1 < Validators.dt_month d2
               \/ (Validators.dt_month d1 = Validators.dt_month d2
                   /\ Validators.dt_day d1 < Validators.dt_day d2))))%Z.
Proof.
  unfold Validators.before.
  rewrite !orb_true_iff, !andb_true_iff, !orb_true_iff, !andb_true_iff,
    !Z.ltb_lt, !Z.eqb_eq. reflexivity.
Qed.

Lemma before_asym d1 d2 :
  Validators.before d1 d2 = true -> Validators.before d2 d1 = false.
Proof.
  intros H. destruct (Validators.before d2 d1) eqn:E; [|reflexivity].
  apply before_spec in H. apply before_spec in E. lia.
Qed.

Lemma before_trans d1 d2 d3 :
  Validators.before d1 d2 = true -> Validators.before d2 d3 = true ->
  Validators.before d1 d3 = true.
Proof. rewrite !before_spec. lia. Qed.

Lemma before_total d1 d2 :
  Validators.before d1 d2 = false -> Validators.before d2 d1 = false -> d1 = d2.
Proof.
  intros H1 H2.
  assert (N1 : ~ Validators.before d1 d2 = true) by congruence.
  assert (N2 : ~ Validators.before d2 d1 = true) by congruence.
  rewrite before_spec in N1, N2. destruct d1, d2; simpl in *. f_equal; lia.
Qed.

(** X14. [compare_dates] is a three-way comparison of days.  It raises
    exactly when one of the two strings is "NA" or is not read as a date.
    Otherwise it returns -1, 0 or 1; exchanging the arguments negates the
    result; 0 is returned exactly when the two strings are read as the same
    day; and "-1" is transitive. *)
Theorem compare_dates_three_way :
  forall (strptime : string -> option Validators.datetime) (date1 date2 : string),
    ((exists e, Validators.compare_dates strptime date1 date2 = Raise e)
     <-> date1 = "NA" \/ date2 = "NA"
         \/ strptime date1 = None \/ strptime date2 = None)
    /\ (forall c,
           Validators.compare_dates strptime date1 date2 = Ok c ->
           (c = -1 \/ c = 0 \/ c = 1)%Z
           /\ Validators.compare_dates strptime date2 date1 = Ok (- c)%Z
           /\ (c = 0%Z <-> strptime date1 = strptime date2))
    /\ (forall date3,
           Validators.compare_dates strptime date1 date2 = Ok (-1)%Z ->
           Validators.compare_dates strptime date2 date3 = Ok (-1)%Z ->
           Validators.compare_dates strptime date1 date3 = Ok (-1)%Z).
Proof.
  intros strptime date1 date2. unfold Validators.compare_dates.
  destruct (String.eqb_spec date1 "NA") as [E1|E1];
    [cbn [orb]; split; [split; [auto | eauto] | split; intros; discriminate]|].
  destruct (String.eqb_spec date2 "NA") as [E2|E2]; cbn [orb].
  { split; [split; [auto | eauto]|]. split; [intros; discriminate|].
    intros date3 H. discriminate. }
  destruct (strptime date1) as [d1|] eqn:S1.
  2:{ split; [split; [auto | eauto]|]. split; intros; discriminate. }
  destruct (strptime date2) as [d2|] eqn:S2.
  2:{ split; [split; [auto | eauto]|]. split; [intros; discriminate|].
      intros date3 H. discriminate. }
  split; [|split].
  - split.
    + intros (e & H). destruct (Validators.before d1 d2);
        [| destruct (Validators.before d2 d1)]; discriminate.
    + intros [H | [H | [H | H]]]; congruence.
  - intros c Hc.
    destruct (Validators.before d1 d2) eqn:B12.
    + inversion Hc; subst c. rewrite (before_asym _ _ B12).
      split; [auto|]. split; [reflexivity|].
      split; [discriminate|]. intros H. inversion H; subst.
      rewrite before_irrefl in B12. discriminate.
    + destruct (Validators.before d2 d1) eqn:B21; inversion Hc; subst c.
      * split; [auto|]. split; [reflexivity|].
        split; [discriminate|]. intros H. inversion H; subst.
        rewrite before_irrefl in B21. discriminate.
      * split; [auto|]. split; [reflexivity|].
        split; [intros _; f_equal; now apply before_total | reflexivity].
  - intros date3 H12.
    destruct (Validators.before d1 d2) eqn:B12;
      [| destruct (Validators.before d2 d1); discriminate].
    destruct (String.eqb_spec date3 "NA"); [discriminate|].
    destruct (strptime date3) as [d3|]; [|discriminate].
    destruct (Validators.before d2 d3) eqn:B23;
      [| destruct (Validators.before d3 d2); discriminate].
    intros _. now rewrite (before_trans _ _ _ B12 B23).
Qed.

(** The same on three dates. *)
Lemma compare_dates_three_way_witness :
  Validators.compare_dates strptime_ddmmyyyy "24-10-2023" "01-01-2024" = Ok (-1)%Z
  /\ Validators.compare_dates strptime_ddmmyyyy "01-01-2024" "24-10-2023" = Ok (- -1)%Z
  /\ Validators.compare_dates strptime_ddmmyyyy "01-01-2024" "02-01-2024" = Ok (-1)%Z
  /\ Validators.compare_dates strptime_ddmmyyyy "24-10-2023" "02-01-2024" = Ok (-1)%Z.
Proof.
  assert (H1 : Validators.compare_dates strptime_ddmmyyyy "24-10-2023" "01-01-2024"
               = Ok (-1)%Z) by reflexivity.
  assert (H2 : Validators.compare_dates strptime_ddmmyyyy "01-01-2024" "02-01-2024"
               = Ok (-1)%Z) by reflexivity.
  split; [exact H1|].
  destruct (compare_dates_three_way strptime_ddmmyyyy "24-10-2023" "01-01-2024")
    as (_ & Hc & Ht).
  split; [exact (proj1 (proj2 (Hc _ H1)))|]. split; [exact H2|].
  exact (Ht "02-01-2024" H1 H2).
Defined.

(** ** The pets of a type by birthdate *)

Lemma select_readable strptime keep bound day pets :
  bound <> "NA" -> strptime bound = Some day ->
  Forall (birthdate_known strptime) pets ->
  PetsByBirthdate.select strptime keep bound pets
  = Ok (filter (fun d =>
                  negb (PetStore.pd_birthdate d =? "NA")%string
                  && match strptime (PetStore.pd_birthdate d) with
                     | Some born =>
                         keep (if Validators.before born day then (-1)%Z
                               else if Validators.before day born then 1%Z else 0%Z)
                     | None => false
                     end) pets).
Proof.
  intros Hna Hday. induction 1 as [|d rest Hd _ IH]; [reflexivity|].
  cbn [PetsByBirthdate.select filter].
  destruct (String.eqb_spec (PetStore.pd_birthdate d) "NA") as [E|E]; cbn [negb andb].
  - exact IH.
  - destruct Hd as [Hd|Hd]; [contradiction|].
    unfold Validators.compare_dates.
    destruct (String.eqb_spec (PetStore.pd_birthdate d) "NA"); [contradiction|].
    destruct (String.eqb_spec bound "NA"); [contradiction|]. cbn [orb].
    destruct (strptime (PetStore.pd_birthdate d)) as [born|]; [|contradiction].
    rewrite Hday, IH.
    destruct (Validators.before born day); [reflexivity|].
    destruct (Validators.before day born); reflexivity.
Qed.

Lemma select_after strptime bound day pets :
  bound <> "NA" -> strptime bound = Some day ->
  Forall (birthdate_known strptime) pets ->
  PetsByBirthdate.select strptime (fun c => 0 <? c) bound pets
  = Ok (filter (born_after strptime day) pets).
Proof.
  intros Hna Hday Hk. rewrite (select_readable _ _ _ _ _ Hna Hday Hk).
  f_equal. apply filter_ext. intros d. unfold born_after. f_equal.
  destruct (strptime (PetStore.pd_birthdate d)) as [born|]; [|reflexivity].
  destruct (Validators.before born day) eqn:B.
  - now rewrite (before_asym _ _ B).
  - destruct (Validators.before day born); reflexivity.
Qed.

Lemma select_before strptime bound day pets :
  bound <> "NA" -> strptime bound = Some day ->
  Forall (birthdate_known strptime) pets ->
  PetsByBirthdate.select strptime (fun c => c <? 0) bound pets
  = Ok (filter (born_before strptime day) pets).
Proof.
  intros Hna Hday Hk. rewrite (select_readable _ _ _ _ _ Hna Hday Hk).
  f_equal. apply filter_ext. intros d. unfold born_before. f_equal.
  destruct (strptime (PetStore.pd_birthdate d)) as [born|]; [|reflexivity].
  destruct (Validators.before born day) eqn:B; [reflexivity|].
  destruct (Validators.before day born); reflexivity.
Qed.

Lemma Forall_filter {A} (P : A -> Prop) (f : A -> bool) (l : list A) :
  Forall P l -> Forall P (filter f l).
Proof.
  induction 1 as [|x l Hx _ IH]; [constructor|]. cbn [filter].
  destruct (f x); [constructor|]; assumption.
Qed.

Lemma filter_filter {A} (f g : A -> bool) (l : list A) :
  filter g (filter f l) = filter (fun x => f x && g x) l.
Proof.
  induction l as [|x l IH]; [reflexivity|]. cbn [filter].
  destruct (f x); cbn [filter andb]; [destruct (g x)|]; now rewrite IH.
Qed.

Lemma filter_true {A} (l : list A) : filter (fun _ => true) l = l.
Proof. induction l as [|x l IH]; [reflexivity|]. cbn [filter]. now rewrite IH. Qed.

Lemma select_bound strptime keep (pick : Validators.datetime -> PetStore.PetDoc -> bool)
      bound day pets :
  (forall s d l, s <> "NA" -> strptime s = Some d -> Forall (birthdate_known strptime) l ->
                 PetsByBirthdate.select strptime keep s l = Ok (filter (pick d) l)) ->
  bound_read strptime bound = Some day ->
  Forall (birthdate_known strptime) pets ->
  (if Py.truthy_opt bound
   then PetsByBirthdate.select strptime keep
          (match bound with Some b => b | None => "" end) pets
   else Ok pets)
  = Ok (filter (fun d => match day with Some day => pick day d | None => true end) pets).
Proof.
  intros Hsel Hb Hk. destruct bound as [s|]; cbn [Py.truthy_opt].
  - unfold bound_read in Hb. unfold Py.truthy.
    destruct (String.eqb_spec s "") as [E|E]; cbn [negb].
    + inversion Hb. now rewrite filter_true.
    + destruct (String.eqb_spec s "NA") as [E'|E']; [discriminate|].
      destruct (strptime s) as [d|] eqn:S; [|discriminate]. inversion Hb; subst day.
      now apply Hsel.
  - inversion Hb. now rewrite filter_true.
Qed.

(** X15. With bounds that are read as days (or are absent or empty), and
    when every pet of the type has a birthdate that is "NA" or is read as a
    day, [GET /pet-types/{id}/pets] of an existing type answers 200 with
    exactly the pets of the type born strictly after [birthdateGT] and
    strictly before [birthdateLT], in stored order; a pet whose birthdate is
    "NA" is in no bounded listing. *)
Theorem get_pets_between_bounds :
  forall (strptime : string -> option Validators.datetime) (store : PetStore.Store)
         (id : string) (birthdateGT birthdateLT : option string)
         (after before : option Validators.datetime),
    PetStore.MongoStore.get_pet_type store id <> None ->
    Forall (birthdate_known strptime) (PetStore.MongoStore.get_pets_for_type store id) ->
    bound_read strptime birthdateGT = Some after ->
    bound_read strptime birthdateLT = Some before ->
    PetsByBirthdate.get_pets strptime store id birthdateGT birthdateLT
    = Response 200
        (map PetStore.pet_response
           (filter (fun d => after_bound strptime after d && before_bound strptime before d)
              (PetStore.MongoStore.get_pets_for_type store id))).
Proof.
  intros strptime store id gt lt after before Ht Hk Hgt Hlt.
  unfold PetsByBirthdate.get_pets, PetsByBirthdate.get_pets_for_type.
  destruct (PetStore.MongoStore.get_pet_type store id); [|contradiction].
  cbn zeta.
  rewrite (select_bound strptime _ (born_after strptime) gt after _
             (select_after strptime) Hgt Hk).
  rewrite (select_bound strptime _ (born_before strptime) lt before _
             (select_before strptime) Hlt (Forall_filter _ _ _ Hk)).
  rewrite filter_filter. reflexivity.
Qed.

(** In the kennel, the poodles born after 1 January 2024: Lola. *)
Lemma get_pets_between_bounds_witness :
  PetStore.MongoStore.get_pet_type kennel (Bson.str Scenario.poodle_id) <> None
  /\ Forall (birthdate_known strptime_ddmmyyyy)
       (PetStore.MongoStore.get_pets_for_type kennel (Bson.str Scenario.poodle_id))
  /\ bound_read strptime_ddmmyyyy (Some "01-01-2024")
     = Some (Some {| Validators.dt_year := 2024; Validators.dt_month := 1;
                     Validators.dt_day := 1 |})
  /\ bound_read strptime_ddmmyyyy (Some "") = Some None
  /\ PetsByBirthdate.get_pets strptime_ddmmyyyy kennel (Bson.str Scenario.poodle_id)
       (Some "01-01-2024") (Some "")
     = Response 200 [ {| name := "Lola"; birthdate := "01-02-2024"; picture := "NA" |} ].
Proof.
  assert (H1 : PetStore.MongoStore.get_pet_type kennel (Bson.str Scenario.poodle_id) <> None)
    by (vm_compute; discriminate).
  assert (H2 : Forall (birthdate_known strptime_ddmmyyyy)
                 (PetStore.MongoStore.get_pets_for_type kennel (Bson.str Scenario.poodle_id))).
  { apply Forall_forall. intros d Hd. vm_compute in Hd.
    destruct Hd as [<-|[<-|[<-|[]]]].
    - right. vm_compute. discriminate.
    - left. reflexivity.
    - right. vm_compute. discriminate. }
  assert (H3 : bound_read strptime_ddmmyyyy (Some "01-01-2024")
               = Some (Some {| Validators.dt_year := 2024; Validators.dt_month := 1;
                               Validators.dt_day := 1 |})) by reflexivity.
  assert (H4 : bound_read strptime_ddmmyyyy (Some "") = Some None) by reflexivity.
  split; [exact H1|]. split; [exact H2|]. split; [exact H3|]. split; [exact H4|].
  exact (get_pets_between_bounds strptime_ddmmyyyy kennel (Bson.str Scenario.poodle_id)
           (Some "01-01-2024") (Some "") _ _ H1 H2 H3 H4).
Defined.

Lemma select_undated strptime keep bound pets :
  forallb (fun d => (PetStore.pd_birthdate d =? "NA")%string) pets = true ->
  PetsByBirthdate.select strptime keep bound pets = Ok [].
Proof.
  induction pets as [|d rest IH]; [reflexivity|]. intros F.
  cbn [forallb] in F. apply andb_true_iff in F. destruct F as [Fd Fr].
  cbn [PetsByBirthdate.select]. rewrite Fd. cbn [negb]. now apply IH.
Qed.

Lemma select_raises strptime keep bound pets :
  bound = "NA" \/ strptime bound = None ->
  forallb (fun d => (PetStore.pd_birthdate d =? "NA")%string) pets = false ->
  exists e, PetsByBirthdate.select strptime keep bound pets = Raise e.
Proof.
  intros Hb. induction pets as [|d rest IH]; [discriminate|].
  cbn [forallb PetsByBirthdate.select]. intros F.
  destruct (String.eqb_spec (PetStore.pd_birthdate d) "NA") as [E|E]; cbn [negb andb] in *.
  - now apply IH.
  - unfold Validators.compare_dates.
    destruct (String.eqb_spec (PetStore.pd_birthdate d) "NA"); [contradiction|].
    destruct Hb as [Hb|Hb].
    + subst bound. cbn. eauto.
    + destruct (bound =? "NA")%string; cbn [orb]; [eauto|].
      destruct (strptime (PetStore.pd_birthdate d)); [|eauto]. rewrite Hb. eauto.
Qed.

(** X16. A [birthdateGT] that is not empty and is not read as a day makes
    [GET /pet-types/{id}/pets] of an existing type answer 404 as soon as one
    pet of the type has a birthdate other than "NA"; when no pet of the type
    has one, the answer is 200 with no pet, whatever [birthdateLT] is. *)
Theorem get_pets_unreadable_bound :
  forall (strptime : string -> option Validators.datetime) (store : PetStore.Store)
         (id bound : string) (birthdateLT : option string),
    PetStore.MongoStore.get_pet_type store id <> None ->
    bound <> "" ->
    bound = "NA" \/ strptime bound = None ->
    PetsByBirthdate.get_pets strptime store id (Some bound) birthdateLT
    = if forallb (fun d => (PetStore.pd_birthdate d =? "NA")%string)
           (PetStore.MongoStore.get_pets_for_type store id)
      then Response 200 []
      else Response 404 [].
Proof.
  intros strptime store id bound lt Ht Hne Hb.
  unfold PetsByBirthdate.get_pets, PetsByBirthdate.get_pets_for_type.
  destruct (PetStore.MongoStore.get_pet_type store id); [|contradiction].
  cbn zeta. cbn [Py.truthy_opt]. unfold Py.truthy.
  destruct (String.eqb_spec bound ""); [contradiction|]. cbn [negb].
  destruct (forallb _ _) eqn:F.
  - rewrite (select_undated _ _ _ _ F).
    destruct (Py.truthy_opt lt); reflexivity.
  - destruct (select_raises strptime (fun c => 0 <? c) bound _ Hb F) as (e & ->).
    reflexivity.
Qed.

(** A bound that is no date: 404 in the kennel, 200 and no pet where no
    poodle has a birthdate. *)
Lemma get_pets_unreadable_bound_witness :
  PetStore.MongoStore.get_pet_type kennel (Bson.str Scenario.poodle_id) <> None
  /\ "yesterday" <> ""
  /\ ("yesterday" = "NA" \/ strptime_ddmmyyyy "yesterday" = None)
  /\ PetsByBirthdate.get_pets strptime_ddmmyyyy kennel (Bson.str Scenario.poodle_id)
       (Some "yesterday") None
     = Response 404 []
  /\ PetsByBirthdate.get_pets strptime_ddmmyyyy kennel_undated
       (Bson.str Scenario.poodle_id) (Some "yesterday") None
     = Response 200 [].
Proof.
  assert (H1 : PetStore.MongoStore.get_pet_type kennel (Bson.str Scenario.poodle_id) <> None)
    by (vm_compute; discriminate).
  assert (H1' : PetStore.MongoStore.get_pet_type kennel_undated
                  (Bson.str Scenario.poodle_id) <> None)
    by (vm_compute; discriminate).
  assert (H2 : "yesterday" <> "") by discriminate.
  assert (H3 : "yesterday" = "NA" \/ strptime_ddmmyyyy "yesterday" = None)
    by (right; reflexivity).
  split; [exact H1|]. split; [exact H2|]. split; [exact H3|]. split.
  - exact (get_pets_unreadable_bound strptime_ddmmyyyy kennel (Bson.str Scenario.poodle_id)
             "yesterday" None H1 H2 H3).
  - exact (get_pets_unreadable_bound strptime_ddmmyyyy kennel_undated
             (Bson.str Scenario.poodle_id) "yesterday" None H1' H2 H3).
Defined.

(** ** The inventory and its writes *)

Lemma find_map {A B : Type} (f : A -> B) (p : B -> bool) (l : list A) :
  find p (map f l) = option_map f (find (fun a => p (f a)) l).
Proof.
  induction l as [|a l IH]; [reflexivity|]. cbn [map find].
  destruct (p (f a)); [reflexivity | exact IH].
Qed.

Lemma find_none_all {A : Type} (p : A -> bool) (l : list A) :
  find p l = None -> forall a, In a l -> p a = false.
Proof.
  induction l as [|b l IH]; intros H a Ha; [destruct Ha|]. cbn [find] in H.
  destruct (p b) eqn:E; [discriminate|].
  destruct Ha as [<-|Ha]; [exact E | now apply IH].
Qed.

Lemma find_some_in {A : Type} (p : A -> bool) (l : list A) (a : A) :
  find p l = Some a -> In a l /\ p a = true.
Proof. apply find_some. Qed.

Lemma filter_all {A : Type} (p : A -> bool) (l : list A) :
  (forall a, In a l -> p a = true) -> filter p l = l.
Proof.
  induction l as [|a l IH]; intros H; [reflexivity|]. cbn [filter].
  rewrite (H a (or_introl eq_refl)). f_equal. apply IH. intros b Hb. apply H. now right.
Qed.

Lemma NoDup_map_filter {A K : Type} (key : A -> K) (p : A -> bool) (l : list A) :
  NoDup (map key l) -> NoDup (map key (filter p l)).
Proof.
  induction l as [|a l IH]; intros H; [constructor|]. cbn [map filter] in *.
  inversion H as [|? ? Hn Hd]; subst.
  destruct (p a); [|now apply IH]. cbn [map]. constructor; [|now apply IH].
  intros Hin. apply Hn. apply in_map_iff in Hin. destruct Hin as (b & Hb & Hin).
  apply filter_In in Hin. apply in_map_iff. exists b. tauto.
Qed.

Lemma NoDup_map_inj {A K : Type} (key : A -> K) (l : list A) (a b : A) :
  NoDup (map key l) -> In a l -> In b l -> key a = key b -> a = b.
Proof.
  induction l as [|c l IH]; intros H Ha Hb E; [destruct Ha|].
  cbn [map] in H. inversion H as [|? ? Hn Hd]; subst.
  destruct Ha as [<-|Ha], Hb as [<-|Hb]; [reflexivity| | |now apply IH].
  - exfalso. apply Hn. rewrite E. now apply in_map.
  - exfalso. apply Hn. rewrite <- E. now apply in_map.
Qed.

(** With at most one match, [delete_one] is a filter and [update_one] a map. *)
Lemma delete_one_unique {A K : Type} (key : A -> K) (p : A -> bool) (l : list A) :
  NoDup (map key l) ->
  (forall a b, p a = true -> p b = true -> key a = key b) ->
  snd (Inventory.delete_one p l) = filter (fun a => negb (p a)) l.
Proof.
  intros Hd Hp. induction l as [|a l IH]; [reflexivity|].
  cbn [map] in Hd. inversion Hd as [|? ? Hn Hd']; subst.
  cbn [Inventory.delete_one filter]. destruct (p a) eqn:E; cbn [negb snd].
  - symmetry. apply filter_all. intros b Hb. destruct (p b) eqn:Eb; [|reflexivity].
    exfalso. apply Hn. rewrite (Hp a b E Eb). now apply in_map.
  - f_equal. now apply IH.
Qed.

Lemma update_one_unique {A K : Type} (key : A -> K) (p : A -> bool) (f : A -> A)
      (l : list A) :
  NoDup (map key l) ->
  (forall a b, p a = true -> p b = true -> key a = key b) ->
  Inventory.update_one p f l = map (fun a => if p a then f a else a) l.
Proof.
  intros Hd Hp. induction l as [|a l IH]; [reflexivity|].
  cbn [map] in Hd. inversion Hd as [|? ? Hn Hd']; subst.
  cbn [Inventory.update_one map]. destruct (p a) eqn:E.
  - f_equal. rewrite <- (map_id l) at 1. apply map_ext_in. intros b Hb.
    destruct (p b) eqn:Eb; [|reflexivity].
    exfalso. apply Hn. rewrite (Hp a b E Eb). now apply in_map.
  - f_equal. now apply IH.
Qed.

Lemma delete_one_found {A : Type} (p : A -> bool) (l : list A) :
  fst (Inventory.delete_one p l) = existsb p l.
Proof.
  induction l as [|a l IH]; [reflexivity|]. cbn [Inventory.delete_one existsb].
  destruct (p a); [reflexivity | exact IH].
Qed.

Lemma str_inj (a b : Bson.ObjectId) :
  (a < 2 ^ 96)%N -> (b < 2 ^ 96)%N -> Bson.str a = Bson.str b -> a = b.
Proof.
  intros Ha Hb E. apply parse_str in Ha. apply parse_str in Hb.
  rewrite E in Ha. congruence.
Qed.

Lemma has_id_key (oid : Bson.ObjectId) (a b : Inventory.PetType) :
  Inventory.MongoStore.has_id oid a = true -> Inventory.MongoStore.has_id oid b = true ->
  type_id a = type_id b.
Proof.
  unfold Inventory.MongoStore.has_id, type_id. rewrite !N.eqb_eq. congruence.
Qed.

Lemma same_pet_key (id n : string) (a b : Inventory.Pet) :
  PetStore.MongoStore.same_pet id n (Inventory.pet_doc a) = true ->
  PetStore.MongoStore.same_pet id n (Inventory.pet_doc b) = true ->
  pet_key a = pet_key b.
Proof.
  unfold PetStore.MongoStore.same_pet, pet_key.
  rewrite !andb_true_iff, !String.eqb_eq. intros [-> ->] [-> ->]. reflexivity.
Qed.

Lemma same_ignoring_case_key (id n : string) (p : Inventory.Pet) :
  pet_key p = (id, Py.lower n) ->
  PetStore.MongoStore.same_pet_ignoring_case id n (Inventory.pet_doc p) = true.
Proof.
  unfold PetStore.MongoStore.same_pet_ignoring_case, PetStore.MongoStore.like, pet_key.
  intros E. inversion E. now rewrite !String.eqb_refl.
Qed.

Lemma NoDup_snoc {A : Type} (l : list A) (a : A) :
  NoDup l -> ~ In a l -> NoDup (l ++ [a]).
Proof.
  induction l as [|b l IH]; intros Hd Hn; cbn [app].
  - constructor; [intros [] | constructor].
  - inversion Hd as [|? ? Hb Hd']; subst. constructor.
    + rewrite in_app_iff. intros [H|[H|[]]]; [now apply Hb|].
      apply Hn. now left.
    + apply IH; [exact Hd'|]. intros H. apply Hn. now right.
Qed.

Lemma names_of_type_pets (s s' : Inventory.State) (oid : Bson.ObjectId) :
  Inventory.pets_collection s = Inventory.pets_collection s' ->
  names_of_type s oid = names_of_type s' oid.
Proof.
  intros E. unfold names_of_type, PetStore.MongoStore.get_pets_for_type, Inventory.view.
  cbn [PetStore.pets_collection]. now rewrite E.
Qed.

Lemma names_of_type_none (s : Inventory.State) (oid : Bson.ObjectId) :
  (forall p, In p (Inventory.pets_collection s) ->
             PetStore.pd_pet_type_id (Inventory.pet_doc p) <> Bson.str oid) ->
  names_of_type s oid = [].
Proof.
  intros H. unfold names_of_type, PetStore.MongoStore.get_pets_for_type, Inventory.view.
  cbn [PetStore.pets_collection].
  induction (Inventory.pets_collection s) as [|p l IH]; [reflexivity|].
  cbn [map filter].
  destruct (String.eqb_spec (PetStore.pd_pet_type_id (Inventory.pet_doc p)) (Bson.str oid))
    as [E|E].
  - exfalso. exact (H p (or_introl eq_refl) E).
  - apply IH. intros q Hq. apply H. now right.
Qed.

Lemma names_of_type_in (s : Inventory.State) (oid : Bson.ObjectId) (n : string) :
  In n (names_of_type s oid)
  <-> exists p, In p (Inventory.pets_collection s)
                /\ PetStore.pd_pet_type_id (Inventory.pet_doc p) = Bson.str oid
                /\ PetStore.pd_name (Inventory.pet_doc p) = n.
Proof.
  unfold names_of_type, PetStore.MongoStore.get_pets_for_type, Inventory.view.
  cbn [PetStore.pets_collection]. rewrite in_map_iff. split.
  - intros (d & <- & Hd). apply filter_In in Hd. destruct Hd as [Hd E].
    apply in_map_iff in Hd. destruct Hd as (p & <- & Hp).
    apply String.eqb_eq in E. eauto.
  - intros (p & Hp & E & <-). exists (Inventory.pet_doc p). split; [reflexivity|].
    apply filter_In. split; [now apply in_map|]. now apply String.eqb_eq.
Qed.

(** A new pet type without pets. *)
Lemma wf_new_type (s : Inventory.State) (t : Inventory.PetType) :
  well_formed s ->
  (type_id t < 2 ^ 96)%N ->
  ~ In (type_id t) (map type_id (Inventory.pet_types_collection s)) ->
  ~ In (type_key t) (map type_key (Inventory.pet_types_collection s)) ->
  PetStore.ptd_pets (Inventory.type_doc t) = [] ->
  well_formed {| Inventory.pet_types_collection := Inventory.pet_types_collection s ++ [t];
                 Inventory.pets_collection := Inventory.pets_collection s |}.
Proof.
  intros [Hids Hbytes Htn Htypes Hnames Hpets] Hb Hid Hkey He.
  constructor; cbn [Inventory.pet_types_collection Inventory.pets_collection].
  - rewrite map_app. now apply NoDup_snoc.
  - apply Forall_app. split; [exact Hbytes | now constructor].
  - rewrite map_app. now apply NoDup_snoc.
  - eapply Forall_impl; [|exact Htypes]. intros p (t' & Ht' & E).
    exists t'. split; [apply in_app_iff; now left | exact E].
  - exact Hnames.
  - apply Forall_app. split.
    + eapply Forall_impl; [|exact Hpets]. intros t' E. rewrite E.
      now apply names_of_type_pets.
    + constructor; [|constructor]. rewrite He. symmetry.
      apply names_of_type_none. cbn [Inventory.pets_collection]. intros p Hp E.
      rewrite Forall_forall in Htypes, Hbytes.
      destruct (Htypes p Hp) as (t' & Ht' & E'). apply Hid.
      rewrite (str_inj (type_id t) (type_id t') Hb (Hbytes t' Ht')) by congruence.
      now apply in_map.
Qed.

(** A pet type without pets goes. *)
Lemma wf_without_type (s : Inventory.State) (oid : Bson.ObjectId) :
  well_formed s ->
  (forall t, In t (Inventory.pet_types_collection s) -> type_id t = oid ->
             PetStore.ptd_pets (Inventory.type_doc t) = []) ->
  well_formed {| Inventory.pet_types_collection :=
                   filter (fun t => negb (Inventory.MongoStore.has_id oid t))
                          (Inventory.pet_types_collection s);
                 Inventory.pets_collection := Inventory.pets_collection s |}.
Proof.
  intros [Hids Hbytes Htn Htypes Hnames Hpets] He.
  constructor; cbn [Inventory.pet_types_collection Inventory.pets_collection].
  - now apply NoDup_map_filter.
  - rewrite Forall_forall in *. intros t Ht. apply filter_In in Ht. now apply Hbytes.
  - now apply NoDup_map_filter.
  - rewrite Forall_forall in *. intros p Hp. destruct (Htypes p Hp) as (t & Ht & E).
    exists t. split; [|exact E]. apply filter_In. split; [exact Ht|].
    unfold Inventory.MongoStore.has_id. fold (type_id t).
    destruct (N.eqb_spec (type_id t) oid) as [Eo|Eo]; [|reflexivity]. exfalso.
    assert (Hin : In (PetStore.pd_name (Inventory.pet_doc p)) (names_of_type s (type_id t)))
      by (apply names_of_type_in; eauto).
    rewrite <- (Hpets t Ht), (He t Ht Eo) in Hin. destruct Hin.
  - exact Hnames.
  - rewrite Forall_forall in *. intros t Ht. apply filter_In in Ht. destruct Ht as [Ht _].
    rewrite (Hpets t Ht). now apply names_of_type_pets.
Qed.
Lemma filter_map_comm {A B : Type} (f : A -> B) (q : B -> bool) (l : list A) :
  map f (filter (fun a => q (f a)) l) = filter q (map f l).
Proof.
  induction l as [|a l IH]; [reflexivity|]. cbn [map filter].
  destruct (q (f a)); cbn [map]; now rewrite IH.
Qed.

Lemma type_id_with_pets (pets : list string) (t : Inventory.PetType) :
  type_id (Inventory.MongoStore.with_pets pets t) = type_id t.
Proof. reflexivity. Qed.

Lemma type_key_with_pets (pets : list string) (t : Inventory.PetType) :
  type_key (Inventory.MongoStore.with_pets pets t) = type_key t.
Proof. reflexivity. Qed.

(** The pets array of one type is rewritten: what does not read it stays. *)
Lemma map_rewritten {K : Type} (key : Inventory.PetType -> K) (oid : Bson.ObjectId)
      (f : list string -> list string) (l : list Inventory.PetType) :
  (forall pets t, key (Inventory.MongoStore.with_pets pets t) = key t) ->
  map key
    (map (fun t => if Inventory.MongoStore.has_id oid t
                   then Inventory.MongoStore.with_pets
                          (f (PetStore.ptd_pets (Inventory.type_doc t))) t
                   else t) l)
  = map key l.
Proof.
  intros H. rewrite map_map. apply map_ext. intros t.
  destruct (Inventory.MongoStore.has_id oid t); [apply H | reflexivity].
Qed.

Lemma add_to_set_new (n : string) (l : list string) :
  ~ In n l -> Inventory.MongoStore.add_to_set n l = l ++ [n].
Proof.
  intros H. unfold Inventory.MongoStore.add_to_set.
  destruct (existsb (fun x => (x =? n)%string) l) eqn:E; [|reflexivity].
  exfalso. apply existsb_exists in E. destruct E as (x & Hx & E).
  apply String.eqb_eq in E. subst x. exact (H Hx).
Qed.

Lemma names_of_type_snoc (types types' : list Inventory.PetType) (pets : list Inventory.Pet)
      (p : Inventory.Pet) (oid : Bson.ObjectId) :
  names_of_type {| Inventory.pet_types_collection := types';
                   Inventory.pets_collection := pets ++ [p] |} oid
  = names_of_type {| Inventory.pet_types_collection := types;
                     Inventory.pets_collection := pets |} oid
    ++ (if (PetStore.pd_pet_type_id (Inventory.pet_doc p) =? Bson.str oid)%string
        then [PetStore.pd_name (Inventory.pet_doc p)] else []).
Proof.
  unfold names_of_type, PetStore.MongoStore.get_pets_for_type, Inventory.view.
  cbn [PetStore.pets_collection Inventory.pets_collection].
  rewrite map_app, filter_app, map_app. f_equal. cbn [map filter].
  destruct (PetStore.pd_pet_type_id (Inventory.pet_doc p) =? Bson.str oid)%string;
    reflexivity.
Qed.

(** A pet whose name is new to its type is added. *)
Lemma wf_new_pet (s : Inventory.State) (t0 : Inventory.PetType)
      (n b pic : string) (url : option string) :
  well_formed s ->
  In t0 (Inventory.pet_types_collection s) ->
  (forall p, In p (Inventory.pets_collection s) ->
             PetStore.MongoStore.same_pet_ignoring_case (Bson.str (type_id t0)) n
               (Inventory.pet_doc p) = false) ->
  well_formed
    {| Inventory.pet_types_collection :=
         map (fun t => if Inventory.MongoStore.has_id (type_id t0) t
                       then Inventory.MongoStore.with_pets
                              (Inventory.MongoStore.add_to_set n
                                 (PetStore.ptd_pets (Inventory.type_doc t))) t
                       else t)
             (Inventory.pet_types_collection s);
       Inventory.pets_collection :=
         Inventory.pets_collection s
         ++ [ {| Inventory.pet_doc :=
                   {| PetStore.pd_pet_type_id := Bson.str (type_id t0);
                      PetStore.pd_name := n;
                      PetStore.pd_birthdate := b;
                      PetStore.pd_picture := pic |};
                 Inventory.picture_url := url |} ] |}.
Proof.
  intros [Hids Hbytes Htn Htypes Hnames Hpets] Ht0 Hnew.
  destruct s as [types pets]. cbn [Inventory.pet_types_collection Inventory.pets_collection] in *.
  constructor; cbn [Inventory.pet_types_collection Inventory.pets_collection].
  - rewrite (map_rewritten type_id); [exact Hids | reflexivity].
  - apply Forall_map. eapply Forall_impl; [|exact Hbytes]. intros t Ht.
    destruct (Inventory.MongoStore.has_id (type_id t0) t); exact Ht.
  - rewrite (map_rewritten type_key); [exact Htn | reflexivity].
  - apply Forall_app. split.
    + eapply Forall_impl; [|exact Htypes]. intros p (t & Ht & E).
      eexists. split; [apply in_map; exact Ht|].
      destruct (Inventory.MongoStore.has_id (type_id t0) t); exact E.
    + constructor; [|constructor]. eexists. split; [apply in_map; exact Ht0|].
      cbn [Inventory.pet_doc PetStore.pd_pet_type_id].
      destruct (Inventory.MongoStore.has_id (type_id t0) t0); reflexivity.
  - rewrite map_app. apply NoDup_snoc; [exact Hnames|]. intros Hin.
    apply in_map_iff in Hin. destruct Hin as (p & E & Hp).
    assert (Hk : pet_key p = (Bson.str (type_id t0), Py.lower n)) by exact E.
    apply same_ignoring_case_key in Hk. rewrite (Hnew p Hp) in Hk. discriminate.
  - apply Forall_map. rewrite Forall_forall in *. intros t Ht.
    rewrite (names_of_type_snoc types).
    cbn [Inventory.pet_doc PetStore.pd_pet_type_id PetStore.pd_name].
    unfold Inventory.MongoStore.has_id. fold (type_id t).
    destruct (N.eqb_spec (type_id t) (type_id t0)) as [E|E].
    + rewrite type_id_with_pets, E, String.eqb_refl.
      cbn [Inventory.MongoStore.with_pets Inventory.type_doc PetStore.ptd_pets].
      rewrite (Hpets t Ht), E. apply add_to_set_new. intros Hin.
      apply names_of_type_in in Hin. destruct Hin as (p & Hp & Ei & En).
      cbn [Inventory.pets_collection] in Hp. specialize (Hnew p Hp).
      unfold PetStore.MongoStore.same_pet_ignoring_case, PetStore.MongoStore.like in Hnew.
      rewrite Ei, En, !String.eqb_refl in Hnew. discriminate.
    + destruct (String.eqb_spec (Bson.str (type_id t0)) (Bson.str (type_id t))) as [Es|Es].
      * exfalso. apply E. symmetry.
        apply str_inj; [apply Hbytes; exact Ht0 | apply Hbytes; exact Ht | exact Es].
      * rewrite app_nil_r. exact (Hpets t Ht).
Qed.

Lemma pull_names (id n : string) (docs : list PetStore.PetDoc) :
  Inventory.MongoStore.pull n
    (map PetStore.pd_name
       (filter (fun d => (PetStore.pd_pet_type_id d =? id)%string) docs))
  = map PetStore.pd_name
      (filter (fun d => (PetStore.pd_pet_type_id d =? id)%string)
         (filter (fun d => negb (PetStore.MongoStore.same_pet id n d)) docs)).
Proof.
  unfold Inventory.MongoStore.pull, PetStore.MongoStore.same_pet.
  induction docs as [|d docs IH]; [reflexivity|]. cbn [filter].
  destruct (PetStore.pd_pet_type_id d =? id)%string eqn:Ei; cbn [map filter andb negb].
  - destruct (PetStore.pd_name d =? n)%string; cbn [negb filter].
    + exact IH.
    + rewrite Ei. cbn [map]. now rewrite IH.
  - rewrite Ei. exact IH.
Qed.

Lemma other_names (id id' n : string) (docs : list PetStore.PetDoc) :
  id <> id' ->
  filter (fun d => (PetStore.pd_pet_type_id d =? id')%string)
    (filter (fun d => negb (PetStore.MongoStore.same_pet id n d)) docs)
  = filter (fun d => (PetStore.pd_pet_type_id d =? id')%string) docs.
Proof.
  intros Hne. unfold PetStore.MongoStore.same_pet.
  induction docs as [|d docs IH]; [reflexivity|]. cbn [filter].
  destruct (String.eqb_spec (PetStore.pd_pet_type_id d) id) as [E|E]; cbn [andb negb].
  - destruct (String.eqb_spec (PetStore.pd_pet_type_id d) id') as [E'|E'];
      [congruence|].
    destruct (PetStore.pd_name d =? n)%string; cbn [negb]; [exact IH|].
    cbn [filter]. destruct (String.eqb_spec (PetStore.pd_pet_type_id d) id');
      [contradiction | exact IH].
  - cbn [filter]. now rewrite IH.
Qed.

(** A stored pet goes, and its name leaves the pets of its type. *)
Lemma wf_without_pet (s : Inventory.State) (p0 : Inventory.Pet) (oid : Bson.ObjectId) :
  well_formed s ->
  In p0 (Inventory.pets_collection s) ->
  Bson.parse (PetStore.pd_pet_type_id (Inventory.pet_doc p0)) = Some oid ->
  well_formed
    {| Inventory.pet_types_collection :=
         map (fun t => if Inventory.MongoStore.has_id oid t
                       then Inventory.MongoStore.with_pets
                              (Inventory.MongoStore.pull
                                 (PetStore.pd_name (Inventory.pet_doc p0))
                                 (PetStore.ptd_pets (Inventory.type_doc t))) t
                       else t)
             (Inventory.pet_types_collection s);
       Inventory.pets_collection :=
         filter (fun p => negb (PetStore.MongoStore.same_pet
                                  (PetStore.pd_pet_type_id (Inventory.pet_doc p0))
                                  (PetStore.pd_name (Inventory.pet_doc p0))
                                  (Inventory.pet_doc p)))
                (Inventory.pets_collection s) |}.
Proof.
  intros [Hids Hbytes Htn Htypes Hnames Hpets] Hp0 Hparse.
  destruct s as [types pets]. cbn [Inventory.pet_types_collection Inventory.pets_collection] in *.
  rewrite Forall_forall in Htypes, Hbytes, Hpets.
  destruct (Htypes p0 Hp0) as (t1 & Ht1 & E1).
  assert (Eo : oid = type_id t1).
  { rewrite E1, (parse_str _ (Hbytes t1 Ht1)) in Hparse. congruence. }
  subst oid.
  constructor; cbn [Inventory.pet_types_collection Inventory.pets_collection].
  - rewrite (map_rewritten type_id); [exact Hids | reflexivity].
  - apply Forall_map. apply Forall_forall. intros t Ht.
    destruct (Inventory.MongoStore.has_id (type_id t1) t); exact (Hbytes t Ht).
  - rewrite (map_rewritten type_key); [exact Htn | reflexivity].
  - apply Forall_forall. intros p Hp. apply filter_In in Hp. destruct Hp as [Hp _].
    destruct (Htypes p Hp) as (t & Ht & E).
    eexists. split; [apply in_map; exact Ht|].
    destruct (Inventory.MongoStore.has_id (type_id t1) t); exact E.
  - now apply NoDup_map_filter.
  - apply Forall_map. apply Forall_forall. intros t Ht.
    unfold names_of_type, PetStore.MongoStore.get_pets_for_type, Inventory.view.
    cbn [PetStore.pets_collection Inventory.pets_collection].
    rewrite (filter_map_comm Inventory.pet_doc
               (fun d => negb (PetStore.MongoStore.same_pet
                                 (PetStore.pd_pet_type_id (Inventory.pet_doc p0))
                                 (PetStore.pd_name (Inventory.pet_doc p0)) d))).
    pose proof (Hpets t Ht) as Hpt.
    unfold names_of_type, PetStore.MongoStore.get_pets_for_type, Inventory.view in Hpt.
    cbn [PetStore.pets_collection Inventory.pets_collection] in Hpt.
    unfold Inventory.MongoStore.has_id. fold (type_id t).
    destruct (N.eqb_spec (type_id t) (type_id t1)) as [E|E].
    + rewrite type_id_with_pets, E, <- E1.
      cbn [Inventory.MongoStore.with_pets Inventory.type_doc PetStore.ptd_pets].
      rewrite Hpt, E, <- E1. apply pull_names.
    + rewrite other_names; [exact Hpt|]. rewrite E1. intros Es. apply E. symmetry.
      apply str_inj; [apply Hbytes; exact Ht1 | apply Hbytes; exact Ht | exact Es].
Qed.
Lemma get_pet_type_some (s : Inventory.State) (id : string) (t : Inventory.PetType) :
  Inventory.MongoStore.get_pet_type s id = Some t ->
  Bson.parse id = Some (type_id t) /\ In t (Inventory.pet_types_collection s).
Proof.
  unfold Inventory.MongoStore.get_pet_type. destruct (Bson.parse id) as [oid|]; [|discriminate].
  intros H. apply find_some in H. destruct H as [Hin E].
  unfold Inventory.MongoStore.has_id in E. apply N.eqb_eq in E.
  split; [now rewrite <- E | exact Hin].
Qed.

Lemma get_pet_case_insensitive_some (s : Inventory.State) (id n actual : string)
      (p : Inventory.Pet) :
  Inventory.MongoStore.get_pet_case_insensitive s id n = Some (p, actual) ->
  In p (Inventory.pets_collection s)
  /\ PetStore.pd_pet_type_id (Inventory.pet_doc p) = id
  /\ named_as n (PetStore.pd_name (Inventory.pet_doc p))
  /\ actual = PetStore.pd_name (Inventory.pet_doc p).
Proof.
  unfold Inventory.MongoStore.get_pet_case_insensitive.
  destruct (find _ _) as [q|] eqn:F; [|discriminate]. intros H. inversion H; subst q actual.
  apply find_some in F. destruct F as [Hin E].
  unfold PetStore.MongoStore.same_pet_ignoring_case in E.
  apply andb_true_iff in E. destruct E as [E1 E2].
  apply String.eqb_eq in E1. apply like_named_as in E2. auto.
Qed.

Lemma fetch_animal_data_returns (api_key : string) (ninja : Inventory.NinjaAPI.answer)
      (animal_type : string) (d : Inventory.AnimalData) :
  Inventory.NinjaAPI.fetch_animal_data api_key ninja animal_type = Inventory.Return d ->
  exists data animal,
    Py.truthy api_key = true
    /\ ninja = Inventory.NinjaAPI.Answered 200 (Inventory.NinjaAPI.Animals data)
    /\ Inventory.NinjaAPI._find_exact_match data animal_type = Some animal
    /\ d = Inventory.NinjaAPI._extract_animal_data animal animal_type.
Proof.
  unfold Inventory.NinjaAPI.fetch_animal_data, Inventory.NinjaAPI.request.
  destruct (Py.truthy api_key); cbn [negb]; [|discriminate].
  destruct ninja as [e|e|status content]; try discriminate.
  destruct (Z.eqb_spec status 404); [discriminate|].
  destruct (Z.eqb_spec status 200) as [->|]; cbn [negb]; [|discriminate].
  destruct content as [e|data]; [discriminate|].
  destruct data as [|a data]; [discriminate|].
  destruct (Inventory.NinjaAPI._find_exact_match (a :: data) animal_type) as [animal|] eqn:F;
    [|discriminate].
  intros H. inversion H. eauto 8.
Qed.

(** What [create_pet_type] of the service does to the collections. *)
Lemma create_pet_type_written (api_key : string) (ninja : Inventory.NinjaAPI.answer)
      (inserted_id : Bson.ObjectId) (s : Inventory.State) (pet_type : string) :
  snd (Inventory.PetTypeService.create_pet_type api_key ninja inserted_id s pet_type) = s
  \/ exists d,
      Inventory.MongoStore.pet_type_exists s pet_type = false
      /\ Inventory.NinjaAPI.fetch_animal_data api_key ninja pet_type = Inventory.Return d
      /\ existsb (Inventory.MongoStore.has_id inserted_id)
           (Inventory.pet_types_collection s) = false
      /\ Inventory.PetTypeService.create_pet_type api_key ninja inserted_id s pet_type
         = (Inventory.Return
              (Inventory.MongoStore.get_pet_type
                 (snd (Inventory.MongoStore.add_pet_type s inserted_id d))
                 (Bson.str inserted_id)),
            snd (Inventory.MongoStore.add_pet_type s inserted_id d)).
Proof.
  unfold Inventory.PetTypeService.create_pet_type.
  destruct (Inventory.MongoStore.pet_type_exists s pet_type); [now left|].
  destruct (Inventory.NinjaAPI.fetch_animal_data api_key ninja pet_type) as [d|e];
    [|now left].
  unfold Inventory.MongoStore.add_pet_type.
  destruct (existsb _ _) eqn:E; [now left|]. right. exists d. auto.
Qed.

Lemma route_create_pet_type_written (api_key : string) (content_type : option string)
      (pet_type : string) (ninja : Inventory.NinjaAPI.answer) (inserted_id : Bson.ObjectId)
      (s : Inventory.State) :
  snd (Inventory.Routers.create_pet_type api_key content_type pet_type ninja inserted_id s)
  = s
  \/ snd (Inventory.Routers.create_pet_type api_key content_type pet_type ninja
            inserted_id s)
     = snd (Inventory.PetTypeService.create_pet_type api_key ninja inserted_id s pet_type).
Proof.
  unfold Inventory.Routers.create_pet_type.
  destruct (Inventory.Routers.is_json content_type); cbn [negb]; [|now left].
  destruct (Inventory.PetTypeService.create_pet_type api_key ninja inserted_id s pet_type)
    as [[[t|]|[msg|msg|msg|msg]] s']; cbn [snd]; try (now right).
  destruct (Py.contains "API_ERROR:" msg); now right.
Qed.

Lemma wf_create_pet_type (api_key : string) (ninja : Inventory.NinjaAPI.answer)
      (inserted_id : Bson.ObjectId) (s : Inventory.State) (pet_type : string) :
  well_formed s -> (inserted_id < 2 ^ 96)%N ->
  well_formed
    (snd (Inventory.PetTypeService.create_pet_type api_key ninja inserted_id s pet_type)).
Proof.
  intros Hwf Hb.
  destruct (create_pet_type_written api_key ninja inserted_id s pet_type)
    as [->|(d & Hex & Hf & Hid & ->)]; [exact Hwf|].
  cbn [snd]. unfold Inventory.MongoStore.add_pet_type. rewrite Hid. cbn [snd].
  destruct (fetch_animal_data_returns _ _ _ _ Hf) as (data & animal & _ & _ & _ & ->).
  apply wf_new_type; try assumption; try reflexivity.
  - intros Hin. apply in_map_iff in Hin. destruct Hin as (t & Et & Ht).
    assert (Hf' : existsb (Inventory.MongoStore.has_id inserted_id)
                    (Inventory.pet_types_collection s) = true).
    { apply existsb_exists. exists t. split; [exact Ht|].
      unfold Inventory.MongoStore.has_id. apply N.eqb_eq. exact Et. }
    congruence.
  - intros Hin. apply in_map_iff in Hin. destruct Hin as (t & Et & Ht).
    unfold Inventory.MongoStore.pet_type_exists in Hex.
    destruct (find _ _) eqn:F in Hex; [discriminate|].
    pose proof (find_none_all _ _ F t Ht) as Hn. cbn beta in Hn.
    unfold PetStore.MongoStore.like in Hn. apply orb_false_iff in Hn.
    destruct Hn as [Hn _]. apply String.eqb_neq in Hn. apply Hn. exact Et.
Qed.

Lemma wf_delete_pet_type (s : Inventory.State) (id : string) :
  well_formed s ->
  well_formed (snd (Inventory.PetTypeService.delete_pet_type s id)).
Proof.
  intros Hwf. unfold Inventory.PetTypeService.delete_pet_type.
  destruct (Inventory.MongoStore.get_pet_type s id) as [t0|] eqn:Ht; [|exact Hwf].
  destruct (PetStore.ptd_pets (Inventory.type_doc t0)) eqn:Hp; [|exact Hwf].
  apply get_pet_type_some in Ht. destruct Ht as [Hparse Hin].
  cbn [snd]. unfold Inventory.MongoStore.delete_pet_type. rewrite Hparse. cbn [snd].
  rewrite (delete_one_unique type_id) by (apply Hwf || apply has_id_key).
  apply wf_without_type; [exact Hwf|]. intros t Hin' E.
  rewrite (NoDup_map_inj type_id _ t t0 (wf_ids s Hwf) Hin' Hin E). exact Hp.
Qed.

Lemma route_delete_pet_type_written (s : Inventory.State) (id : string) :
  snd (Inventory.Routers.delete_pet_type s id)
  = snd (Inventory.PetTypeService.delete_pet_type s id).
Proof.
  unfold Inventory.Routers.delete_pet_type.
  destruct (Inventory.PetTypeService.delete_pet_type s id) as [[u|[msg|msg|msg|msg]] s'];
    try reflexivity.
  destruct (msg =? "PET_TYPE_NOT_FOUND")%string; reflexivity.
Qed.

Lemma canonical_id (id : string) (oid : Bson.ObjectId) :
  canonical id = true -> Bson.parse id = Some oid -> (oid < 2 ^ 96)%N ->
  id = Bson.str oid.
Proof.
  unfold canonical. intros H E Hb. rewrite E in H. apply orb_true_iff in H.
  destruct H as [H|H]; [apply String.eqb_eq in H; now symmetry|].
  apply N.leb_le in H. lia.
Qed.

Lemma wf_create_pet (strptime : string -> option Validators.datetime)
      (download : Inventory.PictureService.answer) (timestamp : Z)
      (s : Inventory.State) (id n : string) (birthdate url : option string) :
  well_formed s -> canonical id = true ->
  well_formed
    (snd (Inventory.PetService.create_pet strptime download timestamp s id n birthdate url)).
Proof.
  intros Hwf Hc. unfold Inventory.PetService.create_pet.
  destruct (Inventory.MongoStore.get_pet_type s id) as [t0|] eqn:Ht; [|exact Hwf].
  destruct (Inventory.MongoStore.pet_exists s id n) eqn:Hex; [exact Hwf|].
  destruct (Inventory.PetService.invalid_birthdate strptime birthdate); [exact Hwf|].
  apply get_pet_type_some in Ht. destruct Ht as [Hparse Hin].
  assert (Hbound : (type_id t0 < 2 ^ 96)%N).
  { pose proof (wf_bytes s Hwf) as Hb. rewrite Forall_forall in Hb. now apply Hb. }
  pose proof (canonical_id _ _ Hc Hparse Hbound) as Eid.
  match goal with
  | |- context [match ?x with Inventory.Return _ => _ | Inventory.Throw _ => _ end] =>
      destruct x as [pic|e]; [|exact Hwf]
  end.
  cbn zeta. unfold Inventory.MongoStore.add_pet.
  cbn [Inventory.data_name Inventory.data_birthdate Inventory.data_picture
       Inventory.data_picture_url].
  destruct (existsb _ _); [exact Hwf|]. cbn [snd].
  unfold Inventory.PetTypeService.add_pet_name_to_type,
    Inventory.MongoStore.add_pet_name_to_type.
  rewrite Hparse. cbn [Inventory.pet_types_collection Inventory.pets_collection].
  rewrite (update_one_unique type_id) by (apply Hwf || apply has_id_key).
  rewrite Eid. apply wf_new_pet; [exact Hwf | exact Hin|].
  unfold Inventory.MongoStore.pet_exists in Hex.
  destruct (find _ _) eqn:F in Hex; [discriminate|].
  rewrite <- Eid. exact (find_none_all _ _ F).
Qed.

Lemma route_create_pet_written (strptime : string -> option Validators.datetime)
      (content_type : option string) (id : string) (pet : Inventory.PetCreate)
      (download : Inventory.PictureService.answer) (timestamp : Z) (s : Inventory.State) :
  snd (Inventory.Routers.create_pet strptime content_type id pet download timestamp s) = s
  \/ snd (Inventory.Routers.create_pet strptime content_type id pet download timestamp s)
     = snd (Inventory.PetService.create_pet strptime download timestamp s id
              (Inventory.new_name pet) (Inventory.new_birthdate pet)
              (Inventory.new_picture_url pet)).
Proof.
  unfold Inventory.Routers.create_pet.
  destruct (Inventory.Routers.is_json content_type); cbn [negb]; [|now left].
  destruct (Inventory.PetService.create_pet _ _ _ _ _ _ _ _)
    as [[u|[msg|msg|msg|msg]] s']; try (now right).
  destruct (msg =? "PET_TYPE_NOT_FOUND")%string; now right.
Qed.

Lemma wf_delete_pet (s : Inventory.State) (id n : string) :
  well_formed s ->
  well_formed (snd (Inventory.PetService.delete_pet s id n)).
Proof.
  intros Hwf. unfold Inventory.PetService.delete_pet.
  destruct (Inventory.MongoStore.get_pet_type s id) as [t0|] eqn:Ht; [|exact Hwf].
  destruct (Inventory.MongoStore.get_pet_case_insensitive s id n) as [[p actual]|] eqn:Hp;
    [|exact Hwf].
  apply get_pet_type_some in Ht. destruct Ht as [Hparse Hin].
  apply get_pet_case_insensitive_some in Hp. destruct Hp as (Hp & Ei & _ & ->).
  cbn [snd]. unfold Inventory.PetTypeService.remove_pet_name_from_type,
    Inventory.MongoStore.remove_pet_name_from_type, Inventory.MongoStore.delete_pet.
  rewrite Hparse. cbn [snd Inventory.pet_types_collection Inventory.pets_collection].
  rewrite (update_one_unique type_id) by (apply Hwf || apply has_id_key).
  rewrite (delete_one_unique pet_key) by (apply Hwf || apply same_pet_key).
  rewrite <- Ei. apply wf_without_pet; [exact Hwf | exact Hp|]. now rewrite Ei.
Qed.

Lemma route_delete_pet_written (s : Inventory.State) (id n : string) :
  snd (Inventory.Routers.delete_pet s id n) = snd (Inventory.PetService.delete_pet s id n).
Proof.
  unfold Inventory.Routers.delete_pet.
  destruct (Inventory.PetService.delete_pet s id n) as [[u|[msg|msg|msg|msg]] s'];
    reflexivity.
Qed.

(** Every admissible request leaves a well-formed inventory well formed. *)
Lemma handle_well_formed (strptime : string -> option Validators.datetime)
      (api_key : string) (r : Inventory.request) (s : Inventory.State) :
  well_formed s -> admissible r ->
  well_formed (snd (Inventory.handle strptime api_key r s)).
Proof.
  intros Hwf Ha. destruct r as [ct ty ninja oid | id | ct id pet dl ts | ct id n pet dl ts
                               | id n]; cbn [Inventory.handle admissible snd] in *.
  - destruct (Fastapi.reads_json ct); [|exact Hwf].
    destruct (route_create_pet_type_written api_key ct ty ninja oid s) as [->| ->];
      [exact Hwf | now apply wf_create_pet_type].
  - rewrite route_delete_pet_type_written. now apply wf_delete_pet_type.
  - destruct (Fastapi.reads_json ct); [|exact Hwf].
    destruct (route_create_pet_written strptime ct id pet dl ts s) as [->| ->];
      [exact Hwf | now apply wf_create_pet].
  - destruct (Fastapi.reads_json ct); exact Hwf.
  - rewrite route_delete_pet_written. now apply wf_delete_pet.
Qed.

Lemma empty_well_formed : well_formed Inventory.empty.
Proof. constructor; cbn; constructor. Qed.

Lemma reachable_well_formed (strptime : string -> option Validators.datetime)
      (api_key : string) (s : Inventory.State) :
  reachable strptime api_key s -> well_formed s.
Proof.
  induction 1 as [|s r _ IH Ha]; [exact empty_well_formed|].
  now apply handle_well_formed.
Qed.
Lemma opened_reachable : reachable strptime_ddmmyyyy Shop.api_key Shop.opened.
Proof.
  apply (reachable_step strptime_ddmmyyyy Shop.api_key Inventory.empty Shop.post_poodle).
  - constructor.
  - reflexivity.
Qed.

Lemma stocked_reachable : reachable strptime_ddmmyyyy Shop.api_key Shop.stocked.
Proof.
  apply (reachable_step strptime_ddmmyyyy Shop.api_key Shop.opened Shop.post_jamie).
  - exact opened_reachable.
  - reflexivity.
Qed.

(** The two requests build the inventory of the running example. *)
Lemma stocked_is_store1 :
  Shop.stocked = {| Inventory.pet_types_collection := [Shop.poodles];
                    Inventory.pets_collection :=
                      [ {| Inventory.pet_doc :=
                             {| PetStore.pd_pet_type_id := Bson.str Scenario.poodle_id;
                                PetStore.pd_name := "Jamie";
                                PetStore.pd_birthdate := "24-10-2023";
                                PetStore.pd_picture := "NA" |};
                           Inventory.picture_url := None |} ] |}
  /\ Inventory.view Shop.stocked = Scenario.store1.
Proof. split; vm_compute; reflexivity. Qed.

Lemma view_get_pet_type (s : Inventory.State) (id : string) :
  PetStore.MongoStore.get_pet_type (Inventory.view s) id
  = option_map Inventory.type_doc (Inventory.MongoStore.get_pet_type s id).
Proof.
  unfold PetStore.MongoStore.get_pet_type, Inventory.MongoStore.get_pet_type, Inventory.view.
  cbn [PetStore.pet_types_collection].
  destruct (Bson.parse id) as [oid|]; [|reflexivity].
  exact (find_map Inventory.type_doc (fun d => N.eqb (PetStore.ptd_id d) oid) _).
Qed.

Lemma get_pet_type_of_member (s : Inventory.State) (t : Inventory.PetType) :
  well_formed s -> In t (Inventory.pet_types_collection s) ->
  Inventory.MongoStore.get_pet_type s (Bson.str (type_id t)) = Some t.
Proof.
  intros Hwf Ht. unfold Inventory.MongoStore.get_pet_type.
  pose proof (wf_bytes s Hwf) as Hb. rewrite Forall_forall in Hb.
  rewrite (parse_str _ (Hb t Ht)).
  destruct (find_exists (Inventory.MongoStore.has_id (type_id t)) _ t Ht) as (t' & F).
  { unfold Inventory.MongoStore.has_id. apply N.eqb_refl. }
  rewrite F. f_equal. apply find_some in F. destruct F as [Ht' E].
  unfold Inventory.MongoStore.has_id in E. apply N.eqb_eq in E.
  exact (NoDup_map_inj type_id _ t' t (wf_ids s Hwf) Ht' Ht E).
Qed.

(** X17. In an inventory reached from the empty one by admissible requests,
    the pets of a type differ in name even without letter case: two stored
    pets under one type identifier, with names in ASCII, do not have the
    same name under case-insensitive comparison. *)
Theorem stored_names_differ :
  forall (strptime : string -> option Validators.datetime) (api_key : string)
         (s : Inventory.State) (before after : list PetStore.PetDoc)
         (pet : PetStore.PetDoc),
    reachable strptime api_key s ->
    PetStore.pets_collection (Inventory.view s) = before ++ pet :: after ->
    Py.isascii (PetStore.pd_name pet) = true ->
    forall d, In d (before ++ after) ->
              Py.isascii (PetStore.pd_name d) = true ->
              PetStore.pd_pet_type_id d = PetStore.pd_pet_type_id pet ->
              equal_ignoring_case (PetStore.pd_name d) (PetStore.pd_name pet) = false.
Proof.
  intros strptime api_key s before after pet Hr Hs _ d Hd _ Hid.
  pose proof (wf_names s (reachable_well_formed _ _ _ Hr)) as Hn.
  assert (Hk : map pet_key (Inventory.pets_collection s)
               = map (fun d => (PetStore.pd_pet_type_id d, Py.lower (PetStore.pd_name d)))
                     (before ++ pet :: after)).
  { rewrite <- Hs. unfold Inventory.view. cbn [PetStore.pets_collection].
    now rewrite map_map. }
  rewrite Hk, map_app in Hn. cbn [map] in Hn. apply NoDup_remove_2 in Hn.
  destruct (equal_ignoring_case (PetStore.pd_name d) (PetStore.pd_name pet)) eqn:E;
    [|reflexivity].
  exfalso. apply Hn. rewrite <- map_app. apply equal_ignoring_case_lower in E.
  apply in_map_iff. exists d. split; [now rewrite Hid, E | exact Hd].
Qed.

Lemma restocked_reachable : reachable strptime_ddmmyyyy Shop.api_key Shop.restocked.
Proof.
  apply (reachable_step strptime_ddmmyyyy Shop.api_key Shop.stocked Shop.post_rex).
  - exact stocked_reachable.
  - reflexivity.
Qed.

(** The same on the running example after Rex was added: Rex is not Jamie. *)
Lemma stored_names_differ_witness :
  reachable strptime_ddmmyyyy Shop.api_key Shop.restocked
  /\ PetStore.pets_collection (Inventory.view Shop.restocked)
     = [] ++ {| PetStore.pd_pet_type_id := Bson.str Scenario.poodle_id;
                PetStore.pd_name := "Jamie";
                PetStore.pd_birthdate := "24-10-2023";
                PetStore.pd_picture := "NA" |}
          :: [ {| PetStore.pd_pet_type_id := Bson.str Scenario.poodle_id;
                  PetStore.pd_name := "Rex";
                  PetStore.pd_birthdate := "NA";
                  PetStore.pd_picture := "NA" |} ]
  /\ Py.isascii "Jamie" = true
  /\ forall d, In d ([] ++ [ {| PetStore.pd_pet_type_id := Bson.str Scenario.poodle_id;
                                PetStore.pd_name := "Rex";
                                PetStore.pd_birthdate := "NA";
                                PetStore.pd_picture := "NA" |} ]) ->
               Py.isascii (PetStore.pd_name d) = true ->
               PetStore.pd_pet_type_id d = Bson.str Scenario.poodle_id ->
               equal_ignoring_case (PetStore.pd_name d) "Jamie" = false.
Proof.
  assert (H : PetStore.pets_collection (Inventory.view Shop.restocked)
              = [] ++ {| PetStore.pd_pet_type_id := Bson.str Scenario.poodle_id;
                         PetStore.pd_name := "Jamie";
                         PetStore.pd_birthdate := "24-10-2023";
                         PetStore.pd_picture := "NA" |}
                   :: [ {| PetStore.pd_pet_type_id := Bson.str Scenario.poodle_id;
                           PetStore.pd_name := "Rex";
                           PetStore.pd_birthdate := "NA";
                           PetStore.pd_picture := "NA" |} ])
    by (vm_compute; reflexivity).
  assert (Ha : Py.isascii "Jamie" = true) by reflexivity.
  split; [exact restocked_reachable|]. split; [exact H|]. split; [exact Ha|].
  exact (stored_names_differ strptime_ddmmyyyy Shop.api_key Shop.restocked [] _ _
           restocked_reachable H Ha).
Defined.



(** X19. In an inventory reached from the empty one by admissible requests,
    no pet is without its type: for every stored pet,
    [GET /pet-types/{id}] under the pet's "pet_type_id" answers 200 with a
    pet type that has the pet's name among its "pets", and
    [DELETE /pet-types/{id}] is refused with 400 and leaves the inventory as
    it was. *)
Theorem stored_pet_keeps_its_type :
  forall (strptime : string -> option Validators.datetime) (api_key : string)
         (s : Inventory.State) (p : Inventory.Pet),
    reachable strptime api_key s ->
    In p (Inventory.pets_collection s) ->
    (exists t,
        Inventory.Routers.get_pet_type s (PetStore.pd_pet_type_id (Inventory.pet_doc p))
        = {| Inventory.code := 200; Inventory.content_of := Inventory.PetTypeContent t |}
        /\ In (PetStore.pd_name (Inventory.pet_doc p))
              (PetStore.ptd_pets (Inventory.type_doc t)))
    /\ Inventory.handle strptime api_key
         (Inventory.DeletePetType (PetStore.pd_pet_type_id (Inventory.pet_doc p))) s
       = (Inventory.Return Inventory.Routers.malformed, s).
Proof.
  intros strptime api_key s p Hr Hp.
  pose proof (reachable_well_formed _ _ _ Hr) as Hwf.
  pose proof (wf_types s Hwf) as Ht. rewrite Forall_forall in Ht.
  destruct (Ht p Hp) as (t & Hin & E).
  pose proof (get_pet_type_of_member s t Hwf Hin) as Hg.
  assert (Hn : In (PetStore.pd_name (Inventory.pet_doc p))
                  (PetStore.ptd_pets (Inventory.type_doc t))).
  { pose proof (wf_pets s Hwf) as Hps. rewrite Forall_forall in Hps.
    rewrite (Hps t Hin). apply names_of_type_in. eauto. }
  rewrite E. split.
  - exists t. split; [|exact Hn].
    unfold Inventory.Routers.get_pet_type, Inventory.PetTypeService.get_pet_type.
    now rewrite Hg.
  - cbn [Inventory.handle]. unfold Inventory.Routers.delete_pet_type,
      Inventory.PetTypeService.delete_pet_type. rewrite Hg.
    destruct (PetStore.ptd_pets (Inventory.type_doc t)); [destruct Hn | reflexivity].
Qed.

(** In the running example Jamie keeps the poodles in the inventory. *)
Lemma stored_pet_keeps_its_type_witness :
  reachable strptime_ddmmyyyy Shop.api_key Shop.stocked
  /\ In {| Inventory.pet_doc :=
             {| PetStore.pd_pet_type_id := Bson.str Scenario.poodle_id;
                PetStore.pd_name := "Jamie";
                PetStore.pd_birthdate := "24-10-2023";
                PetStore.pd_picture := "NA" |};
           Inventory.picture_url := None |}
        (Inventory.pets_collection Shop.stocked)
  /\ Inventory.handle strptime_ddmmyyyy Shop.api_key
       (Inventory.DeletePetType (Bson.str Scenario.poodle_id)) Shop.stocked
     = (Inventory.Return Inventory.Routers.malformed, Shop.stocked).
Proof.
  assert (Hin : In {| Inventory.pet_doc :=
                        {| PetStore.pd_pet_type_id := Bson.str Scenario.poodle_id;
                           PetStore.pd_name := "Jamie";
                           PetStore.pd_birthdate := "24-10-2023";
                           PetStore.pd_picture := "NA" |};
                      Inventory.picture_url := None |}
                   (Inventory.pets_collection Shop.stocked))
    by (left; vm_compute; reflexivity).
  split; [exact stocked_reachable|]. split; [exact Hin|].
  exact (proj2 (stored_pet_keeps_its_type strptime_ddmmyyyy Shop.api_key Shop.stocked _
                  stocked_reachable Hin)).
Defined.
Lemma pet_exists_iff (s : Inventory.State) (id n : string) :
  Inventory.MongoStore.pet_exists s id n = true <-> name_taken s id n.
Proof.
  unfold Inventory.MongoStore.pet_exists, name_taken, Inventory.view.
  cbn [PetStore.pets_collection]. split.
  - destruct (find _ _) as [p|] eqn:F; [|discriminate]. intros _.
    apply find_some in F. destruct F as [Hin E].
    unfold PetStore.MongoStore.same_pet_ignoring_case in E.
    apply andb_true_iff in E. destruct E as [E1 E2].
    apply String.eqb_eq in E1. apply like_named_as in E2.
    exists (Inventory.pet_doc p). split; [now apply in_map | auto].
  - intros (d & Hd & E1 & E2). apply in_map_iff in Hd. destruct Hd as (p & <- & Hp).
    destruct (find_exists
                (fun p => PetStore.MongoStore.same_pet_ignoring_case id n (Inventory.pet_doc p))
                _ p Hp) as (q & ->); [|reflexivity].
    unfold PetStore.MongoStore.same_pet_ignoring_case.
    apply andb_true_iff. split; [now apply String.eqb_eq | now apply like_named_as].
Qed.

Lemma invalid_birthdate_iff (strptime : string -> option Validators.datetime)
      (birthdate : option string) :
  Inventory.PetService.invalid_birthdate strptime birthdate = true
  <-> birthdate_unreadable strptime birthdate.
Proof.
  unfold Inventory.PetService.invalid_birthdate, birthdate_unreadable,
    Validators.validate_date_format, Py.truthy.
  destruct birthdate as [b|]; [|split; [discriminate | intros (b & H & _); discriminate]].
  destruct (String.eqb_spec b "") as [E|E]; cbn [negb andb].
  - split; [discriminate | intros (b' & H & Hn & _); inversion H; congruence].
  - destruct (String.eqb_spec b "NA") as [E'|E']; cbn [negb].
    + split; [discriminate | intros (b' & H & _ & Hn & _); inversion H; congruence].
    + destruct (strptime b) eqn:S; cbn [negb].
      * split; [discriminate | intros (b' & H & _ & _ & Hs); inversion H; congruence].
      * split; [intros _; eauto | reflexivity].
Qed.

(** The [ValueError] of a picture of another format is wrapped as every
    exception of the download is: [download_and_save_picture] raises no
    [ValueError]. *)
Lemma download_raises_no_value_error (download : Inventory.PictureService.answer)
      (timestamp : Z) (pet_name pet_type msg : string) :
  Inventory.PictureService.download_and_save_picture download timestamp pet_name pet_type
  <> Inventory.Throw (Inventory.ValueError msg).
Proof.
  unfold Inventory.PictureService.download_and_save_picture.
  destruct (Inventory.PictureService.request download timestamp pet_name pet_type)
    as [f|[m|m|m|m]]; discriminate.
Qed.

Lemma find_update_one_some {A : Type} (p q : A -> bool) (f : A -> A) (l : list A) (a : A) :
  (forall x, p (f x) = p x) ->
  find p l = Some a -> exists a', find p (Inventory.update_one q f l) = Some a'.
Proof.
  intros Hf. induction l as [|x l IH]; [discriminate|].
  cbn [find Inventory.update_one]. destruct (q x) eqn:Q; cbn [find].
  - rewrite Hf. destruct (p x); [eauto | intros H; rewrite H; eauto].
  - destruct (p x); [eauto | exact IH].
Qed.

Lemma add_pet_name_keeps_type (s : Inventory.State) (id id' n : string)
      (t : Inventory.PetType) :
  Inventory.MongoStore.get_pet_type s id = Some t ->
  exists t', Inventory.MongoStore.get_pet_type
               (Inventory.MongoStore.add_pet_name_to_type s id' n) id = Some t'.
Proof.
  unfold Inventory.MongoStore.add_pet_name_to_type. intros H.
  destruct (Bson.parse id') as [oid'|]; [|eauto].
  unfold Inventory.MongoStore.get_pet_type in *. cbn [Inventory.pet_types_collection].
  destruct (Bson.parse id) as [oid|]; [|discriminate].
  eapply find_update_one_some; [|exact H]. reflexivity.
Qed.

(** The answers of the route [create_pet] once it is entered. *)
Lemma route_create_pet_answers :
  forall (strptime : string -> option Validators.datetime)
         (content_type : option string) (id : string) (pet : Inventory.PetCreate)
         (download : Inventory.PictureService.answer) (timestamp : Z)
         (s : Inventory.State),
    (Inventory.Routers.is_json content_type = false ->
     Inventory.Routers.create_pet strptime content_type id pet download timestamp s
     = (Inventory.Return Inventory.Routers.unsupported, s))
    /\ (Inventory.Routers.is_json content_type = true ->
        Inventory.Routers.get_pet_type s id = Inventory.Routers.not_found ->
        Inventory.Routers.create_pet strptime content_type id pet download timestamp s
        = (Inventory.Return Inventory.Routers.not_found, s))
    /\ (Inventory.Routers.is_json content_type = true ->
        Inventory.Routers.get_pet_type s id <> Inventory.Routers.not_found ->
        name_taken s id (Inventory.new_name pet)
        \/ birthdate_unreadable strptime (Inventory.new_birthdate pet) ->
        Inventory.Routers.create_pet strptime content_type id pet download timestamp s
        = (Inventory.Return Inventory.Routers.malformed, s))
    /\ (Inventory.Routers.is_json content_type = true ->
        Inventory.Routers.get_pet_type s id <> Inventory.Routers.not_found ->
        ~ name_taken s id (Inventory.new_name pet) ->
        ~ birthdate_unreadable strptime (Inventory.new_birthdate pet) ->
        exists file,
          fst (Inventory.Routers.create_pet strptime content_type id pet download timestamp s)
          = Inventory.Return
              {| Inventory.code := 201;
                 Inventory.content_of :=
                   Inventory.PetContent
                     {| name := Inventory.new_name pet;
                        birthdate := Inventory.PetService.or_NA (Inventory.new_birthdate pet);
                        picture := file |} |}
          /\ (Py.truthy_opt (Inventory.new_picture_url pet) = false -> file = "NA")
          /\ PetStore.pets_collection
               (Inventory.view
                  (snd (Inventory.Routers.create_pet strptime content_type id pet
                          download timestamp s)))
             = PetStore.pets_collection (Inventory.view s)
               ++ [ {| PetStore.pd_pet_type_id := id;
                       PetStore.pd_name := Inventory.new_name pet;
                       PetStore.pd_birthdate :=
                         Inventory.PetService.or_NA (Inventory.new_birthdate pet);
                       PetStore.pd_picture := file |} ]
          /\ forall n,
              equal_ignoring_case n (Inventory.new_name pet) = true ->
              PetStore.Routers.get_pet
                (Inventory.view
                   (snd (Inventory.Routers.create_pet strptime content_type id pet
                           download timestamp s))) id n
              = Response 200
                  (Some {| name := Inventory.new_name pet;
                           birthdate :=
                             Inventory.PetService.or_NA (Inventory.new_birthdate pet);
                           picture := file |})).
Proof.
  intros strptime ct id pet download ts s.
  unfold Inventory.Routers.create_pet, Inventory.Routers.get_pet_type,
    Inventory.PetTypeService.get_pet_type, Inventory.PetService.create_pet.
  split; [intros ->; reflexivity|].
  split; [intros -> H; cbn [negb];
          destruct (Inventory.MongoStore.get_pet_type s id); [discriminate | reflexivity]|].
  split.
  - intros -> Ht H. cbn [negb].
    destruct (Inventory.MongoStore.get_pet_type s id) as [t|]; [|contradiction].
    destruct (Inventory.MongoStore.pet_exists s id (Inventory.new_name pet)) eqn:Hex;
      [reflexivity|].
    destruct H as [H|H].
    + apply pet_exists_iff in H. congruence.
    + apply invalid_birthdate_iff in H. rewrite H. reflexivity.
  - intros -> Ht Hnt Hnb. cbn [negb].
    destruct (Inventory.MongoStore.get_pet_type s id) as [t|] eqn:Hty; [|contradiction].
    destruct (Inventory.MongoStore.pet_exists s id (Inventory.new_name pet)) eqn:Hex;
      [exfalso; apply Hnt; now apply pet_exists_iff|].
    destruct (Inventory.PetService.invalid_birthdate strptime (Inventory.new_birthdate pet))
      eqn:Hinv; [exfalso; apply Hnb; now apply invalid_birthdate_iff|].
    assert (Hfile : exists file,
               (if Py.truthy_opt (Inventory.new_picture_url pet)
                then match Inventory.PictureService.download_and_save_picture download ts
                             (Inventory.new_name pet)
                             (PetStore.ptd_type (Inventory.type_doc t)) with
                     | Inventory.Return filename => Inventory.Return filename
                     | Inventory.Throw (Inventory.ValueError msg) =>
                         Inventory.Throw (Inventory.ValueError msg)
                     | Inventory.Throw _ => Inventory.Return "NA"
                     end
                else Inventory.Return "NA") = Inventory.Return file
               /\ (Py.truthy_opt (Inventory.new_picture_url pet) = false -> file = "NA")).
    { destruct (Py.truthy_opt (Inventory.new_picture_url pet)); [|eauto].
      pose proof (download_raises_no_value_error download ts (Inventory.new_name pet)
                    (PetStore.ptd_type (Inventory.type_doc t))) as Hv.
      destruct (Inventory.PictureService.download_and_save_picture _ _ _ _)
        as [f|[m|m|m|m]]; try (eexists; split; [reflexivity | discriminate]).
      exfalso. exact (Hv m eq_refl). }
    destruct Hfile as (file & -> & Hna). exists file. cbn zeta.
    unfold Inventory.MongoStore.add_pet.
    cbn [Inventory.data_name Inventory.data_birthdate Inventory.data_picture
         Inventory.data_picture_url].
    assert (Hold : forall p, In p (Inventory.pets_collection s) ->
                     PetStore.MongoStore.same_pet_ignoring_case id (Inventory.new_name pet)
                       (Inventory.pet_doc p) = false).
    { unfold Inventory.MongoStore.pet_exists in Hex.
      destruct (find _ _) eqn:F in Hex; [discriminate|]. exact (find_none_all _ _ F). }
    assert (Hdup : existsb (fun p => PetStore.MongoStore.same_pet id (Inventory.new_name pet)
                                       (Inventory.pet_doc p))
                     (Inventory.pets_collection s) = false).
    { destruct (existsb _ _) eqn:E; [|reflexivity]. apply existsb_exists in E.
      destruct E as (p & Hp & E). apply same_pet_is_same_ignoring_case in E.
      rewrite (Hold p Hp) in E. discriminate. }
    rewrite Hdup. cbn [fst snd].
    split; [reflexivity|]. split; [exact Hna|].
    set (s1 := {| Inventory.pet_types_collection := Inventory.pet_types_collection s;
                  Inventory.pets_collection := _ |}).
    assert (Hpets : PetStore.pets_collection
                      (Inventory.view
                         (Inventory.PetTypeService.add_pet_name_to_type s1 id
                            (Inventory.new_name pet)))
                    = PetStore.pets_collection (Inventory.view s)
                      ++ [ {| PetStore.pd_pet_type_id := id;
                              PetStore.pd_name := Inventory.new_name pet;
                              PetStore.pd_birthdate :=
                                Inventory.PetService.or_NA (Inventory.new_birthdate pet);
                              PetStore.pd_picture := file |} ]).
    { unfold Inventory.PetTypeService.add_pet_name_to_type,
        Inventory.MongoStore.add_pet_name_to_type, Inventory.view.
      destruct (Bson.parse id);
        cbn [PetStore.pets_collection Inventory.pets_collection s1];
        now rewrite map_app. }
    split; [exact Hpets|]. intros n Hn. apply equal_ignoring_case_lower in Hn.
    destruct (add_pet_name_keeps_type s1 id id (Inventory.new_name pet) t Hty) as (t' & Ht').
    apply (get_pet_route_present _ _ _ (Inventory.type_doc t')
             {| PetStore.pd_pet_type_id := id;
                PetStore.pd_name := Inventory.new_name pet;
                PetStore.pd_birthdate :=
                  Inventory.PetService.or_NA (Inventory.new_birthdate pet);
                PetStore.pd_picture := file |}).
    + rewrite view_get_pet_type.
      unfold Inventory.PetTypeService.add_pet_name_to_type. now rewrite Ht'.
    + rewrite Hpets. apply find_first.
      * intros d Hd. unfold Inventory.view in Hd. cbn [PetStore.pets_collection] in Hd.
        apply in_map_iff in Hd. destruct Hd as (p & <- & Hp).
        rewrite (same_pet_ignoring_case_lower id n (Inventory.new_name pet)) by exact Hn.
        now apply Hold.
      * rewrite (same_pet_ignoring_case_lower id n (Inventory.new_name pet)) by exact Hn.
        apply same_pet_is_same_ignoring_case. unfold PetStore.MongoStore.same_pet.
        cbn [PetStore.pd_pet_type_id PetStore.pd_name]. now rewrite !String.eqb_refl.
Qed.

(** X20. [POST /pet-types/{id}/pets], for an id that is a plain segment of
    a path, a name in printable ASCII and stored names in ASCII, answers 415
    when the content type does not contain "application/json", and 400 when it
    does but the framework does not read the body as JSON; otherwise 404
    when the identifier names no stored pet type; otherwise 400 when a
    stored pet of the type has the name under case-insensitive comparison,
    or the name followed by a line feed, or the birthdate given is not read
    as a day; in these cases the inventory is left as it was.  Otherwise it
    answers 201, whatever happens to the download of the picture: the pet is
    stored last, with the birthdate given or "NA", without a picture when no
    address is given, and [GET /pet-types/{id}/pets/{name}] then answers it
    under every spelling of its name. *)
Theorem post_pet_answers :
  forall (strptime : string -> option Validators.datetime) (api_key : string)
         (content_type : option string) (id : string) (pet : Inventory.PetCreate)
         (download : Inventory.PictureService.answer) (timestamp : Z)
         (s : Inventory.State),
    Url.plain id = true ->
    Py.isprintable (Inventory.new_name pet) = true ->
    (forall d, In d (PetStore.pets_collection (Inventory.view s)) ->
               Py.isascii (PetStore.pd_name d) = true) ->
    let post := Inventory.handle strptime api_key
                  (Inventory.PostPet content_type id pet download timestamp) in
    (Inventory.Routers.is_json content_type = false ->
     post s = (Inventory.Return Inventory.Routers.unsupported, s))
    /\ (Inventory.Routers.is_json content_type = true ->
        Fastapi.reads_json content_type = false ->
        post s = (Inventory.Return Inventory.Routers.malformed, s))
    /\ (Inventory.Routers.is_json content_type = true ->
        Fastapi.reads_json content_type = true ->
        Inventory.Routers.get_pet_type s id = Inventory.Routers.not_found ->
        post s = (Inventory.Return Inventory.Routers.not_found, s))
    /\ (Inventory.Routers.is_json content_type = true ->
        Fastapi.reads_json content_type = true ->
        Inventory.Routers.get_pet_type s id <> Inventory.Routers.not_found ->
        name_taken s id (Inventory.new_name pet)
        \/ birthdate_unreadable strptime (Inventory.new_birthdate pet) ->
        post s = (Inventory.Return Inventory.Routers.malformed, s))
    /\ (Inventory.Routers.is_json content_type = true ->
        Fastapi.reads_json content_type = true ->
        Inventory.Routers.get_pet_type s id <> Inventory.Routers.not_found ->
        ~ name_taken s id (Inventory.new_name pet) ->
        ~ birthdate_unreadable strptime (Inventory.new_birthdate pet) ->
        exists file,
          fst (post s)
          = Inventory.Return
              {| Inventory.code := 201;
                 Inventory.content_of :=
                   Inventory.PetContent
                     {| name := Inventory.new_name pet;
                        birthdate := Inventory.PetService.or_NA (Inventory.new_birthdate pet);
                        picture := file |} |}
          /\ (Py.truthy_opt (Inventory.new_picture_url pet) = false -> file = "NA")
          /\ PetStore.pets_collection (Inventory.view (snd (post s)))
             = PetStore.pets_collection (Inventory.view s)
               ++ [ {| PetStore.pd_pet_type_id := id;
                       PetStore.pd_name := Inventory.new_name pet;
                       PetStore.pd_birthdate :=
                         Inventory.PetService.or_NA (Inventory.new_birthdate pet);
                       PetStore.pd_picture := file |} ]
          /\ forall n,
              Url.plain n = true ->
              equal_ignoring_case n (Inventory.new_name pet) = true ->
              PetStore.Routers.get_pet (Inventory.view (snd (post s))) id n
              = Response 200
                  (Some {| name := Inventory.new_name pet;
                           birthdate :=
                             Inventory.PetService.or_NA (Inventory.new_birthdate pet);
                           picture := file |})).
Proof.
  intros strptime api_key ct id pet download ts s _ _ _ post.
  destruct (route_create_pet_answers strptime ct id pet download ts s)
    as (H415 & H404 & H400 & H201).
  subst post. cbn [Inventory.handle].
  split; [|split; [|split; [|split]]].
  - intros Hj. destruct (Fastapi.reads_json ct); [now apply H415|].
    unfold Inventory.validation_exception_handler. now rewrite Hj.
  - intros Hj ->. unfold Inventory.validation_exception_handler. now rewrite Hj.
  - intros Hj ->. now apply H404.
  - intros Hj ->. now apply H400.
  - intros Hj -> Ht Hn Hb. destruct (H201 Hj Ht Hn Hb) as (file & Ha & Hna & Hp & Hg).
    exists file. repeat split; auto.
Qed.

(** Jamie is added to the inventory that has the poodles only; posted once
    more as "JAMIE", or with a content type that is not a JSON media type,
    the answer is 400. *)
Lemma post_pet_answers_witness :
  Url.plain (Bson.str Scenario.poodle_id) = true
  /\ Py.isprintable "Jamie" = true
  /\ Py.isprintable "JAMIE" = true
  /\ (forall d, In d (PetStore.pets_collection (Inventory.view Shop.opened)) ->
                Py.isascii (PetStore.pd_name d) = true)
  /\ (forall d, In d (PetStore.pets_collection (Inventory.view Shop.stocked)) ->
                Py.isascii (PetStore.pd_name d) = true)
  /\ Inventory.Routers.is_json Scenario.json = true
  /\ Fastapi.reads_json Scenario.json = true
  /\ Inventory.Routers.get_pet_type Shop.opened (Bson.str Scenario.poodle_id)
     <> Inventory.Routers.not_found
  /\ ~ name_taken Shop.opened (Bson.str Scenario.poodle_id) "Jamie"
  /\ ~ birthdate_unreadable strptime_ddmmyyyy (Some "24-10-2023")
  /\ (exists file,
         fst (Inventory.handle strptime_ddmmyyyy Shop.api_key Shop.post_jamie Shop.opened)
         = Inventory.Return
             {| Inventory.code := 201;
                Inventory.content_of :=
                  Inventory.PetContent
                    {| name := "Jamie"; birthdate := "24-10-2023"; picture := file |} |}
         /\ file = "NA"
         /\ PetStore.Routers.get_pet (Inventory.view Shop.stocked)
              (Bson.str Scenario.poodle_id) "jAMIE"
            = Response 200
                (Some {| name := "Jamie"; birthdate := "24-10-2023"; picture := file |}))
  /\ name_taken Shop.stocked (Bson.str Scenario.poodle_id) "JAMIE"
  /\ Inventory.handle strptime_ddmmyyyy Shop.api_key post_jamie_again Shop.stocked
     = (Inventory.Return Inventory.Routers.malformed, Shop.stocked)
  /\ Inventory.Routers.is_json (Some "text/plain; x=application/json") = true
  /\ Fastapi.reads_json (Some "text/plain; x=application/json") = false
  /\ Inventory.handle strptime_ddmmyyyy Shop.api_key post_jamie_as_text Shop.opened
     = (Inventory.Return Inventory.Routers.malformed, Shop.opened).
Proof.
  assert (Hi : Url.plain (Bson.str Scenario.poodle_id) = true) by reflexivity.
  assert (Ha : Py.isprintable "Jamie" = true) by reflexivity.
  assert (Ha' : Py.isprintable "JAMIE" = true) by reflexivity.
  assert (Ho : forall d, In d (PetStore.pets_collection (Inventory.view Shop.opened)) ->
                         Py.isascii (PetStore.pd_name d) = true)
    by (intros d Hd; vm_compute in Hd; destruct Hd).
  assert (Hs : forall d, In d (PetStore.pets_collection (Inventory.view Shop.stocked)) ->
                         Py.isascii (PetStore.pd_name d) = true).
  { intros d Hd. rewrite (proj2 stocked_is_store1) in Hd. destruct Hd as [<-|[]].
    reflexivity. }
  assert (H1 : Inventory.Routers.is_json Scenario.json = true) by reflexivity.
  assert (H1' : Fastapi.reads_json Scenario.json = true) by reflexivity.
  assert (H2 : Inventory.Routers.get_pet_type Shop.opened (Bson.str Scenario.poodle_id)
               <> Inventory.Routers.not_found) by (vm_compute; discriminate).
  assert (H2' : Inventory.Routers.get_pet_type Shop.stocked (Bson.str Scenario.poodle_id)
                <> Inventory.Routers.not_found) by (vm_compute; discriminate).
  assert (H3 : ~ name_taken Shop.opened (Bson.str Scenario.poodle_id)
                 (Inventory.new_name Shop.jamie))
    by (intros (d & Hd & _); vm_compute in Hd; exact Hd).
  assert (H4 : ~ birthdate_unreadable strptime_ddmmyyyy (Inventory.new_birthdate Shop.jamie)).
  { intros (b & Hb & _ & _ & Hs'). vm_compute in Hb. inversion Hb; subst b.
    vm_compute in Hs'. discriminate. }
  assert (H5 : name_taken Shop.stocked (Bson.str Scenario.poodle_id) "JAMIE").
  { unfold name_taken. rewrite (proj2 stocked_is_store1).
    eexists. split; [left; reflexivity|].
    split; [reflexivity|]. left. reflexivity. }
  assert (H6 : Inventory.Routers.is_json (Some "text/plain; x=application/json") = true)
    by reflexivity.
  assert (H7 : Fastapi.reads_json (Some "text/plain; x=application/json") = false)
    by reflexivity.
  split; [exact Hi|]. split; [exact Ha|]. split; [exact Ha'|].
  split; [exact Ho|]. split; [exact Hs|]. split; [exact H1|].
  split; [exact H1'|]. split; [exact H2|]. split; [exact H3|]. split; [exact H4|].
  split; [|split; [exact H5|split; [|split; [exact H6|split; [exact H7|]]]]].
  - destruct (proj2 (proj2 (proj2 (proj2
                (post_pet_answers strptime_ddmmyyyy Shop.api_key Scenario.json
                   (Bson.str Scenario.poodle_id) Shop.jamie
                   (Inventory.PictureService.NoConnection "") 0 Shop.opened Hi Ha Ho))))
                H1 H1' H2 H3 H4) as (file & Hr & Hna & _ & Hget).
    exists file. split; [exact Hr|]. split; [exact (Hna eq_refl)|].
    exact (Hget "jAMIE" eq_refl eq_refl).
  - exact (proj1 (proj2 (proj2 (proj2
             (post_pet_answers strptime_ddmmyyyy Shop.api_key Scenario.json
                (Bson.str Scenario.poodle_id)
                {| Inventory.new_name := "JAMIE";
                   Inventory.new_birthdate := None;
                   Inventory.new_picture_url := None |}
                (Inventory.PictureService.NoConnection "") 0 Shop.stocked Hi Ha' Hs))))
             H1 H1' H2' (or_introl H5)).
  - exact (proj1 (proj2
             (post_pet_answers strptime_ddmmyyyy Shop.api_key
                (Some "text/plain; x=application/json")
                (Bson.str Scenario.poodle_id) Shop.jamie
                (Inventory.PictureService.NoConnection "") 0 Shop.opened Hi Ha Ho))
             H6 H7).
Defined.

(** X21. [PUT /pet-types/{id}/pets/{name}] stores nothing.  When it answers
    200, the inventory is as it was: [GET /pet-types/{id}/pets/{name}]
    answers after it the pet it answered before, while the answer to the
    [PUT] carries that pet's name with the birthdate sent, when one is sent
    that is not empty, and the stored birthdate otherwise. *)
Theorem put_pet_is_not_stored :
  forall (strptime : string -> option Validators.datetime) (api_key : string)
         (content_type : option string) (id n : string) (pet : Inventory.PetCreate)
         (download : Inventory.PictureService.answer) (timestamp : Z)
         (s : Inventory.State) (updated : PetJson),
    fst (Inventory.handle strptime api_key
           (Inventory.PutPet content_type id n pet download timestamp) s)
    = Inventory.Return {| Inventory.code := 200;
                          Inventory.content_of := Inventory.PetContent updated |} ->
    exists stored,
      PetStore.Routers.get_pet (Inventory.view s) id n = Response 200 (Some stored)
      /\ PetStore.Routers.get_pet
           (Inventory.view
              (snd (Inventory.handle strptime api_key
                      (Inventory.PutPet content_type id n pet download timestamp) s)))
           id n
         = Response 200 (Some stored)
      /\ name updated = name stored
      /\ (forall b, Inventory.new_birthdate pet = Some b -> b <> "" ->
                    birthdate updated = b)
      /\ (Py.truthy_opt (Inventory.new_birthdate pet) = false ->
          birthdate updated = birthdate stored).
Proof.
  intros strptime api_key ct id n pet download ts s updated.
  cbn [Inventory.handle]. destruct (Fastapi.reads_json ct); cbn [fst snd].
  2: { unfold Inventory.validation_exception_handler.
       destruct (negb (Inventory.Routers.is_json ct)); discriminate. }
  unfold Inventory.Routers.update_pet, Inventory.PetService.update_pet.
  destruct (Inventory.Routers.is_json ct); cbn [negb]; [|discriminate].
  destruct (Inventory.MongoStore.get_pet_type s id) as [t|] eqn:Ht; [|discriminate].
  destruct (negb (Py.lower (Inventory.new_name pet) =? Py.lower n)%string);
    [discriminate|].
  destruct (Inventory.MongoStore.get_pet_case_insensitive s id n) as [[p actual]|] eqn:Hp;
    [|discriminate].
  destruct (Inventory.PetService.invalid_birthdate strptime (Inventory.new_birthdate pet));
    [discriminate|].
  cbn zeta.
  match goal with
  | |- match match ?x with Inventory.Return _ => _ | Inventory.Throw _ => _ end with
       | Inventory.Return _ => _ | Inventory.Throw _ => _ end = _ -> _ =>
      destruct x as [file|[m|m|m|m]]; try discriminate
  end.
  2: { destruct ((m =? "PET_TYPE_NOT_FOUND") || (m =? "PET_NOT_FOUND"))%string;
       discriminate. }
  intros H. inversion H; subst updated. clear H.
  assert (Hg : PetStore.Routers.get_pet (Inventory.view s) id n
               = Response 200 (Some (PetStore.pet_response (Inventory.pet_doc p)))).
  { apply (get_pet_route_present _ _ _ (Inventory.type_doc t)).
    - now rewrite view_get_pet_type, Ht.
    - unfold Inventory.view. cbn [PetStore.pets_collection].
      rewrite (find_map Inventory.pet_doc (PetStore.MongoStore.same_pet_ignoring_case id n)).
      unfold Inventory.MongoStore.get_pet_case_insensitive in Hp.
      destruct (find _ (Inventory.pets_collection s)) as [q|]; [|discriminate].
      inversion Hp. reflexivity. }
  exists (PetStore.pet_response (Inventory.pet_doc p)).
  split; [exact Hg|]. split; [exact Hg|]. split; [reflexivity|]. cbn [birthdate].
  split.
  - intros b Hb Hne. rewrite Hb. cbn [Py.truthy_opt]. unfold Py.truthy.
    destruct (String.eqb_spec b ""); [contradiction | reflexivity].
  - intros ->. reflexivity.
Qed.

(** Jamie's birthdate is changed and is not: the answer to the [PUT] has
    the new one, the inventory the old one. *)
Lemma put_pet_is_not_stored_witness :
  fst (Inventory.handle strptime_ddmmyyyy Shop.api_key put_jamie Shop.stocked)
  = Inventory.Return
      {| Inventory.code := 200;
         Inventory.content_of :=
           Inventory.PetContent
             {| name := "Jamie"; birthdate := "01-01-2020"; picture := "NA" |} |}
  /\ PetStore.Routers.get_pet
       (Inventory.view (snd (Inventory.handle strptime_ddmmyyyy Shop.api_key put_jamie
                               Shop.stocked)))
       (Bson.str Scenario.poodle_id) "jamie"
     = Response 200 (Some {| name := "Jamie"; birthdate := "24-10-2023"; picture := "NA" |}).
Proof.
  assert (H : fst (Inventory.handle strptime_ddmmyyyy Shop.api_key put_jamie Shop.stocked)
              = Inventory.Return
                  {| Inventory.code := 200;
                     Inventory.content_of :=
                       Inventory.PetContent
                         {| name := "Jamie"; birthdate := "01-01-2020";
                            picture := "NA" |} |})
    by (vm_compute; reflexivity).
  split; [exact H|].
  assert (G : PetStore.Routers.get_pet (Inventory.view Shop.stocked)
                (Bson.str Scenario.poodle_id) "jamie"
              = Response 200
                  (Some {| name := "Jamie"; birthdate := "24-10-2023"; picture := "NA" |}))
    by (vm_compute; reflexivity).
  destruct (put_pet_is_not_stored strptime_ddmmyyyy Shop.api_key Scenario.json
              (Bson.str Scenario.poodle_id) "jamie"
              {| Inventory.new_name := "JAMIE";
                 Inventory.new_birthdate := Some "01-01-2020";
                 Inventory.new_picture_url := None |}
              (Inventory.PictureService.NoConnection "") 0 Shop.stocked _ H)
    as (stored & Hb & Ha & _).
  exact (eq_trans Ha (eq_trans (eq_sym Hb) G)).
Defined.
Lemma pet_type_exists_iff (s : Inventory.State) (pet_type : string) :
  Inventory.MongoStore.pet_type_exists s pet_type = true <-> type_taken s pet_type.
Proof.
  unfold Inventory.MongoStore.pet_type_exists, type_taken. split.
  - destruct (find _ _) as [t|] eqn:F; [|discriminate]. intros _.
    apply find_some in F. destruct F as [Hin E]. apply like_named_as in E. eauto.
  - intros (t & Ht & E).
    destruct (find_exists
                (fun t => PetStore.MongoStore.like pet_type
                            (PetStore.ptd_type (Inventory.type_doc t))) _ t Ht) as (q & ->);
      [now apply like_named_as | reflexivity].
Qed.

(** What the route [create_pet_type] has done when it answers 201. *)
Lemma route_create_pet_type_creates :
  forall (api_key : string) (content_type : option string) (pet_type : string)
         (ninja : Inventory.NinjaAPI.answer) (inserted_id : Bson.ObjectId)
         (s : Inventory.State) (created : Inventory.PetType),
    (inserted_id < 2 ^ 96)%N ->
    fst (Inventory.Routers.create_pet_type api_key content_type pet_type ninja
           inserted_id s)
    = Inventory.Return {| Inventory.code := 201;
                          Inventory.content_of := Inventory.PetTypeContent created |} ->
    (exists before animal after,
        ninja = Inventory.NinjaAPI.Answered 200
                  (Inventory.NinjaAPI.Animals (before ++ animal :: after))
        /\ (forall a, In a before -> ~ named pet_type a)
        /\ named pet_type animal
        /\ created
           = {| Inventory.type_doc :=
                  {| PetStore.ptd_id := inserted_id;
                     PetStore.ptd_type := pet_type;
                     PetStore.ptd_pets := [] |};
                Inventory.family :=
                  Inventory.NinjaAPI.or_empty (Inventory.NinjaAPI.taxonomy_family animal);
                Inventory.genus :=
                  Inventory.NinjaAPI.or_empty (Inventory.NinjaAPI.taxonomy_genus animal);
                Inventory.attributes :=
                  Validators.parse_attributes (Inventory.NinjaAPI.temperament animal)
                    (Inventory.NinjaAPI.group_behavior animal);
                Inventory.lifespan :=
                  Validators.parse_lifespan
                    (Inventory.NinjaAPI.characteristics_lifespan animal) |})
    /\ (forall t, In t (Inventory.pet_types_collection s) -> type_id t <> inserted_id)
    /\ ~ type_taken s pet_type
    /\ Inventory.pet_types_collection
         (snd (Inventory.Routers.create_pet_type api_key content_type pet_type ninja
                 inserted_id s))
       = Inventory.pet_types_collection s ++ [created]
    /\ Inventory.pets_collection
         (snd (Inventory.Routers.create_pet_type api_key content_type pet_type ninja
                 inserted_id s))
       = Inventory.pets_collection s
    /\ Inventory.Routers.get_pet_type
         (snd (Inventory.Routers.create_pet_type api_key content_type pet_type ninja
                 inserted_id s))
         (Bson.str inserted_id)
       = {| Inventory.code := 200;
            Inventory.content_of := Inventory.PetTypeContent created |}.
Proof.
  intros api_key ct ty ninja oid s created Hb.
  unfold Inventory.Routers.create_pet_type, Inventory.PetTypeService.create_pet_type.
  destruct (Inventory.Routers.is_json ct); cbn [negb]; [|discriminate].
  destruct (Inventory.MongoStore.pet_type_exists s ty) eqn:Hex; [discriminate|].
  destruct (Inventory.NinjaAPI.fetch_animal_data api_key ninja ty) as [d|e] eqn:Hf.
  2:{ destruct e as [m|m|m|m]; try discriminate.
      destruct (Py.contains "API_ERROR:" m); discriminate. }
  unfold Inventory.MongoStore.add_pet_type.
  destruct (existsb (Inventory.MongoStore.has_id oid) (Inventory.pet_types_collection s))
    eqn:Hid; [discriminate|].
  destruct (fetch_animal_data_returns _ _ _ _ Hf) as (data & animal & _ & -> & Hm & ->).
  cbn [Inventory.NinjaAPI._extract_animal_data Inventory.ad_type Inventory.ad_family
       Inventory.ad_genus Inventory.ad_attributes Inventory.ad_lifespan Inventory.ad_pets].
  set (new := {| Inventory.type_doc := _ |}).
  assert (Hold : forall t, In t (Inventory.pet_types_collection s) ->
                           Inventory.MongoStore.has_id oid t = false).
  { intros t Ht. destruct (Inventory.MongoStore.has_id oid t) eqn:E; [|reflexivity].
    assert (existsb (Inventory.MongoStore.has_id oid) (Inventory.pet_types_collection s)
            = true) by (apply existsb_exists; eauto). congruence. }
  assert (Hget : Inventory.MongoStore.get_pet_type
                   {| Inventory.pet_types_collection :=
                        Inventory.pet_types_collection s ++ [new];
                      Inventory.pets_collection := Inventory.pets_collection s |}
                   (Bson.str oid) = Some new).
  { unfold Inventory.MongoStore.get_pet_type. rewrite (parse_str _ Hb).
    cbn [Inventory.pet_types_collection]. apply find_first; [exact Hold|].
    unfold Inventory.MongoStore.has_id. apply N.eqb_refl. }
  rewrite Hget. cbn [fst snd]. intros H. inversion H; subst created. clear H.
  split.
  - unfold Inventory.NinjaAPI._find_exact_match in Hm. apply find_split in Hm.
    destruct Hm as (before & after & -> & Hbefore & Ha).
    exists before, animal, after. split; [reflexivity|]. split.
    + intros a Hin Hn. specialize (Hbefore a Hin). cbn beta in Hbefore.
      rewrite lower_equal_ignoring_case in Hbefore. unfold named in Hn. congruence.
    + rewrite lower_equal_ignoring_case in Ha. split; [exact Ha | reflexivity].
  - split.
    + intros t Ht E. specialize (Hold t Ht). unfold Inventory.MongoStore.has_id in Hold.
      apply N.eqb_neq in Hold. exact (Hold E).
    + split; [intros Htk; apply pet_type_exists_iff in Htk; congruence|].
      split; [reflexivity|]. split; [reflexivity|].
      unfold Inventory.Routers.get_pet_type, Inventory.PetTypeService.get_pet_type.
      now rewrite Hget.
Qed.

(** X22. When [POST /pet-types] answers 201, with an identifier of twelve
    bytes for the new document, a type in printable ASCII and all other
    names and texts in ASCII, the Ninja
    Animals API has answered 200 with a list of animals, and the pet type
    answered is made from the first animal of the list named as the type is
    under case-insensitive comparison: it has the new identifier, the type
    as it was sent, no pets, the animal's family and genus, its attributes
    by [parse_attributes] and its lifespan by [parse_lifespan].  No stored
    pet type had the identifier, or was found under the name; the pet type
    is stored last, the pets are as they were, and [GET /pet-types/{id}]
    under the new identifier answers it. *)
Theorem post_pet_type_creates :
  forall (strptime : string -> option Validators.datetime)
         (api_key : string) (content_type : option string) (pet_type : string)
         (ninja : Inventory.NinjaAPI.answer) (inserted_id : Bson.ObjectId)
         (s : Inventory.State) (created : Inventory.PetType),
    (inserted_id < 2 ^ 96)%N ->
    Py.isprintable pet_type = true ->
    ascii_animals ninja ->
    ascii_types s ->
    let post := Inventory.handle strptime api_key
                  (Inventory.PostPetType content_type pet_type ninja inserted_id) in
    fst (post s)
    = Inventory.Return {| Inventory.code := 201;
                          Inventory.content_of := Inventory.PetTypeContent created |} ->
    (exists before animal after,
        ninja = Inventory.NinjaAPI.Answered 200
                  (Inventory.NinjaAPI.Animals (before ++ animal :: after))
        /\ (forall a, In a before -> ~ named pet_type a)
        /\ named pet_type animal
        /\ created
           = {| Inventory.type_doc :=
                  {| PetStore.ptd_id := inserted_id;
                     PetStore.ptd_type := pet_type;
                     PetStore.ptd_pets := [] |};
                Inventory.family :=
                  Inventory.NinjaAPI.or_empty (Inventory.NinjaAPI.taxonomy_family animal);
                Inventory.genus :=
                  Inventory.NinjaAPI.or_empty (Inventory.NinjaAPI.taxonomy_genus animal);
                Inventory.attributes :=
                  Validators.parse_attributes (Inventory.NinjaAPI.temperament animal)
                    (Inventory.NinjaAPI.group_behavior animal);
                Inventory.lifespan :=
                  Validators.parse_lifespan
                    (Inventory.NinjaAPI.characteristics_lifespan animal) |})
    /\ Inventory.Routers.is_json content_type = true
    /\ Fastapi.reads_json content_type = true
    /\ (forall t, In t (Inventory.pet_types_collection s) -> type_id t <> inserted_id)
    /\ ~ type_taken s pet_type
    /\ Inventory.pet_types_collection (snd (post s))
       = Inventory.pet_types_collection s ++ [created]
    /\ Inventory.pets_collection (snd (post s)) = Inventory.pets_collection s
    /\ Inventory.Routers.get_pet_type (snd (post s)) (Bson.str inserted_id)
       = {| Inventory.code := 200;
            Inventory.content_of := Inventory.PetTypeContent created |}.
Proof.
  intros strptime api_key ct ty ninja oid s created Hb _ _ _ post. subst post.
  cbn [Inventory.handle].
  destruct (Fastapi.reads_json ct).
  2: { cbn [fst]. unfold Inventory.validation_exception_handler.
       destruct (negb (Inventory.Routers.is_json ct)); discriminate. }
  intros H201.
  destruct (route_create_pet_type_creates api_key ct ty ninja oid s created Hb H201)
    as (Hmade & Hids & Hfree & Htypes & Hpets & Hget).
  split; [exact Hmade|]. split; [|split; [reflexivity|]]; auto.
  unfold Inventory.Routers.create_pet_type in H201.
  destruct (Inventory.Routers.is_json ct); [reflexivity | discriminate].
Qed.

(** The poodles are created in the empty inventory. *)
Lemma post_pet_type_creates_witness :
  (Scenario.poodle_id < 2 ^ 96)%N
  /\ Py.isprintable "Poodle" = true
  /\ ascii_animals (Inventory.NinjaAPI.Answered 200 (Inventory.NinjaAPI.Animals [Shop.poodle]))
  /\ ascii_types Inventory.empty
  /\ fst (Inventory.handle strptime_ddmmyyyy Shop.api_key Shop.post_poodle Inventory.empty)
     = Inventory.Return
         {| Inventory.code := 201;
            Inventory.content_of :=
              Inventory.PetTypeContent (Inventory.MongoStore.with_pets [] Shop.poodles) |}
  /\ Inventory.pet_types_collection Shop.opened
     = [] ++ [Inventory.MongoStore.with_pets [] Shop.poodles]
  /\ Inventory.Routers.get_pet_type Shop.opened (Bson.str Scenario.poodle_id)
     = {| Inventory.code := 200;
          Inventory.content_of :=
            Inventory.PetTypeContent (Inventory.MongoStore.with_pets [] Shop.poodles) |}.
Proof.
  assert (H1 : (Scenario.poodle_id < 2 ^ 96)%N) by reflexivity.
  assert (Ha : Py.isprintable "Poodle" = true) by reflexivity.
  assert (Hn : ascii_animals
                 (Inventory.NinjaAPI.Answered 200 (Inventory.NinjaAPI.Animals [Shop.poodle]))).
  { intros status data animal E Hin. injection E as _ <-. destruct Hin as [<-|[]].
    repeat split; reflexivity. }
  assert (He : ascii_types Inventory.empty) by (intros t []).
  assert (H2 : fst (Inventory.handle strptime_ddmmyyyy Shop.api_key Shop.post_poodle
                      Inventory.empty)
               = Inventory.Return
                   {| Inventory.code := 201;
                      Inventory.content_of :=
                        Inventory.PetTypeContent
                          (Inventory.MongoStore.with_pets [] Shop.poodles) |})
    by (vm_compute; reflexivity).
  split; [exact H1|]. split; [exact Ha|]. split; [exact Hn|]. split; [exact He|].
  split; [exact H2|].
  destruct (post_pet_type_creates strptime_ddmmyyyy Shop.api_key Scenario.json "Poodle" _
              Scenario.poodle_id Inventory.empty _ H1 Ha Hn He H2)
    as (_ & _ & _ & _ & _ & Htypes & _ & Hget).
  split; [exact Htypes | exact Hget].
Defined.

Lemma prefix_append (a b : string) : String.prefix a (a ++ b) = true.
Proof.
  induction a as [|c a IH]; [destruct b; reflexivity|].
  cbn [String.append String.prefix].
  destruct (ascii_dec c c); [exact IH | contradiction].
Qed.

Lemma contains_append (a b : string) : Py.contains a (a ++ b) = true.
Proof.
  pose proof (prefix_append a b) as H.
  destruct (a ++ b)%string; cbn [Py.contains]; now rewrite H.
Qed.

Lemma before_colon_digits (u : Decimal.uint) :
  Inventory.Routers.before_colon (NilEmpty.string_of_uint u) = NilEmpty.string_of_uint u.
Proof. induction u; cbn; now f_equal. Qed.

Lemma before_colon_str_int (n : Z) :
  Inventory.Routers.before_colon (Inventory.str_int n) = Inventory.str_int n.
Proof.
  unfold Inventory.str_int, NilZero.string_of_int, NilZero.string_of_uint.
  destruct (Z.to_int n) as [u|u].
  - destruct u; try reflexivity; apply (before_colon_digits (_ u)).
  - cbn [Inventory.Routers.before_colon]. cbn. f_equal.
    destruct u; try reflexivity; apply (before_colon_digits (_ u)).
Qed.

(** What the route [create_pet_type] refuses once it is entered. *)
Lemma route_create_pet_type_refuses :
  forall (api_key : string) (content_type : option string) (pet_type : string)
         (ninja : Inventory.NinjaAPI.answer) (inserted_id : Bson.ObjectId)
         (s : Inventory.State),
    (Inventory.Routers.is_json content_type = false ->
     Inventory.Routers.create_pet_type api_key content_type pet_type ninja inserted_id s
     = (Inventory.Return Inventory.Routers.unsupported, s))
    /\ (Inventory.Routers.is_json content_type = true ->
        type_taken s pet_type ->
        Inventory.Routers.create_pet_type api_key content_type pet_type ninja inserted_id s
        = (Inventory.Return Inventory.Routers.malformed, s))
    /\ (Inventory.Routers.is_json content_type = true ->
        ~ type_taken s pet_type ->
        api_key = "" ->
        Inventory.Routers.create_pet_type api_key content_type pet_type ninja inserted_id s
        = (Inventory.Return
             {| Inventory.code := 500;
                Inventory.content_of :=
                  Inventory.Detail "server error" "API_KEY_NOT_CONFIGURED" |}, s))
    /\ (Inventory.Routers.is_json content_type = true ->
        ~ type_taken s pet_type ->
        api_key <> "" ->
        forall status_code content,
          ninja = Inventory.NinjaAPI.Answered status_code content ->
          status_code <> 200 ->
          Inventory.Routers.create_pet_type api_key content_type pet_type ninja
            inserted_id s
          = (Inventory.Return
               (if status_code =? 404 then Inventory.Routers.malformed
                else {| Inventory.code := 500;
                        Inventory.content_of :=
                          Inventory.Detail "server error"
                            ("API response code " ++ Inventory.str_int status_code) |}),
             s))
    /\ (Inventory.Routers.is_json content_type = true ->
        ~ type_taken s pet_type ->
        api_key <> "" ->
        forall data,
          ninja = Inventory.NinjaAPI.Answered 200 (Inventory.NinjaAPI.Animals data) ->
          (forall a, In a data -> ~ named pet_type a) ->
          Inventory.Routers.create_pet_type api_key content_type pet_type ninja
            inserted_id s
          = (Inventory.Return Inventory.Routers.malformed, s)).
Proof.
  intros api_key ct ty ninja oid s.
  unfold Inventory.Routers.create_pet_type, Inventory.PetTypeService.create_pet_type.
  split; [intros ->; reflexivity|].
  split; [intros -> H; apply pet_type_exists_iff in H; rewrite H; reflexivity|].
  assert (Hfree : ~ type_taken s ty -> Inventory.MongoStore.pet_type_exists s ty = false).
  { intros H. destruct (Inventory.MongoStore.pet_type_exists s ty) eqn:E; [|reflexivity].
    exfalso. apply H. now apply pet_type_exists_iff. }
  assert (Hkey : api_key <> "" -> Py.truthy api_key = true).
  { intros H. unfold Py.truthy. destruct (String.eqb_spec api_key "");
      [contradiction | reflexivity]. }
  split; [|split].
  - intros -> Hn ->. rewrite (Hfree Hn). reflexivity.
  - intros -> Hn Hk status content -> Hs. rewrite (Hfree Hn). cbn [negb].
    unfold Inventory.NinjaAPI.fetch_animal_data, Inventory.NinjaAPI.request.
    rewrite (Hkey Hk). cbn [negb].
    destruct (Z.eqb_spec status 404); [reflexivity|].
    destruct (Z.eqb_spec status 200); [contradiction|]. cbn [negb].
    rewrite contains_append.
    change (Inventory.Routers.second_field ("API_ERROR:" ++ Inventory.str_int status))
      with (Inventory.Routers.before_colon (Inventory.str_int status)).
    now rewrite before_colon_str_int.
  - intros -> Hn Hk data -> Hd. rewrite (Hfree Hn). cbn [negb].
    unfold Inventory.NinjaAPI.fetch_animal_data, Inventory.NinjaAPI.request.
    rewrite (Hkey Hk). cbn [negb Z.eqb Pos.eqb].
    destruct data as [|a data]; [reflexivity|].
    unfold Inventory.NinjaAPI._find_exact_match.
    rewrite (find_absent _ (a :: data)); [reflexivity|].
    intros d Hin. cbn beta. rewrite lower_equal_ignoring_case.
    destruct (equal_ignoring_case _ ty) eqn:E; [|reflexivity].
    exfalso. exact (Hd d Hin E).
Qed.

(** X23. What [POST /pet-types] refuses, leaving the inventory as it was,
    the type being in printable ASCII and all other names in ASCII: 415 when
    the content type does not contain
    "application/json", and 400 when it does but the framework does not read
    the body as JSON; otherwise 400 when a stored pet type has the name
    under case-insensitive comparison, or the name followed by a line feed;
    otherwise 500 "API_KEY_NOT_CONFIGURED" when no key of the Ninja Animals
    API is configured; otherwise, on the answer of that API, 400 for the
    status 404, 500 "API response code" with the status for every other
    status than 200, and 400 for a list in which no animal is named as the
    type is under case-insensitive comparison. *)
Theorem post_pet_type_refuses :
  forall (strptime : string -> option Validators.datetime)
         (api_key : string) (content_type : option string) (pet_type : string)
         (ninja : Inventory.NinjaAPI.answer) (inserted_id : Bson.ObjectId)
         (s : Inventory.State),
    Py.isprintable pet_type = true ->
    ascii_animals ninja ->
    ascii_types s ->
    let post := Inventory.handle strptime api_key
                  (Inventory.PostPetType content_type pet_type ninja inserted_id) in
    (Inventory.Routers.is_json content_type = false ->
     post s = (Inventory.Return Inventory.Routers.unsupported, s))
    /\ (Inventory.Routers.is_json content_type = true ->
        Fastapi.reads_json content_type = false ->
        post s = (Inventory.Return Inventory.Routers.malformed, s))
    /\ (Inventory.Routers.is_json content_type = true ->
        Fastapi.reads_json content_type = true ->
        type_taken s pet_type ->
        post s = (Inventory.Return Inventory.Routers.malformed, s))
    /\ (Inventory.Routers.is_json content_type = true ->
        Fastapi.reads_json content_type = true ->
        ~ type_taken s pet_type ->
        api_key = "" ->
        post s
        = (Inventory.Return
             {| Inventory.code := 500;
                Inventory.content_of :=
                  Inventory.Detail "server error" "API_KEY_NOT_CONFIGURED" |}, s))
    /\ (Inventory.Routers.is_json content_type = true ->
        Fastapi.reads_json content_type = true ->
        ~ type_taken s pet_type ->
        api_key <> "" ->
        forall status_code content,
          ninja = Inventory.NinjaAPI.Answered status_code content ->
          status_code <> 200 ->
          post s
          = (Inventory.Return
               (if status_code =? 404 then Inventory.Routers.malformed
                else {| Inventory.code := 500;
                        Inventory.content_of :=
                          Inventory.Detail "server error"
                            ("API response code " ++ Inventory.str_int status_code) |}),
             s))
    /\ (Inventory.Routers.is_json content_type = true ->
        Fastapi.reads_json content_type = true ->
        ~ type_taken s pet_type ->
        api_key <> "" ->
        forall data,
          ninja = Inventory.NinjaAPI.Answered 200 (Inventory.NinjaAPI.Animals data) ->
          (forall a, In a data -> ~ named pet_type a) ->
          post s = (Inventory.Return Inventory.Routers.malformed, s)).
Proof.
  intros strptime api_key ct ty ninja oid s _ _ _ post. subst post.
  destruct (route_create_pet_type_refuses api_key ct ty ninja oid s)
    as (H415 & Htaken & Hkey & Hstatus & Hnone).
  cbn [Inventory.handle].
  split; [|split; [|split; [|split; [|split]]]].
  - intros Hj. destruct (Fastapi.reads_json ct); [now apply H415|].
    unfold Inventory.validation_exception_handler. now rewrite Hj.
  - intros Hj ->. unfold Inventory.validation_exception_handler. now rewrite Hj.
  - intros Hj ->. now apply Htaken.
  - intros Hj ->. now apply Hkey.
  - intros Hj ->. now apply Hstatus.
  - intros Hj ->. now apply Hnone.
Qed.

Lemma opened_is_poodles :
  Shop.opened
  = {| Inventory.pet_types_collection := [Inventory.MongoStore.with_pets [] Shop.poodles];
       Inventory.pets_collection := [] |}.
Proof. vm_compute. reflexivity. Qed.

(** The Ninja Animals API answers 503: the poodles are refused with 500.
    Once they are stored, "POODLE" is refused with 400; so are the poodles
    under a content type that is not a JSON media type. *)
Lemma post_pet_type_refuses_witness :
  Py.isprintable "Poodle" = true
  /\ Py.isprintable "POODLE" = true
  /\ ascii_animals (Inventory.NinjaAPI.Answered 503 (Inventory.NinjaAPI.NotJson ""))
  /\ ascii_animals (Inventory.NinjaAPI.Answered 200 (Inventory.NinjaAPI.Animals [Shop.poodle]))
  /\ ascii_types Inventory.empty
  /\ ascii_types Shop.opened
  /\ Inventory.Routers.is_json Scenario.json = true
  /\ Fastapi.reads_json Scenario.json = true
  /\ ~ type_taken Inventory.empty "Poodle"
  /\ Shop.api_key <> ""
  /\ 503 <> 200
  /\ Inventory.handle strptime_ddmmyyyy Shop.api_key post_poodle_503 Inventory.empty
     = (Inventory.Return
          {| Inventory.code := 500;
             Inventory.content_of :=
               Inventory.Detail "server error" "API response code 503" |},
        Inventory.empty)
  /\ type_taken Shop.opened "POODLE"
  /\ Inventory.handle strptime_ddmmyyyy Shop.api_key post_poodle_again Shop.opened
     = (Inventory.Return Inventory.Routers.malformed, Shop.opened)
  /\ Inventory.Routers.is_json (Some "text/plain; x=application/json") = true
  /\ Fastapi.reads_json (Some "text/plain; x=application/json") = false
  /\ Inventory.handle strptime_ddmmyyyy Shop.api_key post_poodle_as_text Inventory.empty
     = (Inventory.Return Inventory.Routers.malformed, Inventory.empty).
Proof.
  assert (Ha : Py.isprintable "Poodle" = true) by reflexivity.
  assert (Ha' : Py.isprintable "POODLE" = true) by reflexivity.
  assert (Hn : ascii_animals (Inventory.NinjaAPI.Answered 503 (Inventory.NinjaAPI.NotJson "")))
    by (intros status data animal E; discriminate E).
  assert (Hn' : ascii_animals
                  (Inventory.NinjaAPI.Answered 200 (Inventory.NinjaAPI.Animals [Shop.poodle]))).
  { intros status data animal E Hin. injection E as _ <-. destruct Hin as [<-|[]].
    repeat split; reflexivity. }
  assert (He : ascii_types Inventory.empty) by (intros t []).
  assert (Ho : ascii_types Shop.opened).
  { intros t Ht. rewrite opened_is_poodles in Ht. destruct Ht as [<-|[]]. reflexivity. }
  assert (H1 : Inventory.Routers.is_json Scenario.json = true) by reflexivity.
  assert (H1' : Fastapi.reads_json Scenario.json = true) by reflexivity.
  assert (H2 : ~ type_taken Inventory.empty "Poodle") by (intros (t & [] & _)).
  assert (H3 : Shop.api_key <> "") by discriminate.
  assert (H4 : 503 <> 200) by discriminate.
  assert (H5 : type_taken Shop.opened "POODLE").
  { unfold type_taken. rewrite opened_is_poodles. eexists. split; [left; reflexivity|].
    left. reflexivity. }
  assert (H6 : Inventory.Routers.is_json (Some "text/plain; x=application/json") = true)
    by reflexivity.
  assert (H7 : Fastapi.reads_json (Some "text/plain; x=application/json") = false)
    by reflexivity.
  split; [exact Ha|]. split; [exact Ha'|]. split; [exact Hn|]. split; [exact Hn'|].
  split; [exact He|]. split; [exact Ho|]. split; [exact H1|]. split; [exact H1'|].
  split; [exact H2|]. split; [exact H3|]. split; [exact H4|].
  split; [|split; [exact H5|split; [|split; [exact H6|split; [exact H7|]]]]].
  - exact (proj1 (proj2 (proj2 (proj2 (proj2
             (post_pet_type_refuses strptime_ddmmyyyy Shop.api_key Scenario.json "Poodle"
                (Inventory.NinjaAPI.Answered 503 (Inventory.NinjaAPI.NotJson ""))
                Scenario.poodle_id Inventory.empty Ha Hn He)))))
             H1 H1' H2 H3 503 (Inventory.NinjaAPI.NotJson "") eq_refl H4).
  - exact (proj1 (proj2 (proj2
             (post_pet_type_refuses strptime_ddmmyyyy Shop.api_key Scenario.json "POODLE"
                (Inventory.NinjaAPI.Answered 200 (Inventory.NinjaAPI.Animals [Shop.poodle]))
                4660%N Shop.opened Ha' Hn' Ho)))
             H1 H1' H5).
  - exact (proj1 (proj2
             (post_pet_type_refuses strptime_ddmmyyyy Shop.api_key
                (Some "text/plain; x=application/json") "Poodle"
                (Inventory.NinjaAPI.Answered 200 (Inventory.NinjaAPI.Animals [Shop.poodle]))
                Scenario.poodle_id Inventory.empty Ha Hn' He))
             H6 H7).
Defined.

Lemma find_absent_filter {A : Type} (p : A -> bool) (l : list A) :
  (forall a, In a l -> p a = false) -> filter p l = [].
Proof.
  induction l as [|x l IH]; intros H; [reflexivity|]. cbn [filter].
  rewrite (H x (or_introl eq_refl)). apply IH. intros a Ha. apply H. now right.
Qed.

Lemma at_most_one {A : Type} (key : A -> string) (l : list A) (k : string)
      (p : A -> bool) :
  NoDup (map key l) -> (forall a, p a = (key a =? k)%string) ->
  (length (filter p l) <= 1)%nat.
Proof.
  intros Hd Hp. induction l as [|x l IH]; [cbn; lia|].
  cbn [map] in Hd. inversion Hd as [|? ? Hn Hd']; subst. cbn [filter].
  rewrite Hp. destruct (String.eqb_spec (key x) k) as [E|E]; [|now apply IH].
  rewrite find_absent_filter; [cbn; lia|].
  intros a Ha. rewrite Hp. apply String.eqb_neq. intros E'. apply Hn.
  rewrite E, <- E'. now apply in_map.
Qed.

Lemma filter_filter_comm_key {A : Type} (p q : A -> bool) (l : list A) :
  filter q (filter p l) = filter p (filter q l).
Proof.
  induction l as [|x l IH]; [reflexivity|]. cbn [filter].
  destruct (p x) eqn:P, (q x) eqn:Q; cbn [filter]; rewrite ?P, ?Q, IH; reflexivity.
Qed.

Lemma filter_unique {A : Type} (key : A -> string) (l : list A) (a : A) :
  NoDup (map key l) -> In a l ->
  filter (fun x => (key x =? key a)%string) l = [a].
Proof.
  induction l as [|x l IH]; intros Hd Hin; [destruct Hin|].
  cbn [map] in Hd. inversion Hd as [|? ? Hn Hd']; subst. cbn [filter].
  destruct Hin as [->|Hin].
  - rewrite String.eqb_refl. f_equal. apply find_absent_filter.
    intros y Hy. apply String.eqb_neq. intros E. apply Hn. rewrite <- E. now apply in_map.
  - destruct (String.eqb_spec (key x) (key a)) as [E|E]; [|now apply IH].
    exfalso. apply Hn. rewrite E. now apply in_map.
Qed.

(** X24. [DELETE /pet-types/{id}] in an inventory reached from the empty
    one by admissible requests.  It answers 404 when [GET /pet-types/{id}]
    does, and 400 when the pet type has pets; the inventory is then left as
    it was.  For a pet type without pets it answers 204: that pet type and
    no other is removed, [GET /pet-types/{id}] answers 404 afterwards, the
    pets are as they were, and none of them is of the removed type. *)
Theorem delete_pet_type_answers :
  forall (strptime : string -> option Validators.datetime) (api_key : string)
         (s : Inventory.State) (id : string),
    reachable strptime api_key s ->
    (Inventory.Routers.get_pet_type s id = Inventory.Routers.not_found ->
     Inventory.Routers.delete_pet_type s id
     = (Inventory.Return Inventory.Routers.not_found, s))
    /\ (forall t,
           Inventory.Routers.get_pet_type s id
           = {| Inventory.code := 200; Inventory.content_of := Inventory.PetTypeContent t |} ->
           (PetStore.ptd_pets (Inventory.type_doc t) <> [] ->
            Inventory.Routers.delete_pet_type s id
            = (Inventory.Return Inventory.Routers.malformed, s))
           /\ (PetStore.ptd_pets (Inventory.type_doc t) = [] ->
               fst (Inventory.Routers.delete_pet_type s id)
               = Inventory.Return {| Inventory.code := 204;
                                     Inventory.content_of := Inventory.NoContent |}
               /\ Inventory.Routers.get_pet_type
                    (snd (Inventory.Routers.delete_pet_type s id)) id
                  = Inventory.Routers.not_found
               /\ (forall t',
                      In t' (Inventory.pet_types_collection
                               (snd (Inventory.Routers.delete_pet_type s id)))
                      <-> In t' (Inventory.pet_types_collection s) /\ t' <> t)
               /\ Inventory.pets_collection (snd (Inventory.Routers.delete_pet_type s id))
                  = Inventory.pets_collection s
               /\ forall p, In p (Inventory.pets_collection s) ->
                            PetStore.pd_pet_type_id (Inventory.pet_doc p)
                            <> Bson.str (type_id t))).
Proof.
  intros strptime api_key s id Hr.
  pose proof (reachable_well_formed _ _ _ Hr) as Hwf.
  unfold Inventory.Routers.get_pet_type, Inventory.PetTypeService.get_pet_type,
    Inventory.Routers.delete_pet_type, Inventory.PetTypeService.delete_pet_type.
  destruct (Inventory.MongoStore.get_pet_type s id) as [t0|] eqn:Ht.
  2:{ split; [reflexivity | intros t H; discriminate]. }
  split; [discriminate|]. intros t H. inversion H; subst t0. clear H.
  destruct (get_pet_type_some _ _ _ Ht) as [Hparse Hin].
  split.
  - intros Hne. destruct (PetStore.ptd_pets (Inventory.type_doc t));
      [contradiction | reflexivity].
  - intros He. rewrite He. cbn [fst snd]. split; [reflexivity|].
    unfold Inventory.MongoStore.delete_pet_type. rewrite Hparse. cbn [snd].
    rewrite (delete_one_unique type_id) by (apply Hwf || apply has_id_key).
    split; [|split; [|split]].
    + unfold Inventory.MongoStore.get_pet_type. rewrite Hparse.
      cbn [Inventory.pet_types_collection]. rewrite find_absent; [reflexivity|].
      intros d Hd. apply filter_In in Hd. destruct Hd as [_ Hd].
      now apply negb_true_iff in Hd.
    + intros t'. cbn [Inventory.pet_types_collection]. rewrite filter_In.
      unfold Inventory.MongoStore.has_id. fold (type_id t').
      rewrite negb_true_iff, N.eqb_neq. split; intros [Ht' Hd]; split; auto.
      * intros ->. now apply Hd.
      * intros E. apply Hd.
        exact (NoDup_map_inj type_id _ t' t (wf_ids s Hwf) Ht' Hin E).
    + reflexivity.
    + intros p Hp E.
      assert (Hn : In (PetStore.pd_name (Inventory.pet_doc p)) (names_of_type s (type_id t)))
        by (apply names_of_type_in; eauto).
      pose proof (wf_pets s Hwf) as Hps. rewrite Forall_forall in Hps.
      rewrite <- (Hps t Hin), He in Hn. destruct Hn.
Qed.

(** The poodles cannot be withdrawn while Jamie is there, and can be before
    Jamie comes. *)
Lemma delete_pet_type_answers_witness :
  reachable strptime_ddmmyyyy Shop.api_key Shop.opened
  /\ Inventory.Routers.get_pet_type Shop.opened (Bson.str Scenario.poodle_id)
     = {| Inventory.code := 200;
          Inventory.content_of :=
            Inventory.PetTypeContent (Inventory.MongoStore.with_pets [] Shop.poodles) |}
  /\ fst (Inventory.handle strptime_ddmmyyyy Shop.api_key delete_poodles Shop.opened)
     = Inventory.Return {| Inventory.code := 204;
                           Inventory.content_of := Inventory.NoContent |}.
Proof.
  assert (Hg : Inventory.Routers.get_pet_type Shop.opened (Bson.str Scenario.poodle_id)
               = {| Inventory.code := 200;
                    Inventory.content_of :=
                      Inventory.PetTypeContent
                        (Inventory.MongoStore.with_pets [] Shop.poodles) |})
    by (vm_compute; reflexivity).
  split; [exact opened_reachable|]. split; [exact Hg|].
  exact (proj1 (proj2 (proj2 (delete_pet_type_answers strptime_ddmmyyyy Shop.api_key
                                Shop.opened (Bson.str Scenario.poodle_id)
                                opened_reachable) _ Hg) eq_refl)).
Defined.

Lemma given_sublist {A : Type} (argument : option A)
      (test : A -> Inventory.PetType -> bool) (l : list Inventory.PetType) :
  (length (Inventory.PetTypeService.given argument test l) <= length l)%nat.
Proof.
  destruct argument as [a|]; cbn [Inventory.PetTypeService.given];
    [apply filter_length_le | apply le_n].
Qed.

(** X25. In an inventory reached from the empty one by admissible requests,
    the names of the pet types differ even without letter case.  For names
    in ASCII, [GET /pet-types?type=...] answers the stored pet type that has
    the name under case-insensitive comparison and no other, or no pet type
    when none has it; and with further filters it answers at most one pet
    type. *)
Theorem type_query_finds_one :
  forall (strptime : string -> option Validators.datetime) (api_key : string)
         (s : Inventory.State) (type : string),
    reachable strptime api_key s ->
    Py.isascii type = true ->
    ascii_types s ->
    (forall t,
        In t (Inventory.pet_types_collection s) ->
        equal_ignoring_case (PetStore.ptd_type (Inventory.type_doc t)) type = true ->
        Inventory.Routers.get_pet_types s ["type"] None (Some type) None None None None
        = {| Inventory.code := 200; Inventory.content_of := Inventory.PetTypesContent [t] |})
    /\ ((forall t, In t (Inventory.pet_types_collection s) ->
                   equal_ignoring_case (PetStore.ptd_type (Inventory.type_doc t)) type
                   = false) ->
        Inventory.Routers.get_pet_types s ["type"] None (Some type) None None None None
        = {| Inventory.code := 200; Inventory.content_of := Inventory.PetTypesContent [] |})
    /\ forall id family genus lifespan hasAttribute,
        (length (Inventory.PetTypeService.get_all_pet_types s id (Some type) family genus
                   lifespan hasAttribute) <= 1)%nat.
Proof.
  intros strptime api_key s ty Hr _ _.
  pose proof (reachable_well_formed _ _ _ Hr) as Hwf.
  assert (Hq : forallb (fun param => existsb (String.eqb param)
                                          Inventory.Routers.ALLOWED_QUERY_PARAMS) ["type"]
               = true) by reflexivity.
  split; [|split].
  - intros t Ht E. apply equal_ignoring_case_lower in E.
    unfold Inventory.Routers.get_pet_types. rewrite Hq. cbn [negb].
    do 2 f_equal.
    unfold Inventory.PetTypeService.get_all_pet_types, Inventory.MongoStore.get_all_pet_types.
    cbn [Inventory.PetTypeService.given]. rewrite <- E.
    exact (filter_unique type_key _ t (wf_type_names s Hwf) Ht).
  - intros Hn. unfold Inventory.Routers.get_pet_types. rewrite Hq. cbn [negb].
    do 2 f_equal.
    unfold Inventory.PetTypeService.get_all_pet_types, Inventory.MongoStore.get_all_pet_types.
    cbn [Inventory.PetTypeService.given]. apply find_absent_filter.
    intros t Ht. rewrite lower_equal_ignoring_case. now apply Hn.
  - intros id family genus lifespan attr.
    unfold Inventory.PetTypeService.get_all_pet_types, Inventory.MongoStore.get_all_pet_types.
    cbn zeta.
    do 4 (eapply Nat.le_trans; [apply given_sublist|]).
    cbn [Inventory.PetTypeService.given].
    destruct id as [i|]; cbn [Inventory.PetTypeService.given].
    + rewrite filter_filter_comm_key.
      eapply Nat.le_trans; [apply filter_length_le|].
      apply (at_most_one type_key _ (Py.lower ty)); [exact (wf_type_names s Hwf) | reflexivity].
    + apply (at_most_one type_key _ (Py.lower ty)); [exact (wf_type_names s Hwf) | reflexivity].
Qed.

Lemma enlarged_reachable : reachable strptime_ddmmyyyy Shop.api_key Shop.enlarged.
Proof.
  apply (reachable_step strptime_ddmmyyyy Shop.api_key Shop.stocked Shop.post_siamese).
  - exact stocked_reachable.
  - reflexivity.
Qed.

Lemma enlarged_types :
  map (fun t => PetStore.ptd_type (Inventory.type_doc t))
    (Inventory.pet_types_collection Shop.enlarged)
  = ["Poodle"; "siamese"].
Proof. vm_compute. reflexivity. Qed.

(** In the running example with poodles and siamese, "POODLE" finds the
    poodles and "Persian" nothing. *)
Lemma type_query_finds_one_witness :
  reachable strptime_ddmmyyyy Shop.api_key Shop.enlarged
  /\ Py.isascii "POODLE" = true
  /\ Py.isascii "Persian" = true
  /\ ascii_types Shop.enlarged
  /\ map (fun t => PetStore.ptd_type (Inventory.type_doc t))
       (Inventory.pet_types_collection Shop.enlarged)
     = ["Poodle"; "siamese"]
  /\ In Shop.poodles (Inventory.pet_types_collection Shop.enlarged)
  /\ equal_ignoring_case (PetStore.ptd_type (Inventory.type_doc Shop.poodles)) "POODLE"
     = true
  /\ Inventory.Routers.get_pet_types Shop.enlarged ["type"] None (Some "POODLE")
       None None None None
     = {| Inventory.code := 200;
          Inventory.content_of := Inventory.PetTypesContent [Shop.poodles] |}
  /\ Inventory.Routers.get_pet_types Shop.enlarged ["type"] None (Some "Persian")
       None None None None
     = {| Inventory.code := 200; Inventory.content_of := Inventory.PetTypesContent [] |}.
Proof.
  assert (Ha : Py.isascii "POODLE" = true) by reflexivity.
  assert (Ha' : Py.isascii "Persian" = true) by reflexivity.
  assert (Hnames : forall t, In t (Inventory.pet_types_collection Shop.enlarged) ->
                             PetStore.ptd_type (Inventory.type_doc t) = "Poodle"
                             \/ PetStore.ptd_type (Inventory.type_doc t) = "siamese").
  { intros t Ht.
    assert (Hn : In (PetStore.ptd_type (Inventory.type_doc t)) ["Poodle"; "siamese"]).
    { rewrite <- enlarged_types.
      exact (in_map (fun t => PetStore.ptd_type (Inventory.type_doc t)) _ t Ht). }
    destruct Hn as [<-|[<-|[]]]; auto. }
  assert (Ht : ascii_types Shop.enlarged).
  { intros t Hin. destruct (Hnames t Hin) as [-> | ->]; reflexivity. }
  assert (H1 : In Shop.poodles (Inventory.pet_types_collection Shop.enlarged))
    by (left; vm_compute; reflexivity).
  assert (H2 : equal_ignoring_case (PetStore.ptd_type (Inventory.type_doc Shop.poodles))
                 "POODLE" = true) by reflexivity.
  assert (H3 : forall t, In t (Inventory.pet_types_collection Shop.enlarged) ->
                         equal_ignoring_case (PetStore.ptd_type (Inventory.type_doc t))
                           "Persian" = false).
  { intros t Hin. destruct (Hnames t Hin) as [-> | ->]; reflexivity. }
  split; [exact enlarged_reachable|]. split; [exact Ha|]. split; [exact Ha'|].
  split; [exact Ht|]. split; [exact enlarged_types|]. split; [exact H1|].
  split; [exact H2|]. split.
  - exact (proj1 (type_query_finds_one strptime_ddmmyyyy Shop.api_key Shop.enlarged "POODLE"
                    enlarged_reachable Ha Ht) Shop.poodles H1 H2).
  - exact (proj1 (proj2 (type_query_finds_one strptime_ddmmyyyy Shop.api_key Shop.enlarged
                           "Persian" enlarged_reachable Ha' Ht)) H3).
Defined.

(** ** Picture files *)

Lemma plain_chars_append (a b : string) :
  Forall (fun c => plain c = true) (chars a) ->
  Forall (fun c => plain c = true) (chars b) ->
  Forall (fun c => plain c = true) (chars (a ++ b)).
Proof. intros Ha Hb. rewrite chars_append. apply Forall_app. now split. Qed.

Lemma sub_unsafe_kept (s : string) :
  Forall (fun c => (Validators.is_word c || Validators.is_space c || Ascii.eqb c "-")%bool
                   = true)
         (chars (Inventory.sub_unsafe s)).
Proof.
  induction s as [|c s IH]; [constructor|]. cbn [Inventory.sub_unsafe].
  destruct (Validators.is_word c || Validators.is_space c || Ascii.eqb c "-")%bool eqn:E;
    [|exact IH].
  constructor; assumption.
Qed.

Lemma lstrip_kept (P : ascii -> Prop) (s : string) :
  Forall P (chars s) -> Forall P (chars (Inventory.lstrip s)).
Proof.
  induction s as [|c s IH]; intros H; [constructor|]. cbn [Inventory.lstrip].
  destruct (Validators.is_space c); [|exact H].
  apply IH. now inversion H.
Qed.

Lemma rstrip_kept (P : ascii -> Prop) (s : string) :
  Forall P (chars s) -> Forall P (chars (Inventory.rstrip s)).
Proof.
  induction s as [|c s IH]; intros H; [constructor|]. cbn [Inventory.rstrip].
  inversion H as [|? ? Hc Hs]; subst.
  destruct ((Inventory.rstrip s =? "")%string && Validators.is_space c)%bool;
    [constructor|].
  constructor; [exact Hc | now apply IH].
Qed.

Lemma replace_spaces_plain (s : string) :
  Forall (fun c => (Validators.is_word c || Validators.is_space c || Ascii.eqb c "-")%bool
                   = true) (chars s) ->
  Forall (fun c => plain c = true) (chars (Inventory.replace_spaces s)).
Proof.
  induction s as [|c s IH]; intros H; [constructor|]. cbn [Inventory.replace_spaces].
  inversion H as [|? ? Hc Hs]; subst. constructor; [|now apply IH].
  unfold plain. destruct (Ascii.eqb c " ") eqn:E; [reflexivity|].
  cbn [negb]. rewrite E, andb_true_r.
  destruct (Validators.is_word c), (Validators.is_space c), (Ascii.eqb c "-");
    try reflexivity; discriminate.
Qed.

Lemma clean_plain (s : string) :
  Forall (fun c => plain c = true)
         (chars (Inventory.replace_spaces
                   (Inventory.rstrip (Inventory.lstrip (Inventory.sub_unsafe s))))).
Proof.
  apply replace_spaces_plain, rstrip_kept, lstrip_kept, sub_unsafe_kept.
Qed.

Lemma digits_plain (u : Decimal.uint) :
  Forall (fun c => plain c = true) (chars (NilEmpty.string_of_uint u)).
Proof. induction u; cbn; constructor; (reflexivity || assumption). Qed.

Lemma str_int_plain (n : Z) : Forall (fun c => plain c = true) (chars (Inventory.str_int n)).
Proof.
  unfold Inventory.str_int, NilZero.string_of_int, NilZero.string_of_uint.
  destruct (Z.to_int n) as [u|u].
  - destruct u; try (apply (digits_plain (_ u))). repeat constructor.
  - constructor; [reflexivity|].
    destruct u; try (apply (digits_plain (_ u))). repeat constructor.
Qed.

Lemma plain_is_safe (c : ascii) :
  plain c = true -> c <> "/"%char /\ c <> ascii_of_nat 92 /\ c <> " "%char.
Proof.
  intros H. repeat split; intros ->; vm_compute in H; discriminate.
Qed.

(** X26. [download_and_save_picture] returns a file name only for an image
    that is saved and whose format is, in lower case, "jpeg", "jpg" or
    "png", an image without format counting as "jpg".  The name is the one
    [generate_picture_filename] makes for the names of the pet and of its
    type with that extension, and whatever these names are, it has no
    slash, no backslash and no space in it. *)
Theorem picture_file_name_is_plain :
  forall (download : Inventory.PictureService.answer) (timestamp : Z)
         (pet_name pet_type filename : string),
    Inventory.PictureService.download_and_save_picture download timestamp pet_name pet_type
    = Inventory.Return filename ->
    (exists format extension,
        download = Inventory.PictureService.Image format None
        /\ extension = match format with
                       | Some f => if (f =? "")%string then "jpg" else Py.lower f
                       | None => "jpg"
                       end
        /\ In extension ["jpeg"; "jpg"; "png"]
        /\ filename
           = Inventory.generate_picture_filename timestamp pet_name pet_type extension)
    /\ Forall (fun c => c <> "/"%char /\ c <> ascii_of_nat 92 /\ c <> " "%char)
              (chars filename).
Proof.
  intros download ts pet_name pet_type filename.
  unfold Inventory.PictureService.download_and_save_picture,
    Inventory.PictureService.request.
  destruct download as [e|e|e|format save_error]; try discriminate.
  cbn zeta.
  set (extension := if Py.truthy_opt format
                    then Py.lower match format with Some f => f | None => "" end
                    else "jpg").
  destruct (Inventory.PictureService.allowed extension) eqn:Ha; cbn [negb];
    [|discriminate].
  destruct save_error as [e|]; [discriminate|]. intros H. inversion H. clear H.
  assert (Hin : In extension ["jpeg"; "jpg"; "png"]).
  { unfold Inventory.PictureService.allowed in Ha.
    apply orb_true_iff in Ha. destruct Ha as [Ha|Ha];
      [apply orb_true_iff in Ha; destruct Ha as [Ha|Ha]|];
      apply String.eqb_eq in Ha; rewrite Ha; cbn; auto. }
  split.
  - exists format, extension. split; [reflexivity|]. split; [|split; [exact Hin | reflexivity]].
    unfold extension. destruct format as [f|]; [|reflexivity].
    cbn [Py.truthy_opt]. unfold Py.truthy.
    destruct (f =? "")%string; reflexivity.
  - eapply Forall_impl; [exact plain_is_safe|].
    unfold Inventory.generate_picture_filename.
    repeat (apply plain_chars_append);
      try apply clean_plain; try apply str_int_plain;
      try (repeat constructor).
    destruct Hin as [<-|[<-|[<-|[]]]]; repeat constructor.
Qed.

(** A picture of Jamie, taken as the clock shows 1700000000000. *)
Lemma picture_file_name_is_plain_witness :
  Inventory.PictureService.download_and_save_picture
    (Inventory.PictureService.Image (Some "JPEG") None) 1700000000000
    "Jamie / the 1st" "Standard Poodle"
  = Inventory.Return "Jamie--the-1st-Standard-Poodle-1700000000000.jpeg"
  /\ Forall (fun c => c <> "/"%char /\ c <> ascii_of_nat 92 /\ c <> " "%char)
            (chars "Jamie--the-1st-Standard-Poodle-1700000000000.jpeg").
Proof.
  assert (H : Inventory.PictureService.download_and_save_picture
                (Inventory.PictureService.Image (Some "JPEG") None) 1700000000000
                "Jamie / the 1st" "Standard Poodle"
              = Inventory.Return "Jamie--the-1st-Standard-Poodle-1700000000000.jpeg")
    by (vm_compute; reflexivity).
  split; [exact H|].
  exact (proj2 (picture_file_name_is_plain _ _ _ _ _ H)).
Defined.
